(** * A2_Sarras_Asper: frame-resource pipelining and the wave grid

  A shallow embedding of the per-frame machinery of
  [A2_Sarras_Asper.cpp] (class [TreeBillboardsApp]): the ring of
  [gNumFrameResources] frame resources, the dirty-counter propagation of
  per-object and per-material constants, the fence protocol of
  [Update]/[Draw], the wave vertex upload and the wave index buffer. *)

From Stdlib Require Import ZArith QArith Qround Qpower Lia Lqa Floats.SpecFloat Sorting.Sorted.
From stdpp Require Import gmap strings list fin_maps.

Open Scope Z_scope.

(** ** Outcomes of a call

  [Done]: the call returns.  [Thrown hr]: [ThrowIfFailed] raised a
  [DxException] for the failed [HRESULT] [hr].  [Hang]: the call is still
  blocked inside [WaitForSingleObject(_, INFINITE)], or still inside a
  loop, when the observation budget (the fuel) ends.  [Fault]: the call left defined behaviour (a null pointer
  dereference, an access outside an array). *)

Inductive Outcome (A : Type) : Type :=
| Done (a : A)
| Thrown (hr : Z)
| Hang
| Fault.

Arguments Done {A} a.
Arguments Thrown {A} hr.
Arguments Hang {A}.
Arguments Fault {A}.

#[export] Instance Outcome_ret : MRet Outcome := fun A a => Done a.

#[export] Instance Outcome_bind : MBind Outcome := fun A B f m =>
match m with
| Done a => f a
| Thrown hr => Thrown hr
| Hang => Hang
| Fault => Fault
end.

Definition ofOption {A} (o : option A) : Outcome A :=
match o with
| Some a => Done a
| None => Fault
end.

Definition isDone {A} (o : Outcome A) : bool :=
  match o with
  | Done _ => true
  | _ => false
  end.

(** The state a call returned, [d] if it did not return. *)
Definition fromDone {A} (d : A) (o : Outcome A) : A :=
  match o with
  | Done a => a
  | _ => d
  end.

(** [ThrowIfFailed(hr)]: a negative [HRESULT] is a failure. *)
Definition ThrowIfFailed (hr : Z) : Outcome unit :=
if hr <? 0 then Thrown hr else Done tt.

(** ** Scalars

  The program computes on [float].  The operations it uses are kept
  abstract in a class, so that statements which do not depend on rounding
  hold for every arithmetic; statements that depend on it are made on the
  instances further down, single precision or exact rationals. *)

Class FloatOps : Type := {
float : Type;
fadd : float -> float -> float;
fsub : float -> float -> float;
fmul : float -> float -> float;
fdiv : float -> float -> float;
fgeb : float -> float -> bool;      (* a >= b *)
fofZ : Z -> float;                  (* conversion of an integer *)
f0 : float;                         (* 0.0f *)
f1 : float;                         (* 1.0f *)
f0_5 : float;                       (* 0.5f *)
f0_1 : float;                       (* 0.1f *)
f0_02 : float                       (* 0.02f *)
}.

(** ** DirectXMath storage types *)

Section DirectXMath.
Context {FO : FloatOps}.

Record XMFLOAT2 := mkFloat2 { x2 : float; y2 : float }.
Record XMFLOAT3 := mkFloat3 { x3 : float; y3 : float; z3 : float }.
Record XMFLOAT4 := mkFloat4 { x4 : float; y4 : float; z4 : float; w4 : float }.

(** Row-major 4x4 matrix; [mIJ] is the member [_IJ], i.e. [operator()(I-1, J-1)]. *)
Record XMFLOAT4X4 := mkFloat4x4 {
  m11 : float; m12 : float; m13 : float; m14 : float;
  m21 : float; m22 : float; m23 : float; m24 : float;
  m31 : float; m32 : float; m33 : float; m34 : float;
  m41 : float; m42 : float; m43 : float; m44 : float
}.

Definition Identity4x4 : XMFLOAT4X4 :=
  mkFloat4x4 f1 f0 f0 f0
             f0 f1 f0 f0
             f0 f0 f1 f0
             f0 f0 f0 f1.

Definition XMMatrixTranspose (M : XMFLOAT4X4) : XMFLOAT4X4 :=
  mkFloat4x4 (m11 M) (m21 M) (m31 M) (m41 M)
             (m12 M) (m22 M) (m32 M) (m42 M)
             (m13 M) (m23 M) (m33 M) (m43 M)
             (m14 M) (m24 M) (m34 M) (m44 M).

(** Writes through the references [M(3, 0)] and [M(3, 1)]. *)
Definition set_3_0 (v : float) (M : XMFLOAT4X4) : XMFLOAT4X4 :=
  mkFloat4x4 (m11 M) (m12 M) (m13 M) (m14 M)
             (m21 M) (m22 M) (m23 M) (m24 M)
             (m31 M) (m32 M) (m33 M) (m34 M)
             v       (m42 M) (m43 M) (m44 M).

Definition set_3_1 (v : float) (M : XMFLOAT4X4) : XMFLOAT4X4 :=
  mkFloat4x4 (m11 M) (m12 M) (m13 M) (m14 M)
             (m21 M) (m22 M) (m23 M) (m24 M)
             (m31 M) (m32 M) (m33 M) (m34 M)
             (m41 M) v       (m43 M) (m44 M).

End DirectXMath.

(** ** Upload buffers *)

Module UploadBuffer.

(** Modelled from the spec: the physical copies of a replicated entry that
    are embedded in a frame slot.  [Common/UploadBuffer.h] is not part of the
    sources; an upload buffer is an array of [elementCount] elements.
    [copyLog] is a ghost record of the element indices written, oldest
    first. *)
Record t (T : Type) := mk { elems : list T; copyLog : list nat }.
Arguments mk {T} elems copyLog.
Arguments elems {T} _.
Arguments copyLog {T} _.

Definition create {T} (elementCount : nat) (init : T) : t T :=
  mk (replicate elementCount init) [].

(** Modelled from the spec: [CopyData(i, v)] of the absent
    [Common/UploadBuffer.h] overwrites element [i] of the copy.  The callers
    do not check [i]; a write past the end is outside defined behaviour,
    hence [Fault]. *)
Definition CopyData {T} (elementIndex : nat) (data : T) (b : t T) : Outcome (t T) :=
  if decide (elementIndex < length (elems b))%nat
  then Done (mk (<[elementIndex := data]> (elems b)) (copyLog b ++ [elementIndex]))
  else Fault.
End UploadBuffer.

(** ** The classes the application is compiled against

    [Waves.h] and the camera/pass-constant mathematics ([DirectXMath]
    trigonometry and matrix inversion) are not part of the sources.  The
    application is modelled against their interfaces. *)

Class WavesAPI {FO : FloatOps} : Type := {
  Waves : Type;
  RowCount : Waves -> Z;
  ColumnCount : Waves -> Z;
  VertexCount : Waves -> Z;
  TriangleCount : Waves -> Z;
  Width : Waves -> float;
  Depth : Waves -> float;
  Position : Waves -> Z -> XMFLOAT3;
  Normal : Waves -> Z -> XMFLOAT3;
  Waves_Update : float -> Waves -> Outcome Waves
}.

Record GameTimer {FO : FloatOps} := mkTimer { DeltaTime : float; TotalTime : float }.
Arguments mkTimer {FO} DeltaTime TotalTime.

Class CameraAPI {FO : FloatOps} : Type := {
  Camera : Type;                 (* mEyePos, mView, mProj, mTheta, mPhi, mRadius *)
  PassConstants : Type;
  UpdateCamera_view : Camera -> Camera;
  MainPassConstants : Camera -> GameTimer -> PassConstants
}.

(** The device as the CPU thread observes it.  The index is the instant of
    the observation; [GetCompletedValue t] is what [mFence->GetCompletedValue()]
    returns at instant [t], the [hr*] fields are the [HRESULT]s of the calls
    wrapped in [ThrowIfFailed]. *)
Record Device := mkDevice {
  GetCompletedValue : nat -> Z;
  hrSetEventOnCompletion : nat -> Z;
  hrAllocReset : nat -> Z;
  hrCommandListReset : nat -> Z;
  hrCommandListClose : nat -> Z;
  hrPresent : nat -> Z;
  SwapChainBufferCount : Z
}.

(** [WaitForSingleObject(eventHandle, INFINITE)] on the event armed by
    [SetEventOnCompletion(value, eventHandle)]: the thread resumes at the first
    instant at which the completed value has reached [value].  There is no
    timeout; [fuel] bounds the observation only. *)
Fixpoint WaitForSingleObject (dev : Device) (fuel : nat) (value : Z) (t : nat)
  : Outcome nat :=
  if value <=? GetCompletedValue dev t then Done t
  else match fuel with
       | O => Hang
       | S fuel' => WaitForSingleObject dev fuel' value (S t)
       end.

(** ** Data of the application *)

Definition gNumFrameResources : Z := 3.

(** 64-bit unsigned wrap-around of the fence counter. *)
Definition UINT64_wrap (v : Z) : Z := v mod 2 ^ 64.

Section App.
Context {FO : FloatOps} {WA : WavesAPI} {CA : CameraAPI}.

(** [struct RenderItem]: the members the per-frame code reads or writes. *)
Record RenderItem := mkRenderItem {
  World : XMFLOAT4X4;
  TexTransform : XMFLOAT4X4;
  NumFramesDirty : Z;
  ObjCBIndex : nat
}.

(** [struct Material] (d3dUtil.h), the members used here. *)
Record Material := mkMaterial {
  MatCBIndex : nat;
  DiffuseAlbedo : XMFLOAT4;
  FresnelR0 : XMFLOAT3;
  Roughness : float;
  MatTransform : XMFLOAT4X4;
  MatNumFramesDirty : Z
}.

Record ObjectConstants := mkObjectConstants {
  oc_World : XMFLOAT4X4;
  oc_TexTransform : XMFLOAT4X4
}.

Record MaterialConstants := mkMaterialConstants {
  mc_DiffuseAlbedo : XMFLOAT4;
  mc_FresnelR0 : XMFLOAT3;
  mc_Roughness : float;
  mc_MatTransform : XMFLOAT4X4
}.

Record Vertex := mkVertex { Pos : XMFLOAT3; VNormal : XMFLOAT3; TexC : XMFLOAT2 }.

(** [struct FrameResource]: one slot of the ring. *)
Record FrameResource := mkFrameResource {
  PassCB : UploadBuffer.t PassConstants;
  ObjectCB : UploadBuffer.t ObjectConstants;
  MaterialCB : UploadBuffer.t MaterialConstants;
  WavesVB : UploadBuffer.t Vertex;
  Fence : Z
}.

(** Ghost events, appended to [trace] by the operation that performs them. *)
Inductive Event :=
| EvCamera
| EvAcquire (slot : nat)
| EvWait (slot : nat) (fence : Z)
| EvAnimateMaterials
| EvFlushObjects (slot : nat)
| EvFlushMaterials (slot : nat)
| EvPassCB (slot : nat)
| EvWavesStep
| EvWavesCopy (slot : nat)
| EvRecord (slot : nat)
| EvExecute (slot : nat)
| EvPresent
| EvPublish (slot : nat) (fence : Z)
| EvSignal (fence : Z).

(** The members of [TreeBillboardsApp] (and of its base [D3DApp]) that the
    frame loop touches.  [mCurrFrameResource] is a pointer into
    [mFrameResources]: the position it points at, [None] for [nullptr].
    [mWavesVertexBufferGPU] is [mWavesRitem->Geo->VertexBufferGPU]: the slot
    whose [WavesVB] is bound.  [clock] and [trace] are ghost. *)
Record App := mkApp {
  mFrameResources : list FrameResource;
  mCurrFrameResource : option nat;
  mCurrFrameResourceIndex : Z;
  mCurrentFence : Z;
  mCurrBackBuffer : Z;
  mAllRitems : list RenderItem;
  mMaterials : gmap string Material;
  mWaves : Waves;
  mWavesVertexBufferGPU : option nat;
  mCamera : Camera;
  mMainPassCB : PassConstants;
  clock : nat;
  trace : list Event
}.

Definition set_mFrameResources v (a : App) : App :=
  mkApp v (mCurrFrameResource a) (mCurrFrameResourceIndex a) (mCurrentFence a)
        (mCurrBackBuffer a) (mAllRitems a) (mMaterials a) (mWaves a)
        (mWavesVertexBufferGPU a) (mCamera a) (mMainPassCB a) (clock a) (trace a).
Definition set_mCurrFrameResource v (a : App) : App :=
  mkApp (mFrameResources a) v (mCurrFrameResourceIndex a) (mCurrentFence a)
        (mCurrBackBuffer a) (mAllRitems a) (mMaterials a) (mWaves a)
        (mWavesVertexBufferGPU a) (mCamera a) (mMainPassCB a) (clock a) (trace a).
Definition set_mCurrFrameResourceIndex v (a : App) : App :=
  mkApp (mFrameResources a) (mCurrFrameResource a) v (mCurrentFence a)
        (mCurrBackBuffer a) (mAllRitems a) (mMaterials a) (mWaves a)
        (mWavesVertexBufferGPU a) (mCamera a) (mMainPassCB a) (clock a) (trace a).
Definition set_mCurrentFence v (a : App) : App :=
  mkApp (mFrameResources a) (mCurrFrameResource a) (mCurrFrameResourceIndex a) v
        (mCurrBackBuffer a) (mAllRitems a) (mMaterials a) (mWaves a)
        (mWavesVertexBufferGPU a) (mCamera a) (mMainPassCB a) (clock a) (trace a).
Definition set_mCurrBackBuffer v (a : App) : App :=
  mkApp (mFrameResources a) (mCurrFrameResource a) (mCurrFrameResourceIndex a)
        (mCurrentFence a) v (mAllRitems a) (mMaterials a) (mWaves a)
        (mWavesVertexBufferGPU a) (mCamera a) (mMainPassCB a) (clock a) (trace a).
Definition set_mAllRitems v (a : App) : App :=
  mkApp (mFrameResources a) (mCurrFrameResource a) (mCurrFrameResourceIndex a)
        (mCurrentFence a) (mCurrBackBuffer a) v (mMaterials a) (mWaves a)
        (mWavesVertexBufferGPU a) (mCamera a) (mMainPassCB a) (clock a) (trace a).
Definition set_mMaterials v (a : App) : App :=
  mkApp (mFrameResources a) (mCurrFrameResource a) (mCurrFrameResourceIndex a)
        (mCurrentFence a) (mCurrBackBuffer a) (mAllRitems a) v (mWaves a)
        (mWavesVertexBufferGPU a) (mCamera a) (mMainPassCB a) (clock a) (trace a).
Definition set_mWaves v (a : App) : App :=
  mkApp (mFrameResources a) (mCurrFrameResource a) (mCurrFrameResourceIndex a)
        (mCurrentFence a) (mCurrBackBuffer a) (mAllRitems a) (mMaterials a) v
        (mWavesVertexBufferGPU a) (mCamera a) (mMainPassCB a) (clock a) (trace a).
Definition set_mWavesVertexBufferGPU v (a : App) : App :=
  mkApp (mFrameResources a) (mCurrFrameResource a) (mCurrFrameResourceIndex a)
        (mCurrentFence a) (mCurrBackBuffer a) (mAllRitems a) (mMaterials a) (mWaves a)
        v (mCamera a) (mMainPassCB a) (clock a) (trace a).
Definition set_mCamera v (a : App) : App :=
  mkApp (mFrameResources a) (mCurrFrameResource a) (mCurrFrameResourceIndex a)
        (mCurrentFence a) (mCurrBackBuffer a) (mAllRitems a) (mMaterials a) (mWaves a)
        (mWavesVertexBufferGPU a) v (mMainPassCB a) (clock a) (trace a).
Definition set_mMainPassCB v (a : App) : App :=
  mkApp (mFrameResources a) (mCurrFrameResource a) (mCurrFrameResourceIndex a)
        (mCurrentFence a) (mCurrBackBuffer a) (mAllRitems a) (mMaterials a) (mWaves a)
        (mWavesVertexBufferGPU a) (mCamera a) v (clock a) (trace a).
Definition set_clock v (a : App) : App :=
  mkApp (mFrameResources a) (mCurrFrameResource a) (mCurrFrameResourceIndex a)
        (mCurrentFence a) (mCurrBackBuffer a) (mAllRitems a) (mMaterials a) (mWaves a)
        (mWavesVertexBufferGPU a) (mCamera a) (mMainPassCB a) v (trace a).
Definition emit (ev : Event) (a : App) : App :=
  mkApp (mFrameResources a) (mCurrFrameResource a) (mCurrFrameResourceIndex a)
        (mCurrentFence a) (mCurrBackBuffer a) (mAllRitems a) (mMaterials a) (mWaves a)
        (mWavesVertexBufferGPU a) (mCamera a) (mMainPassCB a) (clock a) (trace a ++ [ev]).

(** ** The per-frame operations *)

(** [v[i]] for an [int] index: outside the vector is undefined behaviour. *)
Definition at_index {T} (v : list T) (i : Z) : Outcome T :=
  if i <? 0 then Fault else ofOption (v !! Z.to_nat i).

(** [*mCurrFrameResource], with the slot it points at. *)
Definition currFrameResource (a : App) : Outcome (nat * FrameResource) :=
  slot ← ofOption (mCurrFrameResource a);
  fr ← ofOption (mFrameResources a !! slot);
  mret (slot, fr).

Definition set_ObjectCB v (fr : FrameResource) : FrameResource :=
  mkFrameResource (PassCB fr) v (MaterialCB fr) (WavesVB fr) (Fence fr).
Definition set_MaterialCB v (fr : FrameResource) : FrameResource :=
  mkFrameResource (PassCB fr) (ObjectCB fr) v (WavesVB fr) (Fence fr).
Definition set_PassCB v (fr : FrameResource) : FrameResource :=
  mkFrameResource v (ObjectCB fr) (MaterialCB fr) (WavesVB fr) (Fence fr).
Definition set_WavesVB v (fr : FrameResource) : FrameResource :=
  mkFrameResource (PassCB fr) (ObjectCB fr) (MaterialCB fr) v (Fence fr).
Definition set_Fence v (fr : FrameResource) : FrameResource :=
  mkFrameResource (PassCB fr) (ObjectCB fr) (MaterialCB fr) (WavesVB fr) v.

Definition set_NumFramesDirty v (e : RenderItem) : RenderItem :=
  mkRenderItem (World e) (TexTransform e) v (ObjCBIndex e).
Definition set_MatNumFramesDirty v (m : Material) : Material :=
  mkMaterial (MatCBIndex m) (DiffuseAlbedo m) (FresnelR0 m) (Roughness m)
             (MatTransform m) v.
Definition set_MatTransform v (m : Material) : Material :=
  mkMaterial (MatCBIndex m) (DiffuseAlbedo m) (FresnelR0 m) (Roughness m)
             v (MatNumFramesDirty m).

(** [OnKeyboardInput] has an empty body. *)
Definition OnKeyboardInput (gt : GameTimer) (a : App) : App := a.

Definition UpdateCamera (gt : GameTimer) (a : App) : App :=
  emit EvCamera (set_mCamera (UpdateCamera_view (mCamera a)) a).

(** [AnimateMaterials]: scrolls the water texture transform and marks the
    water material dirty.  [mMaterials["water"].get()] of a missing key is a
    null pointer, dereferenced on the next line. *)
Definition AnimateMaterials (gt : GameTimer) (a : App) : Outcome App :=
  waterMat ← ofOption (mMaterials a !! "water"%string);
  let tu := m41 (MatTransform waterMat) in
  let tv := m42 (MatTransform waterMat) in
  let tu := fadd tu (fmul f0_1 (DeltaTime gt)) in
  let tv := fadd tv (fmul f0_02 (DeltaTime gt)) in
  let tu := if fgeb tu f1 then fsub tu f1 else tu in
  let tv := if fgeb tv f1 then fsub tv f1 else tv in
  let waterMat :=
    set_MatTransform (set_3_1 tv (set_3_0 tu (MatTransform waterMat))) waterMat in
  (* Material has changed, so need to update cbuffer. *)
  let waterMat := set_MatNumFramesDirty gNumFrameResources waterMat in
  mret (emit EvAnimateMaterials
          (set_mMaterials (<["water"%string := waterMat]> (mMaterials a)) a)).

(** The body of [for(auto& e : mAllRitems)] in [UpdateObjectCBs]. *)
Fixpoint UpdateObjectCBs_loop (es : list RenderItem)
    (currObjectCB : UploadBuffer.t ObjectConstants)
  : Outcome (list RenderItem * UploadBuffer.t ObjectConstants) :=
  match es with
  | [] => mret ([], currObjectCB)
  | e :: rest =>
      if 0 <? NumFramesDirty e then
        let world := World e in
        let texTransform := TexTransform e in
        let objConstants :=
          mkObjectConstants (XMMatrixTranspose world) (XMMatrixTranspose texTransform) in
        cb ← UploadBuffer.CopyData (ObjCBIndex e) objConstants currObjectCB;
        (* Next FrameResource need to be updated too. *)
        let e' := set_NumFramesDirty (NumFramesDirty e - 1) e in
        '(rest', cb') ← UpdateObjectCBs_loop rest cb;
        mret (e' :: rest', cb')
      else
        '(rest', cb') ← UpdateObjectCBs_loop rest currObjectCB;
        mret (e :: rest', cb')
  end.

Definition UpdateObjectCBs (gt : GameTimer) (a : App) : Outcome App :=
  '(slot, fr) ← currFrameResource a;
  let currObjectCB := ObjectCB fr in
  '(items, cb) ← UpdateObjectCBs_loop (mAllRitems a) currObjectCB;
  mret (emit (EvFlushObjects slot)
          (set_mAllRitems items
             (set_mFrameResources (<[slot := set_ObjectCB cb fr]> (mFrameResources a)) a))).

(** The body of [for(auto& e : mMaterials)] in [UpdateMaterialCBs], over the
    entries in the order the map enumerates them. *)
Fixpoint UpdateMaterialCBs_loop (es : list (string * Material))
    (currMaterialCB : UploadBuffer.t MaterialConstants)
  : Outcome (list (string * Material) * UploadBuffer.t MaterialConstants) :=
  match es with
  | [] => mret ([], currMaterialCB)
  | e :: rest =>
      let mat := e.2 in
      if 0 <? MatNumFramesDirty mat then
        let matTransform := MatTransform mat in
        let matConstants :=
          mkMaterialConstants (DiffuseAlbedo mat) (FresnelR0 mat) (Roughness mat)
                              (XMMatrixTranspose matTransform) in
        cb ← UploadBuffer.CopyData (MatCBIndex mat) matConstants currMaterialCB;
        (* Next FrameResource need to be updated too. *)
        let mat' := set_MatNumFramesDirty (MatNumFramesDirty mat - 1) mat in
        '(rest', cb') ← UpdateMaterialCBs_loop rest cb;
        mret ((e.1, mat') :: rest', cb')
      else
        '(rest', cb') ← UpdateMaterialCBs_loop rest currMaterialCB;
        mret (e :: rest', cb')
  end.

Definition UpdateMaterialCBs (gt : GameTimer) (a : App) : Outcome App :=
  '(slot, fr) ← currFrameResource a;
  let currMaterialCB := MaterialCB fr in
  '(mats, cb) ← UpdateMaterialCBs_loop (map_to_list (mMaterials a)) currMaterialCB;
  mret (emit (EvFlushMaterials slot)
          (set_mMaterials (list_to_map mats)
             (set_mFrameResources (<[slot := set_MaterialCB cb fr]> (mFrameResources a)) a))).

Definition UpdateMainPassCB (gt : GameTimer) (a : App) : Outcome App :=
  let pass := MainPassConstants (mCamera a) gt in
  '(slot, fr) ← currFrameResource a;
  cb ← UploadBuffer.CopyData 0 pass (PassCB fr);
  mret (emit (EvPassCB slot)
          (set_mMainPassCB pass
             (set_mFrameResources (<[slot := set_PassCB cb fr]> (mFrameResources a)) a))).

(** The vertex [UpdateWaves] writes for sample [i]. *)
Definition wavesVertex (w : Waves) (i : Z) : Vertex :=
  let pos := Position w i in
  let normal := Normal w i in
  (* Derive tex-coords from position by mapping [-w/2,w/2] --> [0,1] *)
  let u := fadd f0_5 (fdiv (x3 pos) (Width w)) in
  let v := fsub f0_5 (fdiv (z3 pos) (Depth w)) in
  mkVertex pos normal (mkFloat2 u v).

(** [for(int i = 0; i < mWaves->VertexCount(); ++i)]: [count] iterations left,
    starting at [i]. *)
Fixpoint UpdateWaves_loop (w : Waves) (count : nat) (i : Z)
    (currWavesVB : UploadBuffer.t Vertex) : Outcome (UploadBuffer.t Vertex) :=
  match count with
  | O => mret currWavesVB
  | S count' =>
      vb ← UploadBuffer.CopyData (Z.to_nat i) (wavesVertex w i) currWavesVB;
      UpdateWaves_loop w count' (i + 1) vb
  end.

Definition UpdateWaves (gt : GameTimer) (a : App) : Outcome App :=
  (* Update the wave simulation. *)
  w ← Waves_Update (DeltaTime gt) (mWaves a);
  let a := emit EvWavesStep (set_mWaves w a) in
  (* Update the wave vertex buffer with the new solution. *)
  '(slot, fr) ← currFrameResource a;
  vb ← UpdateWaves_loop w (Z.to_nat (VertexCount w)) 0 (WavesVB fr);
  mret (emit (EvWavesCopy slot)
          (set_mWavesVertexBufferGPU (Some slot)
             (set_mFrameResources (<[slot := set_WavesVB vb fr]> (mFrameResources a)) a))).

(** The first half of [Update]: cycle to the next frame resource and wait
    until the GPU has completed the commands of its previous use. *)
Definition Update_acquire (dev : Device) (fuel : nat) (gt : GameTimer) (a : App)
  : Outcome App :=
  let a := OnKeyboardInput gt a in
  let a := UpdateCamera gt a in
  (* Cycle through the circular frame resource array. *)
  let idx := Z.rem (mCurrFrameResourceIndex a + 1) gNumFrameResources in
  let a := set_mCurrFrameResourceIndex idx a in
  fr ← at_index (mFrameResources a) idx;
  let slot := Z.to_nat idx in
  let a := emit (EvAcquire slot) (set_mCurrFrameResource (Some slot) a) in
  (* Has the GPU finished processing the commands of the current frame resource? *)
  if negb (Fence fr =? 0) && (GetCompletedValue dev (clock a) <? Fence fr) then
    _ ← ThrowIfFailed (hrSetEventOnCompletion dev (clock a));
    t ← WaitForSingleObject dev fuel (Fence fr) (clock a);
    mret (emit (EvWait slot (Fence fr)) (set_clock t a))
  else mret a.

(** The second half of [Update]: everything written into the acquired slot. *)
Definition Update_fill (gt : GameTimer) (a : App) : Outcome App :=
  a ← AnimateMaterials gt a;
  a ← UpdateObjectCBs gt a;
  a ← UpdateMaterialCBs gt a;
  a ← UpdateMainPassCB gt a;
  UpdateWaves gt a.

(** The calls of the second half of [Update], in its order. *)
Definition fillSteps (gt : GameTimer) : list (App -> Outcome App) :=
  [AnimateMaterials gt; UpdateObjectCBs gt; UpdateMaterialCBs gt; UpdateMainPassCB gt;
   UpdateWaves gt].

Definition Update (dev : Device) (fuel : nat) (gt : GameTimer) (a : App) : Outcome App :=
  a ← Update_acquire dev fuel gt a;
  Update_fill gt a.

(** [Draw]: records the commands of the frame against the current frame
    resource, submits them, presents, and marks the slot with a new fence
    value.  The recorded commands themselves are not modelled. *)
Definition Draw (dev : Device) (gt : GameTimer) (a : App) : Outcome App :=
  '(slot, fr) ← currFrameResource a;
  _ ← ThrowIfFailed (hrAllocReset dev (clock a));
  _ ← ThrowIfFailed (hrCommandListReset dev (clock a));
  let a := emit (EvRecord slot) a in
  (* Done recording commands. *)
  _ ← ThrowIfFailed (hrCommandListClose dev (clock a));
  (* Add the command list to the queue for execution. *)
  let a := emit (EvExecute slot) a in
  (* Swap the back and front buffers *)
  _ ← ThrowIfFailed (hrPresent dev (clock a));
  let a := emit EvPresent
             (set_mCurrBackBuffer
                (Z.rem (mCurrBackBuffer a + 1) (SwapChainBufferCount dev)) a) in
  (* Advance the fence value to mark commands up to this fence point. *)
  let a := set_mCurrentFence (UINT64_wrap (mCurrentFence a + 1)) a in
  let a := set_mFrameResources
             (<[slot := set_Fence (mCurrentFence a) fr]> (mFrameResources a)) a in
  let a := emit (EvPublish slot (mCurrentFence a)) a in
  (* mCommandQueue->Signal(mFence.Get(), mCurrentFence) *)
  let a := emit (EvSignal (mCurrentFence a)) a in
  mret (set_clock (S (clock a)) a).

(** Modelled from the spec: one tick of the frame loop.  [D3DApp::Run] is not
    part of the sources; a tick is [Update] followed by [Draw] with the same
    timer (sections 4.4 and 6). *)
Definition Tick (dev : Device) (fuel : nat) (gt : GameTimer) (a : App) : Outcome App :=
  a ← Update dev fuel gt a;
  Draw dev gt a.

(** Consecutive frames, one timer reading per frame. *)
Fixpoint Run (dev : Device) (fuel : nat) (gts : list GameTimer) (a : App)
  : Outcome App :=
  match gts with
  | [] => mret a
  | gt :: gts' => a' ← Tick dev fuel gt a; Run dev fuel gts' a'
  end.

End App.

(** ** The index buffer of the wave grid ([BuildWavesGeometry]) *)

Section WavesGeometry.
Context {FO : FloatOps} {WA : WavesAPI}.

(** The state of the quad loop: the [std::vector<std::uint16_t> indices], the
    cursor [k], and (ghost) the writes so far, oldest first: the position and
    the [int] value assigned. *)
Record IndexBuild := mkIndexBuild {
  indices : list Z;
  ib_k : Z;
  ib_written : list (Z * Z)
}.

(** [indices[pos] = v]: the [int] value is converted to [std::uint16_t]
    (modulo 2^16); [operator[]] does not check [pos]. *)
Definition store_index (pos v : Z) (b : IndexBuild) : Outcome IndexBuild :=
  if (0 <=? pos) && (pos <? Z.of_nat (length (indices b))) then
    Done (mkIndexBuild (<[Z.to_nat pos := v mod 2 ^ 16]> (indices b)) (ib_k b)
                       (ib_written b ++ [(pos, v)]))
  else Fault.

(** The body of the inner loop for quad [(i, j)]. *)
Definition BuildWaves_quad (n i j : Z) (b : IndexBuild) : Outcome IndexBuild :=
  let k := ib_k b in
  b ← store_index k (i * n + j) b;
  b ← store_index (k + 1) (i * n + j + 1) b;
  b ← store_index (k + 2) ((i + 1) * n + j) b;
  b ← store_index (k + 3) ((i + 1) * n + j) b;
  b ← store_index (k + 4) (i * n + j + 1) b;
  b ← store_index (k + 5) ((i + 1) * n + j + 1) b;
  (* next quad *)
  mret (mkIndexBuild (indices b) (k + 6) (ib_written b)).

(** [for(int j = 0; j < n - 1; ++j)]: [count] iterations left, starting at [j]. *)
Fixpoint BuildWaves_row (n i : Z) (count : nat) (j : Z) (b : IndexBuild)
  : Outcome IndexBuild :=
  match count with
  | O => mret b
  | S count' => b' ← BuildWaves_quad n i j b; BuildWaves_row n i count' (j + 1) b'
  end.

(** [for(int i = 0; i < m - 1; ++i)]: [count] iterations left, starting at [i]. *)
Fixpoint BuildWaves_rows (n : Z) (count : nat) (i : Z) (b : IndexBuild)
  : Outcome IndexBuild :=
  match count with
  | O => mret b
  | S count' =>
      b' ← BuildWaves_row n i (Z.to_nat (n - 1)) 0 b;
      BuildWaves_rows n count' (i + 1) b'
  end.

(** The index part of [BuildWavesGeometry].  The [assert] on the vertex count
    is a hypothesis of the statements below, not a step of the function. *)
Definition BuildWavesGeometry (w : Waves) : Outcome IndexBuild :=
  (* 3 indices per face *)
  let indices0 := replicate (Z.to_nat (3 * TriangleCount w)) 0 in
  (* Iterate over each quad. *)
  let m := RowCount w in
  let n := ColumnCount w in
  BuildWaves_rows n (Z.to_nat (m - 1)) 0 (mkIndexBuild indices0 0 []).

(** The writes so far fill the vector from position 0 without gaps, each
    stored element is the value assigned, and each value is a vertex number
    below [vcount]. *)
Definition Filled (vcount : Z) (b : IndexBuild) : Prop :=
  ib_k b = Z.of_nat (length (ib_written b)) /\
  (ib_written b).*1 = Z.of_nat <$> seq 0 (length (ib_written b)) /\
  take (length (ib_written b)) (indices b) = (ib_written b).*2 /\
  Forall (fun pv => 0 <= pv.2 < vcount) (ib_written b).

End WavesGeometry.

(** ** The height field

    The class [Waves] ([Waves.h], [Waves.cpp]) is not part of the sources; the
    simulator below follows sections 3, 4.3 and 7 of the specification.  What
    the specification leaves open is a parameter: the stencil coefficients
    derived from [waveSpeed], [spacing], [dt] and [damping], and the profile
    and radius of a disturbance. *)

Module HeightField.

Class Params {FO : FloatOps} : Type := {
  coefficients : float -> float -> float -> float -> float * float * float;
  bump : Z -> Z -> float -> float;
  radius : Z
}.

Inductive Error := ConfigurationError | OutOfRangeRequest.

Section Model.
Context {FO : FloatOps} {HP : Params}.

(** Modelled from the spec: the state of the absent class [Waves], as section
    3 lists it.  The grid is stored row-major, one list per time layer.
    [stepsDone] is a ghost counter of the discrete steps executed. *)
Record t := mk {
  rows : Z;
  cols : Z;
  spacing : float;
  dt : float;
  waveSpeed : float;
  damping : float;
  prev : list float;          (* heights[t-1] *)
  curr : list float;          (* heights[t]   *)
  next : list float;          (* heights[t+1] *)
  accumulatedTime : float;
  stepsDone : nat
}.

Definition rowOf (hf : t) (idx : nat) : Z := Z.of_nat idx / cols hf.
Definition colOf (hf : t) (idx : nat) : Z := Z.of_nat idx mod cols hf.

Definition inGrid (hf : t) (i j : Z) : bool :=
  (0 <=? i) && (i <? rows hf) && (0 <=? j) && (j <? cols hf).

(** Interior cells: the cells the update stencil is applied to. *)
Definition interior (hf : t) (i j : Z) : bool :=
  (1 <=? i) && (i <=? rows hf - 2) && (1 <=? j) && (j <=? cols hf - 2).

Definition onBoundary (hf : t) (i j : Z) : bool :=
  inGrid hf i j && negb (interior hf i j).

Definition cell (hf : t) (layer : list float) (i j : Z) : float :=
  default f0 (layer !! Z.to_nat (i * cols hf + j)).

(** The current height of sample [(i, j)]. *)
Definition height (hf : t) (i j : Z) : float := cell hf (curr hf) i j.

(** The next height of an interior sample: a weighted combination of its two
    prior heights and of its four orthogonal neighbours at the current layer. *)
Definition stencil (hf : t) (i j : Z) : float :=
  let '(k1, k2, k3) := coefficients (waveSpeed hf) (spacing hf) (dt hf) (damping hf) in
  fadd (fadd (fmul k1 (cell hf (prev hf) i j)) (fmul k2 (cell hf (curr hf) i j)))
       (fmul k3 (fadd (fadd (fadd (cell hf (curr hf) (i + 1) j)
                                  (cell hf (curr hf) (i - 1) j))
                            (cell hf (curr hf) i (j + 1)))
                      (cell hf (curr hf) i (j - 1)))).

(** Modelled from the spec: one discrete step of the absent [Waves::Update]
    (section 4.3).  Every interior sample of the new layer is computed by the
    stencil, the boundary samples are not written, then the layers rotate (the
    oldest buffer is reused). *)
Definition simulateStep (hf : t) : t :=
  let new :=
    imap (fun idx old =>
            if interior hf (rowOf hf idx) (colOf hf idx)
            then stencil hf (rowOf hf idx) (colOf hf idx) else old)
         (next hf) in
  mk (rows hf) (cols hf) (spacing hf) (dt hf) (waveSpeed hf) (damping hf)
     (curr hf) new (prev hf) (accumulatedTime hf) (S (stepsDone hf)).

Definition set_accumulatedTime (v : float) (hf : t) : t :=
  mk (rows hf) (cols hf) (spacing hf) (dt hf) (waveSpeed hf) (damping hf)
     (prev hf) (curr hf) (next hf) v (stepsDone hf).

(** Modelled from the spec: the loop of [Step] (section 4.3),
    [while accumulatedTime >= dt]: one step, subtract [dt]. *)
Fixpoint Step_loop (fuel : nat) (hf : t) : Outcome t :=
  if fgeb (accumulatedTime hf) (dt hf) then
    match fuel with
    | O => Hang
    | S fuel' =>
        let hf := simulateStep hf in
        Step_loop fuel' (set_accumulatedTime (fsub (accumulatedTime hf) (dt hf)) hf)
    end
  else Done hf.

(** Modelled from the spec: [Step(realDeltaTime)] (section 4.3), the absent
    [Waves::Update]: accumulate, then run the loop. *)
Definition Step (fuel : nat) (realDeltaTime : float) (hf : t) : Outcome t :=
  Step_loop fuel (set_accumulatedTime (fadd (accumulatedTime hf) realDeltaTime) hf).

(** Consecutive [Step] calls, one per delta. *)
Fixpoint Steps (fuel : nat) (deltas : list float) (hf : t) : Outcome t :=
  match deltas with
  | [] => Done hf
  | d :: ds => hf' ← Step fuel d hf; Steps fuel ds hf'
  end.

Definition inNeighbourhood (row col i j : Z) : bool :=
  (Z.abs (i - row) <=? radius) && (Z.abs (j - col) <=? radius).

(** Modelled from the spec: [Disturb(row, col, magnitude)] (sections 4.3 and
    7) of the absent class [Waves].  Rejected without any mutation when
    [(row, col)] is not an interior cell; otherwise the bump is added to the
    current layer on the samples of the neighbourhood.  Boundary rows and
    columns are held fixed (section 3), so only interior samples are written. *)
Definition Disturb (row col : Z) (magnitude : float) (hf : t) : Error + t :=
  if interior hf row col then
    inr (mk (rows hf) (cols hf) (spacing hf) (dt hf) (waveSpeed hf) (damping hf)
            (prev hf)
            (imap (fun idx old =>
                     let i := rowOf hf idx in
                     let j := colOf hf idx in
                     if interior hf i j && inNeighbourhood row col i j
                     then fadd old (bump (i - row) (j - col) magnitude) else old)
                  (curr hf))
            (next hf) (accumulatedTime hf) (stepsDone hf))
  else inl OutOfRangeRequest.

(** Modelled from the spec: construction of the absent class [Waves]
    (sections 3 and 7): a flat grid; invalid dimensions are a configuration
    error. *)
Definition create (m n : Z) (dx dt0 speed damp : float) : Error + t :=
  if (0 <? m) && (0 <? n) then
    let flat := replicate (Z.to_nat (m * n)) f0 in
    inr (mk m n dx dt0 speed damp flat flat flat f0 O)
  else inl ConfigurationError.

(** What the outside does to the simulator between construction and
    observation. *)
Inductive Op :=
| OpStep
| OpDisturb (row col : Z) (magnitude : float).

Definition apply (op : Op) (hf : t) : t :=
  match op with
  | OpStep => simulateStep hf
  | OpDisturb row col magnitude =>
      match Disturb row col magnitude hf with
      | inr hf' => hf'
      | inl _ => hf
      end
  end.

Definition applyAll (ops : list Op) (hf : t) : t := foldl (fun h op => apply op h) hf ops.

(** The three time layers carry the same heights on the boundary. *)
Definition layersAgree (hf : t) : Prop :=
  forall i j, onBoundary hf i j = true ->
    cell hf (prev hf) i j = height hf i j /\ cell hf (next hf) i j = height hf i j.

End Model.
End HeightField.

(** ** The two arithmetics

    [ExactOps]: the scalar operations on the rationals, used where a
    statement needs the order and field laws.  [Binary32Ops]: IEEE 754
    single precision with rounding to nearest even, the arithmetic of the
    program's [float], through the executable specification of the Standard
    Library; used for the values the program stores and to evaluate the code
    where rounding matters. *)

Definition ExactOps : FloatOps := {|
  float := Q;
  fadd := Qplus;
  fsub := Qminus;
  fmul := Qmult;
  fdiv := Qdiv;
  fgeb := fun a b => Qle_bool b a;
  fofZ := inject_Z;
  f0 := 0%Q;
  f1 := 1%Q;
  f0_5 := (1 # 2)%Q;
  f0_1 := (1 # 10)%Q;
  f0_02 := (2 # 100)%Q
|}.

(** The total of the deltas passed to [Step]. *)
Definition elapsed (deltas : list Q) : Q := foldr Qplus 0%Q deltas.

Definition Qnat (n : nat) : Q := inject_Z (Z.of_nat n).

Definition binary32_of_Z (n : Z) : spec_float := binary_normalize 24 128 n 0 false.

Definition Binary32Ops : FloatOps := {|
  float := spec_float;
  fadd := SFadd 24 128;
  fsub := SFsub 24 128;
  fmul := SFmul 24 128;
  fdiv := SFdiv 24 128;
  fgeb := fun a b => SFleb b a;
  fofZ := binary32_of_Z;
  f0 := S754_zero false;
  f1 := binary32_of_Z 1;
  f0_5 := SFdiv 24 128 (binary32_of_Z 1) (binary32_of_Z 2);
  f0_1 := SFdiv 24 128 (binary32_of_Z 1) (binary32_of_Z 10);
  f0_02 := SFdiv 24 128 (binary32_of_Z 2) (binary32_of_Z 100)
|}.

(** The rational a finite binary float denotes (0 for the others). *)
Definition binary32_value (x : spec_float) : Q :=
  match x with
  | S754_finite s m e =>
      (inject_Z (if s then Z.neg m else Z.pos m) * Qpower 2 e)%Q
  | _ => 0%Q
  end.

(** Neither an infinity nor a NaN. *)
Definition binary32_finite (x : spec_float) : bool :=
  match x with
  | S754_zero _ | S754_finite _ _ _ => true
  | _ => false
  end.

(** A mantissa [m] at exponent [e] with the location [l] of what was dropped
    behind it, denoting at most [2 ^ eB]; [l] is exact when the bound is
    reached. *)
Definition atMostPow2 (eB m e : Z) (l : location) : Prop :=
  e <= eB /\ 0 <= m <= 2 ^ (eB - e) /\ (m = 2 ^ (eB - e) -> l = loc_Exact).

(** A zero or a finite float of sign [sx] and of magnitude at most [2 ^ eB]. *)
Definition finiteWithin (eB : Z) (sx : bool) (x : spec_float) : Prop :=
  match x with
  | S754_zero s => s = sx
  | S754_finite s m e => s = sx /\ e <= eB /\ Z.pos m <= 2 ^ (eB - e)
  | _ => False
  end.

(** A finite float that denotes one half. *)
Definition isHalf (x : spec_float) : Prop :=
  match x with
  | S754_finite false m e => e <= -1 /\ Z.pos m = 2 ^ (-1 - e)
  | _ => False
  end.

(** [2 * |x| <= y] for finite floats [x] and [y > 0], on integers: the
    mantissas are compared at the smaller of the two exponents. *)
Definition withinHalf (x y : spec_float) : Prop :=
  match x, y with
  | S754_zero _, S754_finite false _ _ => True
  | S754_finite _ mx ex, S754_finite false my ey =>
      2 * Z.pos mx * 2 ^ (ex - Z.min ex ey) <= Z.pos my * 2 ^ (ey - Z.min ex ey)
  | _, _ => False
  end.

(** ** A small pond, for examples in either arithmetic *)

Module Pond.
Section Pond.
Context {FO : FloatOps}.

(** The coefficients of the damped explicit scheme, and a bump of half
    magnitude on the four neighbours. *)
#[local] Instance params : HeightField.Params := {|
  HeightField.coefficients := fun speed dx dt mu =>
    let d := fadd (fmul mu dt) (fofZ 2) in
    let e := fdiv (fmul (fmul speed speed) (fmul dt dt)) (fmul dx dx) in
    (fdiv (fsub (fmul mu dt) (fofZ 2)) d,
     fdiv (fsub (fofZ 4) (fmul (fofZ 8) e)) d,
     fdiv (fmul (fofZ 2) e) d);
  HeightField.bump := fun dr dc magnitude =>
    if (dr =? 0) && (dc =? 0) then magnitude
    else if Z.abs dr + Z.abs dc =? 1 then fdiv magnitude (fofZ 2) else f0;
  HeightField.radius := 1
|}.

(** The time step of the application, [0.03f]. *)
Definition timeStep : float := fdiv (fofZ 3) (fofZ 100).

(** A 5 x 5 grid with the time step and wave parameters of the application. *)
Definition pond : HeightField.t :=
  match HeightField.create 5 5 f1 timeStep (fofZ 4) (fdiv (fofZ 2) (fofZ 10)) with
  | inr hf => hf
  | inl _ => HeightField.mk 0 0 f0 f0 f0 f0 [] [] [] f0 0
  end.

End Pond.
End Pond.

(** ** The dirty countdown, once

    [UpdateObjectCBs] and [UpdateMaterialCBs] run the same loop on different
    entries.  [flushLoop] is that loop over an entry type [E] with its
    counter, its decrement, its constant-buffer index and the constants
    derived from it; the two loops above are instances (see
    [UpdateObjectCBs_loop_flushLoop], [UpdateMaterialCBs_loop_flushLoop]). *)

Section Replicated.
Context {E C : Type}.
Variables (dirty : E -> Z) (tick : E -> E) (cbIndex : E -> nat) (payload : E -> C).

Fixpoint flushLoop (es : list E) (cb : UploadBuffer.t C)
  : Outcome (list E * UploadBuffer.t C) :=
  match es with
  | [] => mret ([], cb)
  | e :: rest =>
      if 0 <? dirty e then
        cb1 ← UploadBuffer.CopyData (cbIndex e) (payload e) cb;
        '(rest', cb') ← flushLoop rest cb1;
        mret (tick e :: rest', cb')
      else
        '(rest', cb') ← flushLoop rest cb;
        mret (e :: rest', cb')
  end.

Definition tickIfDirty (e : E) : E := if 0 <? dirty e then tick e else e.

Definition isDirty (e : E) : bool := 0 <? dirty e.

(** The indices the loop writes, in order. *)
Definition dirtyIndices (es : list E) : list nat :=
  cbIndex <$> filter (fun e => isDirty e = true) es.

End Replicated.

Section FlushObservation.
Context {FO : FloatOps} {WA : WavesAPI} {CA : CameraAPI}.

(** The constants a flush derives from an entry. *)
Definition objConstantsOf (e : RenderItem) : ObjectConstants :=
  mkObjectConstants (XMMatrixTranspose (World e)) (XMMatrixTranspose (TexTransform e)).

Definition matConstantsOf (mat : Material) : MaterialConstants :=
  mkMaterialConstants (DiffuseAlbedo mat) (FresnelR0 mat) (Roughness mat)
                      (XMMatrixTranspose (MatTransform mat)).

(** A flush into a chosen slot: point [mCurrFrameResource] at the slot, then
    call the flush. *)
Definition flushObjectsAt (gt : GameTimer) (slot : nat) (a : App) : Outcome App :=
  UpdateObjectCBs gt (set_mCurrFrameResource (Some slot) a).

Definition flushMaterialsAt (gt : GameTimer) (slot : nat) (a : App) : Outcome App :=
  UpdateMaterialCBs gt (set_mCurrFrameResource (Some slot) a).

Definition tickItem (e : RenderItem) : RenderItem :=
  set_NumFramesDirty (NumFramesDirty e - 1) e.

Definition tickMaterial (m : Material) : Material :=
  set_MatNumFramesDirty (MatNumFramesDirty m - 1) m.

(** Well-formed registration of the render items: distinct constant-buffer
    indices, each inside the object buffer of every frame resource. *)
Definition objectsOK (a : App) : Prop :=
  NoDup (ObjCBIndex <$> mAllRitems a) /\
  forall fr e, fr ∈ mFrameResources a -> e ∈ mAllRitems a ->
    (ObjCBIndex e < length (UploadBuffer.elems (ObjectCB fr)))%nat.

Definition materialsOK (a : App) : Prop :=
  (forall k1 k2 m1 m2, mMaterials a !! k1 = Some m1 -> mMaterials a !! k2 = Some m2 ->
     MatCBIndex m1 = MatCBIndex m2 -> k1 = k2) /\
  forall fr k m, fr ∈ mFrameResources a -> mMaterials a !! k = Some m ->
    (MatCBIndex m < length (UploadBuffer.elems (MaterialCB fr)))%nat.

Definition objectBufOf (a : App) (slot : nat) : option (UploadBuffer.t ObjectConstants) :=
  ObjectCB <$> mFrameResources a !! slot.

Definition materialBufOf (a : App) (slot : nat) : option (UploadBuffer.t MaterialConstants) :=
  MaterialCB <$> mFrameResources a !! slot.

(** Every one of the [gNumFrameResources] copies holds [v] at element [idx]. *)
Definition allCopies {C} (bufOf : nat -> option (UploadBuffer.t C)) (idx : nat) (v : C) : Prop :=
  forall slot, (slot < Z.to_nat gNumFrameResources)%nat ->
    exists b, bufOf slot = Some b /\ UploadBuffer.elems b !! idx = Some v.

(** Between two states, no copy of element [idx] was written or changed. *)
Definition untouched {C} (before after : nat -> option (UploadBuffer.t C)) (idx : nat) : Prop :=
  forall slot b, before slot = Some b ->
    exists b', after slot = Some b' /\
      UploadBuffer.elems b' !! idx = UploadBuffer.elems b !! idx /\
      exists extra, UploadBuffer.copyLog b' = UploadBuffer.copyLog b ++ extra /\ idx ∉ extra.

End FlushObservation.

(** What one flush does to an entry [e] and to the copy buffer [b] of the
    flushed slot: a dirty entry is written and its counter decremented; any
    other entry is left alone, and so is its element of the buffer. *)
Definition flushed1 {E C : Type} (dirty : E -> Z) (cbIndex : E -> nat) (payload : E -> C)
    (b b' : UploadBuffer.t C) (e e' : E) : Prop :=
  cbIndex e' = cbIndex e /\ payload e' = payload e /\
  if 0 <? dirty e
  then dirty e' = dirty e - 1 /\
       UploadBuffer.elems b' !! cbIndex e = Some (payload e)
  else e' = e /\
       UploadBuffer.elems b' !! cbIndex e = UploadBuffer.elems b !! cbIndex e /\
       exists extra, UploadBuffer.copyLog b' = UploadBuffer.copyLog b ++ extra /\
                     cbIndex e ∉ extra.

(** Consecutive calls of a slot-indexed operation, one per listed slot. *)
Fixpoint overSlots {St : Type} (op : nat -> St -> Outcome St) (slots : list nat) (s : St)
  : Outcome St :=
  match slots with
  | [] => mret s
  | slot :: rest => s' ← op slot s; overSlots op rest s'
  end.

(** ** The order of a frame, as the specification letters it *)

Section Phases.
Context {FO : FloatOps} {WA : WavesAPI} {CA : CameraAPI}.

(** (a) acquire the slot, (b) advance the simulation, (c) copy the grid into
    the slot's vertex buffer, (d) flush object and material constants,
    (e) record the commands, (f) publish the slot with a new fence value:
    ranks 0 to 5.  The other events carry no letter. *)
Definition phaseOf (ev : Event) : option nat :=
  match ev with
  | EvAcquire _ | EvWait _ _ => Some 0%nat
  | EvWavesStep => Some 1%nat
  | EvWavesCopy _ => Some 2%nat
  | EvFlushObjects _ | EvFlushMaterials _ => Some 3%nat
  | EvRecord _ => Some 4%nat
  | EvPublish _ _ => Some 5%nat
  | _ => None
  end.

Definition phases (tr : list Event) : list nat := omap phaseOf tr.

(** No step precedes an earlier-lettered step. *)
Definition inLetterOrder (tr : list Event) : Prop :=
  forall i j pi pj, phases tr !! i = Some pi -> phases tr !! j = Some pj ->
    (i < j)%nat -> (pi <= pj)%nat.

(** The fence values published, oldest first. *)
Definition published (tr : list Event) : list Z :=
  omap (fun ev => match ev with EvPublish _ f => Some f | _ => None end) tr.

Definition strictlyIncreasing (l : list Z) : Prop :=
  forall i j fi fj, l !! i = Some fi -> l !! j = Some fj -> (i < j)%nat -> fi < fj.

(** The events of a frame that follow the acquisition. *)
Definition frameEvents (slot : nat) (fence : Z) : list Event :=
  [EvAnimateMaterials; EvFlushObjects slot; EvFlushMaterials slot; EvPassCB slot;
   EvWavesStep; EvWavesCopy slot;
   EvRecord slot; EvExecute slot; EvPresent; EvPublish slot fence; EvSignal fence].

End Phases.

(** ** Vocabulary for the statements about a frame *)

Section FrameVocabulary.
Context {FO : FloatOps} {WA : WavesAPI} {CA : CameraAPI}.

(** Within some bound on the wait, [Update] raises an error to its caller. *)
Definition surfacesDeviceLoss (dev : Device) (gt : GameTimer) (a : App) : Prop :=
  exists fuel hr, Update dev fuel gt a = Thrown hr.

(** The slot [Update] acquires, and its fence test. *)
Definition nextSlot (a : App) : Z := Z.rem (mCurrFrameResourceIndex a + 1) gNumFrameResources.

Definition mustWait (dev : Device) (a : App) (fr : FrameResource) : bool :=
  negb (Fence fr =? 0) && (GetCompletedValue dev (clock a) <? Fence fr).

(** The state in which [Update] performs its fence test. *)
Definition acquired (gt : GameTimer) (a : App) : App :=
  emit (EvAcquire (Z.to_nat (nextSlot a)))
       (set_mCurrFrameResource (Some (Z.to_nat (nextSlot a)))
          (set_mCurrFrameResourceIndex (nextSlot a) (UpdateCamera gt (OnKeyboardInput gt a)))).

(** What an operation that fills the current slot keeps: the slot pointer,
    the fence counter, the fence values of the ring, the clock. *)
Definition keepsRing (a a' : App) : Prop :=
  mCurrFrameResource a' = mCurrFrameResource a /\
  mCurrFrameResourceIndex a' = mCurrFrameResourceIndex a /\
  mCurrentFence a' = mCurrentFence a /\
  clock a' = clock a /\
  Fence <$> mFrameResources a' = Fence <$> mFrameResources a.

End FrameVocabulary.

(** ** The registration of the scene

    The constant-buffer indices [BuildRenderItems] and [BuildMaterials]
    assign, in the order of the source, and the element counts
    [BuildFrameResources] passes to each frame resource:
    [mAllRitems.size()] and [mMaterials.size()]. *)

Definition BuildRenderItems_ObjCBIndex : list nat := seq 0 27 ++ seq 28 25.

Definition BuildMaterials_MatCBIndex : list (string * nat) :=
  [("grass", 0); ("water", 1); ("wirefence", 2); ("castle", 3); ("dirt", 4);
   ("window", 5); ("castle2", 6); ("treeSprites", 7)]%string%nat.

Definition BuildFrameResources_objectCount : nat := length BuildRenderItems_ObjCBIndex.

Definition BuildFrameResources_materialCount : nat := length BuildMaterials_MatCBIndex.

(** ** A small scene on exact arithmetic, for examples *)

Module Sample.

#[local] Existing Instance ExactOps.

(** A table-backed stand-in for [Waves]: fixed samples, [Update] leaves them. *)
Record WaveTable := mkWaveTable {
  wt_rows : Z;
  wt_cols : Z;
  wt_width : Q;
  wt_depth : Q;
  wt_samples : list (XMFLOAT3 * XMFLOAT3)
}.

Definition origin : XMFLOAT3 := mkFloat3 0%Q 0%Q 0%Q.

#[local] Instance TableWaves : WavesAPI := {|
  Waves := WaveTable;
  RowCount := wt_rows;
  ColumnCount := wt_cols;
  VertexCount := fun w => wt_rows w * wt_cols w;
  TriangleCount := fun w => (wt_rows w - 1) * (wt_cols w - 1) * 2;
  Width := wt_width;
  Depth := wt_depth;
  Position := fun w i => (default (origin, origin) (wt_samples w !! Z.to_nat i)).1;
  Normal := fun w i => (default (origin, origin) (wt_samples w !! Z.to_nat i)).2;
  Waves_Update := fun _ w => Done w
|}.

#[local] Instance UnitCamera : CameraAPI := {|
  Camera := unit;
  PassConstants := unit;
  UpdateCamera_view := fun c => c;
  MainPassConstants := fun _ _ => tt
|}.

Definition up : XMFLOAT3 := mkFloat3 0%Q 1%Q 0%Q.

(** A 2 x 2 grid of width 2 and depth 2. *)
Definition waves : WaveTable :=
  mkWaveTable 2 2 2%Q 2%Q
    [ (mkFloat3 (-1)%Q 0%Q 1%Q, up); (mkFloat3 1%Q 0%Q 1%Q, up);
      (mkFloat3 (-1)%Q 0%Q (-1)%Q, up); (mkFloat3 1%Q 0%Q (-1)%Q, up) ].

Definition item (idx : nat) : RenderItem := mkRenderItem Identity4x4 Identity4x4 3 idx.

Definition material (idx : nat) : Material :=
  mkMaterial idx (mkFloat4 1%Q 1%Q 1%Q 1%Q) (mkFloat3 0%Q 0%Q 0%Q) 0%Q Identity4x4 3.

Definition frameResource (fence : Z) : FrameResource :=
  mkFrameResource
    (UploadBuffer.create 1 tt)
    (UploadBuffer.create 2 (mkObjectConstants Identity4x4 Identity4x4))
    (UploadBuffer.create 2 (matConstantsOf (material 0)))
    (UploadBuffer.create 4 (mkVertex origin origin (mkFloat2 0%Q 0%Q)))
    fence.

Definition materials : gmap string Material :=
  <["water"%string := material 1]> (<["grass"%string := material 0]> ∅).

(** The application after initialisation: three fresh frame resources, two
    render items, two materials; the fence counter at [fence0]. *)
Definition app (fence0 : Z) : App :=
  mkApp [frameResource 0; frameResource 0; frameResource 0] None 0 fence0 0
        [item 0; item 1] materials waves None tt tt 0 [].

Definition timer : GameTimer := mkTimer (1 # 60)%Q 0%Q.

(** A device on which every call succeeds and whose completed fence value at
    instant [t] is [progress t]. *)
Definition device (progress : nat -> Z) : Device :=
  mkDevice progress (fun _ => 0) (fun _ => 0) (fun _ => 0) (fun _ => 0) (fun _ => 0) 2.

(** A device that never completes anything. *)
Definition stuck : Device := device (fun _ => 0).

(** A device that completes every submission at once. *)
Definition prompt : Device := device (fun t => Z.of_nat t).

(** The application after three frames on the stuck device: every slot has
    been submitted once, nothing has completed. *)
Definition afterThreeFrames : App :=
  fromDone (app 0) (Run stuck 0 [timer; timer; timer] (app 0)).

(** The application after one frame on the prompt device. *)
Definition afterOneFrame : App :=
  fromDone (app 0) (Tick prompt 0 timer (app 0)).

(** The application after four frames on the prompt device. *)
Definition afterFourFrames : App :=
  fromDone (app 0) (Run prompt 0 [timer; timer; timer; timer] (app 0)).

(** Two frames from a fence counter two below the end of its range. *)
Definition wrapped : App :=
  fromDone (app 0) (Run prompt 0 [timer; timer] (app (2 ^ 64 - 2))).

End Sample.

(** ** A wave grid in single precision, for examples *)

Module Single.

#[local] Existing Instance Binary32Ops.

(** A table-backed stand-in for [Waves] on [float]: fixed samples, [Update]
    leaves them. *)
Record WaveTable := mkWaveTable {
  wt_rows : Z;
  wt_cols : Z;
  wt_width : spec_float;
  wt_depth : spec_float;
  wt_samples : list (XMFLOAT3 * XMFLOAT3)
}.

Definition origin : XMFLOAT3 := mkFloat3 f0 f0 f0.

#[local] Instance TableWaves : WavesAPI := {|
  Waves := WaveTable;
  RowCount := wt_rows;
  ColumnCount := wt_cols;
  VertexCount := fun w => wt_rows w * wt_cols w;
  TriangleCount := fun w => (wt_rows w - 1) * (wt_cols w - 1) * 2;
  Width := wt_width;
  Depth := wt_depth;
  Position := fun w i => (default (origin, origin) (wt_samples w !! Z.to_nat i)).1;
  Normal := fun w i => (default (origin, origin) (wt_samples w !! Z.to_nat i)).2;
  Waves_Update := fun _ w => Done w
|}.

#[local] Instance UnitCamera : CameraAPI := {|
  Camera := unit;
  PassConstants := unit;
  UpdateCamera_view := fun c => c;
  MainPassConstants := fun _ _ => tt
|}.

Definition up : XMFLOAT3 := mkFloat3 f0 f1 f0.

(** [1.5f] and [-1.5f]. *)
Definition oneAndHalf : spec_float := fdiv (fofZ 3) (fofZ 2).
Definition minusOneAndHalf : spec_float := fdiv (fofZ (-3)) (fofZ 2).

(** A 2 x 2 grid of width 3 and depth 3: three corners, and a sample at
    [(1, -1)] whose quotients by the extent are not binary fractions. *)
Definition waves : WaveTable :=
  mkWaveTable 2 2 (fofZ 3) (fofZ 3)
    [ (mkFloat3 minusOneAndHalf f0 oneAndHalf, up);
      (mkFloat3 oneAndHalf f0 oneAndHalf, up);
      (mkFloat3 minusOneAndHalf f0 minusOneAndHalf, up);
      (mkFloat3 f1 f0 (fofZ (-1)), up) ].

Definition frameResource : FrameResource :=
  mkFrameResource
    (UploadBuffer.create 1 tt)
    (UploadBuffer.create 0 (mkObjectConstants Identity4x4 Identity4x4))
    (UploadBuffer.create 0
       (mkMaterialConstants (mkFloat4 f1 f1 f1 f1) (mkFloat3 f0 f0 f0) f0 Identity4x4))
    (UploadBuffer.create 4 (mkVertex origin origin (mkFloat2 f0 f0)))
    0.

(** An application that has acquired slot 0 and registered nothing but the
    wave grid. *)
Definition app : App :=
  mkApp [frameResource; frameResource; frameResource] (Some 0%nat) 0 0 0
        [] ∅ waves None tt tt 0 [].

Definition timer : GameTimer := mkTimer (fdiv f1 (fofZ 60)) f0.

(** The largest [float] below 1 ([0x3F7FFFFF]). *)
Definition belowOne : spec_float := S754_finite false 16777215 (-24).

(** A water material whose first texture offset is [belowOne]. *)
Definition water : Material :=
  mkMaterial 0 (mkFloat4 f1 f1 f1 f1) (mkFloat3 f0 f0 f0) f0
             (set_3_0 belowOne Identity4x4) 0.

Definition afloat : App :=
  mkApp [frameResource; frameResource; frameResource] (Some 0%nat) 0 0 0
        [] (<["water"%string := water]> ∅) waves None tt tt 0 [].

(** A frame of ten seconds. *)
Definition tenSeconds : GameTimer := mkTimer (fofZ 10) f0.

End Single.


(** ** Vocabulary for runs of frames *)

Section RunVocabulary.
Context {FO : FloatOps} {WA : WavesAPI} {CA : CameraAPI}.

(** The slots acquired, oldest first. *)
Definition acquisitions (tr : list Event) : list nat :=
  omap (fun ev => match ev with EvAcquire slot => Some slot | _ => None end) tr.

(** The fence values published for [slot], oldest first. *)
Definition publishedFor (slot : nat) (tr : list Event) : list Z :=
  omap (fun ev => match ev with
                  | EvPublish s f => if decide (s = slot) then Some f else None
                  | _ => None
                  end) tr.

(** The fence value a slot that recorded [f0] records after the events
    [tr]: the latest value published for it, [f0] if there was none. *)
Definition recordedAfter (f0 : Z) (slot : nat) (tr : list Event) : Z :=
  default f0 (last (publishedFor slot tr)).

(** The ring as [BuildFrameResources] leaves it for the first frame: no slot
    was submitted yet, the fence counter of the base class stands at [c0]. *)
Definition freshRing (c0 : Z) (a : App) : Prop :=
  length (mFrameResources a) = Z.to_nat gNumFrameResources /\
  (forall fr, fr ∈ mFrameResources a -> Fence fr = 0) /\
  mCurrentFence a = c0 /\ 0 <= c0 /\
  0 <= mCurrFrameResourceIndex a < gNumFrameResources.

(** The frame resource [j] positions behind the current one in the ring. *)
Definition slotBehind (a : App) (j : Z) : option FrameResource :=
  mFrameResources a !! Z.to_nat ((mCurrFrameResourceIndex a - j) mod gNumFrameResources).

(** Since the counter stood at [c0], the slot [j] positions behind the
    current one records the fence value issued [j] frames ago, or 0 when no
    frame was submitted that long ago. *)
Definition ringFences (c0 : Z) (a : App) : Prop :=
  length (mFrameResources a) = Z.to_nat gNumFrameResources /\
  0 <= mCurrFrameResourceIndex a < gNumFrameResources /\
  0 <= c0 <= mCurrentFence a /\
  forall j, 0 <= j < gNumFrameResources ->
    exists fr, slotBehind a j = Some fr /\
      Fence fr = if c0 <? mCurrentFence a - j then mCurrentFence a - j else 0.

End RunVocabulary.


(** ** Entries that share an element of the buffer *)

Section LastWriter.
Context {E : Type}.
Variables (dirty : E -> Z) (cbIndex : E -> nat).

(** The last dirty entry of [es] whose constant-buffer index is [i]. *)
Definition lastWriter (es : list E) (i : nat) : option E :=
  last (filter (fun e => isDirty dirty e = true /\ cbIndex e = i) es).

End LastWriter.

Module Clash.

#[local] Existing Instance ExactOps.
#[local] Existing Instance Sample.TableWaves.
#[local] Existing Instance Sample.UnitCamera.

(** A render item registered under the index of [Sample.item 1], with a
    texture transform of its own, and one that is not dirty. *)
Definition shifted : RenderItem :=
  mkRenderItem Identity4x4 (set_3_0 (1 # 2)%Q Identity4x4) 3 1.

Definition clean : RenderItem := mkRenderItem Identity4x4 Identity4x4 0 7.

(** The sample application pointing at slot 0, with two dirty render items on
    element 1 and a clean one whose index is outside the buffer. *)
Definition app : App :=
  set_mCurrFrameResource (Some 0%nat)
    (set_mAllRitems [Sample.item 1; clean; shifted] (Sample.app 0)).

End Clash.


(** ** The triangles of the wave grid *)

(** The six vertex numbers [BuildWavesGeometry] assigns for the quad in row
    [i] and column [j] of a grid with [n] columns: two triangles. *)
Definition quadIndices (n i j : Z) : list Z :=
  [i * n + j; i * n + j + 1; (i + 1) * n + j;
   (i + 1) * n + j; i * n + j + 1; (i + 1) * n + j + 1].


Module Examples.

#[local] Existing Instance ExactOps.
#[local] Existing Instance Sample.TableWaves.
#[local] Existing Instance Sample.UnitCamera.

(** The sample application after four frames on the prompt device, at the
    return of the acquisition of the fifth frame. *)
Definition fifthAcquired : App :=
  fromDone (Sample.app 0)
    (Update_acquire Sample.prompt 0 Sample.timer Sample.afterFourFrames).

End Examples.


(** * Initialisation and drawing of the scene

    The functions [Initialize] calls to assemble the scene, and the commands
    [Draw] records for it.  The scene is a table of constants: its [float]
    literals are read on exact arithmetic, as the rationals their decimals
    denote. *)

(** ** DirectXMath: the matrices of the scene *)

Section DirectXMathMatrices.
Context {FO : FloatOps}.

Definition XMMatrixScaling (ScaleX ScaleY ScaleZ : float) : XMFLOAT4X4 :=
  mkFloat4x4 ScaleX f0 f0 f0
             f0 ScaleY f0 f0
             f0 f0 ScaleZ f0
             f0 f0 f0 f1.

Definition XMMatrixTranslation (OffsetX OffsetY OffsetZ : float) : XMFLOAT4X4 :=
  mkFloat4x4 f1 f0 f0 f0
             f0 f1 f0 f0
             f0 f0 f1 f0
             OffsetX OffsetY OffsetZ f1.

(** One element of a product: the row [(x, y, z, w)] of the first matrix
    against a column [(a, b, c, d)] of the second, summed left to right. *)
Definition rowTimesColumn (x y z w a b c d : float) : float :=
  fadd (fadd (fadd (fmul a x) (fmul b y)) (fmul c z)) (fmul d w).

(** [XMMatrixMultiply(M1, M2)], which is [M1 * M2]. *)
Definition XMMatrixMultiply (M1 M2 : XMFLOAT4X4) : XMFLOAT4X4 :=
  let row x y z w :=
    (rowTimesColumn x y z w (m11 M2) (m21 M2) (m31 M2) (m41 M2),
     rowTimesColumn x y z w (m12 M2) (m22 M2) (m32 M2) (m42 M2),
     rowTimesColumn x y z w (m13 M2) (m23 M2) (m33 M2) (m43 M2),
     rowTimesColumn x y z w (m14 M2) (m24 M2) (m34 M2) (m44 M2)) in
  let '(a1, a2, a3, a4) := row (m11 M1) (m12 M1) (m13 M1) (m14 M1) in
  let '(b1, b2, b3, b4) := row (m21 M1) (m22 M1) (m23 M1) (m24 M1) in
  let '(c1, c2, c3, c4) := row (m31 M1) (m32 M1) (m33 M1) (m34 M1) in
  let '(d1, d2, d3, d4) := row (m41 M1) (m42 M1) (m43 M1) (m44 M1) in
  mkFloat4x4 a1 a2 a3 a4 b1 b2 b3 b4 c1 c2 c3 c4 d1 d2 d3 d4.

End DirectXMathMatrices.

(** ** An edited scene on exact arithmetic

    The sample application after an edit of each kind: a render item moved
    since the buffers were created, and a material whose roughness was
    changed.  Both are marked dirty; no frame resource holds their constants
    yet. *)

Module Edited.

#[local] Existing Instance ExactOps.
#[local] Existing Instance Sample.TableWaves.
#[local] Existing Instance Sample.UnitCamera.

Definition moved : RenderItem :=
  mkRenderItem (XMMatrixTranslation 1%Q 2%Q 3%Q) Identity4x4 3 1.

Definition rough : Material :=
  mkMaterial 1 (mkFloat4 1%Q 1%Q 1%Q 1%Q) (mkFloat3 0%Q 0%Q 0%Q) (1 # 2)%Q Identity4x4 3.

Definition materials : gmap string Material :=
  <["water"%string := rough]> (<["grass"%string := Sample.material 0]> ∅).

Definition app : App :=
  mkApp [Sample.frameResource 0; Sample.frameResource 0; Sample.frameResource 0] None 0 0 0
        [Sample.item 0; moved] materials Sample.waves None tt tt 0 [].

End Edited.

(** 32-bit unsigned wrap-around ([UINT]). *)
Definition UINT_wrap (v : Z) : Z := v mod 2 ^ 32.

(** Consecutive calls of one operation, one per element of a list. *)
Fixpoint forEach {St D : Type} (step : D -> St -> Outcome St) (ds : list D) (st : St)
  : Outcome St :=
  match ds with
  | [] => mret st
  | d :: rest => st' ← step d st; forEach step rest st'
  end.

Module Scene.

#[local] Existing Instance ExactOps.

(** *** The types of [d3dUtil.h] and of the application, as the
    initialisation uses them *)

(** [enum class RenderLayer : int]; [Count] is 4. *)
Inductive RenderLayer := Opaque | Transparent | AlphaTested | AlphaTestedTreeSprites.

Definition layerIndex (l : RenderLayer) : nat :=
  match l with
  | Opaque => 0
  | Transparent => 1
  | AlphaTested => 2
  | AlphaTestedTreeSprites => 3
  end.

Definition RenderLayer_Count : nat := 4.

Inductive D3D_PRIMITIVE_TOPOLOGY := TRIANGLELIST | POINTLIST.

Inductive D3D12_SRV_DIMENSION := TEXTURE2D | TEXTURE2DARRAY.

(** [struct Texture]; its [Resource] is identified by the name. *)
Record Texture := mkTexture { tex_Name : string; Filename : string }.

(** A shader resource view: the resource it views and its dimension. *)
Record SRV := mkSRV { srv_Resource : string; ViewDimension : D3D12_SRV_DIMENSION }.

(** [struct SubmeshGeometry]; default-constructed with all members 0. *)
Record SubmeshGeometry := mkSubmesh {
  IndexCount : Z;
  StartIndexLocation : Z;
  BaseVertexLocation : Z
}.

Definition SubmeshGeometry_default : SubmeshGeometry := mkSubmesh 0 0 0.

(** A buffer in GPU memory: the vertex or the index buffer that
    [d3dUtil::CreateDefaultBuffer] created for a geometry, or the wave vertex
    buffer of a frame resource. *)
Inductive GpuResource :=
| VertexBufferOf (geo : string)
| IndexBufferOf (geo : string)
| WavesVBOf (slot : nat).

(** [struct MeshGeometry]: [VertexBufferCPU_count] is the number of vertices
    of [VertexBufferCPU] (0 for a null blob), [IndexBufferCPU] the 16-bit
    indices.  [VertexBufferGPU] and [IndexBufferGPU] are [ComPtr]s: [None] for
    [nullptr]. *)
Record MeshGeometry := mkMeshGeometry {
  geo_Name : string;
  VertexBufferCPU_count : nat;
  IndexBufferCPU : list Z;
  VertexBufferGPU : option GpuResource;
  IndexBufferGPU : option GpuResource;
  VertexByteStride : Z;
  VertexBufferByteSize : Z;
  IndexBufferByteSize : Z;
  DrawArgs : gmap string SubmeshGeometry
}.

Definition set_DrawArgs v (g : MeshGeometry) : MeshGeometry :=
  mkMeshGeometry (geo_Name g) (VertexBufferCPU_count g) (IndexBufferCPU g) (VertexBufferGPU g)
                 (IndexBufferGPU g) (VertexByteStride g) (VertexBufferByteSize g)
                 (IndexBufferByteSize g) v.
Definition set_VertexBufferGPU v (g : MeshGeometry) : MeshGeometry :=
  mkMeshGeometry (geo_Name g) (VertexBufferCPU_count g) (IndexBufferCPU g) v
                 (IndexBufferGPU g) (VertexByteStride g) (VertexBufferByteSize g)
                 (IndexBufferByteSize g) (DrawArgs g).

(** [struct Material]: the members of the frame loop ([me_frame]) and the
    two the initialisation sets besides.  [MatTransform] and [NumFramesDirty]
    keep their defaults, the identity and [gNumFrameResources]. *)
Record MaterialEntry := mkMaterialEntry {
  me_frame : Material;
  mat_Name : string;
  DiffuseSrvHeapIndex : Z
}.

(** [struct RenderItem]: the members of the frame loop ([re_frame]) and the
    ones [DrawRenderItems] reads.  [Mat] and [Geo] are pointers into
    [mMaterials] and [mGeometries]: the key of the entry pointed at, [None]
    for [nullptr]. *)
Record RenderItemEntry := mkRenderItemEntry {
  re_frame : RenderItem;
  Mat : option string;
  Geo : option string;
  PrimitiveType : D3D_PRIMITIVE_TOPOLOGY;
  re_IndexCount : Z;
  re_StartIndexLocation : Z;
  re_BaseVertexLocation : Z
}.

(** The members of [TreeBillboardsApp] the initialisation fills.  A map of
    [std::unique_ptr] holds [None] for a null pointer.  [mRitemLayer] and
    [mWavesRitem] hold pointers to render items: positions in [mAllRitems]. *)
Record State := mkState {
  mTextures : gmap string (option Texture);
  mSrvDescriptorHeap : option (list (option SRV));
  mGeometries : gmap string (option MeshGeometry);
  mMaterials : gmap string (option MaterialEntry);
  mAllRitems : list RenderItemEntry;
  mRitemLayer : list (list nat);
  mWavesRitem : option nat
}.

Definition empty : State :=
  mkState ∅ None ∅ ∅ [] (replicate RenderLayer_Count []) None.

Definition set_mTextures v (st : State) : State :=
  mkState v (mSrvDescriptorHeap st) (mGeometries st) (mMaterials st) (mAllRitems st)
          (mRitemLayer st) (mWavesRitem st).
Definition set_mSrvDescriptorHeap v (st : State) : State :=
  mkState (mTextures st) v (mGeometries st) (mMaterials st) (mAllRitems st)
          (mRitemLayer st) (mWavesRitem st).
Definition set_mGeometries v (st : State) : State :=
  mkState (mTextures st) (mSrvDescriptorHeap st) v (mMaterials st) (mAllRitems st)
          (mRitemLayer st) (mWavesRitem st).
Definition set_mMaterials v (st : State) : State :=
  mkState (mTextures st) (mSrvDescriptorHeap st) (mGeometries st) v (mAllRitems st)
          (mRitemLayer st) (mWavesRitem st).
Definition set_mAllRitems v (st : State) : State :=
  mkState (mTextures st) (mSrvDescriptorHeap st) (mGeometries st) (mMaterials st) v
          (mRitemLayer st) (mWavesRitem st).
Definition set_mRitemLayer v (st : State) : State :=
  mkState (mTextures st) (mSrvDescriptorHeap st) (mGeometries st) (mMaterials st)
          (mAllRitems st) v (mWavesRitem st).
Definition set_mWavesRitem v (st : State) : State :=
  mkState (mTextures st) (mSrvDescriptorHeap st) (mGeometries st) (mMaterials st)
          (mAllRitems st) (mRitemLayer st) v.

(** [m[k]] of a [std::unordered_map<std::string, std::unique_ptr<T>>]: a
    missing key is inserted with a null pointer. *)
Definition subscript {T} (k : string) (m : gmap string (option T))
  : option T * gmap string (option T) :=
  match m !! k with
  | Some v => (v, m)
  | None => (None, <[k := None]> m)
  end.

(** [m[k]] of a map of values: a missing key is inserted with the default. *)
Definition subscriptValue {T} (d : T) (k : string) (m : gmap string T) : T * gmap string T :=
  match m !! k with
  | Some v => (v, m)
  | None => (d, <[k := d]> m)
  end.

(** [p.get()]: the pointer, as the key of the entry, null for a null entry. *)
Definition get {T} (k : string) (p : option T) : option string :=
  match p with
  | Some _ => Some k
  | None => None
  end.

(** What the device answers during the initialisation. *)
Record InitDevice := mkInitDevice {
  hrCreateDDSTextureFromFile12 : string -> Z;
  hrCreateDescriptorHeap : Z;
  hrD3DCreateBlob : Z
}.

(** *** [LoadTextures] *)

(** The textures in the order they are loaded: name and file. *)
Definition textureFiles : list (string * string) :=
  [ ("grassTex", "../../A2_Sarras_Asper/A2_Sarras_Asper/Textures/grass.dds");
    ("waterTex", "../../A2_Sarras_Asper/A2_Sarras_Asper/Textures/water1.dds");
    ("fenceTex", "../../A2_Sarras_Asper/A2_Sarras_Asper/Textures/bricks3.dds");
    ("treeArrayTex", "../../A2_Sarras_Asper/A2_Sarras_Asper/Textures/treeArray.dds");
    ("castleTex", "../../A2_Sarras_Asper/A2_Sarras_Asper/Textures/bricks.dds");
    ("dirtTex", "../../A2_Sarras_Asper/A2_Sarras_Asper/Textures/dirt.dds");
    ("windowTex", "../../A2_Sarras_Asper/A2_Sarras_Asper/Textures/window.dds");
    ("castle2Tex", "../../A2_Sarras_Asper/A2_Sarras_Asper/Textures/Castle.dds") ]%string.

(** [std::make_unique<Texture>()], the two assignments and
    [ThrowIfFailed(CreateDDSTextureFromFile12(...))], once per texture. *)
Fixpoint loadTextures (dev : InitDevice) (files : list (string * string))
  : Outcome (list Texture) :=
  match files with
  | [] => mret []
  | (name, file) :: rest =>
      _ ← ThrowIfFailed (hrCreateDDSTextureFromFile12 dev file);
      ts ← loadTextures dev rest;
      mret (mkTexture name file :: ts)
  end.

(** [mTextures[t->Name] = std::move(t)], in the order of the list. *)
Definition storeTextures (ts : list Texture) (m : gmap string (option Texture))
  : gmap string (option Texture) :=
  foldl (fun m t => <[tex_Name t := Some t]> m) m ts.

Definition LoadTextures (dev : InitDevice) (st : State) : Outcome State :=
  ts ← loadTextures dev textureFiles;
  mret (set_mTextures (storeTextures ts (mTextures st)) st).

(** *** [BuildDescriptorHeaps] *)

Definition srvHeapDesc_NumDescriptors : nat := 7.

Definition CreateDescriptorHeap (NumDescriptors : nat) : list (option SRV) :=
  replicate NumDescriptors None.

(** [CreateShaderResourceView(resource, &srvDesc, hDescriptor)]: the handle
    is the offset from the start of the heap, in descriptors.  A handle
    outside the heap is outside defined behaviour. *)
Definition CreateShaderResourceView (resource : string) (dim : D3D12_SRV_DIMENSION)
    (hDescriptor : nat) (heap : list (option SRV)) : Outcome (list (option SRV)) :=
  if decide (hDescriptor < length heap)%nat
  then Done (<[hDescriptor := Some (mkSRV resource dim)]> heap)
  else Fault.

(** [mTextures[name]->Resource]: a null entry is dereferenced. *)
Definition textureResource (st : State) (name : string) : Outcome string :=
  t ← ofOption (mTextures st !! name ≫= id);
  mret (tex_Name t).

(** The part of [BuildDescriptorHeaps] that fills the heap. *)
Definition fillDescriptorHeap (st : State) (heap : list (option SRV))
  : Outcome (list (option SRV)) :=
  let hDescriptor := 0%nat in
  grassTex ← textureResource st "grassTex";
  waterTex ← textureResource st "waterTex";
  fenceTex ← textureResource st "fenceTex";
  treeArrayTex ← textureResource st "treeArrayTex";
  castleTex ← textureResource st "castleTex";
  dirtTex ← textureResource st "dirtTex";
  windowTex ← textureResource st "windowTex";
  castle2Tex ← textureResource st "castle2Tex";
  heap ← CreateShaderResourceView grassTex TEXTURE2D hDescriptor heap;
  (* next descriptor *)
  let hDescriptor := (hDescriptor + 1)%nat in
  heap ← CreateShaderResourceView waterTex TEXTURE2D hDescriptor heap;
  let hDescriptor := (hDescriptor + 1)%nat in
  heap ← CreateShaderResourceView fenceTex TEXTURE2D hDescriptor heap;
  let hDescriptor := (hDescriptor + 1)%nat in
  heap ← CreateShaderResourceView castleTex TEXTURE2D hDescriptor heap;
  let hDescriptor := (hDescriptor + 1)%nat in
  heap ← CreateShaderResourceView dirtTex TEXTURE2D hDescriptor heap;
  let hDescriptor := (hDescriptor + 1)%nat in
  heap ← CreateShaderResourceView windowTex TEXTURE2D hDescriptor heap;
  let hDescriptor := (hDescriptor + 1)%nat in
  heap ← CreateShaderResourceView castle2Tex TEXTURE2D hDescriptor heap;
  let hDescriptor := (hDescriptor + 1)%nat in
  CreateShaderResourceView treeArrayTex TEXTURE2DARRAY hDescriptor heap.

Definition BuildDescriptorHeaps (dev : InitDevice) (st : State) : Outcome State :=
  _ ← ThrowIfFailed (hrCreateDescriptorHeap dev);
  heap ← fillDescriptorHeap st (CreateDescriptorHeap srvHeapDesc_NumDescriptors);
  mret (set_mSrvDescriptorHeap (Some heap) st).

(** *** The geometries *)

(** [GeometryGenerator::Vertex] and [GeometryGenerator::MeshData]. *)
Record GVertex := mkGVertex {
  gv_Position : XMFLOAT3;
  gv_Normal : XMFLOAT3;
  gv_TangentU : XMFLOAT3;
  gv_TexC : XMFLOAT2
}.

Record MeshData := mkMeshData { Vertices : list GVertex; Indices32 : list Z }.

(** [MeshData::GetIndices16]: every index converted to 16 bits. *)
Definition GetIndices16 (mesh : MeshData) : list Z :=
  (fun i => i mod 2 ^ 16) <$> Indices32 mesh.

(** [Common/GeometryGenerator.h] is not part of the sources: the meshes it
    produces are those of an instance of this interface. *)
Class GeometryGenerator : Type := {
  CreateGrid : Q -> Q -> Z -> Z -> MeshData;
  CreateBox : Q -> Q -> Q -> Z -> MeshData;
  CreatePyramid : Q -> Q -> Q -> Z -> MeshData;
  CreateCylinder : Q -> Q -> Q -> Z -> Z -> MeshData;
  CreateWedge : Q -> Q -> Q -> Z -> MeshData;
  CreateDiamond : Q -> Q -> Q -> Z -> MeshData
}.

Definition sizeof_Vertex : Z := 32.
Definition sizeof_TreeSpriteVertex : Z := 20.
Definition sizeof_uint16_t : Z := 2.

(** The loop that copies the vertices of a generated mesh; [adjust] is what
    the loop does to a position after copying it. *)
Definition copyVertices (adjust : XMFLOAT3 -> XMFLOAT3) (mesh : MeshData) : list Vertex :=
  (fun v => mkVertex (adjust (gv_Position v)) (gv_Normal v) (gv_TexC v)) <$> Vertices mesh.

(** [mGeometries[name] = std::move(geo)]. *)
Definition storeGeometry (geo : MeshGeometry) (st : State) : State :=
  set_mGeometries (<[geo_Name geo := Some geo]> (mGeometries st)) st.

(** The body shared by the eight functions that build a geometry from a
    generated mesh.  [d3dUtil::CreateDefaultBuffer] is not part of the
    sources: it is taken to return the buffer it creates. *)
Definition buildGeometry (dev : InitDevice) (name key : string)
    (adjust : XMFLOAT3 -> XMFLOAT3) (mesh : MeshData) (st : State) : Outcome State :=
  let vertices := copyVertices adjust mesh in
  let vbByteSize := UINT_wrap (Z.of_nat (length vertices) * sizeof_Vertex) in
  let indices := GetIndices16 mesh in
  let ibByteSize := UINT_wrap (Z.of_nat (length indices) * sizeof_uint16_t) in
  _ ← ThrowIfFailed (hrD3DCreateBlob dev);
  _ ← ThrowIfFailed (hrD3DCreateBlob dev);
  let submesh := mkSubmesh (UINT_wrap (Z.of_nat (length indices))) 0 0 in
  let geo := mkMeshGeometry name (length vertices) indices
                            (Some (VertexBufferOf name)) (Some (IndexBufferOf name))
                            sizeof_Vertex vbByteSize ibByteSize
                            (<[key := submesh]> ∅) in
  mret (storeGeometry geo st).

Definition keep (p : XMFLOAT3) : XMFLOAT3 := p.

Section Geometries.
Context {GG : GeometryGenerator}.

Definition BuildLandGeometry (dev : InitDevice) : State -> Outcome State :=
  buildGeometry dev "landGeo" "grid"
    (fun p => mkFloat3 (x3 p) (y3 p + 0.1)%Q (z3 p)) (CreateGrid 80.0 80.0 50 50).

Definition BuildUnderLandGeometry (dev : InitDevice) : State -> Outcome State :=
  buildGeometry dev "landUGeo" "grid"
    (fun p => mkFloat3 (x3 p) (y3 p - 0.51)%Q (z3 p)) (CreateGrid 128.0 128.0 50 50).

Definition BuildBoxGeometry (dev : InitDevice) : State -> Outcome State :=
  buildGeometry dev "boxGeo" "box" keep (CreateBox 1.0 1.0 1.0 0).

Definition BuildPyramidGeometry (dev : InitDevice) : State -> Outcome State :=
  buildGeometry dev "pyramidGeo" "pyramid" keep (CreatePyramid 1.0 1.0 1.0 0).

Definition BuildCylinderGeometry (dev : InitDevice) : State -> Outcome State :=
  buildGeometry dev "cylinderGeo" "cylinder" keep (CreateCylinder 0.5 0.3 3.0 20 20).

Definition BuildConeGeometry (dev : InitDevice) : State -> Outcome State :=
  buildGeometry dev "coneGeo" "cone" keep (CreateCylinder 0.5 0.0 3.0 20 20).

Definition BuildWedgeGeometry (dev : InitDevice) : State -> Outcome State :=
  buildGeometry dev "wedgeGeo" "wedge" keep (CreateWedge 1.0 1.0 1.0 0).

Definition BuildDiamondGeometry (dev : InitDevice) : State -> Outcome State :=
  buildGeometry dev "diamondGeo" "diamond" keep (CreateDiamond 1.0 1.0 1.0 0).

End Geometries.

(** The part of [BuildWavesGeometry] after the quad loop: the geometry of
    the wave grid, whose vertex buffer is set dynamically
    ([geo->VertexBufferGPU = nullptr]). *)
Definition BuildWavesGeometry_geo {WA : WavesAPI} (dev : InitDevice) (w : Waves) (st : State)
  : Outcome State :=
  b ← BuildWavesGeometry w;
  let vbByteSize := UINT_wrap (VertexCount w * sizeof_Vertex) in
  let ibByteSize := UINT_wrap (Z.of_nat (length (indices b)) * sizeof_uint16_t) in
  _ ← ThrowIfFailed (hrD3DCreateBlob dev);
  let submesh := mkSubmesh (UINT_wrap (Z.of_nat (length (indices b)))) 0 0 in
  let geo := mkMeshGeometry "waterGeo" 0 (indices b)
                            None (Some (IndexBufferOf "waterGeo"))
                            sizeof_Vertex vbByteSize ibByteSize
                            (<["grid"%string := submesh]> ∅) in
  mret (storeGeometry geo st).

(** *** [BuildTreeSpritesGeometry] *)

Record TreeSpriteVertex := mkTreeSpriteVertex { ts_Pos : XMFLOAT3; ts_Size : XMFLOAT2 }.

Definition treeCount : nat := 9.

(** The body of [for (UINT i = 0; i < treeCount; ++i)]. *)
Definition treeSpriteVertex (i : nat) : TreeSpriteVertex :=
  (let x := 0.0 in
   let z := 0.0 in
   let y := 8.0 in
   let '(x, z) :=
     if (i =? 0)%nat then (6.0, -30.0)
     else if (i =? 1)%nat then (6.0, -22.0)
     else if (i =? 2)%nat then (6.0, -14.0)
     else if (i =? 3)%nat then (-6.0, -30.0)
     else if (i =? 4)%nat then (-6.0, -22.0)
     else if (i =? 5)%nat then (-6.0, -14.0)
     else if (i =? 6)%nat then (0.0, 12.0)
     else if (i =? 7)%nat then (10.0, 12.0)
     else if (i =? 8)%nat then (-10.0, 12.0)
     else (x, z) in
   mkTreeSpriteVertex (mkFloat3 x y z) (mkFloat2 15.0 15.0))%Q.

Definition treeSpriteVertices : list TreeSpriteVertex := treeSpriteVertex <$> seq 0 treeCount.

(** [std::array<T, N> a = { ... }]: the elements without an initialiser are
    value-initialised. *)
Definition std_array {T} (N : nat) (zero : T) (init : list T) : list T :=
  take N (init ++ replicate (N - length init) zero).

Definition treeSpriteIndices : list Z := std_array 16 0 [0; 1; 2; 3; 4; 5; 6; 7; 8].

Definition BuildTreeSpritesGeometry (dev : InitDevice) (st : State) : Outcome State :=
  let vertices := treeSpriteVertices in
  let indices := treeSpriteIndices in
  let vbByteSize := UINT_wrap (Z.of_nat (length vertices) * sizeof_TreeSpriteVertex) in
  let ibByteSize := UINT_wrap (Z.of_nat (length indices) * sizeof_uint16_t) in
  _ ← ThrowIfFailed (hrD3DCreateBlob dev);
  _ ← ThrowIfFailed (hrD3DCreateBlob dev);
  let submesh := mkSubmesh (UINT_wrap (Z.of_nat (length indices))) 0 0 in
  let geo := mkMeshGeometry "treeSpritesGeo" (length vertices) indices
                            (Some (VertexBufferOf "treeSpritesGeo"))
                            (Some (IndexBufferOf "treeSpritesGeo"))
                            sizeof_TreeSpriteVertex
                            vbByteSize ibByteSize (<["points"%string := submesh]> ∅) in
  mret (storeGeometry geo st).

(** *** [BuildMaterials] *)

Definition newMaterial (name : string) (matCBIndex : nat) (diffuseSrvHeapIndex : Z)
    (diffuseAlbedo : XMFLOAT4) (fresnelR0 : XMFLOAT3) (roughness : Q) : MaterialEntry :=
  mkMaterialEntry
    (mkMaterial matCBIndex diffuseAlbedo fresnelR0 roughness Identity4x4 gNumFrameResources)
    name diffuseSrvHeapIndex.

(** [mMaterials[name] = std::move(m)]. *)
Definition storeMaterial (key : string) (m : MaterialEntry) (st : State) : State :=
  set_mMaterials (<[key := Some m]> (mMaterials st)) st.

Definition BuildMaterials (st : State) : State :=
  let grass := newMaterial "grass" 0 0 (mkFloat4 1.0 1.0 1.0 1.0)%Q (mkFloat3 0.01 0.01 0.01)%Q 0.125%Q in
  let water := newMaterial "water" 1 1 (mkFloat4 1.0 1.0 1.0 0.5)%Q (mkFloat3 0.1 0.1 0.1)%Q 0.0%Q in
  let wirefence :=
    newMaterial "wirefence" 2 2 (mkFloat4 1.0 1.0 1.0 1.0)%Q (mkFloat3 0.02 0.02 0.02)%Q 0.25%Q in
  (* Walls *)
  let castle := newMaterial "castle" 3 3 (mkFloat4 1.0 1.0 1.0 1.0)%Q (mkFloat3 0.02 0.02 0.02)%Q 0.25%Q in
  let dirt := newMaterial "dirt" 4 4 (mkFloat4 1.0 1.0 1.0 1.0)%Q (mkFloat3 0.02 0.02 0.02)%Q 0.25%Q in
  let window := newMaterial "window" 5 5 (mkFloat4 1.0 1.0 1.0 1.0)%Q (mkFloat3 0.02 0.02 0.02)%Q 0.25%Q in
  (* Castle *)
  let castle2 :=
    newMaterial "castle2" 6 6 (mkFloat4 1.0 1.0 1.0 1.0)%Q (mkFloat3 0.02 0.02 0.02)%Q 0.25%Q in
  (* last *)
  let treeSprites :=
    newMaterial "treeSprites" 7 7 (mkFloat4 1.0 1.0 1.0 1.0)%Q (mkFloat3 0.01 0.01 0.01)%Q 0.125%Q in
  let st := storeMaterial "grass" grass st in
  let st := storeMaterial "water" water st in
  let st := storeMaterial "wirefence" wirefence st in
  let st := storeMaterial "treeSprites" treeSprites st in
  let st := storeMaterial "castle" castle st in
  let st := storeMaterial "dirt" dirt st in
  let st := storeMaterial "window" window st in
  storeMaterial "castle2" castle2 st.

(** *** [BuildRenderItems] *)

(** One block of [BuildRenderItems]: the variable it declares and what it
    assigns.  [d_TexTransform] is [None] where the block leaves the default. *)
Record Decl := mkDecl {
  d_var : string;
  d_World : option XMFLOAT4X4;
  d_TexTransform : option XMFLOAT4X4;
  d_ObjCBIndex : nat;
  d_Mat : string;
  d_Geo : string;
  d_DrawArgs : string;
  d_PrimitiveType : D3D_PRIMITIVE_TOPOLOGY;
  d_Layer : RenderLayer;
  d_mWavesRitem : bool
}.

Definition BuildRenderItems_blocks : list Decl := [
  mkDecl "gridRitem" (Some Identity4x4)
    (Some (XMMatrixMultiply (XMMatrixScaling 0.5 0.5 2.0) (XMMatrixTranslation 0.0 6.0 0.0)))
    0 "grass" "landGeo" "grid" TRIANGLELIST Opaque false;
  mkDecl "boxRitem" (Some (XMMatrixMultiply (XMMatrixScaling 10.0 12.0 10.0) (XMMatrixTranslation 0.0 6.0 0.0)))
    None
    1 "castle2" "boxGeo" "box" TRIANGLELIST Opaque false;
  mkDecl "cylRitem" (Some (XMMatrixMultiply (XMMatrixScaling 6.0 5.0 6.0) (XMMatrixTranslation (-6.0) 7.5 (-5.0))))
    None
    2 "castle2" "cylinderGeo" "cylinder" TRIANGLELIST Opaque false;
  mkDecl "cyl2Ritem" (Some (XMMatrixMultiply (XMMatrixScaling 6.0 5.0 6.0) (XMMatrixTranslation 6.0 7.5 (-5.0))))
    None
    3 "castle2" "cylinderGeo" "cylinder" TRIANGLELIST Opaque false;
  mkDecl "cyl3Ritem" (Some (XMMatrixMultiply (XMMatrixScaling 6.0 5.0 6.0) (XMMatrixTranslation (-6.0) 7.5 5.0)))
    None
    4 "castle2" "cylinderGeo" "cylinder" TRIANGLELIST Opaque false;
  mkDecl "cyl4Ritem" (Some (XMMatrixMultiply (XMMatrixScaling 6.0 5.0 6.0) (XMMatrixTranslation 6.0 7.5 5.0)))
    None
    5 "castle2" "cylinderGeo" "cylinder" TRIANGLELIST Opaque false;
  mkDecl "pyrRitem" (Some (XMMatrixMultiply (XMMatrixScaling 1.0 1.0 1.0) (XMMatrixTranslation (-3.0) 12.5 (-4.5))))
    None
    6 "wirefence" "pyramidGeo" "pyramid" TRIANGLELIST Opaque false;
  mkDecl "pyr2Ritem" (Some (XMMatrixMultiply (XMMatrixScaling 1.0 1.0 1.0) (XMMatrixTranslation (-1.5) 12.5 (-4.5))))
    None
    7 "wirefence" "pyramidGeo" "pyramid" TRIANGLELIST Opaque false;
  mkDecl "pyr3Ritem" (Some (XMMatrixMultiply (XMMatrixScaling 1.0 1.0 1.0) (XMMatrixTranslation 0.0 12.5 (-4.5))))
    None
    8 "wirefence" "pyramidGeo" "pyramid" TRIANGLELIST Opaque false;
  mkDecl "pyr4Ritem" (Some (XMMatrixMultiply (XMMatrixScaling 1.0 1.0 1.0) (XMMatrixTranslation 1.5 12.5 (-4.5))))
    None
    9 "wirefence" "pyramidGeo" "pyramid" TRIANGLELIST Opaque false;
  mkDecl "pyr5Ritem" (Some (XMMatrixMultiply (XMMatrixScaling 1.0 1.0 1.0) (XMMatrixTranslation 3.0 12.5 (-4.5))))
    None
    10 "wirefence" "pyramidGeo" "pyramid" TRIANGLELIST Opaque false;
  mkDecl "pyr6Ritem" (Some (XMMatrixMultiply (XMMatrixScaling 1.0 1.0 1.0) (XMMatrixTranslation (-4.5) 12.5 (-1.5))))
    None
    11 "wirefence" "pyramidGeo" "pyramid" TRIANGLELIST Opaque false;
  mkDecl "pyr7Ritem" (Some (XMMatrixMultiply (XMMatrixScaling 1.0 1.0 1.0) (XMMatrixTranslation (-4.5) 12.5 0.0)))
    None
    12 "wirefence" "pyramidGeo" "pyramid" TRIANGLELIST Opaque false;
  mkDecl "pyr8Ritem" (Some (XMMatrixMultiply (XMMatrixScaling 1.0 1.0 1.0) (XMMatrixTranslation (-4.5) 12.5 1.5)))
    None
    13 "wirefence" "pyramidGeo" "pyramid" TRIANGLELIST Opaque false;
  mkDecl "pyr9Ritem" (Some (XMMatrixMultiply (XMMatrixScaling 1.0 1.0 1.0) (XMMatrixTranslation (-3.0) 12.5 4.5)))
    None
    14 "wirefence" "pyramidGeo" "pyramid" TRIANGLELIST Opaque false;
  mkDecl "pyr10Ritem" (Some (XMMatrixMultiply (XMMatrixScaling 1.0 1.0 1.0) (XMMatrixTranslation (-1.5) 12.5 4.5)))
    None
    15 "wirefence" "pyramidGeo" "pyramid" TRIANGLELIST Opaque false;
  mkDecl "pyr11Ritem" (Some (XMMatrixMultiply (XMMatrixScaling 1.0 1.0 1.0) (XMMatrixTranslation 0.0 12.5 4.5)))
    None
    16 "wirefence" "pyramidGeo" "pyramid" TRIANGLELIST Opaque false;
  mkDecl "pyr12Ritem" (Some (XMMatrixMultiply (XMMatrixScaling 1.0 1.0 1.0) (XMMatrixTranslation 1.5 12.5 4.5)))
    None
    17 "wirefence" "pyramidGeo" "pyramid" TRIANGLELIST Opaque false;
  mkDecl "pyr13Ritem" (Some (XMMatrixMultiply (XMMatrixScaling 1.0 1.0 1.0) (XMMatrixTranslation 3.0 12.5 4.5)))
    None
    18 "wirefence" "pyramidGeo" "pyramid" TRIANGLELIST Opaque false;
  mkDecl "pyr14Ritem" (Some (XMMatrixMultiply (XMMatrixScaling 1.0 1.0 1.0) (XMMatrixTranslation 4.5 12.5 (-1.5))))
    None
    19 "wirefence" "pyramidGeo" "pyramid" TRIANGLELIST Opaque false;
  mkDecl "pyr15Ritem" (Some (XMMatrixMultiply (XMMatrixScaling 1.0 1.0 1.0) (XMMatrixTranslation 4.5 12.5 0.0)))
    None
    20 "wirefence" "pyramidGeo" "pyramid" TRIANGLELIST Opaque false;
  mkDecl "pyr16Ritem" (Some (XMMatrixMultiply (XMMatrixScaling 1.0 1.0 1.0) (XMMatrixTranslation 4.5 12.5 1.5)))
    None
    21 "wirefence" "pyramidGeo" "pyramid" TRIANGLELIST Opaque false;
  mkDecl "wedgeRitem" (Some (XMMatrixMultiply (XMMatrixScaling 0.5 5.0 6.0) (XMMatrixTranslation (-3.0) 2.5 (-8.0))))
    None
    22 "wirefence" "wedgeGeo" "wedge" TRIANGLELIST Opaque false;
  mkDecl "wedge1Ritem" (Some (XMMatrixMultiply (XMMatrixScaling 0.5 5.0 6.0) (XMMatrixTranslation 3.0 2.5 (-8.0))))
    None
    23 "wirefence" "wedgeGeo" "wedge" TRIANGLELIST Opaque false;
  mkDecl "bridgeBoxRitem" (Some (XMMatrixMultiply (XMMatrixScaling 6.0 0.5 6.0) (XMMatrixTranslation 0.0 0.0 (-8.0))))
    None
    24 "castle" "boxGeo" "box" TRIANGLELIST Opaque false;
  mkDecl "diamondRitem" (Some (XMMatrixMultiply (XMMatrixScaling 1.0 1.0 0.5) (XMMatrixTranslation 0.0 11.0 (-5.0))))
    None
    25 "water" "diamondGeo" "diamond" TRIANGLELIST Opaque false;
  mkDecl "wavesRitem" (Some Identity4x4)
    (Some (XMMatrixScaling 1.0 1.0 1.0))
    26 "water" "waterGeo" "grid" TRIANGLELIST Transparent true;
  mkDecl "gridURitem" (Some Identity4x4)
    (Some (XMMatrixMultiply (XMMatrixScaling 0.5 0.5 2.0) (XMMatrixTranslation 0.0 6.0 0.0)))
    28 "dirt" "landUGeo" "grid" TRIANGLELIST Opaque false;
  mkDecl "windowFLitem" (Some (XMMatrixMultiply (XMMatrixScaling 2.5 2.0 0.5) (XMMatrixTranslation (-2.0) 9.0 (-4.8))))
    None
    29 "window" "boxGeo" "box" TRIANGLELIST Opaque false;
  mkDecl "windowFRitem" (Some (XMMatrixMultiply (XMMatrixScaling 2.5 2.0 0.5) (XMMatrixTranslation 2.0 9.0 (-4.8))))
    None
    30 "window" "boxGeo" "box" TRIANGLELIST Opaque false;
  mkDecl "doorRitem" (Some (XMMatrixMultiply (XMMatrixScaling 5.5 5.0 0.5) (XMMatrixTranslation 0.0 2.5 (-4.8))))
    None
    31 "window" "boxGeo" "box" TRIANGLELIST Opaque false;
  mkDecl "dirtRoadRitem" (Some (XMMatrixMultiply (XMMatrixScaling 6.0 0.3 35.0) (XMMatrixTranslation 0.0 0.0 (-22.5))))
    None
    32 "dirt" "boxGeo" "box" TRIANGLELIST Opaque false;
  mkDecl "cone1Ritem" (Some (XMMatrixMultiply (XMMatrixScaling 5.0 1.0 5.0) (XMMatrixTranslation (-6.0) 16.5 (-5.0))))
    None
    33 "wirefence" "coneGeo" "cone" TRIANGLELIST Opaque false;
  mkDecl "cone2Ritem" (Some (XMMatrixMultiply (XMMatrixScaling 5.0 1.0 5.0) (XMMatrixTranslation 6.0 16.5 (-5.0))))
    None
    34 "wirefence" "coneGeo" "cone" TRIANGLELIST Opaque false;
  mkDecl "cone3Ritem" (Some (XMMatrixMultiply (XMMatrixScaling 5.0 1.0 5.0) (XMMatrixTranslation (-6.0) 16.5 5.0)))
    None
    35 "wirefence" "coneGeo" "cone" TRIANGLELIST Opaque false;
  mkDecl "cone4Ritem" (Some (XMMatrixMultiply (XMMatrixScaling 5.0 1.0 5.0) (XMMatrixTranslation 6.0 16.5 5.0)))
    None
    36 "wirefence" "coneGeo" "cone" TRIANGLELIST Opaque false;
  mkDecl "bridgeBigRitem" (Some (XMMatrixMultiply (XMMatrixScaling 10.0 0.5 30.0) (XMMatrixTranslation 0.0 0.0 (-49.0))))
    None
    37 "castle" "boxGeo" "box" TRIANGLELIST Opaque false;
  mkDecl "cylGateLRitem" (Some (XMMatrixMultiply (XMMatrixScaling 6.0 4.0 6.0) (XMMatrixTranslation (-6.0) 6.0 (-37.0))))
    None
    38 "castle" "cylinderGeo" "cylinder" TRIANGLELIST Opaque false;
  mkDecl "cylGateRRitem" (Some (XMMatrixMultiply (XMMatrixScaling 6.0 4.0 6.0) (XMMatrixTranslation 6.0 6.0 (-37.0))))
    None
    39 "castle" "cylinderGeo" "cylinder" TRIANGLELIST Opaque false;
  mkDecl "cylGateWLRitem" (Some (XMMatrixMultiply (XMMatrixScaling 6.0 4.0 6.0) (XMMatrixTranslation (-18.0) 6.0 (-37.0))))
    None
    40 "castle" "cylinderGeo" "cylinder" TRIANGLELIST Opaque false;
  mkDecl "cylGateRWRitem" (Some (XMMatrixMultiply (XMMatrixScaling 6.0 4.0 6.0) (XMMatrixTranslation 18.0 6.0 (-37.0))))
    None
    41 "castle" "cylinderGeo" "cylinder" TRIANGLELIST Opaque false;
  mkDecl "cylGateWLBRitem" (Some (XMMatrixMultiply (XMMatrixScaling 6.0 4.0 6.0) (XMMatrixTranslation (-18.0) 6.0 20.0)))
    None
    42 "castle" "cylinderGeo" "cylinder" TRIANGLELIST Opaque false;
  mkDecl "cylGateRWBRitem" (Some (XMMatrixMultiply (XMMatrixScaling 6.0 4.0 6.0) (XMMatrixTranslation 18.0 6.0 20.0)))
    None
    43 "castle" "cylinderGeo" "cylinder" TRIANGLELIST Opaque false;
  mkDecl "outerWallFrontTopRitem" (Some (XMMatrixMultiply (XMMatrixScaling 10.0 4.0 3.0) (XMMatrixTranslation 0.0 8.0 (-37.0))))
    None
    44 "castle" "boxGeo" "box" TRIANGLELIST Opaque false;
  mkDecl "outerWallFrontBRRitem" (Some (XMMatrixMultiply (XMMatrixScaling 15.0 10.0 3.0) (XMMatrixTranslation 10.0 5.0 (-37.0))))
    None
    45 "castle" "boxGeo" "box" TRIANGLELIST Opaque false;
  mkDecl "outerWallFrontBLRitem" (Some (XMMatrixMultiply (XMMatrixScaling 15.0 10.0 3.0) (XMMatrixTranslation (-10.0) 5.0 (-37.0))))
    None
    46 "castle" "boxGeo" "box" TRIANGLELIST Opaque false;
  mkDecl "outerWallBackRitem" (Some (XMMatrixMultiply (XMMatrixScaling 36.0 10.0 3.0) (XMMatrixTranslation 0.0 5.0 20.0)))
    None
    47 "castle" "boxGeo" "box" TRIANGLELIST Opaque false;
  mkDecl "outerWallRightRitem" (Some (XMMatrixMultiply (XMMatrixScaling 3.0 10.0 57.0) (XMMatrixTranslation 18.0 5.0 (-10.0))))
    None
    48 "castle" "boxGeo" "box" TRIANGLELIST Opaque false;
  mkDecl "outerWallLeftRitem" (Some (XMMatrixMultiply (XMMatrixScaling 3.0 10.0 57.0) (XMMatrixTranslation (-18.0) 5.0 (-10.0))))
    None
    49 "castle" "boxGeo" "box" TRIANGLELIST Opaque false;
  mkDecl "bridgeBigRightRitem" (Some (XMMatrixMultiply (XMMatrixScaling 1.0 2.0 30.0) (XMMatrixTranslation 4.5 1.0 (-49.0))))
    None
    50 "castle" "boxGeo" "box" TRIANGLELIST Opaque false;
  mkDecl "bridgeBigLeftRitem" (Some (XMMatrixMultiply (XMMatrixScaling 1.0 2.0 30.0) (XMMatrixTranslation (-4.5) 1.0 (-49.0))))
    None
    51 "castle" "boxGeo" "box" TRIANGLELIST Opaque false;
  mkDecl "treeSpritesRitem" (Some Identity4x4)
    None
    52 "treeSprites" "treeSpritesGeo" "points" POINTLIST AlphaTestedTreeSprites false
]%Q.

(** [mRitemLayer[(int)layer].push_back(p)]. *)
Definition pushLayer (l : RenderLayer) (p : nat) (layers : list (list nat)) : list (list nat) :=
  alter (fun ps => ps ++ [p]) (layerIndex l) layers.

(** One block: [std::make_unique<RenderItem>()], the assignments (the three
    draw arguments are read through [Geo], a null pointer there is
    dereferenced), the registration in the layer and in [mAllRitems]. *)
Definition addRenderItem (d : Decl) (st : State) : Outcome State :=
  let world := default Identity4x4 (d_World d) in
  let texTransform := default Identity4x4 (d_TexTransform d) in
  let '(mat, materials) := subscript (d_Mat d) (mMaterials st) in
  let st := set_mMaterials materials st in
  let '(geo, geometries) := subscript (d_Geo d) (mGeometries st) in
  let st := set_mGeometries geometries st in
  g ← ofOption geo;
  let '(submesh, drawArgs) := subscriptValue SubmeshGeometry_default (d_DrawArgs d) (DrawArgs g) in
  let g := set_DrawArgs drawArgs g in
  let st := set_mGeometries (<[d_Geo d := Some g]> (mGeometries st)) st in
  let item :=
    mkRenderItemEntry
      (mkRenderItem world texTransform gNumFrameResources (d_ObjCBIndex d))
      (get (d_Mat d) mat) (get (d_Geo d) geo) (d_PrimitiveType d)
      (IndexCount submesh) (StartIndexLocation submesh) (BaseVertexLocation submesh) in
  let p := length (mAllRitems st) in
  let st := if d_mWavesRitem d then set_mWavesRitem (Some p) st else st in
  let st := set_mRitemLayer (pushLayer (d_Layer d) p (mRitemLayer st)) st in
  mret (set_mAllRitems (mAllRitems st ++ [item]) st).

Definition BuildRenderItems (st : State) : Outcome State :=
  forEach addRenderItem BuildRenderItems_blocks st.

(** *** [BuildFrameResources] and the calls of [Initialize] *)

Section FrameResources.
Context {WA : WavesAPI} {CA : CameraAPI} {GG : GeometryGenerator}.

(** Modelled from the spec: the constructor of the absent class
    [FrameResource] creates the four upload buffers of a frame slot with the
    element counts it is given; the slot was never submitted ([Fence] is 0).
    The elements hold [fill] until they are first written. *)
Definition newFrameResource (fill : PassConstants * ObjectConstants * MaterialConstants * Vertex)
    (passCount objectCount materialCount waveVertCount : nat) : FrameResource :=
  mkFrameResource (UploadBuffer.create passCount fill.1.1.1)
                  (UploadBuffer.create objectCount fill.1.1.2)
                  (UploadBuffer.create materialCount fill.1.2)
                  (UploadBuffer.create waveVertCount fill.2)
                  0.

(** [BuildFrameResources]: [gNumFrameResources] frame resources, each sized
    by [mAllRitems.size()], [mMaterials.size()] and [mWaves->VertexCount()]. *)
Definition BuildFrameResources fill (w : Waves) (st : State) : list FrameResource :=
  replicate (Z.to_nat gNumFrameResources)
    (newFrameResource fill 1 (length (mAllRitems st)) (size (mMaterials st))
                      (Z.to_nat (VertexCount w))).

(** The calls of [Initialize] that assemble the geometries, the materials
    and the render items, in its order. *)
Definition Initialize_scene (dev : InitDevice) (w : Waves) (st : State) : Outcome State :=
  st ← BuildLandGeometry dev st;
  st ← BuildUnderLandGeometry dev st;
  st ← BuildWavesGeometry_geo dev w st;
  st ← BuildBoxGeometry dev st;
  st ← BuildPyramidGeometry dev st;
  st ← BuildCylinderGeometry dev st;
  st ← BuildConeGeometry dev st;
  st ← BuildDiamondGeometry dev st;
  st ← BuildWedgeGeometry dev st;
  st ← BuildTreeSpritesGeometry dev st;
  let st := BuildMaterials st in
  BuildRenderItems st.

(** The calls of [Initialize] up to [BuildFrameResources], in its order;
    [BuildRootSignature], [BuildShadersAndInputLayouts] and [BuildPSOs] create
    device objects only and are left out. *)
Definition Initialize_build (dev : InitDevice) fill (w : Waves) (st : State)
  : Outcome (State * list FrameResource) :=
  st ← LoadTextures dev st;
  st ← BuildDescriptorHeaps dev st;
  st ← Initialize_scene dev w st;
  mret (st, BuildFrameResources fill w st).

(** The state of the frame loop when the first frame starts: the render
    items and the materials as built, the ring of [BuildFrameResources]. *)
Definition frameLoopState fill (w : Waves) (cam : Camera) (pass : PassConstants) (fence0 : Z)
    (st : State) : App :=
  mkApp (BuildFrameResources fill w st) None 0 fence0 0
        (re_frame <$> mAllRitems st)
        (me_frame <$> omap id (mMaterials st))
        w None cam pass 0 [].

End FrameResources.

(** *** The commands [Draw] records *)

Inductive D3D12_RESOURCE_STATES := PRESENT | RENDER_TARGET.

(** The calls on [mCommandList] between [Reset] and [Close], with the
    arguments that vary. *)
Inductive Command :=
| Reset (pInitialState : string)
| RSSetViewports
| RSSetScissorRects
| ResourceBarrier (StateBefore StateAfter : D3D12_RESOURCE_STATES)
| ClearRenderTargetView
| ClearDepthStencilView
| OMSetRenderTargets
| SetDescriptorHeaps
| SetGraphicsRootSignature
| SetGraphicsRootConstantBufferView (RootParameterIndex : Z) (BufferLocation : Z)
| SetPipelineState (pso : string)
| IASetVertexBuffers (buffer : GpuResource)
| IASetIndexBuffer (buffer : GpuResource)
| IASetPrimitiveTopology (topology : D3D_PRIMITIVE_TOPOLOGY)
| SetGraphicsRootDescriptorTable (RootParameterIndex : Z) (BaseDescriptor : Z)
| DrawIndexedInstanced (IndexCountPerInstance InstanceCount StartIndexLocation
                        BaseVertexLocation StartInstanceLocation : Z)
| Close.

(** The addresses and sizes [Draw] reads from the device and from
    [d3dUtil::CalcConstantBufferByteSize]: the GPU virtual addresses of the
    three constant buffers of each slot, the start of the descriptor heap,
    the increment of a descriptor, the byte sizes of an object and of a
    material constant-buffer element. *)
Record Gpu := mkGpu {
  ObjectCB_address : nat -> Z;
  MaterialCB_address : nat -> Z;
  PassCB_address : nat -> Z;
  SrvHeapStart : Z;
  mCbvSrvDescriptorSize : Z;
  objCBByteSize : Z;
  matCBByteSize : Z
}.

(** The last statement of [UpdateWaves]:
    [mWavesRitem->Geo->VertexBufferGPU = currWavesVB->Resource()], for the
    frame resource [slot]. *)
Definition bindWavesVertexBuffer (slot : nat) (st : State) : Outcome State :=
  p ← ofOption (mWavesRitem st);
  ri ← ofOption (mAllRitems st !! p);
  geo ← ofOption (Geo ri);
  g ← ofOption (mGeometries st !! geo ≫= id);
  mret (set_mGeometries
          (<[geo := Some (set_VertexBufferGPU (Some (WavesVBOf slot)) g)]> (mGeometries st)) st).

(** The body of the loop of [DrawRenderItems] for the render item at
    position [p] of [mAllRitems], within the frame resource [slot].  The
    pointers it goes through, in its order: the render item, its geometry,
    the vertex and the index buffer of the geometry ([VertexBufferView] and
    [IndexBufferView] of [d3dUtil.h] read the GPU address of the buffer),
    the descriptor heap, the material. *)
Definition drawRenderItem (gpu : Gpu) (slot : nat) (st : State) (p : nat)
    (cmdList : list Command) : Outcome (list Command) :=
  ri ← ofOption (mAllRitems st !! p);
  geo ← ofOption (Geo ri);
  g ← ofOption (mGeometries st !! geo ≫= id);
  vertexBuffer ← ofOption (VertexBufferGPU g);
  indexBuffer ← ofOption (IndexBufferGPU g);
  _ ← ofOption (mSrvDescriptorHeap st);
  mat ← ofOption (Mat ri);
  m ← ofOption (mMaterials st !! mat ≫= id);
  let tex := UINT64_wrap (SrvHeapStart gpu + DiffuseSrvHeapIndex m * mCbvSrvDescriptorSize gpu) in
  let objCBAddress :=
    UINT64_wrap (ObjectCB_address gpu slot
                 + UINT_wrap (Z.of_nat (ObjCBIndex (re_frame ri)) * objCBByteSize gpu)) in
  let matCBAddress :=
    UINT64_wrap (MaterialCB_address gpu slot
                 + UINT_wrap (Z.of_nat (MatCBIndex (me_frame m)) * matCBByteSize gpu)) in
  mret (cmdList ++
        [ IASetVertexBuffers vertexBuffer;
          IASetIndexBuffer indexBuffer;
          IASetPrimitiveTopology (PrimitiveType ri);
          SetGraphicsRootDescriptorTable 0 tex;
          SetGraphicsRootConstantBufferView 1 objCBAddress;
          SetGraphicsRootConstantBufferView 3 matCBAddress;
          DrawIndexedInstanced (re_IndexCount ri) 1 (re_StartIndexLocation ri)
                               (re_BaseVertexLocation ri) 0 ]).

Definition DrawRenderItems (gpu : Gpu) (slot : nat) (st : State) (ritems : list nat)
    (cmdList : list Command) : Outcome (list Command) :=
  forEach (drawRenderItem gpu slot st) ritems cmdList.

(** [mRitemLayer[(int)layer]]. *)
Definition layer (st : State) (l : RenderLayer) : list nat :=
  default [] (mRitemLayer st !! layerIndex l).

(** The commands of [Draw] for the frame resource [slot], when every call
    wrapped in [ThrowIfFailed] succeeds and [mCurrFrameResource] points at a
    frame resource.  [SetDescriptorHeaps] is handed
    [mSrvDescriptorHeap.Get()]: a null heap there is outside the contract of
    the call. *)
Definition Draw_commands (gpu : Gpu) (slot : nat) (st : State) : Outcome (list Command) :=
  let cmdList :=
    [ Reset "opaque";
      RSSetViewports;
      RSSetScissorRects;
      (* Indicate a state transition on the resource usage. *)
      ResourceBarrier PRESENT RENDER_TARGET;
      (* Clear the back buffer and depth buffer. *)
      ClearRenderTargetView;
      ClearDepthStencilView;
      (* Specify the buffers we are going to render to. *)
      OMSetRenderTargets ] in
  _ ← ofOption (mSrvDescriptorHeap st);
  let cmdList :=
    cmdList ++
    [ SetDescriptorHeaps;
      SetGraphicsRootSignature;
      SetGraphicsRootConstantBufferView 2 (PassCB_address gpu slot) ] in
  cmdList ← DrawRenderItems gpu slot st (layer st Opaque) cmdList;
  let cmdList := cmdList ++ [SetPipelineState "alphaTested"] in
  cmdList ← DrawRenderItems gpu slot st (layer st AlphaTested) cmdList;
  let cmdList := cmdList ++ [SetPipelineState "treeSprites"] in
  cmdList ← DrawRenderItems gpu slot st (layer st AlphaTestedTreeSprites) cmdList;
  let cmdList := cmdList ++ [SetPipelineState "transparent"] in
  cmdList ← DrawRenderItems gpu slot st (layer st Transparent) cmdList;
  (* Indicate a state transition on the resource usage. *)
  let cmdList := cmdList ++ [ResourceBarrier RENDER_TARGET PRESENT] in
  (* Done recording commands. *)
  mret (cmdList ++ [Close]).

(** What is bound when a command executes: the pipeline state, the vertex
    and index buffers, the topology, the descriptor table of root parameter
    0, the constant buffers of root parameters 1, 2 and 3, and the state of
    the back buffer. *)
Record Bound := mkBound {
  b_pso : option string;
  b_vertexBuffer : option GpuResource;
  b_indexBuffer : option GpuResource;
  b_topology : option D3D_PRIMITIVE_TOPOLOGY;
  b_table0 : option Z;
  b_object : option Z;
  b_pass : option Z;
  b_material : option Z;
  b_backBuffer : D3D12_RESOURCE_STATES
}.

Definition unbound : Bound := mkBound None None None None None None None None PRESENT.

Definition bind (c : Command) (b : Bound) : Bound :=
  match c with
  | Reset pso =>
      mkBound (Some pso) None None None None None None None (b_backBuffer b)
  | SetPipelineState pso =>
      mkBound (Some pso) (b_vertexBuffer b) (b_indexBuffer b) (b_topology b) (b_table0 b)
              (b_object b) (b_pass b) (b_material b) (b_backBuffer b)
  | IASetVertexBuffers buffer =>
      mkBound (b_pso b) (Some buffer) (b_indexBuffer b) (b_topology b) (b_table0 b)
              (b_object b) (b_pass b) (b_material b) (b_backBuffer b)
  | IASetIndexBuffer buffer =>
      mkBound (b_pso b) (b_vertexBuffer b) (Some buffer) (b_topology b) (b_table0 b)
              (b_object b) (b_pass b) (b_material b) (b_backBuffer b)
  | IASetPrimitiveTopology t =>
      mkBound (b_pso b) (b_vertexBuffer b) (b_indexBuffer b) (Some t) (b_table0 b)
              (b_object b) (b_pass b) (b_material b) (b_backBuffer b)
  | SetGraphicsRootDescriptorTable 0 h =>
      mkBound (b_pso b) (b_vertexBuffer b) (b_indexBuffer b) (b_topology b) (Some h)
              (b_object b) (b_pass b) (b_material b) (b_backBuffer b)
  | SetGraphicsRootConstantBufferView 1 a =>
      mkBound (b_pso b) (b_vertexBuffer b) (b_indexBuffer b) (b_topology b) (b_table0 b)
              (Some a) (b_pass b) (b_material b) (b_backBuffer b)
  | SetGraphicsRootConstantBufferView 2 a =>
      mkBound (b_pso b) (b_vertexBuffer b) (b_indexBuffer b) (b_topology b) (b_table0 b)
              (b_object b) (Some a) (b_material b) (b_backBuffer b)
  | SetGraphicsRootConstantBufferView 3 a =>
      mkBound (b_pso b) (b_vertexBuffer b) (b_indexBuffer b) (b_topology b) (b_table0 b)
              (b_object b) (b_pass b) (Some a) (b_backBuffer b)
  | ResourceBarrier _ after =>
      mkBound (b_pso b) (b_vertexBuffer b) (b_indexBuffer b) (b_topology b) (b_table0 b)
              (b_object b) (b_pass b) (b_material b) after
  | _ => b
  end.

(** A draw call as the GPU will execute it: what is bound at that point of
    the command list, and the arguments of the call. *)
Record DrawCall := mkDrawCall {
  dc_bound : Bound;
  dc_IndexCount : Z;
  dc_InstanceCount : Z;
  dc_StartIndexLocation : Z;
  dc_BaseVertexLocation : Z;
  dc_StartInstanceLocation : Z
}.

(** The draw calls of a command list executed from the binding [b]. *)
Fixpoint drawCalls (cmds : list Command) (b : Bound) : list DrawCall :=
  match cmds with
  | [] => []
  | DrawIndexedInstanced n i s v t :: rest => mkDrawCall b n i s v t :: drawCalls rest b
  | c :: rest => drawCalls rest (bind c b)
  end.

(** The binding after a command list. *)
Definition bindAll (cmds : list Command) (b : Bound) : Bound := foldl (fun b c => bind c b) b cmds.

(** The draw call [Draw] is meant to issue for a render item of a layer
    whose pipeline state is [pso]. *)
Definition drawCallOf (gpu : Gpu) (slot : nat) (pso : string) (ri : RenderItemEntry)
    (vertexBuffer indexBuffer : GpuResource) (m : MaterialEntry) : DrawCall :=
  mkDrawCall
    (mkBound (Some pso) (Some vertexBuffer) (Some indexBuffer) (Some (PrimitiveType ri))
       (Some (UINT64_wrap (SrvHeapStart gpu + DiffuseSrvHeapIndex m * mCbvSrvDescriptorSize gpu)))
       (Some (UINT64_wrap (ObjectCB_address gpu slot
                + UINT_wrap (Z.of_nat (ObjCBIndex (re_frame ri)) * objCBByteSize gpu))))
       (Some (PassCB_address gpu slot))
       (Some (UINT64_wrap (MaterialCB_address gpu slot
                + UINT_wrap (Z.of_nat (MatCBIndex (me_frame m)) * matCBByteSize gpu))))
       RENDER_TARGET)
    (re_IndexCount ri) 1 (re_StartIndexLocation ri) (re_BaseVertexLocation ri) 0.

(** The render item at a position with the geometry and the material it
    points at, when all three exist. *)
Definition resolve (st : State) (p : nat) : option (RenderItemEntry * string * MaterialEntry) :=
  ri ← mAllRitems st !! p;
  geo ← Geo ri;
  _ ← mGeometries st !! geo ≫= id;
  mat ← Mat ri;
  m ← mMaterials st !! mat ≫= id;
  Some (ri, geo, m).

(** What a draw of the render item at a position goes through: the render
    item, the vertex and the index buffer of its geometry and its material,
    when all of them exist. *)
Definition drawable (st : State) (p : nat)
  : option (RenderItemEntry * GpuResource * GpuResource * MaterialEntry) :=
  ri ← mAllRitems st !! p;
  geo ← Geo ri;
  g ← mGeometries st !! geo ≫= id;
  vertexBuffer ← VertexBufferGPU g;
  indexBuffer ← IndexBufferGPU g;
  mat ← Mat ri;
  m ← mMaterials st !! mat ≫= id;
  Some (ri, vertexBuffer, indexBuffer, m).

(** The layers in the order [Draw] walks them, each with the pipeline state
    in force for it. *)
Definition drawOrder : list (RenderLayer * string) :=
  [ (Opaque, "opaque"); (AlphaTested, "alphaTested");
    (AlphaTestedTreeSprites, "treeSprites"); (Transparent, "transparent") ]%string.

(** The draw calls a frame is meant to consist of. *)
Definition expectedDrawCalls (gpu : Gpu) (slot : nat) (st : State) : list DrawCall :=
  '(l, pso) ← drawOrder;
  p ← layer st l;
  match drawable st p with
  | Some (ri, vertexBuffer, indexBuffer, m) =>
      [drawCallOf gpu slot pso ri vertexBuffer indexBuffer m]
  | None => []
  end.

(** The seven commands of one iteration of [DrawRenderItems]. *)
Definition itemCommands (gpu : Gpu) (slot : nat)
    (r : RenderItemEntry * GpuResource * GpuResource * MaterialEntry) : list Command :=
  let '(ri, vertexBuffer, indexBuffer, m) := r in
  [ IASetVertexBuffers vertexBuffer;
    IASetIndexBuffer indexBuffer;
    IASetPrimitiveTopology (PrimitiveType ri);
    SetGraphicsRootDescriptorTable 0
      (UINT64_wrap (SrvHeapStart gpu + DiffuseSrvHeapIndex m * mCbvSrvDescriptorSize gpu));
    SetGraphicsRootConstantBufferView 1
      (UINT64_wrap (ObjectCB_address gpu slot
                    + UINT_wrap (Z.of_nat (ObjCBIndex (re_frame ri)) * objCBByteSize gpu)));
    SetGraphicsRootConstantBufferView 3
      (UINT64_wrap (MaterialCB_address gpu slot
                    + UINT_wrap (Z.of_nat (MatCBIndex (me_frame m)) * matCBByteSize gpu)));
    DrawIndexedInstanced (re_IndexCount ri) 1 (re_StartIndexLocation ri)
                         (re_BaseVertexLocation ri) 0 ].

(** What the draws of a layer go through; [None] if one of its render items
    cannot be drawn. *)
Definition drawableLayer (st : State) (l : RenderLayer)
  : option (list (RenderItemEntry * GpuResource * GpuResource * MaterialEntry)) :=
  mapM (drawable st) (layer st l).

(** The pipeline state, the pass constants and the state of the back
    buffer, which the commands of a render item leave alone. *)
Definition fixedPart (b : Bound) : option string * option Z * D3D12_RESOURCE_STATES :=
  (b_pso b, b_pass b, b_backBuffer b).

(** The textures of [LoadTextures] are in the map, each under its name. *)
Definition texturesLoaded (st : State) : Prop :=
  forall name file, (name, file) ∈ textureFiles ->
    mTextures st !! name = Some (Some (mkTexture name file)).

(** The views [BuildDescriptorHeaps] creates, in the order of their
    offsets. *)
Definition createdViews : list SRV :=
  [ mkSRV "grassTex" TEXTURE2D; mkSRV "waterTex" TEXTURE2D; mkSRV "fenceTex" TEXTURE2D;
    mkSRV "castleTex" TEXTURE2D; mkSRV "dirtTex" TEXTURE2D; mkSRV "windowTex" TEXTURE2D;
    mkSRV "castle2Tex" TEXTURE2D; mkSRV "treeArrayTex" TEXTURE2DARRAY ]%string.

(** The view [DrawRenderItems] binds for a render item of the material
    [name]: the descriptor at [DiffuseSrvHeapIndex] of the heap as
    [BuildDescriptorHeaps] fills it. *)
Definition boundTexture (st : State) (name : string) : option SRV :=
  m ← mMaterials st !! name ≫= id;
  createdViews !! Z.to_nat (DiffuseSrvHeapIndex m).

Definition materialNames : list string :=
  [ "grass"; "water"; "wirefence"; "castle"; "dirt"; "window"; "castle2"; "treeSprites" ]%string.

(** The positions of the render items registered in the layers. *)
Definition registered (st : State) : list nat := concat (mRitemLayer st).

Section Built.
Context {WA : WavesAPI} {GG : GeometryGenerator}.

(** The scene [Initialize] assembles from the empty application. *)
Definition built (dev : InitDevice) (w : Waves) : State :=
  fromDone empty (Initialize_scene dev w empty).

End Built.

End Scene.

(** ** A generator and a device for examples of the scene *)

Module SceneSample.

#[local] Existing Instance ExactOps.
#[local] Existing Instance Sample.TableWaves.
#[local] Existing Instance Sample.UnitCamera.

(** One triangle, whatever is asked for. *)
Definition triangle : Scene.MeshData :=
  Scene.mkMeshData
    [ Scene.mkGVertex (mkFloat3 0%Q 0%Q 0%Q) Sample.up Sample.up (mkFloat2 0%Q 0%Q);
      Scene.mkGVertex (mkFloat3 1%Q 0%Q 0%Q) Sample.up Sample.up (mkFloat2 1%Q 0%Q);
      Scene.mkGVertex (mkFloat3 0%Q 0%Q 1%Q) Sample.up Sample.up (mkFloat2 0%Q 1%Q) ]
    [0; 1; 2].

#[local] Instance Triangles : Scene.GeometryGenerator := {|
  Scene.CreateGrid := fun _ _ _ _ => triangle;
  Scene.CreateBox := fun _ _ _ _ => triangle;
  Scene.CreatePyramid := fun _ _ _ _ => triangle;
  Scene.CreateCylinder := fun _ _ _ _ _ => triangle;
  Scene.CreateWedge := fun _ _ _ _ => triangle;
  Scene.CreateDiamond := fun _ _ _ _ => triangle
|}.

(** A device on which every call of the initialisation succeeds. *)
Definition device : Scene.InitDevice := Scene.mkInitDevice (fun _ => 0) 0 0.

(** A device on which the water texture fails to load. *)
Definition noWater : Scene.InitDevice :=
  Scene.mkInitDevice
    (fun file =>
       if String.eqb file "../../A2_Sarras_Asper/A2_Sarras_Asper/Textures/water1.dds"
       then -2147024894 else 0)
    0 0.

Definition loaded : Scene.State :=
  fromDone Scene.empty (Scene.LoadTextures device Scene.empty).

(** The scene as [Initialize] assembles it, with the sample wave grid. *)
Definition scene : Scene.State :=
  fromDone Scene.empty (Scene.Initialize_scene device Sample.waves Scene.empty).

Definition fill : unit * ObjectConstants * MaterialConstants * Vertex :=
  (tt, mkObjectConstants Identity4x4 Identity4x4, matConstantsOf (Sample.material 0),
   mkVertex Sample.origin Sample.origin (mkFloat2 0%Q 0%Q)).

(** The frame loop about to run its first frame on the scene. *)
Definition app : App := Scene.frameLoopState fill Sample.waves tt tt 0 scene.

(** The scene once a descriptor heap with room for the eight views exists
    and the first [UpdateWaves] has bound the wave vertex buffer of slot 0. *)
Definition withHeap : Scene.State :=
  Scene.set_mSrvDescriptorHeap (Some (Some <$> Scene.createdViews)) scene.

Definition ready : Scene.State :=
  fromDone Scene.empty (Scene.bindWavesVertexBuffer 0 withHeap).

Definition gpu : Scene.Gpu := Scene.mkGpu (fun slot => 4096 * Z.of_nat slot)
                                          (fun slot => 1048576 + 4096 * Z.of_nat slot)
                                          (fun slot => 2097152 + 256 * Z.of_nat slot)
                                          4194304 32 256 256.

End SceneSample.



Section Footprint.
Context {FO : FloatOps} {WA : WavesAPI} {CA : CameraAPI}.

(** An operation that fills the current slot replaces that one frame
    resource and no other. *)
Definition fillsSlot (slot : nat) (a a' : App) : Prop :=
  exists fr', mFrameResources a' = <[slot := fr']> (mFrameResources a).

End Footprint.

(** * Properties *)

(** ** The outcome monad *)

Lemma isDone_fromDone {A} (d : A) (o : Outcome A) :
  isDone o = true -> o = Done (fromDone d o).
Proof. by destruct o. Qed.

Lemma bind_Done {A B} (m : Outcome A) (f : A -> Outcome B) (b : B) :
  m ≫= f = Done b -> exists a, m = Done a /\ f a = Done b.
Proof. destruct m; cbn; try discriminate. eauto. Qed.

Lemma overSlots_app {St} (op : nat -> St -> Outcome St) l1 l2 s :
  overSlots op (l1 ++ l2) s = overSlots op l1 s ≫= overSlots op l2.
Proof.
  revert s. induction l1 as [|x l1 IH]; intros s; cbn; [done|].
  destruct (op x s); cbn; auto.
Qed.

(** ** The flush loop *)

Section ReplicatedFacts.
Context {E C : Type}.
Variables (dirty : E -> Z) (tick : E -> E) (cbIndex : E -> nat) (payload : E -> C).

Local Notation "'loop'" := (flushLoop dirty tick cbIndex payload).
Local Notation "'dirtyIdx'" := (dirtyIndices dirty cbIndex).

Lemma CopyData_Done (i : nat) (v : C) (b : UploadBuffer.t C) :
  (i < length (UploadBuffer.elems b))%nat ->
  UploadBuffer.CopyData i v b =
    Done (UploadBuffer.mk (<[i := v]> (UploadBuffer.elems b)) (UploadBuffer.copyLog b ++ [i])).
Proof. intros Hi. unfold UploadBuffer.CopyData. by rewrite decide_True. Qed.

(** With every dirty entry's index inside the buffer, the loop returns: the
    entries are ticked in place, the buffer keeps its size, the log grows by
    the indices of the dirty entries, and elements at other indices are
    untouched. *)
Lemma flushLoop_runs (es : list E) (cb : UploadBuffer.t C) :
  (forall e, e ∈ es -> 0 < dirty e -> (cbIndex e < length (UploadBuffer.elems cb))%nat) ->
  exists cb',
    loop es cb = Done (tickIfDirty dirty tick <$> es, cb') /\
    length (UploadBuffer.elems cb') = length (UploadBuffer.elems cb) /\
    UploadBuffer.copyLog cb' = UploadBuffer.copyLog cb ++ dirtyIdx es /\
    (forall i, i ∉ dirtyIdx es ->
               UploadBuffer.elems cb' !! i = UploadBuffer.elems cb !! i).
Proof.
  revert cb. induction es as [|e es IH]; intros cb Hin.
  - exists cb. cbn. rewrite app_nil_r. auto.
  - cbn [flushLoop]. rewrite fmap_cons. unfold dirtyIndices.
    unfold tickIfDirty at 1.
    destruct (0 <? dirty e) eqn:Hd.
    + apply Z.ltb_lt in Hd.
      rewrite CopyData_Done by (apply Hin; [left | done]). cbn [mbind Outcome_bind].
      set (cb1 := UploadBuffer.mk _ _).
      destruct (IH cb1) as (cb' & Hrun & Hlen & Hlog & Hoth).
      { intros e' He' Hd'. subst cb1; cbn. rewrite length_insert. apply Hin; [by right | done]. }
      exists cb'. rewrite Hrun. cbn [mbind Outcome_bind mret Outcome_ret].
      rewrite filter_cons_True by (unfold isDirty; by apply Z.ltb_lt).
      rewrite fmap_cons.
      split_and!; [done | | | ].
      * rewrite Hlen. subst cb1; cbn. apply length_insert.
      * rewrite Hlog. subst cb1; cbn. by rewrite <- app_assoc.
      * intros i Hi. apply not_elem_of_cons in Hi as [Hne Hi].
        rewrite Hoth by done. subst cb1; cbn. by rewrite list_lookup_insert_ne.
    + destruct (IH cb) as (cb' & Hrun & Hlen & Hlog & Hoth).
      { intros e' He' Hd'. apply Hin; [by right | done]. }
      exists cb'. rewrite Hrun. cbn [mbind Outcome_bind mret Outcome_ret].
      rewrite filter_cons_False by (unfold isDirty; by rewrite Hd).
      auto.
Qed.

(** A loop that returned made every write inside the buffer. *)
Lemma flushLoop_inrange (es : list E) (cb : UploadBuffer.t C) r e :
  loop es cb = Done r -> e ∈ es -> 0 < dirty e ->
  (cbIndex e < length (UploadBuffer.elems cb))%nat.
Proof.
  revert cb r. induction es as [|x es IH]; intros cb r Hrun He Hd.
  - by apply elem_of_nil in He.
  - cbn [flushLoop] in Hrun. destruct (0 <? dirty x) eqn:Hx.
    + apply bind_Done in Hrun as (cb1 & Hcopy & Hrun).
      apply bind_Done in Hrun as (r' & Hrest & _).
      unfold UploadBuffer.CopyData in Hcopy. case_decide as Hlt; [|discriminate].
      injection Hcopy as <-.
      apply elem_of_cons in He as [->|He]; [done|].
      specialize (IH _ _ Hrest He Hd). cbn in IH. by rewrite length_insert in IH.
    + apply bind_Done in Hrun as (r' & Hrest & _).
      apply elem_of_cons in He as [->|He]; [apply Z.ltb_ge in Hx; lia|].
      by apply (IH _ _ Hrest).
Qed.

Lemma dirtyIndices_subset (es : list E) i :
  i ∈ dirtyIdx es -> i ∈ cbIndex <$> es.
Proof.
  unfold dirtyIndices. intros Hin.
  apply list_elem_of_fmap in Hin as (y & -> & Hy).
  apply list_elem_of_fmap. exists y. split; [done|].
  by apply list_elem_of_filter in Hy as [_ Hy].
Qed.

Lemma dirtyIndices_elem (es : list E) i :
  i ∈ dirtyIdx es <-> exists e, e ∈ es /\ 0 < dirty e /\ cbIndex e = i.
Proof.
  unfold dirtyIndices. rewrite list_elem_of_fmap. split.
  - intros (y & -> & Hy). apply list_elem_of_filter in Hy as [Hd Hy].
    exists y. split_and!; [done | by apply Z.ltb_lt | done].
  - intros (e & He & Hd & <-). exists e. split; [done|].
    apply list_elem_of_filter. split; [by apply Z.ltb_lt | done].
Qed.

(** With pairwise distinct indices, the element of a dirty entry holds the
    constants derived from that entry. *)
Lemma flushLoop_written (es : list E) (cb cb' : UploadBuffer.t C) es' e :
  NoDup (cbIndex <$> es) ->
  loop es cb = Done (es', cb') ->
  e ∈ es -> 0 < dirty e ->
  UploadBuffer.elems cb' !! cbIndex e = Some (payload e).
Proof.
  revert cb es'. induction es as [|x es IH]; intros cb es' Hnd Hrun He Hd.
  - by apply elem_of_nil in He.
  - rewrite fmap_cons in Hnd. apply NoDup_cons in Hnd as [Hx Hnd].
    cbn [flushLoop] in Hrun.
    apply elem_of_cons in He as [->|He].
    + apply Z.ltb_lt in Hd as Hd'. rewrite Hd' in Hrun.
      apply bind_Done in Hrun as (cb1 & Hcopy & Hrun).
      apply bind_Done in Hrun as ([rest' cb2] & Hrest & Hret).
      injection Hret as <- <-.
      unfold UploadBuffer.CopyData in Hcopy. case_decide as Hlt; [|discriminate].
      injection Hcopy as <-.
      destruct (flushLoop_runs es _ (fun e0 => flushLoop_inrange es _ _ e0 Hrest))
        as (cb3 & Hrun3 & _ & _ & Hoth).
      rewrite Hrest in Hrun3. injection Hrun3 as _ <-.
      rewrite Hoth; cbn.
      * by apply list_lookup_insert_eq.
      * intros Hin. by apply Hx, dirtyIndices_subset.
    + destruct (0 <? dirty x).
      * apply bind_Done in Hrun as (cb1 & _ & Hrun).
        apply bind_Done in Hrun as ([rest' cb2] & Hrest & Hret).
        injection Hret as <- <-. by apply (IH _ _ Hnd Hrest).
      * apply bind_Done in Hrun as ([rest' cb2] & Hrest & Hret).
        injection Hret as <- <-. by apply (IH _ _ Hnd Hrest).
Qed.

End ReplicatedFacts.

(** ** Propagation over the slots, for any replicated set

    [entryOf] reads an entry by its identity, [bufOf] the copy buffer of a
    slot.  [flushAt_spec] is what one flush does; it is established below for
    the render items and for the materials. *)

Section Convergence.
Context {St Id E C : Type}.
Variables (entryOf : St -> Id -> option E)
          (bufOf : St -> nat -> option (UploadBuffer.t C))
          (dirty : E -> Z) (cbIndex : E -> nat) (payload : E -> C)
          (flushAt : nat -> St -> Outcome St)
          (ok : St -> Prop).


Hypothesis flushAt_spec : forall s slot b,
  ok s -> bufOf s slot = Some b ->
  exists s' b',
    flushAt slot s = Done s' /\ ok s' /\ bufOf s' slot = Some b' /\
    (forall slot', slot' <> slot -> bufOf s' slot' = bufOf s slot') /\
    (forall id e, entryOf s id = Some e ->
       exists e', entryOf s' id = Some e' /\ flushed1 dirty cbIndex payload b b' e e').

Lemma overSlots_converges (slots : list nat) (s : St) (id : Id) (e : E) :
  ok s -> entryOf s id = Some e -> NoDup slots ->
  (forall slot, slot ∈ slots -> is_Some (bufOf s slot)) ->
  Z.of_nat (length slots) <= dirty e ->
  exists s' e',
    overSlots flushAt slots s = Done s' /\ ok s' /\
    entryOf s' id = Some e' /\
    dirty e' = dirty e - Z.of_nat (length slots) /\
    cbIndex e' = cbIndex e /\ payload e' = payload e /\
    (forall slot, slot ∈ slots ->
       exists b, bufOf s' slot = Some b /\
                 UploadBuffer.elems b !! cbIndex e = Some (payload e)) /\
    (forall slot, slot ∉ slots -> bufOf s' slot = bufOf s slot).
Proof.
  revert s e. induction slots as [|slot rest IH]; intros s e Hok He Hnd Hbuf Hd.
  - exists s, e. cbn. split_and!; try done.
    + lia.
    + intros slot Hin. by apply elem_of_nil in Hin.
  - apply NoDup_cons in Hnd as [Hnotin Hnd].
    destruct (Hbuf slot) as [b Hb]; [left|].
    destruct (flushAt_spec s slot b Hok Hb) as (s1 & b1 & Hrun & Hok1 & Hb1 & Hoth & Hent).
    destruct (Hent id e He) as (e1 & He1 & Hidx & Hpay & Hcase).
    cbn [length] in Hd. rewrite Nat2Z.inj_succ in Hd.
    assert ((0 <? dirty e) = true) as Hpos by (apply Z.ltb_lt; lia).
    rewrite Hpos in Hcase. destruct Hcase as [Hd1 Hcopy].
    destruct (IH s1 e1) as (s' & e' & Hrun' & Hok' & He' & Hd' & Hidx' & Hpay' & Hin' & Hout');
      [done | done | done | | lia | ].
    { intros slot' Hin. rewrite Hoth; [apply Hbuf; by right|].
      intros ->. done. }
    exists s', e'. cbn [overSlots]. rewrite Hrun. cbn [mbind Outcome_bind].
    split_and!; try done.
    + rewrite Hd'. rewrite Hd1. cbn [length]. lia.
    + congruence.
    + congruence.
    + intros slot' Hin. apply elem_of_cons in Hin as [->|Hin].
      * exists b1. rewrite Hout' by done. done.
      * destruct (Hin' slot' Hin) as (b' & Hb' & Hv). exists b'.
        split; [done|]. by rewrite <- Hidx, <- Hpay.
    + intros slot' Hnin. apply not_elem_of_cons in Hnin as [Hne Hnin].
      rewrite Hout' by done. by apply Hoth.
Qed.

Lemma overSlots_quiescent (slots : list nat) (s : St) (id : Id) (e : E) :
  ok s -> entryOf s id = Some e -> dirty e <= 0 ->
  (forall slot, slot ∈ slots -> is_Some (bufOf s slot)) ->
  exists s',
    overSlots flushAt slots s = Done s' /\ ok s' /\
    entryOf s' id = Some e /\
    forall slot b, bufOf s slot = Some b ->
      exists b', bufOf s' slot = Some b' /\
        UploadBuffer.elems b' !! cbIndex e = UploadBuffer.elems b !! cbIndex e /\
        exists extra, UploadBuffer.copyLog b' = UploadBuffer.copyLog b ++ extra /\
                      cbIndex e ∉ extra.
Proof.
  revert s. induction slots as [|slot rest IH]; intros s Hok He Hd Hbuf.
  - exists s. cbn. split_and!; try done.
    intros slot b Hb. exists b. split_and!; try done.
    exists []. rewrite app_nil_r. split; [done|]. apply not_elem_of_nil.
  - destruct (Hbuf slot) as [b Hb]; [left|].
    destruct (flushAt_spec s slot b Hok Hb) as (s1 & b1 & Hrun & Hok1 & Hb1 & Hoth & Hent).
    destruct (Hent id e He) as (e1 & He1 & _ & _ & Hcase).
    assert ((0 <? dirty e) = false) as Hz by (apply Z.ltb_ge; lia).
    rewrite Hz in Hcase. destruct Hcase as (-> & Hsame & extra1 & Hlog1 & Hnot1).
    destruct (IH s1) as (s' & Hrun' & Hok' & He' & Hbufs'); [done | done | done | | ].
    { intros slot' Hin. destruct (decide (slot' = slot)) as [->|Hne].
      - by rewrite Hb1.
      - rewrite Hoth by done. apply Hbuf. by right. }
    exists s'. cbn [overSlots]. rewrite Hrun. cbn [mbind Outcome_bind].
    split_and!; try done.
    intros slot' b0 Hb0. destruct (decide (slot' = slot)) as [->|Hne].
    + assert (b0 = b) as -> by congruence.
      destruct (Hbufs' slot b1 Hb1) as (b' & Hb' & Hv & extra & Hlog & Hnot).
      exists b'. split_and!; [done | congruence | ].
      exists (extra1 ++ extra). split.
      * rewrite Hlog. rewrite Hlog1. by rewrite app_assoc.
      * rewrite elem_of_app. tauto.
    + apply Hbufs'. by rewrite Hoth.
Qed.

End Convergence.

(** ** The two flushes of the application *)

Section AppFlush.
Context {FO : FloatOps} {WA : WavesAPI} {CA : CameraAPI}.


Lemma UpdateObjectCBs_loop_flushLoop es cb :
  UpdateObjectCBs_loop es cb =
  flushLoop NumFramesDirty tickItem ObjCBIndex objConstantsOf es cb.
Proof.
  revert cb. induction es as [|e es IH]; intros cb; [done|].
  cbn [UpdateObjectCBs_loop flushLoop]. destruct (0 <? NumFramesDirty e).
  - unfold objConstantsOf, tickItem.
    destruct (UploadBuffer.CopyData _ _ cb); cbn; rewrite ?IH; done.
  - by rewrite IH.
Qed.

Lemma UpdateMaterialCBs_loop_flushLoop es cb :
  UpdateMaterialCBs_loop es cb =
  flushLoop (fun e => MatNumFramesDirty e.2) (fun e => (e.1, tickMaterial e.2))
            (fun e => MatCBIndex e.2) (fun e => matConstantsOf e.2) es cb.
Proof.
  revert cb. induction es as [|e es IH]; intros cb; [done|].
  cbn [UpdateMaterialCBs_loop flushLoop]. destruct (0 <? MatNumFramesDirty e.2).
  - unfold matConstantsOf, tickMaterial.
    destruct (UploadBuffer.CopyData _ _ cb); cbn; rewrite ?IH; done.
  - by rewrite IH.
Qed.

Lemma flushObjectsAt_spec gt (a : App) slot b :
  objectsOK a -> objectBufOf a slot = Some b ->
  exists a' b',
    flushObjectsAt gt slot a = Done a' /\ objectsOK a' /\ objectBufOf a' slot = Some b' /\
    (forall slot', slot' <> slot -> objectBufOf a' slot' = objectBufOf a slot') /\
    (forall p e, mAllRitems a !! p = Some e ->
       exists e', mAllRitems a' !! p = Some e' /\
                  flushed1 NumFramesDirty ObjCBIndex objConstantsOf b b' e e').
Proof.
  intros [Hnd Hrange] Hb. unfold objectBufOf in Hb.
  destruct (mFrameResources a !! slot) as [fr|] eqn:Hfr; [|done].
  injection Hb as <-.
  assert (Hfrin : fr ∈ mFrameResources a) by (apply list_elem_of_lookup; eauto).
  destruct (flushLoop_runs NumFramesDirty tickItem ObjCBIndex objConstantsOf
              (mAllRitems a) (ObjectCB fr)) as (cb' & Hrun & Hlen & Hlog & Hoth).
  { intros e He _. by apply Hrange. }
  eexists _, cb'.
  unfold flushObjectsAt, UpdateObjectCBs, currFrameResource. cbn.
  rewrite Hfr. cbn. rewrite UpdateObjectCBs_loop_flushLoop, Hrun. cbn.
  split; [reflexivity|]. split_and!.
  - split; cbn.
    + rewrite <- list_fmap_compose.
      erewrite list_fmap_ext; [exact Hnd|].
      intros i e _. unfold compose, tickIfDirty. by destruct (0 <? NumFramesDirty e).
    + intros fr' e' Hfr' He'.
      apply list_elem_of_fmap in He' as (e & -> & He).
      assert (ObjCBIndex (tickIfDirty NumFramesDirty tickItem e) = ObjCBIndex e) as ->
        by (unfold tickIfDirty; by destruct (0 <? NumFramesDirty e)).
      apply list_elem_of_lookup in Hfr' as [i Hi].
      destruct (decide (i = slot)) as [->|Hne].
      * rewrite list_lookup_insert_eq in Hi by (by eapply lookup_lt_Some).
        injection Hi as <-. cbn. rewrite Hlen. by apply Hrange.
      * rewrite list_lookup_insert_ne in Hi by done.
        apply Hrange; [|done]. apply list_elem_of_lookup; eauto.
  - unfold objectBufOf. cbn.
    by rewrite list_lookup_insert_eq by (by eapply lookup_lt_Some).
  - intros slot' Hne. unfold objectBufOf. cbn. by rewrite list_lookup_insert_ne.
  - intros p e He. cbn. rewrite list_lookup_fmap, He. cbn.
    eexists. split; [reflexivity|].
    assert (Hein : e ∈ mAllRitems a) by (apply list_elem_of_lookup; eauto).
    unfold flushed1, tickIfDirty. destruct (0 <? NumFramesDirty e) eqn:Hd; cbn.
    + split_and!; try done.
      apply Z.ltb_lt in Hd.
      by eapply (flushLoop_written _ _ _ _ _ _ _ _ e Hnd Hrun).
    + split_and!; try done.
      * apply Hoth. rewrite dirtyIndices_elem. intros (e2 & He2 & Hd2 & Hidx).
        assert (e2 = e) as ->; [|apply Z.ltb_ge in Hd; lia].
        apply list_elem_of_lookup in He2 as [q Hq].
        assert (q = p) as ->; [|congruence].
        eapply NoDup_lookup; [exact Hnd| |]; rewrite list_lookup_fmap.
        -- by rewrite Hq.
        -- rewrite He. cbn. by rewrite Hidx.
      * eexists. split; [exact Hlog|].
        rewrite dirtyIndices_elem. intros (e2 & He2 & Hd2 & Hidx).
        assert (e2 = e) as ->; [|apply Z.ltb_ge in Hd; lia].
        apply list_elem_of_lookup in He2 as [q Hq].
        assert (q = p) as ->; [|congruence].
        eapply NoDup_lookup; [exact Hnd| |]; rewrite list_lookup_fmap.
        -- by rewrite Hq.
        -- rewrite He. cbn. by rewrite Hidx.
Qed.

Lemma materials_indices_NoDup (a : App) :
  materialsOK a ->
  NoDup ((fun e : string * Material => MatCBIndex e.2) <$> map_to_list (mMaterials a)).
Proof.
  intros [Hinj _]. apply NoDup_fmap_2_strong; [|apply NoDup_map_to_list].
  intros [k1 m1] [k2 m2] H1 H2 Heq. cbn in Heq.
  apply elem_of_map_to_list in H1, H2.
  assert (k1 = k2) as -> by (by eapply Hinj).
  congruence.
Qed.

Lemma tickIfDirty_pair (e : string * Material) :
  tickIfDirty (fun e => MatNumFramesDirty e.2) (fun e => (e.1, tickMaterial e.2)) e =
  prod_map id (tickIfDirty MatNumFramesDirty tickMaterial) e.
Proof. destruct e as [k m]. unfold tickIfDirty, prod_map. cbn. by destruct (0 <? _). Qed.

Lemma flushMaterialsAt_spec gt (a : App) slot b :
  materialsOK a -> materialBufOf a slot = Some b ->
  exists a' b',
    flushMaterialsAt gt slot a = Done a' /\ materialsOK a' /\
    materialBufOf a' slot = Some b' /\
    (forall slot', slot' <> slot -> materialBufOf a' slot' = materialBufOf a slot') /\
    (forall k m, mMaterials a !! k = Some m ->
       exists m', mMaterials a' !! k = Some m' /\
                  flushed1 MatNumFramesDirty MatCBIndex matConstantsOf b b' m m').
Proof.
  intros Hok Hb. pose proof (materials_indices_NoDup a Hok) as Hnd.
  destruct Hok as [Hinj Hrange]. unfold materialBufOf in Hb.
  destruct (mFrameResources a !! slot) as [fr|] eqn:Hfr; [|done].
  injection Hb as <-.
  assert (Hfrin : fr ∈ mFrameResources a) by (apply list_elem_of_lookup; eauto).
  destruct (flushLoop_runs (fun e : string * Material => MatNumFramesDirty e.2)
              (fun e => (e.1, tickMaterial e.2)) (fun e => MatCBIndex e.2)
              (fun e => matConstantsOf e.2)
              (map_to_list (mMaterials a)) (MaterialCB fr)) as (cb' & Hrun & Hlen & Hlog & Hoth).
  { intros [k m] He _. cbn. apply elem_of_map_to_list in He. by eapply Hrange. }
  assert (Hmap : list_to_map (tickIfDirty (fun e : string * Material => MatNumFramesDirty e.2)
                                (fun e => (e.1, tickMaterial e.2)) <$> map_to_list (mMaterials a))
                 = tickIfDirty MatNumFramesDirty tickMaterial <$> mMaterials a).
  { erewrite list_fmap_ext; [|intros i e _; apply tickIfDirty_pair].
    rewrite list_to_map_fmap. by rewrite list_to_map_to_list. }
  assert (Hidx : forall m, MatCBIndex (tickIfDirty MatNumFramesDirty tickMaterial m) = MatCBIndex m)
    by (intros m; unfold tickIfDirty; by destruct (0 <? _)).
  eexists _, cb'.
  unfold flushMaterialsAt, UpdateMaterialCBs, currFrameResource. cbn.
  rewrite Hfr. cbn. rewrite UpdateMaterialCBs_loop_flushLoop, Hrun. cbn.
  rewrite Hmap.
  split; [reflexivity|]. split_and!.
  - split; cbn.
    + intros k1 k2 m1 m2 H1 H2 Heq.
      apply lookup_fmap_Some in H1 as (x1 & <- & H1).
      apply lookup_fmap_Some in H2 as (x2 & <- & H2).
      rewrite !Hidx in Heq. by eapply Hinj.
    + intros fr' k m' Hfr' Hk.
      apply lookup_fmap_Some in Hk as (m & <- & Hk). rewrite Hidx.
      apply list_elem_of_lookup in Hfr' as [i Hi].
      destruct (decide (i = slot)) as [->|Hne].
      * rewrite list_lookup_insert_eq in Hi by (by eapply lookup_lt_Some).
        injection Hi as <-. cbn. rewrite Hlen. by eapply Hrange.
      * rewrite list_lookup_insert_ne in Hi by done.
        eapply Hrange; [|done]. apply list_elem_of_lookup; eauto.
  - unfold materialBufOf. cbn.
    by rewrite list_lookup_insert_eq by (by eapply lookup_lt_Some).
  - intros slot' Hne. unfold materialBufOf. cbn. by rewrite list_lookup_insert_ne.
  - intros k m Hk. cbn. rewrite lookup_fmap, Hk. cbn.
    eexists. split; [reflexivity|].
    assert (Hein : (k, m) ∈ map_to_list (mMaterials a)) by (by apply elem_of_map_to_list).
    assert (Hclash : forall e2 : string * Material,
               e2 ∈ map_to_list (mMaterials a) -> MatCBIndex e2.2 = MatCBIndex m -> e2 = (k, m)).
    { intros [k2 m2] He2 Heq. cbn in Heq. apply elem_of_map_to_list in He2.
      assert (k2 = k) as -> by (by eapply Hinj). congruence. }
    unfold flushed1, tickIfDirty. destruct (0 <? MatNumFramesDirty m) eqn:Hd; cbn.
    + split_and!; try done.
      apply Z.ltb_lt in Hd.
      by apply (flushLoop_written _ _ _ _ _ _ _ _ (k, m) Hnd Hrun).
    + apply Z.ltb_ge in Hd.
      assert (Hnot : MatCBIndex m ∉ dirtyIndices (fun e : string * Material => MatNumFramesDirty e.2)
                                       (fun e => MatCBIndex e.2) (map_to_list (mMaterials a))).
      { rewrite dirtyIndices_elem. intros (e2 & He2 & Hd2 & Heq).
        rewrite (Hclash e2 He2 Heq) in Hd2. cbn in Hd2. lia. }
      split_and!; try done.
      * by apply Hoth.
      * eexists. split; [exact Hlog | exact Hnot].
Qed.

End AppFlush.

(** ** Propagation of one edit into every frame resource *)

Section DirtyPropagation.
Context {FO : FloatOps} {WA : WavesAPI} {CA : CameraAPI}.


Lemma slots_of_ring (slots : list nat) :
  slots ≡ₚ seq 0 (Z.to_nat gNumFrameResources) ->
  NoDup slots /\ length slots = Z.to_nat gNumFrameResources /\
  forall slot, slot ∈ slots <-> (slot < Z.to_nat gNumFrameResources)%nat.
Proof.
  intros Hp. split_and!.
  - rewrite Hp. apply NoDup_seq.
  - rewrite Hp. apply length_seq.
  - intros slot. rewrite Hp, elem_of_seq. lia.
Qed.

Lemma ring_bufs {C} (proj : FrameResource -> UploadBuffer.t C) (a : App) slot :
  length (mFrameResources a) = Z.to_nat gNumFrameResources ->
  (slot < Z.to_nat gNumFrameResources)%nat ->
  is_Some (proj <$> mFrameResources a !! slot).
Proof.
  intros Hlen Hlt. rewrite <- Hlen in Hlt.
  apply lookup_lt_is_Some in Hlt as [fr ->]. by eexists.
Qed.

Lemma objects_converge gt (a : App) (slots : list nat) p e :
  length (mFrameResources a) = Z.to_nat gNumFrameResources ->
  slots ≡ₚ seq 0 (Z.to_nat gNumFrameResources) ->
  objectsOK a ->
  mAllRitems a !! p = Some e -> NumFramesDirty e = gNumFrameResources ->
  exists a' e',
    overSlots (flushObjectsAt gt) slots a = Done a' /\
    mAllRitems a' !! p = Some e' /\ NumFramesDirty e' = 0 /\
    ObjCBIndex e' = ObjCBIndex e /\ objConstantsOf e' = objConstantsOf e /\
    allCopies (objectBufOf a') (ObjCBIndex e) (objConstantsOf e) /\
    forall more, (forall slot, slot ∈ more -> (slot < Z.to_nat gNumFrameResources)%nat) ->
      exists a'', overSlots (flushObjectsAt gt) more a' = Done a'' /\
        mAllRitems a'' !! p = Some e' /\
        untouched (objectBufOf a') (objectBufOf a'') (ObjCBIndex e).
Proof.
  intros Hlen Hperm Hok He Hd.
  destruct (slots_of_ring slots Hperm) as (Hnd & Hl & Hin).
  destruct (overSlots_converges (fun a p => mAllRitems a !! p) objectBufOf
              NumFramesDirty ObjCBIndex objConstantsOf (flushObjectsAt gt) objectsOK
              (flushObjectsAt_spec gt) slots a p e)
    as (a' & e' & Hrun & Hok' & He' & Hd' & Hidx & Hpay & Hcopies & _);
    [done | done | done | | rewrite Hl, Hd; unfold gNumFrameResources; lia | ].
  { intros slot Hs. apply ring_bufs; [done | by apply Hin]. }
  exists a', e'. split_and!; try done.
  - rewrite Hd', Hl, Hd. unfold gNumFrameResources. lia.
  - intros slot Hs. apply Hcopies. by apply Hin.
  - intros more Hmore.
    destruct (overSlots_quiescent (fun a p => mAllRitems a !! p) objectBufOf
                NumFramesDirty ObjCBIndex objConstantsOf (flushObjectsAt gt) objectsOK
                (flushObjectsAt_spec gt) more a' p e')
      as (a'' & Hrun' & _ & He'' & Hunt); [done | done | | | ].
    + rewrite Hd', Hl, Hd. unfold gNumFrameResources. lia.
    + intros slot Hs. destruct (Hcopies slot) as (b & -> & _); [by apply Hin, Hmore | by eexists].
    + exists a''. split_and!; try done. unfold untouched. by rewrite <- Hidx.
Qed.

Lemma materials_converge gt (a : App) (slots : list nat) k m :
  length (mFrameResources a) = Z.to_nat gNumFrameResources ->
  slots ≡ₚ seq 0 (Z.to_nat gNumFrameResources) ->
  materialsOK a ->
  mMaterials a !! k = Some m -> MatNumFramesDirty m = gNumFrameResources ->
  exists a' m',
    overSlots (flushMaterialsAt gt) slots a = Done a' /\
    mMaterials a' !! k = Some m' /\ MatNumFramesDirty m' = 0 /\
    MatCBIndex m' = MatCBIndex m /\ matConstantsOf m' = matConstantsOf m /\
    allCopies (materialBufOf a') (MatCBIndex m) (matConstantsOf m) /\
    forall more, (forall slot, slot ∈ more -> (slot < Z.to_nat gNumFrameResources)%nat) ->
      exists a'', overSlots (flushMaterialsAt gt) more a' = Done a'' /\
        mMaterials a'' !! k = Some m' /\
        untouched (materialBufOf a') (materialBufOf a'') (MatCBIndex m).
Proof.
  intros Hlen Hperm Hok He Hd.
  destruct (slots_of_ring slots Hperm) as (Hnd & Hl & Hin).
  destruct (overSlots_converges (fun a k => mMaterials a !! k) materialBufOf
              MatNumFramesDirty MatCBIndex matConstantsOf (flushMaterialsAt gt) materialsOK
              (flushMaterialsAt_spec gt) slots a k m)
    as (a' & e' & Hrun & Hok' & He' & Hd' & Hidx & Hpay & Hcopies & _);
    [done | done | done | | rewrite Hl, Hd; unfold gNumFrameResources; lia | ].
  { intros slot Hs. apply ring_bufs; [done | by apply Hin]. }
  exists a', e'. split_and!; try done.
  - rewrite Hd', Hl, Hd. unfold gNumFrameResources. lia.
  - intros slot Hs. apply Hcopies. by apply Hin.
  - intros more Hmore.
    destruct (overSlots_quiescent (fun a k => mMaterials a !! k) materialBufOf
                MatNumFramesDirty MatCBIndex matConstantsOf (flushMaterialsAt gt) materialsOK
                (flushMaterialsAt_spec gt) more a' k e')
      as (a'' & Hrun' & _ & He'' & Hunt); [done | done | | | ].
    + rewrite Hd', Hl, Hd. unfold gNumFrameResources. lia.
    + intros slot Hs. destruct (Hcopies slot) as (b & -> & _); [by apply Hin, Hmore | by eexists].
    + exists a''. split_and!; try done. unfold untouched. by rewrite <- Hidx.
Qed.

(** Propagation of an edit, for a registration that fits the buffers.  When
    the constant-buffer indices are pairwise distinct and inside the buffers
    of every frame resource, an entry (render item or material) whose counter
    was set to [gNumFrameResources] by an edit behaves as follows: after one
    flush per frame resource, in any order, the flushes have returned, every
    copy of the entry holds the constants derived from the edited value, the
    counter is 0, and any further flushes neither write nor change a copy of
    the entry. *)
Theorem dirty_propagation_converges gt (a : App) (slots : list nat) :
  length (mFrameResources a) = Z.to_nat gNumFrameResources ->
  slots ≡ₚ seq 0 (Z.to_nat gNumFrameResources) ->
  (objectsOK a ->
   forall p e, mAllRitems a !! p = Some e -> NumFramesDirty e = gNumFrameResources ->
     exists a' e',
       overSlots (flushObjectsAt gt) slots a = Done a' /\
       mAllRitems a' !! p = Some e' /\ NumFramesDirty e' = 0 /\
       ObjCBIndex e' = ObjCBIndex e /\ objConstantsOf e' = objConstantsOf e /\
       allCopies (objectBufOf a') (ObjCBIndex e) (objConstantsOf e) /\
       forall more, (forall slot, slot ∈ more -> (slot < Z.to_nat gNumFrameResources)%nat) ->
         exists a'', overSlots (flushObjectsAt gt) more a' = Done a'' /\
           mAllRitems a'' !! p = Some e' /\
           untouched (objectBufOf a') (objectBufOf a'') (ObjCBIndex e)) /\
  (materialsOK a ->
   forall k m, mMaterials a !! k = Some m -> MatNumFramesDirty m = gNumFrameResources ->
     exists a' m',
       overSlots (flushMaterialsAt gt) slots a = Done a' /\
       mMaterials a' !! k = Some m' /\ MatNumFramesDirty m' = 0 /\
       MatCBIndex m' = MatCBIndex m /\ matConstantsOf m' = matConstantsOf m /\
       allCopies (materialBufOf a') (MatCBIndex m) (matConstantsOf m) /\
       forall more, (forall slot, slot ∈ more -> (slot < Z.to_nat gNumFrameResources)%nat) ->
         exists a'', overSlots (flushMaterialsAt gt) more a' = Done a'' /\
           mMaterials a'' !! k = Some m' /\
           untouched (materialBufOf a') (materialBufOf a'') (MatCBIndex m)).
Proof.
  intros Hlen Hperm. split.
  - intros Hok p e He Hd. by apply objects_converge.
  - intros Hok k m He Hd. by apply materials_converge.
Qed.

End DirtyPropagation.

(** The scene as registered: the indices are pairwise distinct and the
    material indices lie inside the material buffers, but the last render
    item (the tree sprites) carries index 52 while the object buffers hold 52
    elements, so [objectsOK] does not hold of the scene as built and a flush
    of that item leaves the buffer. *)
Remark scene_registration :
  NoDup BuildRenderItems_ObjCBIndex /\
  last BuildRenderItems_ObjCBIndex = Some BuildFrameResources_objectCount /\
  Forall (fun i => (i < BuildFrameResources_objectCount)%nat)
         (removelast BuildRenderItems_ObjCBIndex) /\
  NoDup BuildMaterials_MatCBIndex.*2 /\
  Forall (fun i => (i < BuildFrameResources_materialCount)%nat) BuildMaterials_MatCBIndex.*2.
Proof.
  split; [by apply (bool_decide_unpack _)|]. split; [reflexivity|].
  split; [by apply (bool_decide_unpack _)|].
  split; by apply (bool_decide_unpack _).
Qed.

Remark CopyData_past_the_end {T} (v : T) (b : UploadBuffer.t T) :
  UploadBuffer.CopyData (length (UploadBuffer.elems b)) v b = Fault.
Proof. unfold UploadBuffer.CopyData. by rewrite decide_False by lia. Qed.

(** ** C2: marking dirty again restarts the window *)

Section Redirty.
Context {FO : FloatOps} {WA : WavesAPI} {CA : CameraAPI}.

Lemma AnimateMaterials_spec gt (a : App) w :
  materialsOK a -> mMaterials a !! "water"%string = Some w ->
  exists a' w',
    AnimateMaterials gt a = Done a' /\
    mMaterials a' = <["water"%string := w']> (mMaterials a) /\
    MatNumFramesDirty w' = gNumFrameResources /\
    MatCBIndex w' = MatCBIndex w /\
    mFrameResources a' = mFrameResources a /\
    materialsOK a'.
Proof.
  intros [Hinj Hrange] Hw. unfold AnimateMaterials. rewrite Hw. cbn.
  eexists _, _. split; [reflexivity|]. cbn. split_and!; try done.
  split; cbn.
  - intros k1 k2 m1 m2 H1 H2 Heq.
    apply lookup_insert_Some in H1 as [[<- <-]|[Hne1 H1]];
      apply lookup_insert_Some in H2 as [[<- <-]|[Hne2 H2]]; cbn in Heq.
    + done.
    + by eapply Hinj.
    + by eapply Hinj.
    + by eapply Hinj.
  - intros fr k m Hfr Hk.
    apply lookup_insert_Some in Hk as [[<- <-]|[Hne Hk]]; cbn; by eapply Hrange.
Qed.

(** C2.  [AnimateMaterials] assigns [gNumFrameResources] to the counter of
    the water material whatever the counter was.  When this happens after
    [k] of the flushes of an earlier edit (0 < k < N, the slots [first]), the
    countdown starts again from N: after the flushes of any further distinct
    slots [after] the counter is N - |after|, so it is 0 exactly when all N
    slots were flushed again; the slots flushed since hold the constants of
    the new value, every other slot still holds what it held before the new
    edit. *)
Theorem C2_redirty_restarts_window gt gt' (a : App) (first after : list nat) w :
  length (mFrameResources a) = Z.to_nat gNumFrameResources ->
  materialsOK a ->
  mMaterials a !! "water"%string = Some w ->
  MatNumFramesDirty w = gNumFrameResources ->
  NoDup first -> (forall slot, slot ∈ first -> (slot < Z.to_nat gNumFrameResources)%nat) ->
  (0 < length first < Z.to_nat gNumFrameResources)%nat ->
  NoDup after -> (forall slot, slot ∈ after -> (slot < Z.to_nat gNumFrameResources)%nat) ->
  (forall a0 w0, mMaterials a0 !! "water"%string = Some w0 ->
     exists a0' w0', AnimateMaterials gt' a0 = Done a0' /\
       mMaterials a0' !! "water"%string = Some w0' /\
       MatNumFramesDirty w0' = gNumFrameResources) /\
  exists a1 w1 a2 w2 a3 w3,
    overSlots (flushMaterialsAt gt) first a = Done a1 /\
    mMaterials a1 !! "water"%string = Some w1 /\
    MatNumFramesDirty w1 = gNumFrameResources - Z.of_nat (length first) /\
    AnimateMaterials gt' a1 = Done a2 /\
    mMaterials a2 !! "water"%string = Some w2 /\
    MatNumFramesDirty w2 = gNumFrameResources /\
    overSlots (flushMaterialsAt gt) after a2 = Done a3 /\
    mMaterials a3 !! "water"%string = Some w3 /\
    MatNumFramesDirty w3 = gNumFrameResources - Z.of_nat (length after) /\
    (MatNumFramesDirty w3 = 0 <-> length after = Z.to_nat gNumFrameResources) /\
    (forall slot, slot ∈ after ->
       exists b, materialBufOf a3 slot = Some b /\
         UploadBuffer.elems b !! MatCBIndex w = Some (matConstantsOf w2)) /\
    (forall slot, slot ∉ after -> materialBufOf a3 slot = materialBufOf a1 slot).
Proof.
  intros Hlen Hok Hw Hd Hnd1 Hin1 Hk Hnd2 Hin2. split.
  { intros a0 w0 Hw0. unfold AnimateMaterials. rewrite Hw0. cbn.
    eexists _, _. split; [reflexivity|]. cbn. by rewrite lookup_insert_eq. }
  destruct (overSlots_converges (fun a k => mMaterials a !! k) materialBufOf
              MatNumFramesDirty MatCBIndex matConstantsOf (flushMaterialsAt gt) materialsOK
              (flushMaterialsAt_spec gt) first a "water"%string w)
    as (a1 & w1 & Hrun1 & Hok1 & Hw1 & Hd1 & Hidx1 & _ & Hcopies1 & Hout1);
    [done | done | done | | rewrite Hd; unfold gNumFrameResources in *; lia | ].
  { intros slot Hs. apply ring_bufs; [done | by apply Hin1]. }
  destruct (AnimateMaterials_spec gt' a1 w1 Hok1 Hw1)
    as (a2 & w2 & Hrun2 & Hm2 & Hd2 & Hidx2 & Hfr2 & Hok2).
  assert (Hw2 : mMaterials a2 !! "water"%string = Some w2)
    by (rewrite Hm2; apply lookup_insert_eq).
  assert (Hbuf12 : forall slot, materialBufOf a2 slot = materialBufOf a1 slot)
    by (intros slot; unfold materialBufOf; by rewrite Hfr2).
  assert (Hsome1 : forall slot, (slot < Z.to_nat gNumFrameResources)%nat ->
                                is_Some (materialBufOf a1 slot)).
  { intros slot Hs. destruct (decide (slot ∈ first)) as [Hi|Hni].
    - destruct (Hcopies1 slot Hi) as (b & -> & _). by eexists.
    - rewrite Hout1 by done. by apply ring_bufs. }
  assert (Hafter : (length after <= Z.to_nat gNumFrameResources)%nat).
  { assert (after ⊆+ seq 0 (Z.to_nat gNumFrameResources)) as Hsub.
    { apply NoDup_submseteq; [done|]. intros x Hx. apply elem_of_seq.
      specialize (Hin2 x Hx). lia. }
    apply submseteq_length in Hsub. by rewrite length_seq in Hsub. }
  destruct (overSlots_converges (fun a k => mMaterials a !! k) materialBufOf
              MatNumFramesDirty MatCBIndex matConstantsOf (flushMaterialsAt gt) materialsOK
              (flushMaterialsAt_spec gt) after a2 "water"%string w2)
    as (a3 & w3 & Hrun3 & Hok3 & Hw3 & Hd3 & Hidx3 & _ & Hcopies3 & Hout3);
    [done | done | done | | rewrite Hd2; unfold gNumFrameResources in *; lia | ].
  { intros slot Hs. rewrite Hbuf12. by apply Hsome1, Hin2. }
  exists a1, w1, a2, w2, a3, w3. split_and!; try done.
  - by rewrite Hd1, Hd.
  - by rewrite Hd3, Hd2.
  - rewrite Hd3, Hd2. unfold gNumFrameResources in *. lia.
  - intros slot Hs. destruct (Hcopies3 slot Hs) as (b & Hb & Hv).
    exists b. split; [done|]. by rewrite <- Hidx1, <- Hidx2.
  - intros slot Hs. rewrite Hout3 by done. apply Hbuf12.
Qed.

End Redirty.

(** ** What each operation of a frame leaves in the trace *)

Section FrameTrace.
Context {FO : FloatOps} {WA : WavesAPI} {CA : CameraAPI}.

Lemma ofOption_Done {A} (o : option A) (x : A) : ofOption o = Done x -> o = Some x.
Proof. destruct o; cbn; congruence. Qed.

Lemma ThrowIfFailed_Done hr u : ThrowIfFailed hr = Done u -> 0 <= hr.
Proof. unfold ThrowIfFailed. destruct (Z.ltb_spec hr 0); [discriminate | done]. Qed.

Lemma currFrameResource_Done (a : App) slot fr :
  currFrameResource a = Done (slot, fr) ->
  mCurrFrameResource a = Some slot /\ mFrameResources a !! slot = Some fr.
Proof.
  unfold currFrameResource. intros H.
  apply bind_Done in H as (s & Hs & H). apply bind_Done in H as (f & Hf & H).
  injection H as <- <-. split; by apply ofOption_Done.
Qed.


Lemma keepsRing_trans a b c : keepsRing a b -> keepsRing b c -> keepsRing a c.
Proof. unfold keepsRing. intros (?&?&?&?&?) (?&?&?&?&?). split_and!; congruence. Qed.

Lemma Fence_insert_same (frs : list FrameResource) slot fr fr' :
  frs !! slot = Some fr -> Fence fr' = Fence fr ->
  Fence <$> <[slot := fr']> frs = Fence <$> frs.
Proof.
  intros Hl Hf. rewrite list_fmap_insert, Hf.
  apply list_insert_id. by rewrite list_lookup_fmap, Hl.
Qed.

Lemma AnimateMaterials_trace gt (a a' : App) :
  AnimateMaterials gt a = Done a' ->
  trace a' = trace a ++ [EvAnimateMaterials] /\ keepsRing a a'.
Proof.
  unfold AnimateMaterials. intros H. apply bind_Done in H as (w & _ & H).
  injection H as <-. by cbn.
Qed.

Lemma UpdateObjectCBs_trace gt (a a' : App) slot :
  mCurrFrameResource a = Some slot ->
  UpdateObjectCBs gt a = Done a' ->
  trace a' = trace a ++ [EvFlushObjects slot] /\ keepsRing a a'.
Proof.
  unfold UpdateObjectCBs. intros Hs H.
  apply bind_Done in H as ([s fr] & Hc & H). apply currFrameResource_Done in Hc as [Hc Hfr].
  apply bind_Done in H as ([items cb] & _ & H). injection H as <-.
  assert (s = slot) as -> by congruence. cbn. split; [done|].
  unfold keepsRing; cbn. split_and!; try done. by eapply Fence_insert_same.
Qed.

Lemma UpdateMaterialCBs_trace gt (a a' : App) slot :
  mCurrFrameResource a = Some slot ->
  UpdateMaterialCBs gt a = Done a' ->
  trace a' = trace a ++ [EvFlushMaterials slot] /\ keepsRing a a'.
Proof.
  unfold UpdateMaterialCBs. intros Hs H.
  apply bind_Done in H as ([s fr] & Hc & H). apply currFrameResource_Done in Hc as [Hc Hfr].
  apply bind_Done in H as ([items cb] & _ & H). injection H as <-.
  assert (s = slot) as -> by congruence. cbn. split; [done|].
  unfold keepsRing; cbn. split_and!; try done. by eapply Fence_insert_same.
Qed.

Lemma UpdateMainPassCB_trace gt (a a' : App) slot :
  mCurrFrameResource a = Some slot ->
  UpdateMainPassCB gt a = Done a' ->
  trace a' = trace a ++ [EvPassCB slot] /\ keepsRing a a'.
Proof.
  unfold UpdateMainPassCB. intros Hs H.
  apply bind_Done in H as ([s fr] & Hc & H). apply currFrameResource_Done in Hc as [Hc Hfr].
  apply bind_Done in H as (cb & _ & H). injection H as <-.
  assert (s = slot) as -> by congruence. cbn. split; [done|].
  unfold keepsRing; cbn. split_and!; try done. by eapply Fence_insert_same.
Qed.

Lemma UpdateWaves_trace gt (a a' : App) slot :
  mCurrFrameResource a = Some slot ->
  UpdateWaves gt a = Done a' ->
  trace a' = trace a ++ [EvWavesStep; EvWavesCopy slot] /\ keepsRing a a'.
Proof.
  unfold UpdateWaves. intros Hs H.
  apply bind_Done in H as (w & _ & H).
  apply bind_Done in H as ([s fr] & Hc & H). apply currFrameResource_Done in Hc as [Hc Hfr].
  cbn in Hc, Hfr.
  apply bind_Done in H as (vb & _ & H). injection H as <-.
  assert (s = slot) as -> by congruence. cbn. split; [by rewrite <- app_assoc|].
  unfold keepsRing; cbn. split_and!; try done. by eapply Fence_insert_same.
Qed.

Lemma Update_fill_trace gt (a a' : App) slot :
  mCurrFrameResource a = Some slot ->
  Update_fill gt a = Done a' ->
  trace a' = trace a ++ [EvAnimateMaterials; EvFlushObjects slot; EvFlushMaterials slot;
                         EvPassCB slot; EvWavesStep; EvWavesCopy slot] /\
  keepsRing a a'.
Proof.
  unfold Update_fill. intros Hs H.
  apply bind_Done in H as (a1 & H1 & H). apply AnimateMaterials_trace in H1 as [T1 K1].
  apply bind_Done in H as (a2 & H2 & H).
  apply UpdateObjectCBs_trace with (slot := slot) in H2 as [T2 K2];
    [|destruct K1 as [-> _]; done].
  apply bind_Done in H as (a3 & H3 & H).
  apply UpdateMaterialCBs_trace with (slot := slot) in H3 as [T3 K3];
    [|destruct K1 as [? _], K2 as [? _]; congruence].
  apply bind_Done in H as (a4 & H4 & H).
  apply UpdateMainPassCB_trace with (slot := slot) in H4 as [T4 K4];
    [|destruct K1 as [? _], K2 as [? _], K3 as [? _]; congruence].
  apply UpdateWaves_trace with (slot := slot) in H as [T5 K5];
    [|destruct K1 as [? _], K2 as [? _], K3 as [? _], K4 as [? _]; congruence].
  split.
  - rewrite T5, T4, T3, T2, T1. by rewrite <- !app_assoc.
  - eauto using keepsRing_trans.
Qed.

(** The acquisition: the slot after the current one, and a wait exactly when
    the fence test of [Update] holds. *)
Lemma Update_acquire_Done dev fuel gt (a a1 : App) :
  Update_acquire dev fuel gt a = Done a1 ->
  exists fr, at_index (mFrameResources a) (nextSlot a) = Done fr /\
    mCurrFrameResource a1 = Some (Z.to_nat (nextSlot a)) /\
    mCurrFrameResourceIndex a1 = nextSlot a /\
    mFrameResources a1 = mFrameResources a /\
    mCurrentFence a1 = mCurrentFence a /\
    mAllRitems a1 = mAllRitems a /\ mMaterials a1 = mMaterials a /\
    if mustWait dev a fr
    then 0 <= hrSetEventOnCompletion dev (clock a) /\
         WaitForSingleObject dev fuel (Fence fr) (clock a) = Done (clock a1) /\
         trace a1 = trace a ++ [EvCamera; EvAcquire (Z.to_nat (nextSlot a));
                                EvWait (Z.to_nat (nextSlot a)) (Fence fr)]
    else clock a1 = clock a /\
         trace a1 = trace a ++ [EvCamera; EvAcquire (Z.to_nat (nextSlot a))].
Proof.
  unfold Update_acquire, OnKeyboardInput, UpdateCamera. cbn. intros H.
  apply bind_Done in H as (fr & Hfr & H). exists fr.
  change (Z.rem (mCurrFrameResourceIndex a + 1) gNumFrameResources) with (nextSlot a) in *.
  split; [done|]. unfold mustWait.
  destruct (negb (Fence fr =? 0) && (GetCompletedValue dev (clock a) <? Fence fr)).
  - apply bind_Done in H as (u & Hhr & H). apply ThrowIfFailed_Done in Hhr.
    apply bind_Done in H as (t & Ht & H). injection H as <-. cbn.
    split_and!; try done. by rewrite <- !app_assoc.
  - injection H as <-. cbn. split_and!; try done. by rewrite <- !app_assoc.
Qed.

Lemma Draw_Done dev gt (a a' : App) :
  Draw dev gt a = Done a' ->
  exists slot fr,
    mCurrFrameResource a = Some slot /\ mFrameResources a !! slot = Some fr /\
    mCurrentFence a' = UINT64_wrap (mCurrentFence a + 1) /\
    mFrameResources a' = <[slot := set_Fence (mCurrentFence a') fr]> (mFrameResources a) /\
    mCurrFrameResource a' = mCurrFrameResource a /\
    mCurrFrameResourceIndex a' = mCurrFrameResourceIndex a /\
    clock a' = S (clock a) /\
    trace a' = trace a ++ [EvRecord slot; EvExecute slot; EvPresent;
                           EvPublish slot (mCurrentFence a'); EvSignal (mCurrentFence a')].
Proof.
  unfold Draw. intros H.
  apply bind_Done in H as ([slot fr] & Hc & H). apply currFrameResource_Done in Hc as [Hc Hfr].
  repeat (apply bind_Done in H as (? & _ & H)). cbn in H. injection H as <-. cbn.
  exists slot, fr. split_and!; try done. by rewrite <- !app_assoc.
Qed.

End FrameTrace.

(** ** C3: the order of the operations of a frame *)

Section FrameOrder.
Context {FO : FloatOps} {WA : WavesAPI} {CA : CameraAPI}.

Lemma Tick_Done dev fuel gt (a a' : App) :
  Tick dev fuel gt a = Done a' ->
  exists a1 a2, Update_acquire dev fuel gt a = Done a1 /\
                Update_fill gt a1 = Done a2 /\ Draw dev gt a2 = Done a'.
Proof.
  unfold Tick, Update. intros H.
  apply bind_Done in H as (a2 & H & HD). apply bind_Done in H as (a1 & HA & HF).
  by exists a1, a2.
Qed.

(** The trace and the fence counter of a frame that completes. *)
Lemma Tick_trace dev fuel gt (a a' : App) :
  Tick dev fuel gt a = Done a' ->
  exists slot waited,
    (waited = [] \/ exists f, waited = [EvWait slot f]) /\
    trace a' = trace a ++ [EvCamera; EvAcquire slot] ++ waited
                       ++ frameEvents slot (mCurrentFence a') /\
    mCurrentFence a' = UINT64_wrap (mCurrentFence a + 1) /\
    (forall bound, (forall fr, fr ∈ mFrameResources a -> Fence fr <= bound) ->
       forall fr, fr ∈ mFrameResources a' -> Fence fr <= Z.max bound (mCurrentFence a')).
Proof.
  intros H. apply Tick_Done in H as (a1 & a2 & HA & HF & HD).
  apply Update_acquire_Done in HA as (fr & _ & Hs & _ & Hfrs1 & Hcf1 & _ & _ & HW).
  apply Update_fill_trace with (slot := Z.to_nat (nextSlot a)) in HF as [TF KF]; [|done].
  apply Draw_Done in HD as (slot & fr2 & Hs2 & Hfr2 & Hcf & Hfrs & _ & _ & _ & TD).
  destruct KF as (KF & _ & Kcf & _ & Kfences).
  assert (slot = Z.to_nat (nextSlot a)) as ->
    by (rewrite KF, Hs in Hs2; by injection Hs2).
  exists (Z.to_nat (nextSlot a)).
  assert (Hfence : mCurrentFence a' = UINT64_wrap (mCurrentFence a + 1))
    by (rewrite Hcf, Kcf, Hcf1; done).
  assert (Hbound : forall bound, (forall fr, fr ∈ mFrameResources a -> Fence fr <= bound) ->
       forall fr, fr ∈ mFrameResources a' -> Fence fr <= Z.max bound (mCurrentFence a')).
  { intros bound Hb fr' Hin. rewrite Hfrs in Hin.
    apply list_elem_of_lookup in Hin as [i Hi].
    destruct (decide (i = Z.to_nat (nextSlot a))) as [->|Hne].
    - rewrite list_lookup_insert_eq in Hi by (by eapply lookup_lt_Some).
      injection Hi as <-. cbn. lia.
    - rewrite list_lookup_insert_ne in Hi by done.
      assert (Fence <$> mFrameResources a2 !! i = Some (Fence fr')) as Hf
        by (by rewrite Hi).
      rewrite <- list_lookup_fmap, Kfences, Hfrs1, list_lookup_fmap in Hf.
      destruct (mFrameResources a !! i) as [fr0|] eqn:H0; [|done].
      injection Hf as <-. specialize (Hb fr0). 
      assert (fr0 ∈ mFrameResources a) by (apply list_elem_of_lookup; eauto).
      specialize (Hb H). lia. }
  destruct (mustWait dev a fr).
  - destruct HW as (_ & _ & TA).
    exists [EvWait (Z.to_nat (nextSlot a)) (Fence fr)]. split_and!; [right; eauto | | done | done].
    rewrite TD, TF, TA. unfold frameEvents. by rewrite <- !app_assoc.
  - destruct HW as (_ & TA).
    exists []. split_and!; [by left | | done | done].
    rewrite TD, TF, TA. unfold frameEvents. by rewrite <- !app_assoc.
Qed.

(** C3, as the code has it.  A frame that completes performs, in this order:
    (a) the acquisition of the next slot, with the wait on its fence when
    needed; (d) the flush of the object constants and of the material
    constants into the slot; (b) the step of the wave simulation; (c) the copy
    of the grid into the slot's vertex buffer; (e) the recording of the
    commands; (f) the publication of the slot under a new fence value. *)
Theorem C3_frame_order dev fuel gt (a a' : App) :
  Tick dev fuel gt a = Done a' ->
  exists slot fence waited,
    (waited = [] \/ exists f, waited = [EvWait slot f]) /\
    trace a' = trace a ++ [EvCamera; EvAcquire slot] ++ waited ++ frameEvents slot fence /\
    phases ([EvCamera; EvAcquire slot] ++ waited ++ frameEvents slot fence) =
      [0%nat] ++ phases waited ++ [3; 3; 1; 2; 4; 5]%nat /\
    phases waited = replicate (length waited) 0%nat.
Proof.
  intros H. apply Tick_trace in H as (slot & waited & Hw & Htr & _).
  exists slot, (mCurrentFence a'), waited. split_and!; try done.
  - destruct Hw as [->|[f ->]]; done.
  - destruct Hw as [->|[f ->]]; done.
Qed.

End FrameOrder.

(** ** The fence wait *)

Section FenceWait.

Lemma WaitForSingleObject_Done dev fuel v t0 t :
  WaitForSingleObject dev fuel v t0 = Done t ->
  v <= GetCompletedValue dev t /\ (t0 <= t <= t0 + fuel)%nat /\
  forall t', (t0 <= t' < t)%nat -> GetCompletedValue dev t' < v.
Proof.
  revert t0. induction fuel as [|fuel IH]; intros t0; cbn;
    destruct (Z.leb_spec v (GetCompletedValue dev t0)) as [Hle|Hlt]; intros H.
  - injection H as <-. split; [done|]. split; [lia|]. intros; lia.
  - discriminate.
  - injection H as <-. split; [done|]. split; [lia|]. intros; lia.
  - apply IH in H as (Hv & Ht & Hbefore). split; [done|]. split; [lia|].
    intros t' Ht'. destruct (decide (t' = t0)) as [->|Hne]; [done|].
    apply Hbefore. lia.
Qed.

Lemma WaitForSingleObject_reached dev fuel v t0 n :
  (forall t, (t0 <= t < t0 + n)%nat -> GetCompletedValue dev t < v) ->
  v <= GetCompletedValue dev (t0 + n) ->
  (n <= fuel)%nat ->
  WaitForSingleObject dev fuel v t0 = Done (t0 + n)%nat.
Proof.
  revert t0 n. induction fuel as [|fuel IH]; intros t0 n Hbefore Hat Hn.
  - assert (n = 0%nat) as -> by lia. rewrite Nat.add_0_r in *. cbn.
    by destruct (Z.leb_spec v (GetCompletedValue dev t0)); [|lia].
  - cbn. destruct (Z.leb_spec v (GetCompletedValue dev t0)) as [Hle|Hlt].
    + destruct n as [|n]; [by rewrite Nat.add_0_r|].
      specialize (Hbefore t0). lia.
    + destruct n as [|n]; [rewrite Nat.add_0_r in Hat; lia|].
      replace (t0 + S n)%nat with (S t0 + n)%nat in * by lia.
      apply IH; [|done|lia]. intros t Ht. apply Hbefore. lia.
Qed.

Lemma WaitForSingleObject_Hang dev fuel v t0 :
  (forall t, (t0 <= t <= t0 + fuel)%nat -> GetCompletedValue dev t < v) ->
  WaitForSingleObject dev fuel v t0 = Hang.
Proof.
  revert t0. induction fuel as [|fuel IH]; intros t0 Hlt; cbn;
    destruct (Z.leb_spec v (GetCompletedValue dev t0)) as [Hle|_];
    try (specialize (Hlt t0); lia); [done|].
  apply IH. intros t Ht. apply Hlt. lia.
Qed.

Lemma WaitForSingleObject_Hang_inv dev fuel v t0 :
  WaitForSingleObject dev fuel v t0 = Hang ->
  forall t, (t0 <= t <= t0 + fuel)%nat -> GetCompletedValue dev t < v.
Proof.
  revert t0. induction fuel as [|fuel IH]; intros t0; cbn;
    destruct (Z.leb_spec v (GetCompletedValue dev t0)) as [Hle|Hlt]; intros H t Ht;
    try discriminate.
  - by replace t with t0 by lia.
  - destruct (decide (t = t0)) as [->|Hne]; [done|]. apply (IH _ H). lia.
Qed.

End FenceWait.

(** ** C4: a wait that is never satisfied *)

Section Acquisition.
Context {FO : FloatOps} {WA : WavesAPI} {CA : CameraAPI}.

Lemma Update_acquire_unfold dev fuel gt (a : App) fr :
  at_index (mFrameResources a) (nextSlot a) = Done fr ->
  Update_acquire dev fuel gt a =
    if mustWait dev a fr then
      _ ← ThrowIfFailed (hrSetEventOnCompletion dev (clock a));
      t ← WaitForSingleObject dev fuel (Fence fr) (clock a);
      mret (emit (EvWait (Z.to_nat (nextSlot a)) (Fence fr)) (set_clock t (acquired gt a)))
    else mret (acquired gt a).
Proof.
  intros Hfr. unfold Update_acquire, OnKeyboardInput, UpdateCamera. cbn.
  change (Z.rem (mCurrFrameResourceIndex a + 1) gNumFrameResources) with (nextSlot a).
  rewrite Hfr. cbn. unfold mustWait. reflexivity.
Qed.

Lemma mustWait_true dev (a : App) fr :
  mustWait dev a fr = true <->
  Fence fr <> 0 /\ GetCompletedValue dev (clock a) < Fence fr.
Proof.
  unfold mustWait. rewrite andb_true_iff, negb_true_iff, Z.eqb_neq, Z.ltb_lt. tauto.
Qed.

Lemma ThrowIfFailed_ok hr : 0 <= hr -> ThrowIfFailed hr = Done tt.
Proof. unfold ThrowIfFailed. intros H. by destruct (Z.ltb_spec hr 0); [lia|]. Qed.

(** A wait whose fence is never reached: blocked whatever the budget, unless
    arming the event failed, which is thrown before the wait starts. *)
Lemma Update_stalled dev gt (a : App) fr :
  at_index (mFrameResources a) (nextSlot a) = Done fr ->
  Fence fr <> 0 ->
  (forall t, (clock a <= t)%nat -> GetCompletedValue dev t < Fence fr) ->
  forall fuel,
    Update dev fuel gt a =
      if hrSetEventOnCompletion dev (clock a) <? 0
      then Thrown (hrSetEventOnCompletion dev (clock a)) else Hang.
Proof.
  intros Hfr Hsub Hnever fuel.
  assert (mustWait dev a fr = true) as Hw.
  { apply mustWait_true. split; [done|]. apply Hnever. lia. }
  unfold Update. rewrite (Update_acquire_unfold _ _ _ _ _ Hfr), Hw.
  unfold ThrowIfFailed. destruct (hrSetEventOnCompletion dev (clock a) <? 0); [done|].
  cbn [mbind Outcome_bind].
  rewrite WaitForSingleObject_Hang; [done|]. intros t Ht. apply Hnever. lia.
Qed.

(** C4, as the code has it.  When the completed value never reaches the
    fence of the slot being acquired, [Update] is still blocked whatever the
    budget: the wait has no timeout and produces no error.  The one error
    the acquisition can raise is the failure to arm the event, thrown before
    the wait starts. *)
Theorem C4_stalled_acquire_blocks dev gt (a : App) fr :
  at_index (mFrameResources a) (nextSlot a) = Done fr ->
  Fence fr <> 0 ->
  (forall t, (clock a <= t)%nat -> GetCompletedValue dev t < Fence fr) ->
  (0 <= hrSetEventOnCompletion dev (clock a) ->
     forall fuel, Update dev fuel gt a = Hang) /\
  (hrSetEventOnCompletion dev (clock a) < 0 ->
     forall fuel, Update dev fuel gt a = Thrown (hrSetEventOnCompletion dev (clock a))).
Proof.
  intros Hfr Hsub Hnever.
  split; intros Hhr fuel; rewrite (Update_stalled dev gt a fr Hfr Hsub Hnever).
  - by destruct (Z.ltb_spec (hrSetEventOnCompletion dev (clock a)) 0); [lia|].
  - by destruct (Z.ltb_spec (hrSetEventOnCompletion dev (clock a)) 0); [|lia].
Qed.

End Acquisition.

(** ** The fence values published over the frames *)

Section FenceTargets.
Context {FO : FloatOps} {WA : WavesAPI} {CA : CameraAPI}.

Lemma published_app (l1 l2 : list Event) :
  published (l1 ++ l2) = published l1 ++ published l2.
Proof. unfold published. apply omap_app. Qed.

Lemma published_frame slot waited fence :
  (waited = [] \/ exists f, waited = [EvWait slot f]) ->
  published ([EvCamera; EvAcquire slot] ++ waited ++ frameEvents slot fence) = [fence].
Proof. intros [->|[f ->]]; done. Qed.

Lemma UINT64_wrap_small v : 0 <= v < 2 ^ 64 -> UINT64_wrap v = v.
Proof. intros H. unfold UINT64_wrap. by apply Z.mod_small. Qed.

Lemma Run_published dev fuel gts (a a' : App) :
  Run dev fuel gts a = Done a' ->
  0 <= mCurrentFence a ->
  mCurrentFence a + Z.of_nat (length gts) < 2 ^ 64 ->
  mCurrentFence a' = mCurrentFence a + Z.of_nat (length gts) /\
  (forall bound, mCurrentFence a <= bound ->
     (forall fr, fr ∈ mFrameResources a -> Fence fr <= bound) ->
     forall fr, fr ∈ mFrameResources a' -> Fence fr <= Z.max bound (mCurrentFence a')) /\
  exists seg, trace a' = trace a ++ seg /\
    published seg = (fun i => mCurrentFence a + 1 + Z.of_nat i) <$> seq 0 (length gts).
Proof.
  revert a. induction gts as [|gt gts IH]; intros a HR H0 Hlt.
  - injection HR as <-. cbn. split; [lia|]. split.
    + intros bound _ Hb fr Hfr. specialize (Hb fr Hfr). lia.
    + exists []. by rewrite app_nil_r.
  - cbn [Run] in HR. apply bind_Done in HR as (a1 & HT & HR).
    apply Tick_trace in HT as (slot & waited & Hw & Htr & Hf & Hbound).
    cbn [length] in Hlt. rewrite Nat2Z.inj_succ in Hlt.
    rewrite UINT64_wrap_small in Hf by lia.
    destruct (IH a1 HR) as (Hf' & Hbound' & seg & Htr' & Hpub); [lia | lia |].
    split; [|split].
    + rewrite Hf', Hf. cbn [length]. lia.
    + intros bound Hcf Hb fr Hfr.
      assert (forall fr, fr ∈ mFrameResources a1 -> Fence fr <= Z.max bound (mCurrentFence a1))
        as Hb1 by (by apply Hbound).
      specialize (Hbound' (Z.max bound (mCurrentFence a1)) ltac:(lia) Hb1 fr Hfr). lia.
    + eexists. split.
      * rewrite Htr', Htr. by rewrite <- app_assoc.
      * rewrite published_app, published_frame by done. rewrite Hpub.
        cbn [length seq fmap list_fmap app].
        replace (mCurrentFence a + 1 + Z.of_nat 0) with (mCurrentFence a1) by lia.
        f_equal. rewrite <- fmap_S_seq, <- list_fmap_compose.
        apply list_fmap_ext. intros i x _. cbn. lia.
Qed.

End FenceTargets.

(** ** C10: the index buffer of the wave grid *)

Section WaveIndices.
Context {FO : FloatOps} {WA : WavesAPI}.


Lemma store_index_next vcount (b : IndexBuild) (k v : Z) :
  vcount <= 2 ^ 16 ->
  (ib_written b).*1 = Z.of_nat <$> seq 0 (length (ib_written b)) ->
  take (length (ib_written b)) (indices b) = (ib_written b).*2 ->
  Forall (fun pv => 0 <= pv.2 < vcount) (ib_written b) ->
  k = Z.of_nat (length (ib_written b)) ->
  (length (ib_written b) < length (indices b))%nat ->
  0 <= v < vcount ->
  exists b',
    store_index k v b = Done b' /\
    ib_k b' = ib_k b /\ length (indices b') = length (indices b) /\
    length (ib_written b') = S (length (ib_written b)) /\
    (ib_written b').*1 = Z.of_nat <$> seq 0 (length (ib_written b')) /\
    take (length (ib_written b')) (indices b') = (ib_written b').*2 /\
    Forall (fun pv => 0 <= pv.2 < vcount) (ib_written b').
Proof.
  intros Hv16 Hpos Htake Hall -> Hroom Hv. unfold store_index.
  assert (((0 <=? Z.of_nat (length (ib_written b)))
           && (Z.of_nat (length (ib_written b)) <? Z.of_nat (length (indices b)))) = true) as ->.
  { apply andb_true_iff. split; [apply Z.leb_le | apply Z.ltb_lt]; lia. }
  eexists. split; [reflexivity|]. cbn. rewrite Nat2Z.id.
  rewrite length_insert, length_app. cbn. rewrite Nat.add_1_r.
  split_and!; try done.
  - rewrite fmap_app, Hpos, seq_S, fmap_app. done.
  - rewrite fmap_app, <- Htake. cbn. rewrite Z.mod_small by lia.
    erewrite take_S_r; [|apply list_lookup_insert_eq; lia].
    by rewrite take_insert_ge by lia.
  - apply Forall_app. split; [done|]. by apply Forall_singleton.
Qed.

Lemma BuildWaves_quad_spec vcount (m n i j : Z) (b : IndexBuild) :
  vcount = m * n -> vcount <= 2 ^ 16 ->
  0 <= i < m - 1 -> 0 <= j < n - 1 ->
  Filled vcount b ->
  ib_k b + 6 <= Z.of_nat (length (indices b)) ->
  exists b',
    BuildWaves_quad n i j b = Done b' /\ Filled vcount b' /\
    ib_k b' = ib_k b + 6 /\ length (indices b') = length (indices b).
Proof.
  intros Hvc Hv16 Hi Hj (Hk & Hpos & Htake & Hall) Hroom. unfold BuildWaves_quad.
  assert (Hr : forall v, v ∈ [i * n + j; i * n + j + 1; (i + 1) * n + j; (i + 1) * n + j + 1] ->
                         0 <= v < vcount).
  { intros v Hin. subst vcount. set_unfold. nia. }
  destruct (store_index_next vcount b (ib_k b) (i * n + j))
    as (b1 & Hs1 & Hk1 & Hl1 & Hw1 & Hpos1 & Htake1 & Hall1);
    [done | done | done | done | done | lia | apply Hr; repeat constructor |].
  rewrite Hs1.
  cbn [mbind Outcome_bind].
  destruct (store_index_next vcount b1 (ib_k b + 1) (i * n + j + 1))
    as (b2 & Hs2 & Hk2 & Hl2 & Hw2 & Hpos2 & Htake2 & Hall2);
    [done | done | done | done | lia | lia | apply Hr; repeat constructor |].
  rewrite Hs2.
  cbn [mbind Outcome_bind].
  destruct (store_index_next vcount b2 (ib_k b + 2) ((i + 1) * n + j))
    as (b3 & Hs3 & Hk3 & Hl3 & Hw3 & Hpos3 & Htake3 & Hall3);
    [done | done | done | done | lia | lia | apply Hr; repeat constructor |].
  rewrite Hs3.
  cbn [mbind Outcome_bind].
  destruct (store_index_next vcount b3 (ib_k b + 3) ((i + 1) * n + j))
    as (b4 & Hs4 & Hk4 & Hl4 & Hw4 & Hpos4 & Htake4 & Hall4);
    [done | done | done | done | lia | lia | apply Hr; repeat constructor |].
  rewrite Hs4.
  cbn [mbind Outcome_bind].
  destruct (store_index_next vcount b4 (ib_k b + 4) (i * n + j + 1))
    as (b5 & Hs5 & Hk5 & Hl5 & Hw5 & Hpos5 & Htake5 & Hall5);
    [done | done | done | done | lia | lia | apply Hr; repeat constructor |].
  rewrite Hs5.
  cbn [mbind Outcome_bind].
  destruct (store_index_next vcount b5 (ib_k b + 5) ((i + 1) * n + j + 1))
    as (b6 & Hs6 & Hk6 & Hl6 & Hw6 & Hpos6 & Htake6 & Hall6);
    [done | done | done | done | lia | lia | apply Hr; repeat constructor |].
  rewrite Hs6.
  cbn [mbind Outcome_bind mret Outcome_ret].
  eexists. split; [reflexivity|]. unfold Filled. cbn.
  split_and!; try done; lia.
Qed.

Lemma BuildWaves_row_spec vcount (m n i : Z) (count : nat) (j : Z) (b : IndexBuild) :
  vcount = m * n -> vcount <= 2 ^ 16 ->
  0 <= i < m - 1 -> 0 <= j -> j + Z.of_nat count = n - 1 ->
  Filled vcount b ->
  ib_k b + 6 * Z.of_nat count <= Z.of_nat (length (indices b)) ->
  exists b',
    BuildWaves_row n i count j b = Done b' /\ Filled vcount b' /\
    ib_k b' = ib_k b + 6 * Z.of_nat count /\ length (indices b') = length (indices b).
Proof.
  intros Hvc Hv16 Hi. revert j b.
  induction count as [|count IH]; intros j b Hj Hsum HF Hroom.
  - exists b. cbn. split_and!; try done. lia.
  - cbn [BuildWaves_row].
    destruct (BuildWaves_quad_spec vcount m n i j b) as (b1 & -> & HF1 & Hk1 & Hl1);
      [done | done | done | lia | done | lia |].
    cbn [mbind Outcome_bind].
    destruct (IH (j + 1) b1) as (b' & -> & HF' & Hk' & Hl'); [lia | lia | done | lia |].
    exists b'. split_and!; try done; [lia | congruence].
Qed.

Lemma BuildWaves_rows_spec vcount (m n : Z) (count : nat) (i : Z) (b : IndexBuild) :
  vcount = m * n -> vcount <= 2 ^ 16 -> 1 <= n ->
  0 <= i -> i + Z.of_nat count = m - 1 ->
  Filled vcount b ->
  ib_k b + 6 * Z.of_nat count * (n - 1) <= Z.of_nat (length (indices b)) ->
  exists b',
    BuildWaves_rows n count i b = Done b' /\ Filled vcount b' /\
    ib_k b' = ib_k b + 6 * Z.of_nat count * (n - 1) /\
    length (indices b') = length (indices b).
Proof.
  intros Hvc Hv16 Hn. revert i b.
  induction count as [|count IH]; intros i b Hi Hsum HF Hroom.
  - exists b. cbn. split_and!; try done. lia.
  - cbn [BuildWaves_rows].
    destruct (BuildWaves_row_spec vcount m n i (Z.to_nat (n - 1)) 0 b)
      as (b1 & -> & HF1 & Hk1 & Hl1); [done | done | lia | lia | lia | done | nia |].
    cbn [mbind Outcome_bind]. rewrite Z2Nat.id in Hk1 by lia.
    destruct (IH (i + 1) b1) as (b' & -> & HF' & Hk' & Hl'); [lia | lia | done | nia |].
    exists b'. split_and!; try done; [nia | congruence].
Qed.

(** C10.  For a grid of [m] rows and [n] columns whose vertex count [m * n] is
    below [0xffff] and whose triangle count is [2 (m-1) (n-1)], the quad loop
    returns without leaving the vector; it performs [6 (m-1) (n-1)] writes,
    which is [3 * TriangleCount] and the size of the vector, at the positions
    0, 1, 2, ... in this order; every value assigned is a vertex number below
    [m * n], fits 16 bits, and is what the vector holds afterwards. *)
Theorem C10_wave_index_buffer (w : Waves) (m n : Z) :
  RowCount w = m -> ColumnCount w = n -> 1 <= m -> 1 <= n ->
  VertexCount w = m * n -> TriangleCount w = 2 * (m - 1) * (n - 1) ->
  VertexCount w < 65535 ->
  exists b,
    BuildWavesGeometry w = Done b /\
    Z.of_nat (length (ib_written b)) = 6 * (m - 1) * (n - 1) /\
    Z.of_nat (length (ib_written b)) = 3 * TriangleCount w /\
    length (indices b) = length (ib_written b) /\
    (ib_written b).*1 = Z.of_nat <$> seq 0 (length (ib_written b)) /\
    indices b = (ib_written b).*2 /\
    Forall (fun pv => 0 <= pv.2 < m * n /\ pv.2 < 2 ^ 16) (ib_written b) /\
    Forall (fun v => 0 <= v < m * n) (indices b).
Proof.
  intros Hm Hn Hm1 Hn1 Hvc Htc Hlt. unfold BuildWavesGeometry. rewrite Hm, Hn, Htc.
  set (b0 := mkIndexBuild _ 0 []).
  destruct (BuildWaves_rows_spec (m * n) m n (Z.to_nat (m - 1)) 0 b0)
    as (b & -> & (Hk & Hpos & Htake & Hall) & Hkv & Hlen);
    [done | lia | done | lia | lia | by repeat split | |].
  { subst b0. cbn. rewrite length_replicate. nia. }
  assert (Hl0 : Z.of_nat (length (indices b)) = 6 * (m - 1) * (n - 1)).
  { rewrite Hlen. subst b0. cbn. rewrite length_replicate. nia. }
  assert (Hw : Z.of_nat (length (ib_written b)) = 6 * (m - 1) * (n - 1)).
  { rewrite <- Hk, Hkv. subst b0. cbn. rewrite Z2Nat.id by lia. lia. }
  assert (Hsame : length (indices b) = length (ib_written b)) by lia.
  assert (Hidx : indices b = (ib_written b).*2).
  { rewrite <- Htake, <- Hsame. by rewrite firstn_all. }
  exists b. split_and!; try done.
  - lia.
  - eapply Forall_impl; [exact Hall|]. intros pv Hpv. cbn in Hpv. lia.
  - rewrite Hidx. apply Forall_fmap. eapply Forall_impl; [exact Hall|]. by intros pv.
Qed.

End WaveIndices.

(** ** Rounding to nearest in floating point

    Bounds on the results of the executable specification of IEEE 754
    arithmetic ([SpecFloat]), for any precision: rounding to nearest does not
    cross a power of two. *)

Section Rounding.
Variables prec emax : Z.
Hypothesis prec_pos : 0 < prec.

Lemma digits2_pos_bounds (p : positive) :
  2 ^ (Z.pos (digits2_pos p) - 1) <= Z.pos p < 2 ^ Z.pos (digits2_pos p).
Proof.
  induction p as [p IH | p IH |]; cbn [digits2_pos].
  - rewrite Pos2Z.inj_succ. change (Z.pos p~1) with (2 * Z.pos p + 1).
    replace (Z.succ (Z.pos (digits2_pos p)) - 1) with (Z.succ (Z.pos (digits2_pos p) - 1)) by lia.
    rewrite !Z.pow_succ_r by lia. lia.
  - rewrite Pos2Z.inj_succ. change (Z.pos p~0) with (2 * Z.pos p).
    replace (Z.succ (Z.pos (digits2_pos p)) - 1) with (Z.succ (Z.pos (digits2_pos p) - 1)) by lia.
    rewrite !Z.pow_succ_r by lia. lia.
  - cbn. lia.
Qed.

(** A non-negative integer below [2 ^ k] has at most [k] digits. *)
Lemma Zdigits2_le m k : 0 <= m -> 0 <= k -> m < 2 ^ k -> Zdigits2 m <= k.
Proof.
  intros Hm Hk Hlt. destruct m as [|p|p]; cbn [Zdigits2]; [lia| |lia].
  pose proof (digits2_pos_bounds p) as [Hlo _].
  destruct (Z.le_gt_cases (Z.pos (digits2_pos p)) k) as [?|Hgt]; [done|].
  assert (2 ^ k <= 2 ^ (Z.pos (digits2_pos p) - 1)) by (apply Z.pow_le_mono_r; lia).
  lia.
Qed.

Lemma Zdigits2_gt m : 0 < m -> m < 2 ^ Zdigits2 m /\ 2 ^ (Zdigits2 m - 1) <= m.
Proof.
  intros Hm. destruct m as [|p|p]; try lia. cbn [Zdigits2].
  pose proof (digits2_pos_bounds p). lia.
Qed.

Lemma shr_1_m mrs : 0 <= shr_m mrs -> shr_m (shr_1 mrs) = shr_m mrs / 2.
Proof.
  destruct mrs as [m r s]. cbn [shr_m shr_1]. intros Hm.
  destruct m as [|[p|p|]|p]; cbn [shr_m]; try lia; try reflexivity.
  - apply Z.div_unique with (r := 1); lia.
  - apply Z.div_unique with (r := 0); lia.
Qed.

Lemma shr_1_exact k : 0 <= k ->
  shr_1 (Build_shr_record (2 * k) false false) = Build_shr_record k false false.
Proof. intros Hk. destruct k as [|p|p]; try lia; reflexivity. Qed.

Lemma shr_iter_m (p : positive) mrs :
  0 <= shr_m mrs ->
  shr_m (SpecFloat.iter_pos shr_1 p mrs) = shr_m mrs / 2 ^ Z.pos p.
Proof.
  revert mrs. induction p as [p IH | p IH |]; intros mrs Hm; cbn [SpecFloat.iter_pos].
  - assert (0 <= shr_m (shr_1 mrs)) as H1 by (rewrite shr_1_m by done; apply Z.div_pos; lia).
    assert (0 <= shr_m (SpecFloat.iter_pos shr_1 p (shr_1 mrs))) as H2.
    { rewrite IH by done. apply Z.div_pos; lia. }
    rewrite IH, IH, shr_1_m by done.
    rewrite !Z.div_div by lia. f_equal.
    change (Z.pos p~1) with (2 * Z.pos p + 1).
    rewrite Z.pow_add_r, Z.pow_1_r by lia.
    replace (2 * Z.pos p) with (Z.pos p + Z.pos p) by lia.
    rewrite Z.pow_add_r by lia. lia.
  - assert (0 <= shr_m (SpecFloat.iter_pos shr_1 p mrs)) as H2.
    { rewrite IH by done. apply Z.div_pos; lia. }
    rewrite IH, IH by done.
    rewrite !Z.div_div by lia. f_equal.
    change (Z.pos p~0) with (2 * Z.pos p).
    replace (2 * Z.pos p) with (Z.pos p + Z.pos p) by lia.
    rewrite Z.pow_add_r by lia. lia.
  - rewrite shr_1_m by done. reflexivity.
Qed.

Lemma shr_iter_exact (p : positive) k : 0 <= k ->
  SpecFloat.iter_pos shr_1 p (Build_shr_record (k * 2 ^ Z.pos p) false false)
  = Build_shr_record k false false.
Proof.
  revert k. induction p as [p IH | p IH |]; intros k Hk; cbn [SpecFloat.iter_pos].
  - change (Z.pos p~1) with (2 * Z.pos p + 1).
    rewrite Z.pow_add_r, Z.pow_1_r by lia.
    replace (2 * Z.pos p) with (Z.pos p + Z.pos p) by lia.
    rewrite Z.pow_add_r by lia.
    replace (k * (2 ^ Z.pos p * 2 ^ Z.pos p * 2))
      with (2 * (k * 2 ^ Z.pos p * 2 ^ Z.pos p)) by lia.
    rewrite shr_1_exact by (apply Z.mul_nonneg_nonneg; lia).
    rewrite IH by (apply Z.mul_nonneg_nonneg; lia). by apply IH.
  - change (Z.pos p~0) with (2 * Z.pos p).
    replace (2 * Z.pos p) with (Z.pos p + Z.pos p) by lia.
    rewrite Z.pow_add_r by lia.
    replace (k * (2 ^ Z.pos p * 2 ^ Z.pos p)) with (k * 2 ^ Z.pos p * 2 ^ Z.pos p) by lia.
    rewrite IH by (apply Z.mul_nonneg_nonneg; lia). by apply IH.
  - rewrite Z.pow_1_r. replace (k * 2) with (2 * k) by lia. by apply shr_1_exact.
Qed.

Lemma loc_of_record_of_loc m l : loc_of_shr_record (shr_record_of_loc m l) = l.
Proof. by destruct l as [|[]]. Qed.

Lemma shr_m_record_of_loc m l : shr_m (shr_record_of_loc m l) = m.
Proof. by destruct l as [|[]]. Qed.

Lemma round_nearest_even_bound m l :
  m <= round_nearest_even m l <= m + 1 /\ (l = loc_Exact -> round_nearest_even m l = m).
Proof. destruct l as [|[]]; cbn; [|destruct (Z.even m)| |]; split; try lia; try done. Qed.

(** Dropping bits keeps a value below a power of two below it, and keeps the
    bound exact. *)
Lemma shr_fexp_below eB m e l :
  emin prec emax <= eB -> atMostPow2 eB m e l ->
  atMostPow2 eB (shr_m (shr_fexp prec emax m e l).1) (shr_fexp prec emax m e l).2
        (loc_of_shr_record (shr_fexp prec emax m e l).1).
Proof.
  intros HeB (He & [Hm0 Hm] & Hex).
  assert (0 < 2 ^ (eB - e)) as Hp0 by (apply Z.pow_pos_nonneg; lia).
  assert (Zdigits2 m + e <= eB + 1) as Hd.
  { assert (Zdigits2 m <= eB - e + 1); [|lia]. apply Zdigits2_le; [done|lia|].
    rewrite Z.pow_add_r, Z.pow_1_r by lia. lia. }
  unfold shr_fexp, shr.
  destruct (fexp prec emax (Zdigits2 m + e) - e) as [|p|p] eqn:Hn; cbn [fst snd].
  1,3: by rewrite shr_m_record_of_loc, loc_of_record_of_loc.
  assert (e + Z.pos p <= eB) as He' by (unfold fexp in Hn; lia).
  rewrite shr_iter_m by (by rewrite shr_m_record_of_loc). rewrite shr_m_record_of_loc.
  assert (2 ^ (eB - e) = 2 ^ (eB - (e + Z.pos p)) * 2 ^ Z.pos p) as Hpow.
  { rewrite <- Z.pow_add_r by lia. f_equal. lia. }
  assert (0 < 2 ^ Z.pos p) as Hpp by (apply Z.pow_pos_nonneg; lia).
  split; [done|]. split.
  - split; [apply Z.div_pos; lia|]. apply Z.div_le_upper_bound; [lia|]. lia.
  - intros Heq.
    pose proof (Z.mul_div_le m (2 ^ Z.pos p) Hpp) as Hle. rewrite Heq in Hle.
    assert (m = 2 ^ (eB - e)) as Hmax by lia.
    rewrite (Hex Hmax). cbn [shr_record_of_loc].
    rewrite Hmax, Hpow, shr_iter_exact; [reflexivity|]. apply Z.pow_nonneg. lia.
Qed.

(** Rounding to nearest does not cross a power of two: what denotes at most
    [2 ^ eB] rounds to a zero or a finite float of at most [2 ^ eB], never to
    an infinity. *)
Lemma binary_round_aux_below eB sx m e l :
  emin prec emax <= eB -> eB <= emax - prec -> atMostPow2 eB m e l ->
  finiteWithin eB sx (binary_round_aux prec emax sx m e l).
Proof.
  intros Hlo Hhi Hb. unfold binary_round_aux.
  pose proof (shr_fexp_below eB m e l Hlo Hb) as H1.
  destruct (shr_fexp prec emax m e l) as [mrs1 e1]. cbn [fst snd] in H1.
  set (m2 := round_nearest_even (shr_m mrs1) (loc_of_shr_record mrs1)).
  assert (atMostPow2 eB m2 e1 loc_Exact) as H2.
  { destruct H1 as (He1 & [Hm0 Hm] & Hex).
    pose proof (round_nearest_even_bound (shr_m mrs1) (loc_of_shr_record mrs1)) as [Hr Hre].
    fold m2 in Hr, Hre. split; [done|]. split; [|done]. split; [lia|].
    destruct (decide (shr_m mrs1 = 2 ^ (eB - e1))) as [Heq|Hne]; [|lia].
    rewrite Hre by auto. lia. }
  pose proof (shr_fexp_below eB m2 e1 loc_Exact Hlo H2) as H3.
  destruct (shr_fexp prec emax m2 e1 loc_Exact) as [mrs3 e3]. cbn [fst snd] in H3.
  destruct H3 as (He3 & [Hm0 Hm] & _).
  destruct (shr_m mrs3) as [|p|p]; cbn [finiteWithin]; [done| |lia].
  replace (e3 <=? emax - prec) with true by (symmetry; apply Z.leb_le; lia).
  done.
Qed.

Lemma iter_xO_value (m d : positive) : Z.pos (Pos.iter xO m d) = Z.pos m * 2 ^ Z.pos d.
Proof.
  induction d as [|d IH] using Pos.peano_ind.
  - cbn [Pos.iter]. lia.
  - rewrite Pos.iter_succ, Pos2Z.inj_succ, Z.pow_succ_r by lia.
    change (Z.pos (Pos.iter xO m d)~0) with (2 * Z.pos (Pos.iter xO m d)). lia.
Qed.

(** [shl_align] keeps the value: it lowers the exponent, to [e'] when
    [e' <= e], and scales the mantissa accordingly. *)
Lemma shl_align_spec m e e' :
  (shl_align m e e').2 <= e /\
  (e' <= e -> (shl_align m e e').2 = e') /\
  Z.pos (shl_align m e e').1 = Z.pos m * 2 ^ (e - (shl_align m e e').2).
Proof.
  unfold shl_align. destruct (e' - e) as [|d|d] eqn:Hd; cbn [fst snd].
  - rewrite Z.sub_diag. lia.
  - rewrite Z.sub_diag. lia.
  - split; [lia|]. split; [done|]. rewrite iter_xO_value. do 2 f_equal. lia.
Qed.

Lemma binary_round_below eB sx p e :
  emin prec emax <= eB -> eB <= emax - prec ->
  e <= eB -> Z.pos p <= 2 ^ (eB - e) ->
  finiteWithin eB sx (binary_round prec emax sx p e).
Proof.
  intros Hlo Hhi He Hp. unfold binary_round.
  pose proof (shl_align_spec p e (fexp prec emax (Z.pos (digits2_pos p) + e))) as (H1 & _ & H2).
  destruct (shl_align p e _) as [mz ez]. cbn [fst snd] in H1, H2.
  apply binary_round_aux_below; [done..|].
  split; [lia|]. split; [|done]. split; [lia|]. rewrite H2.
  replace (eB - ez) with ((eB - e) + (e - ez)) by lia.
  rewrite Z.pow_add_r by lia. apply Z.mul_le_mono_nonneg_r; [apply Z.pow_nonneg; lia | done].
Qed.

End Rounding.


Section HalfRange.
Variables prec emax : Z.
Hypothesis prec_pos : 0 < prec.
Hypothesis emin_low : emin prec emax <= -1.
Hypothesis emax_high : 0 <= emax - prec.

(** Comparing [a * 2 ^ x] with [b * 2 ^ y] on integers does not depend on the
    exponent the two are brought to. *)
Lemma dyadic_le_lower a b x y c c' :
  c' <= c -> c <= x -> c <= y ->
  a * 2 ^ (x - c) <= b * 2 ^ (y - c) <-> a * 2 ^ (x - c') <= b * 2 ^ (y - c').
Proof.
  intros Hc Hx Hy.
  replace (x - c') with ((x - c) + (c - c')) by lia.
  replace (y - c') with ((y - c) + (c - c')) by lia.
  rewrite !Z.pow_add_r by lia. rewrite !Z.mul_assoc.
  apply Z.mul_le_mono_pos_r. apply Z.pow_pos_nonneg; lia.
Qed.

Lemma new_location_exact n : new_location n 0 = loc_Exact.
Proof. unfold new_location. by destruct (Z.even n). Qed.

(** A quotient of magnitude at most one half is computed as a zero or a
    finite float of magnitude at most one half. *)
Lemma SFdiv_within_half x y :
  withinHalf x y -> exists s, finiteWithin (-1) s (SFdiv prec emax x y).
Proof.
  destruct x as [sx| | |sx mx ex], y as [| | |[] my ey]; try done; intros H.
  { exists (xorb sx false). reflexivity. }
  cbn [withinHalf] in H. exists (xorb sx false).
  unfold SFdiv, SFdiv_core_binary. cbv zeta.
  set (d1 := Zdigits2 (Z.pos mx)). set (d2 := Zdigits2 (Z.pos my)).
  set (e' := Z.min (fexp prec emax (d1 + ex - (d2 + ey))) (ex - ey)).
  set (c := Z.min ex ey) in H.
  assert (d1 + ex < d2 + ey) as Hd.
  { destruct (Zdigits2_gt (Z.pos mx)) as [_ Hlo]; [lia|].
    destruct (Zdigits2_gt (Z.pos my)) as [Hhi _]; [lia|].
    fold d1 in Hlo. fold d2 in Hhi.
    assert (1 <= d1) by (subst d1; cbn; lia). assert (1 <= d2) by (subst d2; cbn; lia).
    assert (0 < 2 ^ (ex - c)) by (apply Z.pow_pos_nonneg; lia).
    assert (0 < 2 ^ (ey - c)) by (apply Z.pow_pos_nonneg; lia).
    assert (2 ^ (d1 + ex - c) < 2 ^ (d2 + ey - c)) as Hpow.
    { replace (d1 + ex - c) with (1 + (d1 - 1) + (ex - c)) by lia.
      replace (d2 + ey - c) with (d2 + (ey - c)) by lia.
      rewrite !Z.pow_add_r, Z.pow_1_r by lia.
      apply Z.le_lt_trans with (2 * Z.pos mx * 2 ^ (ex - c)).
      - apply Z.mul_le_mono_nonneg_r; lia.
      - apply Z.le_lt_trans with (Z.pos my * 2 ^ (ey - c)); [done|].
        apply Z.mul_lt_mono_pos_r; lia. }
    apply Z.pow_lt_mono_r_iff in Hpow; lia. }
  assert (e' <= -1) as He' by (subst e'; unfold fexp; lia).
  assert (e' <= ex - ey) as Hs by (subst e'; lia).
  set (m' := match ex - ey - e' with Z.pos _ => _ | _ => _ end).
  assert (m' = Z.pos mx * 2 ^ (ex - ey - e')) as Hm'.
  { subst m'. destruct (ex - ey - e') as [|p|p] eqn:Hp; [cbn; lia | | lia].
    by rewrite Z.shiftl_mul_pow2. }
  pose proof (Z_div_mod m' (Z.pos my) ltac:(lia)) as Hdiv.
  destruct (Z.div_eucl m' (Z.pos my)) as [q r]. destruct Hdiv as [Hq Hr].
  assert (0 <= m') as Hm0 by (rewrite Hm'; apply Z.mul_nonneg_nonneg; [lia | apply Z.pow_nonneg; lia]).
  assert (m' <= Z.pos my * 2 ^ (-1 - e')) as Hle.
  { apply (dyadic_le_lower (2 * Z.pos mx) (Z.pos my) ex ey c (ey + e')) in H; [|lia..].
    replace (ex - (ey + e')) with (ex - ey - e') in H by lia.
    replace (ey - (ey + e')) with (1 + (-1 - e')) in H by lia.
    rewrite Z.pow_add_r, Z.pow_1_r in H by lia. lia. }
  assert (0 < 2 ^ (-1 - e')) as Hp by (apply Z.pow_pos_nonneg; lia).
  apply binary_round_aux_below; [done | done | lia |].
  split; [done|]. split.
  - split; [nia|]. nia.
  - intros Heq. assert (r = 0) as -> by nia. apply new_location_exact.
Qed.

Lemma half_within h : isHalf h -> finiteWithin 0 false h.
Proof.
  destruct h as [| | |[] m e]; try done. intros [He Hm]. split; [done|]. split; [lia|].
  rewrite Hm. apply Z.pow_le_mono_r; lia.
Qed.

(** The two operands of a sum or difference of one half and a float of
    magnitude at most one half, brought to their common exponent. *)
Lemma aligned_operands mh eh sq mq eq :
  isHalf (S754_finite false mh eh) -> finiteWithin (-1) sq (S754_finite sq mq eq) ->
  let ez := Z.min eh eq in
  ez <= 0 /\
  Z.pos (shl_align mh eh ez).1 = 2 ^ (-1 - ez) /\
  Z.pos (shl_align mq eq ez).1 <= 2 ^ (-1 - ez) /\
  2 ^ (- ez) = 2 * 2 ^ (-1 - ez).
Proof.
  intros [Heh Hmh] (_ & Heq & Hmq) ez.
  destruct (shl_align_spec mh eh ez) as (_ & Hh2 & Hh1).
  destruct (shl_align_spec mq eq ez) as (_ & Hq2 & Hq1).
  rewrite Hh2 in Hh1 by lia. rewrite Hq2 in Hq1 by lia.
  split; [lia|]. split; [|split].
  - rewrite Hh1, Hmh, <- Z.pow_add_r by lia. f_equal. lia.
  - rewrite Hq1. replace (-1 - ez) with ((-1 - eq) + (eq - ez)) by lia.
    rewrite Z.pow_add_r by lia. apply Z.mul_le_mono_nonneg_r; [apply Z.pow_nonneg; lia | done].
  - replace (- ez) with (1 + (-1 - ez)) by lia. rewrite Z.pow_add_r by lia. reflexivity.
Qed.

Lemma binary_normalize_unit S ez :
  ez <= 0 -> 0 <= S <= 2 ^ (- ez) ->
  finiteWithin 0 false (binary_normalize prec emax S ez false).
Proof.
  intros Hez [H0 H1]. destruct S as [|p|p]; cbn [binary_normalize]; [done | | lia].
  apply binary_round_below; [done | lia | lia | lia | by rewrite Z.sub_0_l].
Qed.

(** One half plus a float of magnitude at most one half is computed as a
    zero or a positive finite float of at most 1. *)
Lemma SFadd_half_unit h q s :
  isHalf h -> finiteWithin (-1) s q -> finiteWithin 0 false (SFadd prec emax h q).
Proof.
  intros Hh Hq. pose proof (half_within h Hh) as Hw.
  destruct h as [| | |[] mh eh]; try done. destruct q as [sq| | |sq mq eq]; try done.
  cbn [finiteWithin] in Hq. destruct Hq as [-> Hq].
  destruct (aligned_operands mh eh s mq eq Hh) as (Hez & Ha & Hb & Hp); [done|].
  unfold SFadd. cbv zeta. apply binary_normalize_unit; [done|].
  rewrite Hp. unfold cond_Zopp at 1. rewrite Ha.
  destruct s; cbn [cond_Zopp]; lia.
Qed.

(** One half minus a float of magnitude at most one half, likewise. *)
Lemma SFsub_half_unit h q s :
  isHalf h -> finiteWithin (-1) s q -> finiteWithin 0 false (SFsub prec emax h q).
Proof.
  intros Hh Hq. pose proof (half_within h Hh) as Hw.
  destruct h as [| | |[] mh eh]; try done. destruct q as [sq| | |sq mq eq]; try done.
  cbn [finiteWithin] in Hq. destruct Hq as [-> Hq].
  destruct (aligned_operands mh eh s mq eq Hh) as (Hez & Ha & Hb & Hp); [done|].
  unfold SFsub. cbv zeta. apply binary_normalize_unit; [done|].
  rewrite Hp. unfold cond_Zopp at 1. rewrite Ha.
  destruct s; cbn [cond_Zopp]; lia.
Qed.

End HalfRange.

Section Values.

Lemma Qpower2_pos e : (0 < 2 ^ e)%Q.
Proof. by apply Qpower_0_lt. Qed.

Lemma Qpower2_shift e c : c <= e -> (2 ^ e == inject_Z (2 ^ (e - c)) * 2 ^ c)%Q.
Proof.
  intros H. rewrite Zpower_Qpower by lia. change (inject_Z 2) with 2%Q.
  rewrite <- Qpower_plus by done. by replace (e - c + c) with e by lia.
Qed.

(** What is within [2 ^ 0] with a positive sign denotes a rational of [0, 1]. *)
Lemma finiteWithin_unit_value u :
  finiteWithin 0 false u ->
  binary32_finite u = true /\ (0 <= binary32_value u)%Q /\ (binary32_value u <= 1)%Q.
Proof.
  destruct u as [s| | |s m e]; try done; cbn [finiteWithin binary32_finite binary32_value].
  intros (-> & He & Hm). split; [done|].
  pose proof (Qpower2_pos e) as Hp.
  assert (0 <= inject_Z (Z.pos m))%Q as H0 by (rewrite <- (Zle_Qle 0); lia).
  split; [apply Qmult_le_0_compat; [done | by apply Qlt_le_weak]|].
  rewrite Z.sub_0_l, Zle_Qle in Hm. rewrite Zpower_Qpower in Hm by lia.
  change (inject_Z 2) with 2%Q in Hm.
  assert (2 ^ (- e) * 2 ^ e == 1)%Q as H1.
  { rewrite <- Qpower_plus by done. by replace (- e + e) with 0 by lia. }
  rewrite <- H1. apply Qmult_le_compat_r; [done | by apply Qlt_le_weak].
Qed.

(** A finite [x] and a [y] denoting rationals with [y > 0] and
    [-y/2 <= x <= y/2]. *)
Lemma withinHalf_of_values x y :
  binary32_finite x = true -> (0 < binary32_value y)%Q ->
  (- (binary32_value y / 2) <= binary32_value x)%Q ->
  (binary32_value x <= binary32_value y / 2)%Q ->
  withinHalf x y.
Proof.
  intros Hx Hy Hlo Hhi.
  destruct y as [| | |sy my ey]; try (by apply Qlt_irrefl in Hy).
  cbn [binary32_value] in Hy, Hlo, Hhi.
  pose proof (Qpower2_pos ey) as Hpy.
  destruct sy.
  { exfalso. change (inject_Z (Z.neg my)) with (- inject_Z (Z.pos my))%Q in Hy.
    assert (0 < inject_Z (Z.pos my))%Q as H0 by (rewrite <- (Zlt_Qlt 0); lia).
    pose proof (Qmult_lt_0_compat _ _ H0 Hpy). lra. }
  destruct x as [sx| | |sx mx ex]; try done. cbn [withinHalf].
  set (c := Z.min ex ey).
  pose proof (Qpower2_pos c) as Hpc.
  assert (2 * (inject_Z (Z.pos mx) * 2 ^ ex) <= inject_Z (Z.pos my) * 2 ^ ey)%Q as H.
  { unfold Qdiv in Hlo, Hhi. change (/ 2)%Q with (1 # 2)%Q in Hlo, Hhi.
    cbn [binary32_value] in Hlo, Hhi. destruct sx.
    - change (inject_Z (Z.neg mx)) with (- inject_Z (Z.pos mx))%Q in Hlo. lra.
    - lra. }
  rewrite (Qpower2_shift ex c), (Qpower2_shift ey c) in H by lia.
  rewrite Zle_Qle, !inject_Z_mult. change (inject_Z 2) with 2%Q.
  apply (Qmult_le_r _ _ (2 ^ c)%Q Hpc).
  setoid_replace (2 * inject_Z (Z.pos mx) * inject_Z (2 ^ (ex - c)) * 2 ^ c)%Q
    with (2 * (inject_Z (Z.pos mx) * (inject_Z (2 ^ (ex - c)) * 2 ^ c)))%Q
    using relation Qeq by ring.
  setoid_replace (inject_Z (Z.pos my) * inject_Z (2 ^ (ey - c)) * 2 ^ c)%Q
    with (inject_Z (Z.pos my) * (inject_Z (2 ^ (ey - c)) * 2 ^ c))%Q
    using relation Qeq by ring.
  exact H.
Qed.

End Values.

(** ** C9: the vertices written for the wave grid *)

Section WaveVertices.
Context {FO : FloatOps} {WA : WavesAPI} {CA : CameraAPI}.

Lemma UpdateWaves_loop_spec (w : Waves) (count : nat) (i : Z) (vb : UploadBuffer.t Vertex) :
  0 <= i -> (Z.to_nat i + count <= length (UploadBuffer.elems vb))%nat ->
  exists vb',
    UpdateWaves_loop w count i vb = Done vb' /\
    length (UploadBuffer.elems vb') = length (UploadBuffer.elems vb) /\
    (forall k, i <= k < i + Z.of_nat count ->
       UploadBuffer.elems vb' !! Z.to_nat k = Some (wavesVertex w k)) /\
    (forall k, (k < Z.to_nat i)%nat ->
       UploadBuffer.elems vb' !! k = UploadBuffer.elems vb !! k).
Proof.
  revert i vb. induction count as [|count IH]; intros i vb Hi Hroom.
  - exists vb. cbn. split_and!; try done. intros k Hk. lia.
  - cbn [UpdateWaves_loop]. rewrite CopyData_Done by lia. cbn [mbind Outcome_bind].
    set (vb1 := UploadBuffer.mk _ _).
    destruct (IH (i + 1) vb1) as (vb' & Hrun & Hlen & Hnew & Hold); [lia | |].
    { subst vb1. cbn. rewrite length_insert. lia. }
    exists vb'. rewrite Hrun. split_and!; [done | | | ].
    + rewrite Hlen. subst vb1. cbn. apply length_insert.
    + intros k Hk. destruct (decide (k = i)) as [->|Hne].
      * rewrite Hold by lia. subst vb1. cbn. apply list_lookup_insert_eq. lia.
      * apply Hnew. lia.
    + intros k Hk. rewrite Hold by lia. subst vb1. cbn.
      apply list_lookup_insert_ne. lia.
Qed.

(** [UpdateWaves] returns when the simulation step returns and the slot's
    vertex buffer has room for the grid; element [i] of the buffer is then the
    vertex derived from sample [i]. *)
Lemma UpdateWaves_spec gt (a : App) slot fr w :
  Waves_Update (DeltaTime gt) (mWaves a) = Done w ->
  mCurrFrameResource a = Some slot -> mFrameResources a !! slot = Some fr ->
  (Z.to_nat (VertexCount w) <= length (UploadBuffer.elems (WavesVB fr)))%nat ->
  exists a' fr',
    UpdateWaves gt a = Done a' /\ mWaves a' = w /\
    mFrameResources a' !! slot = Some fr' /\
    mWavesVertexBufferGPU a' = Some slot /\
    forall i, 0 <= i < VertexCount w ->
      UploadBuffer.elems (WavesVB fr') !! Z.to_nat i = Some (wavesVertex w i).
Proof.
  intros Hw Hs Hfr Hroom. unfold UpdateWaves, currFrameResource. rewrite Hw. cbn.
  rewrite Hs. cbn. rewrite Hfr. cbn.
  destruct (UpdateWaves_loop_spec w (Z.to_nat (VertexCount w)) 0 (WavesVB fr))
    as (vb' & Hrun & Hlen & Hnew & _); [done | cbn; lia |].
  rewrite Hrun. cbn. eexists _, _. split; [reflexivity|]. cbn.
  split_and!; [done | | done | ].
  - apply list_lookup_insert_eq. by eapply lookup_lt_Some.
  - intros i Hi. cbn. apply Hnew. lia.
Qed.

End WaveVertices.

Section WaveTexCoords.
#[local] Existing Instance Binary32Ops.

Lemma binary32_half : isHalf (f0_5 (FloatOps := Binary32Ops)).
Proof.
  replace (f0_5 (FloatOps := Binary32Ops)) with (S754_finite false 8388608 (-24))
    by (vm_compute; reflexivity).
  cbn [isHalf]. split; [lia | reflexivity].
Qed.

(** In single precision: for a finite [x] and an extent [W > 0] with
    [-W/2 <= x <= W/2], both [0.5f + x / W] and [0.5f - x / W] are finite
    and denote rationals of [0, 1]. *)
Lemma binary32_texcoord_range (x extent : spec_float) :
  binary32_finite x = true -> (0 < binary32_value extent)%Q ->
  (- (binary32_value extent / 2) <= binary32_value x <= binary32_value extent / 2)%Q ->
  let q := fdiv (FloatOps := Binary32Ops) x extent in
  (binary32_finite (fadd (FloatOps := Binary32Ops) f0_5 q) = true /\
   (0 <= binary32_value (fadd (FloatOps := Binary32Ops) f0_5 q) <= 1)%Q) /\
  (binary32_finite (fsub (FloatOps := Binary32Ops) f0_5 q) = true /\
   (0 <= binary32_value (fsub (FloatOps := Binary32Ops) f0_5 q) <= 1)%Q).
Proof.
  intros Hx Hw [Hlo Hhi] q.
  assert (emin 24 128 <= -1) as Hemin by (unfold emin; lia).
  pose proof (withinHalf_of_values x extent Hx Hw Hlo Hhi) as Hin.
  destruct (SFdiv_within_half 24 128 ltac:(lia) Hemin ltac:(lia) x extent Hin) as [s Hq].
  fold (fdiv (FloatOps := Binary32Ops) x extent) in Hq. fold q in Hq.
  pose proof (SFadd_half_unit 24 128 ltac:(lia) Hemin ltac:(lia) _ q s binary32_half Hq) as Hu.
  pose proof (SFsub_half_unit 24 128 ltac:(lia) Hemin ltac:(lia) _ q s binary32_half Hq) as Hv.
  apply finiteWithin_unit_value in Hu as (Hu & Hu0 & Hu1).
  apply finiteWithin_unit_value in Hv as (Hv & Hv0 & Hv1).
  done.
Qed.

(** C9.  In every arithmetic: after [UpdateWaves], every sample [i] of the
    grid has its vertex in the slot's vertex buffer, with the position and
    normal of the sample and the texture coordinates [u = 0.5f + x / Width],
    [v = 0.5f - z / Depth] the code computes.  In single precision, the
    arithmetic of the program, with rounding to nearest: when the extents
    [Width] and [Depth] are positive and the position of sample [i] is finite
    with [-Width/2 <= x <= Width/2] and [-Depth/2 <= z <= Depth/2], the two
    coordinates stored in the buffer for it are finite and lie in [0, 1]. *)
Theorem C9_wave_texcoords :
  (forall (FO : FloatOps) (WA : WavesAPI) (CA : CameraAPI)
          (gt : GameTimer) (a : App) slot fr w,
     Waves_Update (DeltaTime gt) (mWaves a) = Done w ->
     mCurrFrameResource a = Some slot -> mFrameResources a !! slot = Some fr ->
     (Z.to_nat (VertexCount w) <= length (UploadBuffer.elems (WavesVB fr)))%nat ->
     exists a' fr',
       UpdateWaves gt a = Done a' /\ mFrameResources a' !! slot = Some fr' /\
       forall i, 0 <= i < VertexCount w ->
         exists v,
           UploadBuffer.elems (WavesVB fr') !! Z.to_nat i = Some v /\
           Pos v = Position w i /\ VNormal v = Normal w i /\
           x2 (TexC v) = fadd f0_5 (fdiv (x3 (Pos v)) (Width w)) /\
           y2 (TexC v) = fsub f0_5 (fdiv (z3 (Pos v)) (Depth w))) /\
  (forall (WA : WavesAPI (FO := Binary32Ops)) (CA : CameraAPI (FO := Binary32Ops))
          (gt : GameTimer) (a : App) slot fr w,
     Waves_Update (DeltaTime gt) (mWaves a) = Done w ->
     mCurrFrameResource a = Some slot -> mFrameResources a !! slot = Some fr ->
     (Z.to_nat (VertexCount w) <= length (UploadBuffer.elems (WavesVB fr)))%nat ->
     (0 < binary32_value (Width w))%Q -> (0 < binary32_value (Depth w))%Q ->
     exists a' fr',
       UpdateWaves gt a = Done a' /\ mFrameResources a' !! slot = Some fr' /\
       forall i, 0 <= i < VertexCount w ->
         binary32_finite (x3 (Position w i)) = true ->
         binary32_finite (z3 (Position w i)) = true ->
         (- (binary32_value (Width w) / 2) <= binary32_value (x3 (Position w i))
            <= binary32_value (Width w) / 2)%Q ->
         (- (binary32_value (Depth w) / 2) <= binary32_value (z3 (Position w i))
            <= binary32_value (Depth w) / 2)%Q ->
         exists v,
           UploadBuffer.elems (WavesVB fr') !! Z.to_nat i = Some v /\
           Pos v = Position w i /\
           x2 (TexC v) = SFadd 24 128 (f0_5 (FloatOps := Binary32Ops)) (SFdiv 24 128 (x3 (Position w i)) (Width w)) /\
           y2 (TexC v) = SFsub 24 128 (f0_5 (FloatOps := Binary32Ops)) (SFdiv 24 128 (z3 (Position w i)) (Depth w)) /\
           binary32_finite (x2 (TexC v)) = true /\
           binary32_finite (y2 (TexC v)) = true /\
           (0 <= binary32_value (x2 (TexC v)) <= 1)%Q /\
           (0 <= binary32_value (y2 (TexC v)) <= 1)%Q).
Proof.
  split.
  - intros FO WA CA gt a slot fr w Hw Hs Hfr Hroom.
    destruct (UpdateWaves_spec gt a slot fr w Hw Hs Hfr Hroom)
      as (a' & fr' & Hrun & _ & Hfr' & _ & Hv).
    exists a', fr'. split; [done|]. split; [done|].
    intros i Hi. exists (wavesVertex w i). split; [by apply Hv|]. done.
  - intros WA CA gt a slot fr w Hw Hs Hfr Hroom HW HD.
    destruct (UpdateWaves_spec gt a slot fr w Hw Hs Hfr Hroom)
      as (a' & fr' & Hrun & _ & Hfr' & _ & Hv).
    exists a', fr'. split; [done|]. split; [done|].
    intros i Hi Hx Hz Hxr Hzr. exists (wavesVertex w i). split; [by apply Hv|].
    split; [done|]. split; [done|]. split; [done|].
    destruct (binary32_texcoord_range _ _ Hx HW Hxr) as [[Hu Hur] _].
    destruct (binary32_texcoord_range _ _ Hz HD Hzr) as [_ [Hv' Hvr]].
    done.
Qed.

End WaveTexCoords.

(** ** C8: the boundary of the height field *)

Section Boundary.
Context {FO : FloatOps} {HP : HeightField.Params}.
Import HeightField.


Lemma grid_index (hf : t) (i j : Z) :
  inGrid hf i j = true ->
  rowOf hf (Z.to_nat (i * cols hf + j)) = i /\ colOf hf (Z.to_nat (i * cols hf + j)) = j.
Proof.
  unfold inGrid, rowOf, colOf. rewrite !andb_true_iff, !Z.leb_le, !Z.ltb_lt.
  intros [[[Hi0 Hi1] Hj0] Hj1]. rewrite Z2Nat.id by nia. split.
  - symmetry. apply (Z.div_unique_pos _ _ i j); lia.
  - symmetry. apply (Z.mod_unique_pos _ _ i j); lia.
Qed.

(** An update that rewrites interior samples only leaves a boundary cell. *)
Lemma cell_imap_boundary (hf : t) (g : nat -> float -> float) (layer : list float) i j :
  onBoundary hf i j = true ->
  (forall idx old, interior hf (rowOf hf idx) (colOf hf idx) = false -> g idx old = old) ->
  cell hf (imap g layer) i j = cell hf layer i j.
Proof.
  unfold onBoundary. rewrite andb_true_iff, negb_true_iff. intros [Hin Hnot] Hg.
  unfold cell. rewrite list_lookup_imap.
  destruct (layer !! Z.to_nat (i * cols hf + j)) as [old|]; [|done]. cbn.
  apply Hg. destruct (grid_index hf i j Hin) as [-> ->]. done.
Qed.

Lemma simulateStep_boundary (hf : t) :
  layersAgree hf ->
  layersAgree (simulateStep hf) /\
  forall i j, onBoundary hf i j = true ->
    onBoundary (simulateStep hf) i j = true /\
    height (simulateStep hf) i j = height hf i j.
Proof.
  intros Hag.
  assert (Hnew : forall i j, onBoundary hf i j = true ->
            height (simulateStep hf) i j = height hf i j).
  { intros i j Hb. unfold height, simulateStep. cbn.
    change (cell _ ?l i j) with (cell hf l i j).
    rewrite cell_imap_boundary; [by apply Hag | done |].
    intros idx old Hni. by rewrite Hni. }
  split.
  - intros i j Hb. change (onBoundary (simulateStep hf) i j) with (onBoundary hf i j) in Hb.
    rewrite (Hnew i j Hb). destruct (Hag i j Hb) as [Hp Hn]. by split.
  - intros i j Hb. split; [done | by apply Hnew].
Qed.

Lemma Disturb_boundary (hf hf' : t) row col magnitude :
  Disturb row col magnitude hf = inr hf' ->
  layersAgree hf ->
  layersAgree hf' /\
  forall i j, onBoundary hf i j = true ->
    onBoundary hf' i j = true /\ height hf' i j = height hf i j.
Proof.
  unfold Disturb. destruct (interior hf row col); [|discriminate].
  intros H Hag. injection H as <-.
  set (hf' := mk _ _ _ _ _ _ _ _ _ _ _).
  assert (Hnew : forall i j, onBoundary hf i j = true -> height hf' i j = height hf i j).
  { intros i j Hb. unfold height. subst hf'. cbn.
    change (cell _ ?l i j) with (cell hf l i j).
    apply cell_imap_boundary; [done|].
    intros idx old Hni. by rewrite Hni. }
  split.
  - intros i j Hb. change (onBoundary hf' i j) with (onBoundary hf i j) in Hb.
    rewrite (Hnew i j Hb). by apply Hag.
  - intros i j Hb. split; [done | by apply Hnew].
Qed.

Lemma Disturb_rejected (hf : t) row col magnitude e :
  Disturb row col magnitude hf = inl e ->
  interior hf row col = false /\ e = OutOfRangeRequest.
Proof. unfold Disturb. destruct (interior hf row col); [discriminate|]. by intros [= <-]. Qed.

Lemma apply_boundary (op : Op) (hf : t) :
  layersAgree hf ->
  layersAgree (apply op hf) /\
  forall i j, onBoundary hf i j = true ->
    onBoundary (apply op hf) i j = true /\ height (apply op hf) i j = height hf i j.
Proof.
  intros Hag. destruct op as [|row col magnitude]; cbn.
  - by apply simulateStep_boundary.
  - destruct (Disturb row col magnitude hf) as [e|hf'] eqn:HD.
    + by split.
    + by eapply Disturb_boundary.
Qed.

Lemma create_layersAgree m n dx dt0 speed damp (hf : t) :
  create m n dx dt0 speed damp = inr hf -> layersAgree hf.
Proof.
  unfold create. destruct ((0 <? m) && (0 <? n)); [|discriminate].
  intros [= <-]. by intros i j _.
Qed.

Lemma applyAll_boundary (ops : list Op) (hf : t) :
  layersAgree hf ->
  layersAgree (applyAll ops hf) /\
  forall i j, onBoundary hf i j = true ->
    onBoundary (applyAll ops hf) i j = true /\ height (applyAll ops hf) i j = height hf i j.
Proof.
  revert hf. induction ops as [|op ops IH]; intros hf Hag; [done|].
  unfold applyAll. cbn [foldl]. fold (applyAll ops (apply op hf)).
  destruct (apply_boundary op hf Hag) as [Hag' Hstep].
  destruct (IH (apply op hf) Hag') as [Hag'' Hrest]. split; [done|].
  intros i j Hb. destruct (Hstep i j Hb) as [Hb' Hh'].
  destruct (Hrest i j Hb') as [Hb'' Hh'']. split; [done | congruence].
Qed.

Lemma Step_loop_boundary (fuel : nat) (hf hf' : t) :
  Step_loop fuel hf = Done hf' ->
  layersAgree hf ->
  layersAgree hf' /\
  forall i j, onBoundary hf i j = true ->
    onBoundary hf' i j = true /\ height hf' i j = height hf i j.
Proof.
  revert hf. induction fuel as [|fuel IH]; intros hf; cbn [Step_loop];
    destruct (fgeb (accumulatedTime hf) (dt hf)); try discriminate.
  - by intros [= <-].
  - intros Hrun Hag.
    destruct (simulateStep_boundary hf Hag) as [Hag1 Hstep].
    destruct (IH _ Hrun) as [Hag' Hrest]; [exact Hag1|]. split; [done|].
    intros i j Hb. destruct (Hstep i j Hb) as [Hb1 Hh1].
    destruct (Hrest i j Hb1) as [Hb' Hh']. split; [done|]. by rewrite Hh'.
  - by intros [= <-].
Qed.

Lemma Steps_boundary (fuel : nat) (deltas : list float) (hf hf' : t) :
  Steps fuel deltas hf = Done hf' ->
  layersAgree hf ->
  forall i j, onBoundary hf i j = true ->
    onBoundary hf' i j = true /\ height hf' i j = height hf i j.
Proof.
  revert hf. induction deltas as [|d ds IH]; intros hf Hrun Hag i j Hb; cbn [Steps] in Hrun.
  - by injection Hrun as <-.
  - apply bind_Done in Hrun as (hf1 & H1 & Hrun). unfold Step in H1.
    apply Step_loop_boundary in H1 as [Hag1 Hstep]; [|exact Hag].
    destruct (Hstep i j Hb) as [Hb1 Hh1].
    destruct (IH hf1 Hrun Hag1 i j Hb1) as [Hb' Hh']. split; [done|]. by rewrite Hh'.
Qed.

(** C8.  On a height field whose layers agree on the boundary (as they do
    after construction), every sample on the outer rows and columns keeps the
    height it had initially: after any sequence of simulation steps and
    disturbances, accepted or rejected, and after any calls of [Step] that
    return. *)
Theorem C8_boundary_fixed (hf : t) (i j : Z) :
  layersAgree hf ->
  onBoundary hf i j = true ->
  (forall ops : list Op,
     onBoundary (applyAll ops hf) i j = true /\
     height (applyAll ops hf) i j = height hf i j) /\
  (forall fuel deltas hf',
     Steps fuel deltas hf = Done hf' ->
     onBoundary hf' i j = true /\ height hf' i j = height hf i j).
Proof.
  intros Hag Hb. split.
  - intros ops. by apply applyAll_boundary.
  - intros fuel deltas hf' Hrun. by eapply Steps_boundary.
Qed.

End Boundary.

(** ** C7: the number of fixed steps, on exact arithmetic *)

Section FixedStep.
#[local] Existing Instance ExactOps.
Context {HP : HeightField.Params}.
Import HeightField.


Lemma Qnat_S n : (Qnat (S n) == Qnat n + 1)%Q.
Proof. unfold Qnat. rewrite Nat2Z.inj_succ. unfold Z.succ. by rewrite inject_Z_plus. Qed.

Lemma Qnat_add a b : (Qnat (a + b) == Qnat a + Qnat b)%Q.
Proof. unfold Qnat. by rewrite Nat2Z.inj_add, inject_Z_plus. Qed.

Lemma Qnat_nonneg n : (0 <= Qnat n)%Q.
Proof. unfold Qnat. change 0%Q with (inject_Z 0). rewrite <- Zle_Qle. lia. Qed.

(** [n] is the integer part of [x / d]. *)
Lemma floor_unique (x d : Q) (n : nat) :
  (0 < d)%Q -> (Qnat n * d <= x)%Q -> (x < (Qnat n + 1) * d)%Q ->
  Qfloor (x / d) = Z.of_nat n.
Proof.
  intros Hd Hlo Hhi.
  assert (Qnat n <= x / d)%Q as H1 by (by apply Qle_shift_div_l).
  assert (x / d < Qnat n + 1)%Q as H2 by (by apply Qlt_shift_div_r).
  apply Z.le_antisymm.
  - apply Z.lt_succ_r. rewrite Zlt_Qlt. unfold Z.succ. rewrite inject_Z_plus.
    eapply Qle_lt_trans; [apply Qfloor_le | exact H2].
  - rewrite <- (Qfloor_Z (Z.of_nat n)). by apply Qfloor_resp_le.
Qed.

Lemma floor_exists (x d : Q) :
  (0 < d)%Q -> (0 <= x)%Q ->
  exists n : nat, (Qnat n * d <= x)%Q /\ (x < (Qnat n + 1) * d)%Q.
Proof.
  intros Hd Hx.
  assert (0 <= x / d)%Q as Hq by (apply Qle_shift_div_l; [done | lra]).
  assert (0 <= Qfloor (x / d)) as Hf.
  { change 0 with (Qfloor 0). by apply Qfloor_resp_le. }
  exists (Z.to_nat (Qfloor (x / d))). unfold Qnat. rewrite Z2Nat.id by done.
  assert (x / d * d == x)%Q as Hmul by (field; lra).
  split.
  - rewrite <- Hmul at 2. apply Qmult_le_compat_r; [apply Qfloor_le | lra].
  - rewrite <- Hmul at 1. apply Qmult_lt_compat_r; [done|].
    change 1%Q with (inject_Z 1). rewrite <- inject_Z_plus. apply Qlt_floor.
Qed.

Lemma elapsed_nonneg (ds : list Q) :
  Forall (fun d => (0 <= d)%Q) ds -> (0 <= elapsed ds)%Q.
Proof.
  induction 1 as [|x l Hx _ IH]; [done|].
  change (elapsed (x :: l)) with (x + elapsed l)%Q. lra.
Qed.

(** The loop of [Step]: with [n] the integer part of [accumulatedTime / dt]
    and at least [n] units of fuel, it returns after exactly [n] steps and
    leaves the remainder. *)
Lemma Step_loop_count (n fuel : nat) (hf : t) :
  (0 < dt hf)%Q ->
  (Qnat n * dt hf <= accumulatedTime hf)%Q ->
  (accumulatedTime hf < (Qnat n + 1) * dt hf)%Q ->
  (n <= fuel)%nat ->
  exists hf',
    Step_loop fuel hf = Done hf' /\
    stepsDone hf' = (stepsDone hf + n)%nat /\ dt hf' = dt hf /\
    (accumulatedTime hf' == accumulatedTime hf - Qnat n * dt hf)%Q.
Proof.
  revert fuel hf. induction n as [|n IH]; intros fuel hf Hd Hlo Hhi Hfuel.
  - change (Qnat 0) with 0%Q in *. exists hf. split_and!.
    + destruct fuel; cbn [Step_loop]; cbn [fgeb ExactOps].
      all: destruct (Qle_bool (dt hf) (accumulatedTime hf)) eqn:Hb; try done.
      all: apply Qle_bool_iff in Hb; exfalso; lra.
    + lia.
    + done.
    + lra.
  - destruct fuel as [|fuel]; [lia|]. cbn [Step_loop]. cbn [fgeb ExactOps].
    pose proof (Qnat_S n) as HS. pose proof (Qnat_nonneg n) as Hn0.
    assert (Qle_bool (dt hf) (accumulatedTime hf) = true) as ->.
    { apply Qle_bool_iff. nra. }
    set (hf1 := set_accumulatedTime _ _).
    destruct (IH fuel hf1) as (hf' & Hrun & Hsteps & Hdt & Hacc).
    + done.
    + subst hf1. cbn. nra.
    + subst hf1. cbn. nra.
    + lia.
    + exists hf'. split_and!; [done | | done | ].
      * rewrite Hsteps. subst hf1. cbn. lia.
      * rewrite Hacc. subst hf1. cbn. nra.
Qed.

Lemma Steps_count (deltas : list Q) (total fuel : nat) (hf : t) :
  (0 < dt hf)%Q ->
  (0 <= accumulatedTime hf)%Q -> (accumulatedTime hf < dt hf)%Q ->
  Forall (fun d => (0 <= d)%Q) deltas ->
  (Qnat total * dt hf <= accumulatedTime hf + elapsed deltas)%Q ->
  (accumulatedTime hf + elapsed deltas < (Qnat total + 1) * dt hf)%Q ->
  (total <= fuel)%nat ->
  exists hf',
    Steps fuel deltas hf = Done hf' /\
    stepsDone hf' = (stepsDone hf + total)%nat.
Proof.
  revert total hf. induction deltas as [|d ds IH]; intros total hf Hd H0 H1 Hall Hlo Hhi Hfuel.
  - cbn in Hlo, Hhi. exists hf. split; [done|].
    assert (total = 0%nat) as ->; [|lia].
    destruct total as [|k]; [done|]. exfalso.
    pose proof (Qnat_S k) as HS. pose proof (Qnat_nonneg k) as Hk. nra.
  - apply Forall_cons in Hall as [Hd0 Hall].
    pose proof (elapsed_nonneg ds Hall) as Hrest.
    change (elapsed (d :: ds)) with (d + elapsed ds)%Q in Hlo, Hhi.
    destruct (floor_exists (accumulatedTime hf + d) (dt hf)) as (n1 & Hlo1 & Hhi1);
      [done | lra |].
    assert (Hn1 : (n1 <= total)%nat).
    { destruct (le_lt_dec n1 total) as [?|Hgt]; [done|]. exfalso.
      assert (Qnat total + 1 <= Qnat n1)%Q as Hq.
      { unfold Qnat. rewrite <- (inject_Z_plus _ 1), <- Zle_Qle. lia. }
      nra. }
    cbn [Steps]. unfold Step. cbn [fadd ExactOps].
    set (hf0 := set_accumulatedTime _ hf).
    destruct (Step_loop_count n1 fuel hf0) as (hf1 & Hrun & Hsteps & Hdt & Hacc);
      [done | done | done | lia |].
    rewrite Hrun. cbn [mbind Outcome_bind].
    subst hf0. cbn in Hsteps, Hdt, Hacc.
    pose proof (Qnat_add n1 (total - n1)) as Hsplit.
    replace (n1 + (total - n1))%nat with total in Hsplit by lia.
    destruct (IH (total - n1)%nat hf1) as (hf' & Hrun' & Hsteps').
    + by rewrite Hdt.
    + rewrite Hacc. lra.
    + rewrite Hacc, Hdt. lra.
    + done.
    + rewrite Hacc, Hdt. nra.
    + rewrite Hacc, Hdt. nra.
    + lia.
    + exists hf'. split; [done|]. rewrite Hsteps', Hsteps. lia.
Qed.

Lemma Step_loop_mono (fuel : nat) (x y : t) :
  Step_loop fuel x = Done y -> (stepsDone x <= stepsDone y)%nat.
Proof.
  revert x. induction fuel as [|fuel IH]; intros x; cbn [Step_loop];
    destruct (fgeb (accumulatedTime x) (dt x)); try discriminate.
  - by intros [= <-].
  - intros Hy. apply IH in Hy. cbn in Hy. lia.
  - by intros [= <-].
Qed.

Lemma Steps_mono (fuel : nat) (ds : list Q) (x y : t) :
  Steps fuel ds x = Done y -> (stepsDone x <= stepsDone y)%nat.
Proof.
  revert x. induction ds as [|d ds IH]; intros x Hrun; cbn [Steps] in Hrun.
  - injection Hrun as <-. lia.
  - apply bind_Done in Hrun as (x1 & Hx & Hrun). apply Step_loop_mono in Hx.
    apply IH in Hrun. cbn in Hx. lia.
Qed.

(** C7, on exact arithmetic.  Starting from an empty accumulator, for any
    sequence of non-negative deltas of total [T], with fuel for [floor (T / dt)]
    steps: the calls of [Step] return and have executed exactly
    [floor (T / dt)] simulation steps; two sequences with the same total
    execute the same number of steps. *)
Theorem C7_fixed_step_count (hf : t) (deltas : list Q) (fuel : nat) :
  (0 < dt hf)%Q ->
  (accumulatedTime hf == 0)%Q ->
  Forall (fun d => (0 <= d)%Q) deltas ->
  (Z.to_nat (Qfloor (elapsed deltas / dt hf)) <= fuel)%nat ->
  (exists hf',
     Steps fuel deltas hf = Done hf' /\
     Z.of_nat (stepsDone hf' - stepsDone hf) = Qfloor (elapsed deltas / dt hf)) /\
  (forall deltas2 hf1 hf2,
     Forall (fun d => (0 <= d)%Q) deltas2 ->
     (elapsed deltas2 == elapsed deltas)%Q ->
     Steps fuel deltas hf = Done hf1 -> Steps fuel deltas2 hf = Done hf2 ->
     stepsDone hf1 = stepsDone hf2).
Proof.
  intros Hd Hacc Hall Hfuel.
  assert (Hcount : forall ds, Forall (fun d => (0 <= d)%Q) ds ->
            (Z.to_nat (Qfloor (elapsed ds / dt hf)) <= fuel)%nat ->
            exists hf', Steps fuel ds hf = Done hf' /\
              Z.of_nat (stepsDone hf' - stepsDone hf) = Qfloor (elapsed ds / dt hf)).
  { intros ds Hds Hf.
    pose proof (elapsed_nonneg ds Hds) as Hrest.
    destruct (floor_exists (elapsed ds) (dt hf)) as (total & Hlo & Hhi); [done | done |].
    pose proof (floor_unique _ _ _ Hd Hlo Hhi) as Hfl.
    destruct (Steps_count ds total fuel hf) as (hf' & Hrun & Hsteps);
      [done | lra | lra | done | lra | lra | lia |].
    exists hf'. split; [done|]. rewrite Hfl, Hsteps. lia. }
  split; [by apply Hcount|].
  intros deltas2 hf1 hf2 Hall2 Heq H1 H2.
  destruct (Hcount deltas Hall Hfuel) as (hf1' & H1' & Hc1).
  destruct (Hcount deltas2 Hall2) as (hf2' & H2' & Hc2).
  { by rewrite Heq. }
  rewrite H1 in H1'. rewrite H2 in H2'. injection H1' as <-. injection H2' as <-.
  rewrite Heq in Hc2.
  pose proof (Steps_mono _ _ _ _ H1). pose proof (Steps_mono _ _ _ _ H2). lia.
Qed.

End FixedStep.

(** * The statements on the sample scene *)

Section OnTheSample.
Import Sample.
#[local] Existing Instance ExactOps.
#[local] Existing Instance TableWaves.
#[local] Existing Instance UnitCamera.
#[local] Existing Instance Pond.params.
Local Notation "'pond'" := (Pond.pond (FO := ExactOps)).

Ltac cases_elem H :=
  repeat (apply elem_of_cons in H as [-> | H]); try (by apply elem_of_nil in H).

Lemma sample_objectsOK fence0 : objectsOK (app fence0).
Proof.
  split; cbn.
  - by apply (bool_decide_unpack _).
  - intros fr e Hfr He. cases_elem Hfr; cases_elem He; cbn; lia.
Qed.

Lemma sample_materials_lookup k m :
  materials !! k = Some m ->
  (k = "water"%string /\ m = material 1) \/ (k = "grass"%string /\ m = material 0).
Proof.
  unfold materials. intros H.
  apply lookup_insert_Some in H as [[<- <-] | [_ H]]; [by left|].
  apply lookup_insert_Some in H as [[<- <-] | [_ H]]; [by right|].
  by rewrite lookup_empty in H.
Qed.

Lemma sample_materialsOK fence0 : materialsOK (app fence0).
Proof.
  split; cbn.
  - intros k1 k2 m1 m2 H1 H2 Heq.
    apply sample_materials_lookup in H1 as [[-> ->] | [-> ->]];
      apply sample_materials_lookup in H2 as [[-> ->] | [-> ->]]; done.
  - intros fr k m Hfr Hk.
    apply sample_materials_lookup in Hk as [[-> ->] | [-> ->]];
      cases_elem Hfr; cbn; lia.
Qed.

Lemma sample_slots : [2; 0; 1]%nat ≡ₚ seq 0 (Z.to_nat gNumFrameResources).
Proof. cbn. by rewrite (Permutation_cons_append [0; 1]%nat 2%nat). Qed.

Lemma edited_objectsOK : objectsOK Edited.app.
Proof.
  split; cbn.
  - by apply (bool_decide_unpack _).
  - intros fr e Hfr He. cases_elem Hfr; cases_elem He; cbn; lia.
Qed.

Lemma edited_materials_lookup k m :
  Edited.materials !! k = Some m ->
  (k = "water"%string /\ m = Edited.rough) \/ (k = "grass"%string /\ m = material 0).
Proof.
  unfold Edited.materials. intros H.
  apply lookup_insert_Some in H as [[<- <-] | [_ H]]; [by left|].
  apply lookup_insert_Some in H as [[<- <-] | [_ H]]; [by right|].
  by rewrite lookup_empty in H.
Qed.

Lemma edited_materialsOK : materialsOK Edited.app.
Proof.
  split; cbn.
  - intros k1 k2 m1 m2 H1 H2 Heq.
    apply edited_materials_lookup in H1 as [[-> ->] | [-> ->]];
      apply edited_materials_lookup in H2 as [[-> ->] | [-> ->]]; done.
  - intros fr k m Hfr Hk.
    apply edited_materials_lookup in Hk as [[-> ->] | [-> ->]];
      cases_elem Hfr; cbn; lia.
Qed.

Lemma dirty_propagation_converges_witness :
  length (mFrameResources Edited.app) = Z.to_nat gNumFrameResources /\
  [2; 0; 1]%nat ≡ₚ seq 0 (Z.to_nat gNumFrameResources) /\
  objectsOK Edited.app /\ materialsOK Edited.app /\
  Forall (fun fr => UploadBuffer.elems (ObjectCB fr) !! 1%nat
                    = Some (mkObjectConstants Identity4x4 Identity4x4) /\
                    UploadBuffer.elems (MaterialCB fr) !! 1%nat
                    = Some (matConstantsOf (material 0)))
         (mFrameResources Edited.app) /\
  objConstantsOf Edited.moved <> mkObjectConstants Identity4x4 Identity4x4 /\
  matConstantsOf Edited.rough <> matConstantsOf (material 0) /\
  (exists a' e',
     overSlots (flushObjectsAt timer) [2; 0; 1]%nat Edited.app = Done a' /\
     mAllRitems a' !! 1%nat = Some e' /\ NumFramesDirty e' = 0 /\
     allCopies (objectBufOf a') 1 (objConstantsOf Edited.moved)) /\
  (exists a' m',
     overSlots (flushMaterialsAt timer) [2; 0; 1]%nat Edited.app = Done a' /\
     mMaterials a' !! "water"%string = Some m' /\ MatNumFramesDirty m' = 0 /\
     allCopies (materialBufOf a') 1 (matConstantsOf Edited.rough)).
Proof.
  assert (Hlen : length (mFrameResources Edited.app) = Z.to_nat gNumFrameResources)
    by reflexivity.
  assert (Hitem : mAllRitems Edited.app !! 1%nat = Some Edited.moved) by reflexivity.
  assert (Hwater : mMaterials Edited.app !! "water"%string = Some Edited.rough)
    by (vm_compute; reflexivity).
  pose proof (dirty_propagation_converges timer Edited.app [2; 0; 1]%nat
                Hlen sample_slots) as [Hobj Hmat].
  split; [exact Hlen|]. split; [exact sample_slots|].
  split; [exact edited_objectsOK|]. split; [exact edited_materialsOK|].
  split; [repeat constructor|].
  split; [intros H; discriminate H|]. split; [intros H; discriminate H|]. split.
  - destruct (Hobj edited_objectsOK 1%nat Edited.moved Hitem eq_refl)
      as (a' & e' & Hrun & He & Hd & _ & _ & Hall & _).
    exists a', e'. split; [exact Hrun|]. split; [exact He|]. split; [exact Hd | exact Hall].
  - destruct (Hmat edited_materialsOK "water"%string Edited.rough Hwater eq_refl)
      as (a' & m' & Hrun & He & Hd & _ & _ & Hall & _).
    exists a', m'. split; [exact Hrun|]. split; [exact He|]. split; [exact Hd | exact Hall].
Defined.

Lemma C2_witness :
  exists a3 w2 w3,
    mMaterials a3 !! "water"%string = Some w3 /\
    MatNumFramesDirty w3 = gNumFrameResources - 2 /\
    (forall slot, slot ∈ [0; 1]%nat ->
       exists b, materialBufOf a3 slot = Some b /\
         UploadBuffer.elems b !! 1%nat = Some (matConstantsOf w2)).
Proof.
  assert (Hnd1 : NoDup [1%nat]) by (by apply (bool_decide_unpack _)).
  assert (Hnd2 : NoDup [0; 1]%nat) by (by apply (bool_decide_unpack _)).
  assert (Hin1 : forall slot, slot ∈ [1%nat] -> (slot < Z.to_nat gNumFrameResources)%nat)
    by (intros slot Hs; cases_elem Hs; unfold gNumFrameResources; cbn; lia).
  assert (Hin2 : forall slot, slot ∈ [0; 1]%nat -> (slot < Z.to_nat gNumFrameResources)%nat)
    by (intros slot Hs; cases_elem Hs; unfold gNumFrameResources; cbn; lia).
  assert (Hlen : length (mFrameResources (app 0)) = Z.to_nat gNumFrameResources)
    by reflexivity.
  assert (Hwater : mMaterials (app 0) !! "water"%string = Some (material 1))
    by (vm_compute; reflexivity).
  assert (Hk : (0 < length [1%nat] < Z.to_nat gNumFrameResources)%nat)
    by (unfold gNumFrameResources; cbn; lia).
  destruct (C2_redirty_restarts_window timer timer (app 0) [1%nat] [0; 1]%nat (material 1)
              Hlen (sample_materialsOK 0) Hwater eq_refl Hnd1 Hin1 Hk Hnd2 Hin2)
    as (_ & a1 & w1 & a2 & w2 & a3 & w3 & _ & _ & _ & _ & _ & _ & _ & Hw3 & Hd3 & _ & Hc & _).
  exists a3, w2, w3. split; [exact Hw3|]. split; [exact Hd3 | exact Hc].
Defined.

(** C3 as stated fails: in the frame of the sample scene the flushes (d)
    come before the simulation step (b). *)
Lemma sample_first_frame : Tick prompt 0 timer (app 0) = Done afterOneFrame.
Proof. apply isDone_fromDone. vm_compute. reflexivity. Qed.

Lemma C3_counterexample :
  Tick prompt 0 timer (app 0) = Done afterOneFrame /\
  ~ inLetterOrder (drop (length (trace (app 0))) (trace afterOneFrame)).
Proof.
  split; [exact sample_first_frame|].
  assert (Hd : phases (drop (length (trace (app 0))) (trace afterOneFrame)) !! 1%nat
               = Some 3%nat) by (vm_compute; reflexivity).
  assert (Hb : phases (drop (length (trace (app 0))) (trace afterOneFrame)) !! 3%nat
               = Some 1%nat) by (vm_compute; reflexivity).
  intros H. specialize (H 1%nat 3%nat 3%nat 1%nat Hd Hb). lia.
Qed.

Lemma C3_witness :
  Tick prompt 0 timer (app 0) = Done afterOneFrame /\
  exists slot fence waited,
    trace afterOneFrame =
      trace (app 0) ++ [EvCamera; EvAcquire slot] ++ waited ++ frameEvents slot fence /\
    phases ([EvCamera; EvAcquire slot] ++ waited ++ frameEvents slot fence) =
      [0%nat] ++ phases waited ++ [3; 3; 1; 2; 4; 5]%nat.
Proof.
  split; [exact sample_first_frame|].
  destruct (C3_frame_order prompt 0%nat timer (app 0) afterOneFrame sample_first_frame)
    as (slot & fence & waited & _ & Htr & Hph & _).
  exists slot, fence, waited. split; [exact Htr | exact Hph].
Defined.

Lemma sample_three_frames :
  Run stuck 0 [timer; timer; timer] (app 0) = Done afterThreeFrames.
Proof. apply isDone_fromDone. vm_compute. reflexivity. Qed.

Lemma sample_next_slot :
  exists fr,
    at_index (mFrameResources afterThreeFrames) (nextSlot afterThreeFrames) = Done fr /\
    Fence fr = 1.
Proof.
  exists (fromDone (frameResource 0)
            (at_index (mFrameResources afterThreeFrames) (nextSlot afterThreeFrames))).
  split.
  - apply isDone_fromDone. vm_compute. reflexivity.
  - vm_compute. reflexivity.
Qed.

(** C4 as stated fails: on the stuck device the fourth frame waits for fence
    value 1, which is never reached, and [Update] raises nothing whatever the
    bound on the wait. *)
Lemma C4_counterexample :
  Run stuck 0 [timer; timer; timer] (app 0) = Done afterThreeFrames /\
  (exists fr,
     at_index (mFrameResources afterThreeFrames) (nextSlot afterThreeFrames) = Done fr /\
     Fence fr = 1 /\ forall t, GetCompletedValue stuck t < Fence fr) /\
  ~ surfacesDeviceLoss stuck timer afterThreeFrames.
Proof.
  split; [exact sample_three_frames|].
  destruct sample_next_slot as (fr & Hfr & HF).
  split.
  - exists fr. split; [exact Hfr|]. split; [exact HF|].
    intros t. rewrite HF. change (GetCompletedValue stuck t) with 0. lia.
  - intros (fuel & hr & HU).
    rewrite (Update_stalled stuck timer afterThreeFrames fr Hfr) in HU.
    + change (hrSetEventOnCompletion stuck (clock afterThreeFrames)) with 0 in HU.
      discriminate.
    + lia.
    + intros t _. rewrite HF. change (GetCompletedValue stuck t) with 0. lia.
Qed.

Lemma C4_witness :
  exists fr,
    at_index (mFrameResources afterThreeFrames) (nextSlot afterThreeFrames) = Done fr /\
    Fence fr <> 0 /\
    (forall t, (clock afterThreeFrames <= t)%nat -> GetCompletedValue stuck t < Fence fr) /\
    forall fuel, Update stuck fuel timer afterThreeFrames = Hang.
Proof.
  destruct sample_next_slot as (fr & Hfr & HF).
  assert (Hne : Fence fr <> 0) by lia.
  assert (Hnever : forall t, (clock afterThreeFrames <= t)%nat ->
                             GetCompletedValue stuck t < Fence fr)
    by (intros t _; rewrite HF; change (GetCompletedValue stuck t) with 0; lia).
  exists fr. split; [exact Hfr|]. split; [exact Hne|]. split; [exact Hnever|].
  destruct (C4_stalled_acquire_blocks stuck timer afterThreeFrames fr Hfr Hne Hnever)
    as [Hblocked _].
  apply Hblocked.
  change (hrSetEventOnCompletion stuck (clock afterThreeFrames)) with 0. lia.
Defined.


Lemma sample_four_frames :
  Run prompt 0 [timer; timer; timer; timer] (app 0) = Done afterFourFrames.
Proof. apply isDone_fromDone. vm_compute. reflexivity. Qed.

Lemma sample_fresh_fences fr : fr ∈ mFrameResources (app 0) -> Fence fr <= mCurrentFence (app 0).
Proof. intros Hfr. cbn in Hfr. cases_elem Hfr; cbn; lia. Qed.

(** C6 as stated fails at the end of the counter's range: from
    [mCurrentFence = 2^64 - 2] the second frame publishes 0 after 2^64 - 1. *)
Lemma C6_counterexample :
  Run prompt 0 [timer; timer] (app (2 ^ 64 - 2)) = Done wrapped /\
  published (trace wrapped) = [2 ^ 64 - 1; 0] /\
  ~ strictlyIncreasing (published (drop (length (trace (app (2 ^ 64 - 2)))) (trace wrapped))).
Proof.
  split; [apply isDone_fromDone; vm_compute; reflexivity|].
  split; [vm_compute; reflexivity|].
  assert (H0 : published (drop (length (trace (app (2 ^ 64 - 2)))) (trace wrapped)) !! 0%nat
               = Some (2 ^ 64 - 1)) by (vm_compute; reflexivity).
  assert (H1 : published (drop (length (trace (app (2 ^ 64 - 2)))) (trace wrapped)) !! 1%nat
               = Some 0) by (vm_compute; reflexivity).
  intros H. specialize (H 0%nat 1%nat _ _ H0 H1). lia.
Qed.


Lemma C7_witness :
  (0 < HeightField.dt pond)%Q /\
  (HeightField.accumulatedTime pond == 0)%Q /\
  Forall (fun d => (0 <= d)%Q) [(1 # 10)%Q; (1 # 25)%Q] /\
  exists hf',
    HeightField.Steps 4 [(1 # 10)%Q; (1 # 25)%Q] pond = Done hf' /\
    Z.of_nat (HeightField.stepsDone hf' - HeightField.stepsDone pond) =
      Qfloor (elapsed [(1 # 10)%Q; (1 # 25)%Q] / HeightField.dt pond) /\
    Qfloor (elapsed [(1 # 10)%Q; (1 # 25)%Q] / HeightField.dt pond) = 4.
Proof.
  assert (Hd : (0 < HeightField.dt pond)%Q) by reflexivity.
  assert (Ha : (HeightField.accumulatedTime pond == 0)%Q) by reflexivity.
  assert (Hall : Forall (fun d => (0 <= d)%Q) [(1 # 10)%Q; (1 # 25)%Q])
    by (repeat constructor; discriminate).
  assert (Hfuel : (Z.to_nat (Qfloor (elapsed [(1 # 10)%Q; (1 # 25)%Q] / HeightField.dt pond))
                   <= 4)%nat) by (vm_compute; lia).
  split; [exact Hd|]. split; [exact Ha|]. split; [exact Hall|].
  destruct (C7_fixed_step_count pond [(1 # 10)%Q; (1 # 25)%Q] 4 Hd Ha Hall Hfuel)
    as [(hf' & Hrun & Hcount) _].
  exists hf'. split; [exact Hrun|]. split; [exact Hcount|]. vm_compute. reflexivity.
Defined.

Lemma sample_pond_created :
  HeightField.create 5 5 f1 Pond.timeStep (fofZ 4) (fdiv (fofZ 2) (fofZ 10)) = inr pond.
Proof. reflexivity. Qed.

Lemma C8_witness :
  HeightField.layersAgree pond /\ HeightField.onBoundary pond 0 3 = true /\
  HeightField.height
    (HeightField.applyAll
       [HeightField.OpDisturb 1 3 1%Q; HeightField.OpStep;
        HeightField.OpDisturb 0 3 1%Q; HeightField.OpStep] pond) 0 3 =
  HeightField.height pond 0 3.
Proof.
  pose proof (create_layersAgree _ _ _ _ _ _ _ sample_pond_created) as Hag.
  split; [exact Hag|]. split; [reflexivity|].
  destruct (C8_boundary_fixed pond 0 3 Hag eq_refl) as [Hops _].
  apply Hops.
Defined.

Lemma C10_witness :
  RowCount waves = 2 /\ ColumnCount waves = 2 /\
  VertexCount waves = 2 * 2 /\ TriangleCount waves = 2 * (2 - 1) * (2 - 1) /\
  exists b,
    BuildWavesGeometry waves = Done b /\
    Z.of_nat (length (ib_written b)) = 6 * (2 - 1) * (2 - 1) /\
    indices b = (ib_written b).*2 /\
    Forall (fun v => 0 <= v < 2 * 2) (indices b).
Proof.
  split; [reflexivity|]. split; [reflexivity|]. split; [reflexivity|]. split; [reflexivity|].
  destruct (C10_wave_index_buffer (WA := TableWaves) waves 2 2 eq_refl eq_refl ltac:(lia) ltac:(lia)
              eq_refl eq_refl ltac:(reflexivity))
    as (b & Hrun & Hn & _ & _ & _ & Hidx & _ & Hlt).
  exists b. split; [exact Hrun|]. split; [exact Hn|]. split; [exact Hidx | exact Hlt].
Defined.

End OnTheSample.

(** ** The step count in single precision *)

Section OnBinary32.
#[local] Existing Instance Binary32Ops.
#[local] Existing Instance Pond.params.

(** C7 as stated fails for a [float] accumulator.  With the time step
    [0.03f] and [T = 4 * 0.03f] (exact in single precision): four calls of
    [Step(0.03f)] execute 4 steps, one call of [Step(T)] executes 3, because
    [T - 0.03f] is rounded down; [floor (T / dt)] is 4. *)
Lemma C7_counterexample :
  HeightField.dt Pond.pond = Pond.timeStep /\
  (0 < binary32_value Pond.timeStep)%Q /\
  (binary32_value (fmul (fofZ 4) Pond.timeStep) == 4 * binary32_value Pond.timeStep)%Q /\
  Qfloor (binary32_value (fmul (fofZ 4) Pond.timeStep) / binary32_value Pond.timeStep) = 4 /\
  (exists hf', HeightField.Steps 8 (replicate 4 Pond.timeStep) Pond.pond = Done hf' /\
               HeightField.stepsDone hf' = 4%nat) /\
  (exists hf', HeightField.Steps 8 [fmul (fofZ 4) Pond.timeStep] Pond.pond = Done hf' /\
               HeightField.stepsDone hf' = 3%nat).
Proof.
  split; [reflexivity|]. split; [reflexivity|].
  split; [vm_compute; reflexivity|]. split; [vm_compute; reflexivity|]. split.
  - exists (fromDone Pond.pond (HeightField.Steps 8 (replicate 4 Pond.timeStep) Pond.pond)).
    split; [apply isDone_fromDone; vm_compute; reflexivity | vm_compute; reflexivity].
  - exists (fromDone Pond.pond (HeightField.Steps 8 [fmul (fofZ 4) Pond.timeStep] Pond.pond)).
    split; [apply isDone_fromDone; vm_compute; reflexivity | vm_compute; reflexivity].
Qed.

End OnBinary32.

(** ** The wave grid in single precision *)

Section OnTheSingleGrid.
#[local] Existing Instance Binary32Ops.
#[local] Existing Instance Single.TableWaves.
#[local] Existing Instance Single.UnitCamera.

(** The wave grid [Single.waves] has width 3 and depth 3.  For its sample
    at [(1, -1)], [UpdateWaves] stores [u = v = 0.5f + 1.0f / 3.0f], rounded
    twice, inside [0, 1]. *)
Lemma C9_witness :
  (0 < binary32_value (Width Single.waves))%Q /\
  (- (binary32_value (Width Single.waves) / 2)
     <= binary32_value (x3 (Position Single.waves 3))
     <= binary32_value (Width Single.waves) / 2)%Q /\
  exists a' fr' v,
    UpdateWaves Single.timer Single.app = Done a' /\
    mFrameResources a' !! 0%nat = Some fr' /\
    UploadBuffer.elems (WavesVB fr') !! 3%nat = Some v /\
    Pos v = Position Single.waves 3 /\
    x2 (TexC v) = S754_finite false 13981014 (-24) /\
    y2 (TexC v) = S754_finite false 13981014 (-24) /\
    (0 <= binary32_value (x2 (TexC v)) <= 1)%Q /\
    (0 <= binary32_value (y2 (TexC v)) <= 1)%Q.
Proof.
  split; [vm_compute; reflexivity|].
  split; [split; vm_compute; discriminate|].
  destruct C9_wave_texcoords as [_ Hrange].
  destruct (Hrange Single.TableWaves Single.UnitCamera Single.timer Single.app 0%nat
              Single.frameResource Single.waves eq_refl eq_refl eq_refl)
    as (a' & fr' & Hrun & Hfr' & Hv);
    [vm_compute; lia | vm_compute; reflexivity | vm_compute; reflexivity |].
  destruct (Hv 3) as (v & Hlook & Hpos & Hu & Hw & _ & _ & Hur & Hvr);
    [vm_compute; split; congruence | reflexivity | reflexivity
    | split; vm_compute; discriminate | split; vm_compute; discriminate |].
  exists a', fr', v.
  split; [exact Hrun|]. split; [exact Hfr'|]. split; [exact Hlook|]. split; [exact Hpos|].
  split; [rewrite Hu; vm_compute; reflexivity|].
  split; [rewrite Hw; vm_compute; reflexivity|].
  split; [exact Hur | exact Hvr].
Defined.

End OnTheSingleGrid.

(** * Further properties of the frame loop *)

(** ** What a frame writes, and where *)

Section FrameFootprint.
Context {FO : FloatOps} {WA : WavesAPI} {CA : CameraAPI}.

Lemma fillsSlot_lookup slot (a a' : App) s :
  fillsSlot slot a a' -> s <> slot -> mFrameResources a' !! s = mFrameResources a !! s.
Proof. intros [fr' ->] Hne. by apply list_lookup_insert_ne. Qed.

Lemma fillsSlot_length slot (a a' : App) :
  fillsSlot slot a a' -> length (mFrameResources a') = length (mFrameResources a).
Proof. intros [fr' ->]. apply length_insert. Qed.

Lemma AnimateMaterials_ring gt (a a' : App) :
  AnimateMaterials gt a = Done a' -> mFrameResources a' = mFrameResources a.
Proof.
  unfold AnimateMaterials. intros H. apply bind_Done in H as (w & _ & H).
  by injection H as <-.
Qed.

Lemma UpdateObjectCBs_fills gt (a a' : App) slot :
  mCurrFrameResource a = Some slot -> UpdateObjectCBs gt a = Done a' -> fillsSlot slot a a'.
Proof.
  unfold UpdateObjectCBs. intros Hs H.
  apply bind_Done in H as ([s fr] & Hc & H). apply currFrameResource_Done in Hc as [Hc Hfr].
  apply bind_Done in H as ([items cb] & _ & H). injection H as <-.
  assert (s = slot) as -> by congruence. by eexists.
Qed.

Lemma UpdateMaterialCBs_fills gt (a a' : App) slot :
  mCurrFrameResource a = Some slot -> UpdateMaterialCBs gt a = Done a' -> fillsSlot slot a a'.
Proof.
  unfold UpdateMaterialCBs. intros Hs H.
  apply bind_Done in H as ([s fr] & Hc & H). apply currFrameResource_Done in Hc as [Hc Hfr].
  apply bind_Done in H as ([items cb] & _ & H). injection H as <-.
  assert (s = slot) as -> by congruence. by eexists.
Qed.

Lemma UpdateMainPassCB_fills gt (a a' : App) slot :
  mCurrFrameResource a = Some slot -> UpdateMainPassCB gt a = Done a' -> fillsSlot slot a a'.
Proof.
  unfold UpdateMainPassCB. intros Hs H.
  apply bind_Done in H as ([s fr] & Hc & H). apply currFrameResource_Done in Hc as [Hc Hfr].
  apply bind_Done in H as (cb & _ & H). injection H as <-.
  assert (s = slot) as -> by congruence. by eexists.
Qed.

Lemma UpdateWaves_fills gt (a a' : App) slot :
  mCurrFrameResource a = Some slot -> UpdateWaves gt a = Done a' -> fillsSlot slot a a'.
Proof.
  unfold UpdateWaves. intros Hs H.
  apply bind_Done in H as (w & _ & H).
  apply bind_Done in H as ([s fr] & Hc & H). apply currFrameResource_Done in Hc as [Hc Hfr].
  cbn in Hc, Hfr.
  apply bind_Done in H as (vb & _ & H). injection H as <-.
  assert (s = slot) as -> by congruence. by eexists.
Qed.

(** The whole of a frame, seen from the ring: every slot but the acquired
    one is as it was, the acquired one carries the new fence value. *)
Lemma Tick_ring dev fuel gt (a a' : App) :
  Tick dev fuel gt a = Done a' ->
  mCurrFrameResourceIndex a' = nextSlot a /\
  mCurrFrameResource a' = Some (Z.to_nat (nextSlot a)) /\
  mCurrentFence a' = UINT64_wrap (mCurrentFence a + 1) /\
  length (mFrameResources a') = length (mFrameResources a) /\
  (forall s, s <> Z.to_nat (nextSlot a) ->
     mFrameResources a' !! s = mFrameResources a !! s) /\
  (exists fr', mFrameResources a' !! Z.to_nat (nextSlot a) = Some fr' /\
     Fence fr' = mCurrentFence a') /\
  exists waited,
    (waited = [] \/ exists f, waited = [EvWait (Z.to_nat (nextSlot a)) f]) /\
    trace a' = trace a ++ [EvCamera; EvAcquire (Z.to_nat (nextSlot a))] ++ waited
                       ++ frameEvents (Z.to_nat (nextSlot a)) (mCurrentFence a') /\
    forall f, waited = [EvWait (Z.to_nat (nextSlot a)) f] ->
      f <> 0 /\
      exists fr, mFrameResources a !! Z.to_nat (nextSlot a) = Some fr /\ f = Fence fr.
Proof.
  intros H. apply Tick_Done in H as (a1 & a2 & HA & HF & HD).
  set (slot := Z.to_nat (nextSlot a)).
  apply Update_acquire_Done in HA as (fr & Hat & Hs & Hi & Hfrs1 & Hcf1 & _ & _ & HW).
  assert (Hlook : mFrameResources a !! slot = Some fr).
  { unfold at_index in Hat. destruct (nextSlot a <? 0); [discriminate|].
    by apply ofOption_Done. }
  fold slot in Hs, HW.
  pose proof (Update_fill_trace gt a1 a2 slot Hs HF) as [TF KF].
  unfold Update_fill in HF.
  apply bind_Done in HF as (b1 & H1 & HF).
  pose proof (AnimateMaterials_trace gt a1 b1 H1) as [_ K1].
  pose proof (AnimateMaterials_ring gt a1 b1 H1) as R1.
  apply bind_Done in HF as (b2 & H2 & HF).
  assert (Hs1 : mCurrFrameResource b1 = Some slot) by (destruct K1 as [-> _]; done).
  pose proof (UpdateObjectCBs_trace gt b1 b2 slot Hs1 H2) as [_ K2].
  pose proof (UpdateObjectCBs_fills gt b1 b2 slot Hs1 H2) as R2.
  apply bind_Done in HF as (b3 & H3 & HF).
  assert (Hs2 : mCurrFrameResource b2 = Some slot) by (destruct K2 as [-> _]; done).
  pose proof (UpdateMaterialCBs_trace gt b2 b3 slot Hs2 H3) as [_ K3].
  pose proof (UpdateMaterialCBs_fills gt b2 b3 slot Hs2 H3) as R3.
  apply bind_Done in HF as (b4 & H4 & HF).
  assert (Hs3 : mCurrFrameResource b3 = Some slot) by (destruct K3 as [-> _]; done).
  pose proof (UpdateMainPassCB_trace gt b3 b4 slot Hs3 H4) as [_ K4].
  pose proof (UpdateMainPassCB_fills gt b3 b4 slot Hs3 H4) as R4.
  assert (Hs4 : mCurrFrameResource b4 = Some slot) by (destruct K4 as [-> _]; done).
  pose proof (UpdateWaves_fills gt b4 a2 slot Hs4 HF) as R5.
  apply Draw_Done in HD as (slot2 & fr2 & Hsd & Hfr2 & Hcf & Hfrs & Hcur & Hidx & _ & TD).
  destruct KF as (KF & KI & Kcf & _ & _).
  assert (slot2 = slot) as -> by (rewrite KF, Hs in Hsd; by injection Hsd).
  assert (Hlen2 : length (mFrameResources a2) = length (mFrameResources a)).
  { rewrite (fillsSlot_length _ _ _ R5), (fillsSlot_length _ _ _ R4),
      (fillsSlot_length _ _ _ R3), (fillsSlot_length _ _ _ R2), R1. by rewrite Hfrs1. }
  split_and!.
  - by rewrite Hidx, KI.
  - by rewrite Hcur, KF.
  - by rewrite Hcf, Kcf, Hcf1.
  - rewrite Hfrs, length_insert. done.
  - intros s Hne. rewrite Hfrs, list_lookup_insert_ne by done.
    rewrite (fillsSlot_lookup _ _ _ s R5), (fillsSlot_lookup _ _ _ s R4),
      (fillsSlot_lookup _ _ _ s R3), (fillsSlot_lookup _ _ _ s R2), R1 by done.
    by rewrite Hfrs1.
  - exists (set_Fence (mCurrentFence a') fr2). split; [|done]. rewrite Hfrs.
    apply list_lookup_insert_eq. by eapply lookup_lt_Some.
  - destruct (mustWait dev a fr) eqn:Hmw.
    + destruct HW as (_ & _ & TA).
      exists [EvWait slot (Fence fr)]. split; [right; eauto|]. split.
      * rewrite TD, TF, TA. unfold frameEvents. by rewrite <- !app_assoc.
      * intros f Hf. injection Hf as <-. apply mustWait_true in Hmw as [Hne _].
        split; [done|]. by exists fr.
    + destruct HW as (_ & TA).
      exists []. split; [by left|]. split.
      * rewrite TD, TF, TA. unfold frameEvents. by rewrite <- !app_assoc.
      * intros f Hf. discriminate Hf.
Qed.

(** A frame that completes writes into one frame resource only, the one it
    acquired: the ring keeps its size, every other slot is exactly as it was
    before the frame (buffers and fence value), and the acquired slot ends
    the frame marked with the fence value just issued. *)
Theorem Tick_writes_only_acquired_slot dev fuel gt (a a' : App) :
  Tick dev fuel gt a = Done a' ->
  length (mFrameResources a') = length (mFrameResources a) /\
  (forall s, s <> Z.to_nat (nextSlot a) ->
     mFrameResources a' !! s = mFrameResources a !! s) /\
  exists fr', mFrameResources a' !! Z.to_nat (nextSlot a) = Some fr' /\
    Fence fr' = mCurrentFence a' /\
    mCurrFrameResource a' = Some (Z.to_nat (nextSlot a)).
Proof.
  intros H. destruct (Tick_ring dev fuel gt a a' H) as (_ & Hc & _ & Hl & Ho & (fr' & Hfr' & Hf) & _).
  split; [done|]. split; [done|]. by exists fr'.
Qed.

End FrameFootprint.

(** ** C5: the acquisition and the writes that follow it *)

Section SlotExclusivity.
Context {FO : FloatOps} {WA : WavesAPI} {CA : CameraAPI}.

Lemma Update_fill_steps gt (a : App) :
  Update_fill gt a = forEach (fun op s => op s) (fillSteps gt) a.
Proof.
  unfold Update_fill, fillSteps. cbn [forEach].
  destruct (AnimateMaterials gt a) as [a1| | |]; cbn [mbind Outcome_bind]; [|done..].
  destruct (UpdateObjectCBs gt a1) as [a2| | |]; cbn [mbind Outcome_bind]; [|done..].
  destruct (UpdateMaterialCBs gt a2) as [a3| | |]; cbn [mbind Outcome_bind]; [|done..].
  destruct (UpdateMainPassCB gt a3) as [a4| | |]; cbn [mbind Outcome_bind]; [|done..].
  by destruct (UpdateWaves gt a4).
Qed.

(** Each call of the second half of [Update] keeps the slot pointer, the
    clock and the fence values, and writes into the current slot only. *)
Lemma fillStep_frame gt op (a a' : App) slot :
  op ∈ fillSteps gt -> mCurrFrameResource a = Some slot -> op a = Done a' ->
  keepsRing a a' /\
  length (mFrameResources a') = length (mFrameResources a) /\
  forall s, s <> slot -> mFrameResources a' !! s = mFrameResources a !! s.
Proof.
  intros Hop Hs Hrun. unfold fillSteps in Hop.
  apply elem_of_cons in Hop as [-> | Hop].
  { split; [by eapply AnimateMaterials_trace|].
    by rewrite (AnimateMaterials_ring gt a a' Hrun). }
  apply elem_of_cons in Hop as [-> | Hop].
  { pose proof (UpdateObjectCBs_fills gt a a' slot Hs Hrun) as Hf.
    split; [by eapply UpdateObjectCBs_trace|].
    split; [by eapply fillsSlot_length | intros s Hne; by eapply fillsSlot_lookup]. }
  apply elem_of_cons in Hop as [-> | Hop].
  { pose proof (UpdateMaterialCBs_fills gt a a' slot Hs Hrun) as Hf.
    split; [by eapply UpdateMaterialCBs_trace|].
    split; [by eapply fillsSlot_length | intros s Hne; by eapply fillsSlot_lookup]. }
  apply elem_of_cons in Hop as [-> | Hop].
  { pose proof (UpdateMainPassCB_fills gt a a' slot Hs Hrun) as Hf.
    split; [by eapply UpdateMainPassCB_trace|].
    split; [by eapply fillsSlot_length | intros s Hne; by eapply fillsSlot_lookup]. }
  apply elem_of_cons in Hop as [-> | Hop]; [|by apply elem_of_nil in Hop].
  pose proof (UpdateWaves_fills gt a a' slot Hs Hrun) as Hf.
  split; [by eapply UpdateWaves_trace|].
  split; [by eapply fillsSlot_length | intros s Hne; by eapply fillsSlot_lookup].
Qed.

Lemma fillSteps_frame gt (ops : list (App -> Outcome App)) (a a' : App) slot :
  (forall op, op ∈ ops -> op ∈ fillSteps gt) ->
  mCurrFrameResource a = Some slot ->
  forEach (fun op s => op s) ops a = Done a' ->
  keepsRing a a' /\
  length (mFrameResources a') = length (mFrameResources a) /\
  forall s, s <> slot -> mFrameResources a' !! s = mFrameResources a !! s.
Proof.
  revert a. induction ops as [|op ops IH]; intros a Hops Hs Hrun.
  - injection Hrun as <-. unfold keepsRing. done.
  - cbn [forEach] in Hrun. apply bind_Done in Hrun as (a1 & H1 & Hrun).
    destruct (fillStep_frame gt op a a1 slot) as (K1 & L1 & O1);
      [apply Hops, list_elem_of_here | done | done |].
    destruct (IH a1) as (K & L & O);
      [intros op' Hin; by apply Hops, list_elem_of_further
      | destruct K1 as [-> _]; done | done |].
    split; [by eapply keepsRing_trans|]. split; [congruence|].
    intros s Hne. by rewrite O, O1.
Qed.

(** C5.  [fr] is the frame resource [Update] acquires, and arming the event
    succeeds.  (1) The acquisition cannot return at once exactly when the slot
    was submitted before ([Fence] is not 0) and the completed value is below
    its fence.  (2) Otherwise it returns at once, whatever the budget.  (3) If
    it has to wait, it stays blocked as long as the completed value is below
    the fence and returns at the first instant the value has reached it.
    (4) The acquisition leaves the frame resources as they were and makes
    the acquired slot the current one; when it returns, the slot was never
    submitted or its fence is reached, and only then does [Update] go on to
    its writes.  After any number of these writes, every frame resource but
    the acquired one is as it was before [Update], the fence values are
    unchanged and no time has passed since the fence test: the only buffers
    [Update] mutates are those of the slot whose fence it found reached.
    When the acquisition does not return, neither does [Update]. *)
Theorem C5_acquire_blocks_iff_pending dev gt (a : App) fr :
  at_index (mFrameResources a) (nextSlot a) = Done fr ->
  0 <= hrSetEventOnCompletion dev (clock a) ->
  (Update_acquire dev 0 gt a = Hang <->
     Fence fr <> 0 /\ GetCompletedValue dev (clock a) < Fence fr) /\
  (~ (Fence fr <> 0 /\ GetCompletedValue dev (clock a) < Fence fr) ->
     forall fuel, exists a1,
       Update_acquire dev fuel gt a = Done a1 /\ clock a1 = clock a /\
       mFrameResources a1 = mFrameResources a) /\
  (Fence fr <> 0 ->
     forall n,
       (forall t, (clock a <= t < clock a + n)%nat -> GetCompletedValue dev t < Fence fr) ->
       Fence fr <= GetCompletedValue dev (clock a + n) ->
       (forall fuel, (fuel < n)%nat -> Update_acquire dev fuel gt a = Hang) /\
       (forall fuel, (n <= fuel)%nat -> exists a1,
          Update_acquire dev fuel gt a = Done a1 /\ clock a1 = (clock a + n)%nat /\
          mFrameResources a1 = mFrameResources a)) /\
  (forall fuel,
     match Update_acquire dev fuel gt a with
     | Done a1 =>
         mFrameResources a1 = mFrameResources a /\
         mCurrFrameResource a1 = Some (Z.to_nat (nextSlot a)) /\
         mFrameResources a !! Z.to_nat (nextSlot a) = Some fr /\
         (Fence fr = 0 \/ Fence fr <= GetCompletedValue dev (clock a1)) /\
         Update dev fuel gt a = Update_fill gt a1 /\
         Update_fill gt a1 = forEach (fun op s => op s) (fillSteps gt) a1 /\
         forall k a', forEach (fun op s => op s) (take k (fillSteps gt)) a1 = Done a' ->
           clock a' = clock a1 /\
           mCurrFrameResource a' = Some (Z.to_nat (nextSlot a)) /\
           length (mFrameResources a') = length (mFrameResources a) /\
           (forall s, s <> Z.to_nat (nextSlot a) ->
              mFrameResources a' !! s = mFrameResources a !! s) /\
           Fence <$> mFrameResources a' = Fence <$> mFrameResources a
     | _ => isDone (Update dev fuel gt a) = false
     end).
Proof.
  intros Hfr Hhr.
  pose proof (fun fuel => Update_acquire_unfold dev fuel gt a fr Hfr) as Hunf.
  split_and!.
  - rewrite Hunf. destruct (mustWait dev a fr) eqn:Hw.
    + rewrite ThrowIfFailed_ok by done. cbn.
      apply mustWait_true in Hw as Hp. destruct Hp as [Hne Hlt].
      destruct (Z.leb_spec (Fence fr) (GetCompletedValue dev (clock a))); [lia|].
      cbn. done.
    + split; [discriminate|]. intros Hp. apply mustWait_true in Hp. congruence.
  - intros Hnp fuel. rewrite Hunf.
    destruct (mustWait dev a fr) eqn:Hw; [by apply mustWait_true in Hw|].
    by eexists.
  - intros Hsub n Hbefore Hat. split.
    + intros fuel Hfuel. rewrite Hunf.
      assert (mustWait dev a fr = true) as ->.
      { apply mustWait_true. split; [done|]. apply Hbefore. lia. }
      rewrite ThrowIfFailed_ok by done. cbn [mbind Outcome_bind].
      rewrite WaitForSingleObject_Hang; [done|]. intros t Ht. apply Hbefore. lia.
    + intros fuel Hfuel. rewrite Hunf.
      destruct (mustWait dev a fr) eqn:Hw.
      * rewrite ThrowIfFailed_ok by done. cbn [mbind Outcome_bind].
        rewrite (WaitForSingleObject_reached dev fuel (Fence fr) (clock a) n) by done.
        by eexists.
      * assert (n = 0%nat) as ->.
        { destruct n as [|n]; [done|]. exfalso.
          assert (mustWait dev a fr = true); [|congruence].
          apply mustWait_true. split; [done|]. apply Hbefore. lia. }
        rewrite Nat.add_0_r. by eexists.
  - intros fuel.
    assert (Hlook : mFrameResources a !! Z.to_nat (nextSlot a) = Some fr).
    { unfold at_index in Hfr. destruct (nextSlot a <? 0); [discriminate|].
      by apply ofOption_Done. }
    destruct (Update_acquire dev fuel gt a) as [a1| | |] eqn:HA;
      [|unfold Update; by rewrite HA..].
    pose proof HA as HA'.
    apply Update_acquire_Done in HA' as (fr' & Hfr' & Hs & _ & Hfrs & _ & _ & _ & HW).
    assert (fr' = fr) as -> by congruence.
    split; [done|]. split; [done|]. split; [done|]. split.
    { destruct (mustWait dev a fr) eqn:Hw.
      - destruct HW as (_ & Hwait & _).
        apply WaitForSingleObject_Done in Hwait as [? _]. by right.
      - destruct HW as [-> _].
        destruct (decide (Fence fr = 0)) as [?|Hne]; [by left|right].
        destruct (Z.le_gt_cases (Fence fr) (GetCompletedValue dev (clock a))) as [?|Hlt]; [done|].
        assert (mustWait dev a fr = true); [|congruence].
        apply mustWait_true. split; [done | lia]. }
    split; [unfold Update; by rewrite HA|].
    split; [apply Update_fill_steps|].
    intros k a' Hrun.
    destruct (fillSteps_frame gt (take k (fillSteps gt)) a1 a' (Z.to_nat (nextSlot a)))
      as ((Kc & _ & _ & Kt & Kf) & L & O); [|done|done|].
    { intros op Hin. by apply (subseteq_take k (fillSteps gt)). }
    split; [done|]. split; [congruence|]. split; [congruence|].
    split; [intros s Hne; rewrite O by done; by rewrite Hfrs | by rewrite Kf, Hfrs].
Qed.

End SlotExclusivity.

(** ** The ring over a run of frames *)

Section RingOverRuns.
Context {FO : FloatOps} {WA : WavesAPI} {CA : CameraAPI}.

Lemma nextSlot_mod (a : App) :
  0 <= mCurrFrameResourceIndex a ->
  nextSlot a = (mCurrFrameResourceIndex a + 1) mod gNumFrameResources.
Proof. intros H. unfold nextSlot. apply Z.rem_mod_nonneg; [lia | done]. Qed.

Lemma acquisitions_app (l1 l2 : list Event) :
  acquisitions (l1 ++ l2) = acquisitions l1 ++ acquisitions l2.
Proof. unfold acquisitions. apply omap_app. Qed.

Lemma acquisitions_frame slot waited fence :
  (waited = [] \/ exists f, waited = [EvWait slot f]) ->
  acquisitions ([EvCamera; EvAcquire slot] ++ waited ++ frameEvents slot fence) = [slot].
Proof. intros [->|[f ->]]; done. Qed.

Lemma Run_slots dev fuel gts (a a' : App) :
  Run dev fuel gts a = Done a' ->
  0 <= mCurrFrameResourceIndex a < gNumFrameResources ->
  mCurrFrameResourceIndex a' =
    (mCurrFrameResourceIndex a + Z.of_nat (length gts)) mod gNumFrameResources /\
  exists seg, trace a' = trace a ++ seg /\
    acquisitions seg =
      (fun i => Z.to_nat ((mCurrFrameResourceIndex a + 1 + Z.of_nat i) mod gNumFrameResources))
        <$> seq 0 (length gts).
Proof.
  revert a. induction gts as [|gt gts IH]; intros a HR Hidx.
  - injection HR as <-. cbn [length Z.of_nat]. rewrite Z.add_0_r.
    split; [by rewrite Z.mod_small|]. exists []. by rewrite app_nil_r.
  - cbn [Run] in HR. apply bind_Done in HR as (a1 & HT & HR).
    apply Tick_ring in HT as (Hi & _ & _ & _ & _ & _ & waited & Hw & Htr & _).
    rewrite nextSlot_mod in Hi, Hw, Htr by lia.
    assert (Hr : 0 <= mCurrFrameResourceIndex a1 < gNumFrameResources).
    { rewrite Hi. by apply Z.mod_pos_bound. }
    destruct (IH a1 HR Hr) as (Hi' & seg & Htr' & Hacq). split.
    + rewrite Hi', Hi. cbn [length]. rewrite Nat2Z.inj_succ.
      rewrite Zplus_mod_idemp_l. f_equal. lia.
    + eexists. split.
      * rewrite Htr', Htr. by rewrite <- app_assoc.
      * rewrite acquisitions_app, acquisitions_frame by done. rewrite Hacq.
        cbn [length seq fmap list_fmap app]. rewrite Z.add_0_r. f_equal.
        rewrite <- fmap_S_seq, <- list_fmap_compose.
        apply list_fmap_ext. intros i x _. cbn [compose]. f_equal.
        rewrite Hi, <- Z.add_assoc, Zplus_mod_idemp_l. f_equal. lia.
Qed.

(** The frame resources are used in rotation.  Over any run of frames that
    complete, the [i]-th frame acquires the slot [(index + 1 + i) mod
    gNumFrameResources], so a slot is acquired again exactly every
    [gNumFrameResources] frames, and the index after [n] frames is
    [(index + n) mod gNumFrameResources]. *)
Theorem Run_acquires_round_robin dev fuel gts (a a' : App) :
  Run dev fuel gts a = Done a' ->
  0 <= mCurrFrameResourceIndex a < gNumFrameResources ->
  mCurrFrameResourceIndex a' =
    (mCurrFrameResourceIndex a + Z.of_nat (length gts)) mod gNumFrameResources /\
  exists seg, trace a' = trace a ++ seg /\
    acquisitions seg =
      (fun i => Z.to_nat ((mCurrFrameResourceIndex a + 1 + Z.of_nat i) mod gNumFrameResources))
        <$> seq 0 (length gts) /\
    forall i s, acquisitions seg !! i = Some s ->
      (i + Z.to_nat gNumFrameResources < length gts)%nat ->
      acquisitions seg !! (i + Z.to_nat gNumFrameResources)%nat = Some s.
Proof.
  intros HR Hidx. destruct (Run_slots dev fuel gts a a' HR Hidx) as (Hi & seg & Htr & Hacq).
  split; [done|]. exists seg. split; [done|]. split; [done|].
  rewrite Hacq. intros i s Hs Hlt.
  rewrite list_lookup_fmap in Hs |- *.
  rewrite lookup_seq_lt by done.
  destruct (seq 0 (length gts) !! i) as [x|] eqn:Hx; [|done].
  apply lookup_seq in Hx as [-> _]. cbn in Hs |- *. rewrite <- Hs. do 2 f_equal.
  rewrite Nat2Z.inj_add.
  replace (mCurrFrameResourceIndex a + 1 + (Z.of_nat i + Z.of_nat (Z.to_nat gNumFrameResources)))
    with (mCurrFrameResourceIndex a + 1 + Z.of_nat i + 1 * gNumFrameResources)
    by (unfold gNumFrameResources; lia).
  by rewrite Z_mod_plus_full.
Qed.

Lemma freshRing_ringFences c0 (a : App) : freshRing c0 a -> ringFences c0 a.
Proof.
  intros (Hlen & Hz & Hf & Hc & Hidx). split; [done|]. split; [done|]. split; [lia|].
  intros j Hj. unfold slotBehind.
  assert (Hr : 0 <= (mCurrFrameResourceIndex a - j) mod gNumFrameResources < gNumFrameResources)
    by (by apply Z.mod_pos_bound).
  destruct (lookup_lt_is_Some_2 (mFrameResources a)
              (Z.to_nat ((mCurrFrameResourceIndex a - j) mod gNumFrameResources))) as [fr Hfr].
  { rewrite Hlen. lia. }
  exists fr. split; [done|]. rewrite Hz by (apply list_elem_of_lookup; eauto).
  destruct (Z.ltb_spec c0 (mCurrentFence a - j)); [lia | done].
Qed.

Lemma Tick_ringFences dev fuel gt c0 (a a' : App) :
  ringFences c0 a -> mCurrentFence a + 1 < 2 ^ 64 ->
  Tick dev fuel gt a = Done a' ->
  ringFences c0 a' /\ mCurrentFence a' = mCurrentFence a + 1.
Proof.
  intros (Hlen & Hidx & Hc & Hinv) Hlt HT.
  apply Tick_ring in HT as (Hi & _ & Hf & Hl & Ho & (fr' & Hfr' & Hff) & _).
  rewrite nextSlot_mod in Hi, Ho, Hfr' by lia.
  rewrite UINT64_wrap_small in Hf by lia.
  split; [|done]. split; [congruence|]. split.
  { rewrite Hi. by apply Z.mod_pos_bound. }
  split; [lia|].
  intros j Hj. unfold slotBehind. rewrite Hi.
  rewrite Zminus_mod_idemp_l.
  destruct (decide (j = 0)) as [->|Hne].
  - rewrite Z.sub_0_r. exists fr'. split; [done|]. rewrite Hff.
    destruct (Z.ltb_spec c0 (mCurrentFence a' - 0)); [lia | lia].
  - destruct (Hinv (j - 1)) as (fr & Hfr & Hfence); [unfold gNumFrameResources in *; lia|].
    unfold slotBehind in Hfr.
    replace (mCurrFrameResourceIndex a + 1 - j) with (mCurrFrameResourceIndex a - (j - 1)) by lia.
    exists fr. split.
    + rewrite Ho; [done|].
      unfold gNumFrameResources in *.
      assert (Hcases : (mCurrFrameResourceIndex a = 0 \/ mCurrFrameResourceIndex a = 1 \/
                        mCurrFrameResourceIndex a = 2) /\ (j = 1 \/ j = 2)) by lia.
      destruct Hcases as [[Hx|[Hx|Hx]] [Hy|Hy]]; rewrite Hx, Hy; by vm_compute.
    + rewrite Hfence, Hf. by replace (mCurrentFence a + 1 - j) with (mCurrentFence a - (j - 1)) by lia.
Qed.

Lemma Run_ringFences dev fuel gts c0 (a a' : App) :
  ringFences c0 a -> mCurrentFence a + Z.of_nat (length gts) < 2 ^ 64 ->
  Run dev fuel gts a = Done a' ->
  ringFences c0 a' /\ mCurrentFence a' = mCurrentFence a + Z.of_nat (length gts).
Proof.
  revert a. induction gts as [|gt gts IH]; intros a Hinv Hlt HR.
  - injection HR as <-. split; [done|]. cbn. lia.
  - cbn [Run] in HR. apply bind_Done in HR as (a1 & HT & HR).
    cbn [length] in Hlt |- *. rewrite Nat2Z.inj_succ in Hlt |- *.
    assert (Hc : 0 <= c0 <= mCurrentFence a) by (destruct Hinv as (_ & _ & ? & _); done).
    destruct (Tick_ringFences dev fuel gt c0 a a1 Hinv ltac:(lia) HT) as [Hinv1 Hf1].
    destruct (IH a1 Hinv1 ltac:(lia) HR) as [Hinv' Hf']. split; [done | lia].
Qed.

(** After [n] frames from a fresh ring whose fence counter stood at [c0],
    and as long as the counter does not wrap: the counter is [c0 + n], the
    current slot records the value just issued, the slot before it the
    previous value, and so on; a slot that was not submitted yet still
    records 0.  In particular the slot the next frame acquires is the one
    submitted longest ago. *)
Theorem Run_ring_records_latest_fences dev fuel gts c0 (a a' : App) :
  freshRing c0 a -> c0 + Z.of_nat (length gts) < 2 ^ 64 ->
  Run dev fuel gts a = Done a' ->
  mCurrentFence a' = c0 + Z.of_nat (length gts) /\
  forall j, 0 <= j < gNumFrameResources ->
    exists fr, slotBehind a' j = Some fr /\
      Fence fr = if j <? Z.of_nat (length gts) then c0 + Z.of_nat (length gts) - j else 0.
Proof.
  intros Hfresh Hlt HR.
  assert (Hc0 : mCurrentFence a = c0) by (destruct Hfresh as (_ & _ & ? & _); done).
  destruct (Run_ringFences dev fuel gts c0 a a' (freshRing_ringFences c0 a Hfresh)
              ltac:(lia) HR) as [(_ & _ & _ & Hinv) Hf].
  rewrite Hc0 in Hf. split; [done|]. intros j Hj.
  destruct (Hinv j Hj) as (fr & Hfr & Hfence). exists fr. split; [done|].
  rewrite Hfence, Hf.
  destruct (Z.ltb_spec c0 (c0 + Z.of_nat (length gts) - j));
    destruct (Z.ltb_spec j (Z.of_nat (length gts))); lia.
Qed.

(** The CPU never runs more than [gNumFrameResources] frames ahead of the
    GPU.  When the acquisition of a frame returns, at most
    [gNumFrameResources - 1] of the frames submitted since the fresh ring are
    not yet completed (so at most [gNumFrameResources] once this frame is
    submitted too). *)
Theorem frames_in_flight_bounded dev fuel gts gt c0 (a0 a a1 : App) :
  freshRing c0 a0 -> c0 + Z.of_nat (length gts) < 2 ^ 64 ->
  Run dev fuel gts a0 = Done a ->
  Update_acquire dev fuel gt a = Done a1 ->
  mCurrentFence a1 - Z.max c0 (GetCompletedValue dev (clock a1)) <= gNumFrameResources - 1.
Proof.
  intros Hfresh Hlt HR HA.
  assert (Hc0 : mCurrentFence a0 = c0) by (destruct Hfresh as (_ & _ & ? & _); done).
  destruct (Run_ringFences dev fuel gts c0 a0 a (freshRing_ringFences c0 a0 Hfresh)
              ltac:(lia) HR) as [(Hlen & Hidx & Hc & Hinv) Hf].
  apply Update_acquire_Done in HA as (fr & Hat & _ & _ & _ & Hcf & _ & _ & HW).
  destruct (Hinv 2) as (fr2 & Hfr2 & Hfence); [done|].
  assert (fr2 = fr) as ->.
  { unfold at_index in Hat. rewrite nextSlot_mod in Hat by lia.
    destruct (Z.ltb_spec ((mCurrFrameResourceIndex a + 1) mod gNumFrameResources) 0) as [Hneg|_].
    { pose proof (Z.mod_pos_bound (mCurrFrameResourceIndex a + 1) gNumFrameResources). 
      unfold gNumFrameResources in *. lia. }
    apply ofOption_Done in Hat. unfold slotBehind in Hfr2.
    assert (Heq : (mCurrFrameResourceIndex a - 2) mod gNumFrameResources =
                  (mCurrFrameResourceIndex a + 1) mod gNumFrameResources).
    { replace (mCurrFrameResourceIndex a + 1)
        with (mCurrFrameResourceIndex a - 2 + 1 * gNumFrameResources)
        by (unfold gNumFrameResources; lia).
      by rewrite Z_mod_plus_full. }
    rewrite Heq in Hfr2. congruence. }
  assert (Hreached : Fence fr = 0 \/ Fence fr <= GetCompletedValue dev (clock a1)).
  { destruct (mustWait dev a fr) eqn:Hw.
    - destruct HW as (_ & Hwait & _). apply WaitForSingleObject_Done in Hwait as [? _]. by right.
    - destruct HW as [-> _].
      destruct (decide (Fence fr = 0)) as [?|Hne]; [by left|right].
      destruct (Z.le_gt_cases (Fence fr) (GetCompletedValue dev (clock a))) as [?|Hgt]; [done|].
      assert (mustWait dev a fr = true); [|congruence].
      apply mustWait_true. split; [done | lia]. }
  rewrite Hcf. unfold gNumFrameResources.
  destruct (Z.ltb_spec c0 (mCurrentFence a - 2)); lia.
Qed.

End RingOverRuns.

(** ** C6: what each publish records *)

Section FenceRecords.
Context {FO : FloatOps} {WA : WavesAPI} {CA : CameraAPI}.

Lemma publishedFor_app s (l1 l2 : list Event) :
  publishedFor s (l1 ++ l2) = publishedFor s l1 ++ publishedFor s l2.
Proof. unfold publishedFor. apply omap_app. Qed.

Lemma recordedAfter_app f0 s (l1 l2 : list Event) :
  recordedAfter f0 s (l1 ++ l2) = recordedAfter (recordedAfter f0 s l1) s l2.
Proof.
  unfold recordedAfter. rewrite publishedFor_app, last_app.
  by destruct (last (publishedFor s l2)).
Qed.

Lemma publishedFor_frame s slot waited fence :
  (waited = [] \/ exists f, waited = [EvWait slot f]) ->
  publishedFor s ([EvCamera; EvAcquire slot] ++ waited ++ frameEvents slot fence) =
    if decide (slot = s) then [fence] else [].
Proof.
  intros [->|[f ->]]; unfold publishedFor; cbn; by destruct (decide (slot = s)).
Qed.

(** In a list sorted strictly upwards the last element is the greatest. *)
Lemma sorted_last_greatest (l : list Z) f0 g :
  StronglySorted Z.lt l -> g ∈ l -> g <= default f0 (last l).
Proof.
  induction 1 as [|x l Hs IH Hall]; intros Hin; [by apply elem_of_nil in Hin|].
  rewrite last_cons. apply elem_of_cons in Hin as [-> | Hin].
  - destruct (last l) as [y|] eqn:Hy; cbn; [|lia].
    apply last_Some_elem_of in Hy. rewrite Forall_forall in Hall.
    specialize (Hall y Hy). lia.
  - specialize (IH Hin). destruct (last l) as [y|] eqn:Hy; cbn in *; [done|].
    apply last_None in Hy. subst l. by apply elem_of_nil in Hin.
Qed.

(** The events of one frame: a publish is followed at once by the signal of
    the value it published. *)
Lemma frame_signal slot waited fence (rest : list Event) :
  (waited = [] \/ exists f, waited = [EvWait slot f]) ->
  (forall i s f, rest !! i = Some (EvPublish s f) -> rest !! S i = Some (EvSignal f)) ->
  forall i s f,
    (([EvCamera; EvAcquire slot] ++ waited ++ frameEvents slot fence) ++ rest) !! i
      = Some (EvPublish s f) ->
    (([EvCamera; EvAcquire slot] ++ waited ++ frameEvents slot fence) ++ rest) !! S i
      = Some (EvSignal f).
Proof.
  intros Hw IH i s f H. destruct Hw as [->|[f' ->]]; cbn [app frameEvents] in H |- *.
  - do 13 (destruct i as [|i];
           [cbn in H |- *; first [discriminate H | by injection H as <- <-] |]).
    cbn in H |- *. by apply (IH i s).
  - do 14 (destruct i as [|i];
           [cbn in H |- *; first [discriminate H | by injection H as <- <-] |]).
    cbn in H |- *. by apply (IH i s).
Qed.

(** The events of one frame: the one wait it may hold is the one of the
    acquisition, before any publish of the frame. *)
Lemma frame_wait slot waited fence (rest : list Event) i s f :
  (waited = [] \/ exists f, waited = [EvWait slot f]) ->
  (([EvCamera; EvAcquire slot] ++ waited ++ frameEvents slot fence) ++ rest) !! i
    = Some (EvWait s f) ->
  (waited = [EvWait s f] /\ s = slot /\
   take i (([EvCamera; EvAcquire slot] ++ waited ++ frameEvents slot fence) ++ rest)
     = [EvCamera; EvAcquire slot]) \/
  exists j, rest !! j = Some (EvWait s f) /\
    take i (([EvCamera; EvAcquire slot] ++ waited ++ frameEvents slot fence) ++ rest)
      = ([EvCamera; EvAcquire slot] ++ waited ++ frameEvents slot fence) ++ take j rest.
Proof.
  intros Hw H. destruct Hw as [->|[f' ->]]; cbn [app frameEvents] in H |- *.
  - do 13 (destruct i as [|i]; [cbn in H; discriminate H |]).
    right. exists i. by cbn in H |- *.
  - do 2 (destruct i as [|i]; [cbn in H; discriminate H |]).
    destruct i as [|i]; [cbn in H; injection H as <- <-; by left|].
    do 11 (destruct i as [|i]; [cbn in H; discriminate H |]).
    right. exists i. by cbn in H |- *.
Qed.

(** What a run of completed frames records, frame by frame. *)
Lemma Run_records dev fuel gts (a a' : App) :
  Run dev fuel gts a = Done a' ->
  0 <= mCurrentFence a ->
  mCurrentFence a + Z.of_nat (length gts) < 2 ^ 64 ->
  exists seg,
    trace a' = trace a ++ seg /\
    length (mFrameResources a') = length (mFrameResources a) /\
    mCurrentFence a' = mCurrentFence a + Z.of_nat (length gts) /\
    (forall s fr0, mFrameResources a !! s = Some fr0 ->
       exists fr', mFrameResources a' !! s = Some fr' /\
         Fence fr' = recordedAfter (Fence fr0) s seg) /\
    (forall i s f, seg !! i = Some (EvPublish s f) -> seg !! S i = Some (EvSignal f)) /\
    (forall i s f, seg !! i = Some (EvWait s f) ->
       f <> 0 /\
       exists fr0, mFrameResources a !! s = Some fr0 /\
         f = recordedAfter (Fence fr0) s (take i seg)) /\
    (forall s g, g ∈ publishedFor s seg -> mCurrentFence a < g <= mCurrentFence a') /\
    forall s, StronglySorted Z.lt (publishedFor s seg).
Proof.
  revert a. induction gts as [|gt gts IH]; intros a HR H0 Hlt.
  - injection HR as <-. exists []. rewrite app_nil_r. cbn [length Z.of_nat].
    split; [done|]. split; [done|]. split; [lia|]. split.
    { intros s fr0 Hs. by exists fr0. }
    split; [intros i s f H; by rewrite lookup_nil in H|].
    split; [intros i s f H; by rewrite lookup_nil in H|].
    split; [intros s g H; by apply elem_of_nil in H | intros s; constructor].
  - cbn [Run] in HR. apply bind_Done in HR as (a1 & HT & HR).
    cbn [length] in Hlt |- *. rewrite Nat2Z.inj_succ in Hlt |- *.
    apply Tick_ring in HT
      as (_ & _ & Hf & Hl & Ho & (fr1 & Hfr1 & Hff) & waited & Hw & Htr & Hwait).
    rewrite UINT64_wrap_small in Hf by lia.
    set (slot := Z.to_nat (nextSlot a)) in *.
    set (frame := [EvCamera; EvAcquire slot] ++ waited ++ frameEvents slot (mCurrentFence a1)) in *.
    destruct (IH a1 HR) as (seg & Htr' & Hl' & Hf' & Hrec & Hsig & Hwt & Hpub & Hsort); [lia | lia |].
    assert (Hframe : forall s, publishedFor s frame =
                               if decide (slot = s) then [mCurrentFence a1] else [])
      by (intros s; by apply publishedFor_frame).
    assert (Hstep : forall s fr0, mFrameResources a !! s = Some fr0 ->
              exists fr, mFrameResources a1 !! s = Some fr /\
                Fence fr = recordedAfter (Fence fr0) s frame).
    { intros s fr0 Hs. unfold recordedAfter. rewrite Hframe.
      destruct (decide (slot = s)) as [<-|Hne].
      - exists fr1. by split.
      - exists fr0. split; [by rewrite Ho | done]. }
    exists (frame ++ seg).
    split; [rewrite Htr', Htr; by rewrite <- app_assoc|].
    split; [congruence|]. split; [lia|]. split.
    { intros s fr0 Hs. destruct (Hstep s fr0 Hs) as (fr & Hfr & Hfence).
      destruct (Hrec s fr Hfr) as (fr' & Hfr' & Hfence').
      exists fr'. split; [done|]. by rewrite recordedAfter_app, <- Hfence. }
    split; [by apply frame_signal|]. split.
    { intros i s f H. destruct (frame_wait slot waited (mCurrentFence a1) seg i s f Hw H)
        as [(Hwd & -> & Htake) | (j & Hj & Htake)]; fold frame in Htake; rewrite Htake.
      - destruct (Hwait f Hwd) as (Hne & fr & Hfr & ->).
        split; [done|]. exists fr. split; [done|]. reflexivity.
      - destruct (Hwt j s f Hj) as (Hne & fr & Hfr & ->). split; [done|].
        assert (is_Some (mFrameResources a !! s)) as [fr0 Hfr0].
        { apply lookup_lt_is_Some. rewrite <- Hl. by eapply lookup_lt_Some. }
        exists fr0. split; [done|].
        destruct (Hstep s fr0 Hfr0) as (fr2 & Hfr2 & Hfence).
        assert (fr2 = fr) as -> by congruence.
        by rewrite recordedAfter_app, <- Hfence. }
    split.
    { intros s g Hin. rewrite publishedFor_app, Hframe in Hin.
      apply elem_of_app in Hin as [Hin | Hin].
      - destruct (decide (slot = s)); [|by apply elem_of_nil in Hin].
        apply list_elem_of_singleton in Hin as ->. lia.
      - specialize (Hpub s g Hin). lia. }
    intros s. rewrite publishedFor_app, Hframe.
    destruct (decide (slot = s)); [|apply Hsort].
    cbn [app]. constructor; [apply Hsort|].
    apply Forall_forall. intros g Hin. specialize (Hpub s g Hin). lia.
Qed.

(** C6, as the code has it.  Over any run of frames that complete, as long as
    the 64-bit counter [mCurrentFence] does not wrap: the fence values
    published are the successors of the counter, one per frame, each later
    one strictly greater than each earlier one, and no frame resource ends
    with a value above the counter.  Each publish records the value it
    issues in the slot it publishes and is followed at once by the [Signal]
    of that value, so a slot ends the run with the latest value published for
    it (its earlier value if it was not published), which is the greatest of
    the values published for it.  Every wait of the run is the wait of an
    acquisition on the value its slot records at that point. *)
Theorem C6_fence_targets_increase dev fuel gts (a a' : App) :
  Run dev fuel gts a = Done a' ->
  0 <= mCurrentFence a ->
  mCurrentFence a + Z.of_nat (length gts) < 2 ^ 64 ->
  (forall fr, fr ∈ mFrameResources a -> Fence fr <= mCurrentFence a) ->
  exists seg,
    trace a' = trace a ++ seg /\
    published seg = (fun i => mCurrentFence a + 1 + Z.of_nat i) <$> seq 0 (length gts) /\
    strictlyIncreasing (published seg) /\
    (forall f, f ∈ published seg -> mCurrentFence a < f <= mCurrentFence a') /\
    (forall fr, fr ∈ mFrameResources a' -> Fence fr <= mCurrentFence a') /\
    mCurrentFence a' = mCurrentFence a + Z.of_nat (length gts) /\
    length (mFrameResources a') = length (mFrameResources a) /\
    (forall s fr0, mFrameResources a !! s = Some fr0 ->
       exists fr', mFrameResources a' !! s = Some fr' /\
         Fence fr' = recordedAfter (Fence fr0) s seg /\
         forall g, g ∈ publishedFor s seg -> mCurrentFence a < g <= Fence fr') /\
    (forall i s f, seg !! i = Some (EvPublish s f) -> seg !! S i = Some (EvSignal f)) /\
    (forall i s f, seg !! i = Some (EvWait s f) ->
       f <> 0 /\
       exists fr0, mFrameResources a !! s = Some fr0 /\
         f = recordedAfter (Fence fr0) s (take i seg)).
Proof.
  intros HR H0 Hlt Hinv.
  destruct (Run_published dev fuel gts a a' HR H0 Hlt) as (Hf & Hbound & seg & Htr & Hpub).
  destruct (Run_records dev fuel gts a a' HR H0 Hlt)
    as (seg' & Htr' & Hl & _ & Hrec & Hsig & Hwt & Hfor & Hsort).
  assert (seg' = seg) as -> by (rewrite Htr in Htr'; by apply app_inv_head in Htr').
  exists seg. split_and!; try done.
  - rewrite Hpub. intros i j fi fj Hi Hj Hij.
    rewrite list_lookup_fmap in Hi, Hj.
    destruct (seq 0 (length gts) !! i) as [x|] eqn:Hx; [|done].
    destruct (seq 0 (length gts) !! j) as [y|] eqn:Hy; [|done].
    apply lookup_seq in Hx as [-> _]. apply lookup_seq in Hy as [-> _].
    cbn in Hi, Hj. injection Hi as <-. injection Hj as <-. lia.
  - rewrite Hpub. intros f Hin. apply list_elem_of_fmap in Hin as (i & -> & Hi).
    apply elem_of_seq in Hi. lia.
  - intros fr Hfr. specialize (Hbound (mCurrentFence a) ltac:(lia) Hinv fr Hfr). lia.
  - intros s fr0 Hs. destruct (Hrec s fr0 Hs) as (fr' & Hfr' & Hfence).
    exists fr'. split; [done|]. split; [done|].
    intros g Hin. split; [by apply (Hfor s g Hin)|].
    rewrite Hfence. by apply sorted_last_greatest.
Qed.

End FenceRecords.

(** ** The flush loop, without assumptions on the registration *)

Section FlushContents.
Context {E C : Type}.
Variables (dirty : E -> Z) (tick : E -> E) (cbIndex : E -> nat) (payload : E -> C).

(** After the loop, an element of the buffer holds the constants of the last
    dirty entry registered under its index, and what it held before when
    there is none. *)
Lemma flushLoop_contents (es es' : list E) (cb cb' : UploadBuffer.t C) i :
  flushLoop dirty tick cbIndex payload es cb = Done (es', cb') ->
  UploadBuffer.elems cb' !! i =
    match lastWriter dirty cbIndex es i with
    | Some e => Some (payload e)
    | None => UploadBuffer.elems cb !! i
    end.
Proof.
  revert cb es'. induction es as [|x es IH]; intros cb es' Hrun.
  - injection Hrun as _ <-. done.
  - cbn [flushLoop] in Hrun. unfold lastWriter in *.
    destruct (0 <? dirty x) eqn:Hx.
    + apply bind_Done in Hrun as (cb1 & Hcopy & Hrun).
      apply bind_Done in Hrun as ([rest' cb2] & Hrest & Hret).
      injection Hret as _ <-.
      unfold UploadBuffer.CopyData in Hcopy. case_decide as Hlt; [|discriminate].
      injection Hcopy as <-.
      rewrite (IH _ _ Hrest). cbn [UploadBuffer.elems].
      destruct (decide (cbIndex x = i)) as [<-|Hne].
      * rewrite filter_cons_True by done. rewrite last_cons.
        destruct (last _); [done|]. by apply list_lookup_insert_eq.
      * rewrite filter_cons_False by (intros [_ ?]; done).
        destruct (last _); [done|]. by apply list_lookup_insert_ne.
    + apply bind_Done in Hrun as ([rest' cb2] & Hrest & Hret).
      injection Hret as _ <-.
      rewrite (IH _ _ Hrest).
      rewrite filter_cons_False; [done|]. unfold isDirty. rewrite Hx. by intros [? _].
Qed.

(** The loop returns exactly when every dirty entry's index is inside the
    buffer. *)
Lemma flushLoop_isDone (es : list E) (cb : UploadBuffer.t C) :
  isDone (flushLoop dirty tick cbIndex payload es cb) = true <->
  forall e, e ∈ es -> 0 < dirty e -> (cbIndex e < length (UploadBuffer.elems cb))%nat.
Proof.
  split.
  - intros Hd e He Hpos.
    destruct (flushLoop dirty tick cbIndex payload es cb) as [r| | |] eqn:Hrun; try discriminate.
    by eapply flushLoop_inrange.
  - intros Hin. destruct (flushLoop_runs dirty tick cbIndex payload es cb Hin) as (cb' & -> & _).
    done.
Qed.

End FlushContents.

Section FlushEdges.
Context {FO : FloatOps} {WA : WavesAPI} {CA : CameraAPI}.

Lemma UpdateObjectCBs_unfold gt (a : App) slot fr :
  mCurrFrameResource a = Some slot -> mFrameResources a !! slot = Some fr ->
  UpdateObjectCBs gt a =
    '(items, cb) ← flushLoop NumFramesDirty tickItem ObjCBIndex objConstantsOf
                     (mAllRitems a) (ObjectCB fr);
    mret (emit (EvFlushObjects slot)
            (set_mAllRitems items
               (set_mFrameResources (<[slot := set_ObjectCB cb fr]> (mFrameResources a)) a))).
Proof.
  intros Hs Hfr. unfold UpdateObjectCBs, currFrameResource. rewrite Hs. cbn. rewrite Hfr. cbn.
  by rewrite UpdateObjectCBs_loop_flushLoop.
Qed.

(** [UpdateObjectCBs] returns exactly when the index of every dirty render
    item lies inside the object buffer of the current frame resource; a
    render item that is not dirty is neither checked nor written.  When it
    returns, every positive counter went down by one and nothing else of a
    render item changed, the materials are as they were, and the buffer was
    written once per dirty item, in the order of [mAllRitems]. *)
Theorem UpdateObjectCBs_returns_iff gt (a : App) slot fr :
  mCurrFrameResource a = Some slot -> mFrameResources a !! slot = Some fr ->
  (isDone (UpdateObjectCBs gt a) = true <->
     forall e, e ∈ mAllRitems a -> 0 < NumFramesDirty e ->
       (ObjCBIndex e < length (UploadBuffer.elems (ObjectCB fr)))%nat) /\
  forall a', UpdateObjectCBs gt a = Done a' ->
    mAllRitems a' = tickIfDirty NumFramesDirty tickItem <$> mAllRitems a /\
    mMaterials a' = mMaterials a /\
    exists cb',
      mFrameResources a' = <[slot := set_ObjectCB cb' fr]> (mFrameResources a) /\
      length (UploadBuffer.elems cb') = length (UploadBuffer.elems (ObjectCB fr)) /\
      UploadBuffer.copyLog cb' =
        UploadBuffer.copyLog (ObjectCB fr) ++ dirtyIndices NumFramesDirty ObjCBIndex (mAllRitems a).
Proof.
  intros Hs Hfr. rewrite (UpdateObjectCBs_unfold gt a slot fr Hs Hfr). split.
  - rewrite <- flushLoop_isDone with (tick := tickItem) (payload := objConstantsOf).
    destruct (flushLoop _ _ _ _ _ _) as [[items cb]| | |]; done.
  - intros a' H. apply bind_Done in H as ([items cb] & Hrun & H). injection H as <-.
    destruct (flushLoop_runs NumFramesDirty tickItem ObjCBIndex objConstantsOf
                (mAllRitems a) (ObjectCB fr)) as (cb' & Hrun' & Hlen & Hlog & _).
    { intros e He Hd. by eapply flushLoop_inrange. }
    rewrite Hrun in Hrun'. injection Hrun' as -> ->. cbn.
    split; [done|]. split; [done|]. by exists cb'.
Qed.

(** When render items share a constant-buffer index, the later one in
    [mAllRitems] wins: after [UpdateObjectCBs], every element of the object
    buffer holds the constants of the last dirty render item registered
    under its index, and is unchanged when no dirty item names it. *)
Theorem UpdateObjectCBs_last_writer_wins gt (a a' : App) slot fr :
  mCurrFrameResource a = Some slot -> mFrameResources a !! slot = Some fr ->
  UpdateObjectCBs gt a = Done a' ->
  exists fr', mFrameResources a' !! slot = Some fr' /\
    forall i, UploadBuffer.elems (ObjectCB fr') !! i =
      match lastWriter NumFramesDirty ObjCBIndex (mAllRitems a) i with
      | Some e => Some (objConstantsOf e)
      | None => UploadBuffer.elems (ObjectCB fr) !! i
      end.
Proof.
  intros Hs Hfr H. rewrite (UpdateObjectCBs_unfold gt a slot fr Hs Hfr) in H.
  apply bind_Done in H as ([items cb] & Hrun & H). injection H as <-. cbn.
  exists (set_ObjectCB cb fr). split.
  - apply list_lookup_insert_eq. by eapply lookup_lt_Some.
  - intros i. cbn. by eapply flushLoop_contents.
Qed.

Lemma UpdateMaterialCBs_unfold gt (a : App) slot fr :
  mCurrFrameResource a = Some slot -> mFrameResources a !! slot = Some fr ->
  UpdateMaterialCBs gt a =
    '(mats, cb) ← flushLoop (fun e : string * Material => MatNumFramesDirty e.2)
                    (fun e => (e.1, tickMaterial e.2))
                    (fun e => MatCBIndex e.2) (fun e => matConstantsOf e.2)
                    (map_to_list (mMaterials a)) (MaterialCB fr);
    mret (emit (EvFlushMaterials slot)
            (set_mMaterials (list_to_map mats)
               (set_mFrameResources (<[slot := set_MaterialCB cb fr]> (mFrameResources a)) a))).
Proof.
  intros Hs Hfr. unfold UpdateMaterialCBs, currFrameResource. rewrite Hs. cbn. rewrite Hfr. cbn.
  by rewrite UpdateMaterialCBs_loop_flushLoop.
Qed.

(** [UpdateMaterialCBs] returns exactly when the index of every dirty
    material lies inside the material buffer of the current frame resource.
    When it returns, whatever the order in which the map was enumerated, the
    materials are the same map with every positive counter one lower: no key
    is added or lost and no other member of a material changes; the render
    items are as they were. *)
Theorem UpdateMaterialCBs_returns_iff gt (a : App) slot fr :
  mCurrFrameResource a = Some slot -> mFrameResources a !! slot = Some fr ->
  (isDone (UpdateMaterialCBs gt a) = true <->
     forall k m, mMaterials a !! k = Some m -> 0 < MatNumFramesDirty m ->
       (MatCBIndex m < length (UploadBuffer.elems (MaterialCB fr)))%nat) /\
  forall a', UpdateMaterialCBs gt a = Done a' ->
    mMaterials a' = tickIfDirty MatNumFramesDirty tickMaterial <$> mMaterials a /\
    dom (mMaterials a') = dom (mMaterials a) /\
    mAllRitems a' = mAllRitems a /\
    exists cb',
      mFrameResources a' = <[slot := set_MaterialCB cb' fr]> (mFrameResources a) /\
      length (UploadBuffer.elems cb') = length (UploadBuffer.elems (MaterialCB fr)).
Proof.
  intros Hs Hfr. rewrite (UpdateMaterialCBs_unfold gt a slot fr Hs Hfr). split.
  - transitivity (isDone (flushLoop (fun e : string * Material => MatNumFramesDirty e.2)
                    (fun e => (e.1, tickMaterial e.2))
                    (fun e => MatCBIndex e.2) (fun e => matConstantsOf e.2)
                    (map_to_list (mMaterials a)) (MaterialCB fr)) = true).
    { destruct (flushLoop _ _ _ _ _ _) as [[mats cb]| | |]; done. }
    rewrite flushLoop_isDone. split.
    + intros H k m Hk Hd. apply (H (k, m)); [by apply elem_of_map_to_list | done].
    + intros H [k m] He Hd. apply elem_of_map_to_list in He. by eapply H.
  - intros a' H. apply bind_Done in H as ([mats cb] & Hrun & H). injection H as <-.
    destruct (flushLoop_runs (fun e : string * Material => MatNumFramesDirty e.2)
                (fun e => (e.1, tickMaterial e.2)) (fun e => MatCBIndex e.2)
                (fun e => matConstantsOf e.2)
                (map_to_list (mMaterials a)) (MaterialCB fr)) as (cb' & Hrun' & Hlen & _).
    { intros e He Hd.
      exact (flushLoop_inrange (fun e : string * Material => MatNumFramesDirty e.2)
               (fun e => (e.1, tickMaterial e.2)) (fun e => MatCBIndex e.2)
               (fun e => matConstantsOf e.2) _ _ _ e Hrun He Hd). }
    rewrite Hrun in Hrun'. injection Hrun' as -> ->. cbn.
    assert (Hmap : list_to_map (tickIfDirty (fun e : string * Material => MatNumFramesDirty e.2)
                                  (fun e => (e.1, tickMaterial e.2)) <$> map_to_list (mMaterials a))
                   = tickIfDirty MatNumFramesDirty tickMaterial <$> mMaterials a).
    { erewrite list_fmap_ext; [|intros i e _; apply tickIfDirty_pair].
      rewrite list_to_map_fmap. by rewrite list_to_map_to_list. }
    rewrite Hmap. split; [done|]. split; [apply dom_fmap_L|]. split; [done|]. by exists cb'.
Qed.

End FlushEdges.

(** ** The scrolling of the water texture *)

Section WaterScroll.

(** In every arithmetic: [AnimateMaterials] replaces the water material by
    one that differs in the two offsets and the dirty counter, and touches
    nothing else of the application. *)
Lemma AnimateMaterials_result {FO : FloatOps} {WA : WavesAPI} {CA : CameraAPI}
    (gt : GameTimer) (a : App) w :
  mMaterials a !! "water"%string = Some w ->
  let su := fadd (m41 (MatTransform w)) (fmul f0_1 (DeltaTime gt)) in
  let sv := fadd (m42 (MatTransform w)) (fmul f0_02 (DeltaTime gt)) in
  exists a' w',
    AnimateMaterials gt a = Done a' /\
    mMaterials a' = <["water"%string := w']> (mMaterials a) /\
    m41 (MatTransform w') = (if fgeb su f1 then fsub su f1 else su) /\
    m42 (MatTransform w') = (if fgeb sv f1 then fsub sv f1 else sv) /\
    MatTransform w' =
      set_3_1 (m42 (MatTransform w')) (set_3_0 (m41 (MatTransform w')) (MatTransform w)) /\
    MatNumFramesDirty w' = gNumFrameResources /\
    (MatCBIndex w' = MatCBIndex w /\ DiffuseAlbedo w' = DiffuseAlbedo w /\
     FresnelR0 w' = FresnelR0 w /\ Roughness w' = Roughness w) /\
    (mFrameResources a' = mFrameResources a /\ mAllRitems a' = mAllRitems a /\
     mWaves a' = mWaves a /\ mCurrentFence a' = mCurrentFence a /\
     trace a' = trace a ++ [EvAnimateMaterials]).
Proof.
  intros Hw su sv. unfold AnimateMaterials. rewrite Hw.
  cbn [ofOption mbind Outcome_bind mret Outcome_ret].
  eexists _, _. split; [reflexivity|]. split; [reflexivity|]. done.
Qed.

(** One offset of [AnimateMaterials] on exact rationals: add the advance,
    subtract 1 once when the sum has reached 1. *)
Lemma scroll_once (t step : Q) :
  (0 <= t)%Q -> (t < 1)%Q -> (0 <= step)%Q ->
  let s := fadd (FloatOps := ExactOps) t step in
  let t' := if fgeb (FloatOps := ExactOps) s f1 then fsub (FloatOps := ExactOps) s f1 else s in
  ((t + step < 1)%Q -> t' = (t + step)%Q) /\
  ((1 <= t + step)%Q -> t' = (t + step - 1)%Q) /\
  (0 <= t')%Q /\ (t' < 1 <-> t + step < 2)%Q.
Proof.
  intros H0 H1 Hs. cbn. destruct (Qle_bool 1 (t + step)) eqn:Hb.
  - apply Qle_bool_iff in Hb. split; [lra|]. split; [done|]. split; [lra|]. split; lra.
  - assert (~ (1 <= t + step)%Q) as Hn by (rewrite <- Qle_bool_iff; congruence).
    split; [done|]. split; [done|]. apply Qnot_le_lt in Hn. split; [lra|]. split; lra.
Qed.

(** [AnimateMaterials] scrolls the texture of the water material.  In every
    arithmetic: it returns when the material exists (a missing one is a null
    pointer dereference); the new offsets are [tu + 0.1f * dt] and
    [tv + 0.02f * dt], each with [1.0f] subtracted once when it has reached
    [1.0f]; nothing else of the transform, of the material but the dirty
    counter (set to [gNumFrameResources]), or of the application changes.
    On exact rationals, from offsets in [0, 1) and a frame time [dt >= 0]:
    the sums are [tu + dt / 10] and [tv + dt / 50], less 1 when they have
    reached 1; the new offsets are not negative, and are below 1 exactly when
    the sum is below 2, hence for every frame below 10 seconds.  In single
    precision that bound does not hold: from the largest [float] below 1 and
    a frame of [10.0f] seconds, where the exact sum is below 2, the sum is
    rounded to [2.0f] and the offset stored is [1.0f]. *)
Theorem AnimateMaterials_scrolls_water :
  (forall (FO : FloatOps) (WA : WavesAPI) (CA : CameraAPI) (gt : GameTimer) (a : App),
     (mMaterials a !! "water"%string = None -> AnimateMaterials gt a = Fault) /\
     forall w, mMaterials a !! "water"%string = Some w ->
       let su := fadd (m41 (MatTransform w)) (fmul f0_1 (DeltaTime gt)) in
       let sv := fadd (m42 (MatTransform w)) (fmul f0_02 (DeltaTime gt)) in
       exists a' w',
         AnimateMaterials gt a = Done a' /\
         mMaterials a' = <["water"%string := w']> (mMaterials a) /\
         m41 (MatTransform w') = (if fgeb su f1 then fsub su f1 else su) /\
         m42 (MatTransform w') = (if fgeb sv f1 then fsub sv f1 else sv) /\
         MatTransform w' =
           set_3_1 (m42 (MatTransform w'))
                   (set_3_0 (m41 (MatTransform w')) (MatTransform w)) /\
         MatNumFramesDirty w' = gNumFrameResources /\
         (MatCBIndex w' = MatCBIndex w /\ DiffuseAlbedo w' = DiffuseAlbedo w /\
          FresnelR0 w' = FresnelR0 w /\ Roughness w' = Roughness w) /\
         (mFrameResources a' = mFrameResources a /\ mAllRitems a' = mAllRitems a /\
          mWaves a' = mWaves a /\ mCurrentFence a' = mCurrentFence a /\
          trace a' = trace a ++ [EvAnimateMaterials])) /\
  (forall (WA : WavesAPI (FO := ExactOps)) (CA : CameraAPI (FO := ExactOps))
          (gt : GameTimer (FO := ExactOps)) (a : App) (w : Material (FO := ExactOps)),
     mMaterials a !! "water"%string = Some w ->
     let tu : Q := m41 (MatTransform w) in
     let tv : Q := m42 (MatTransform w) in
     let dt : Q := DeltaTime gt in
     (0 <= tu)%Q -> (tu < 1)%Q -> (0 <= tv)%Q -> (tv < 1)%Q -> (0 <= dt)%Q ->
     exists a' w',
       AnimateMaterials gt a = Done a' /\
       mMaterials a' = <["water"%string := w']> (mMaterials a) /\
       let tu' : Q := m41 (MatTransform w') in
       let tv' : Q := m42 (MatTransform w') in
       ((tu + (1 # 10) * dt < 1)%Q -> tu' = (tu + (1 # 10) * dt)%Q) /\
       ((1 <= tu + (1 # 10) * dt)%Q -> tu' = (tu + (1 # 10) * dt - 1)%Q) /\
       ((tv + (2 # 100) * dt < 1)%Q -> tv' = (tv + (2 # 100) * dt)%Q) /\
       ((1 <= tv + (2 # 100) * dt)%Q -> tv' = (tv + (2 # 100) * dt - 1)%Q) /\
       (0 <= tu')%Q /\ (0 <= tv')%Q /\
       (tu' < 1 <-> tu + (1 # 10) * dt < 2)%Q /\
       (tv' < 1 <-> tv + (2 # 100) * dt < 2)%Q /\
       ((dt < 10)%Q -> (tu' < 1)%Q /\ (tv' < 1)%Q)) /\
  (mMaterials Single.afloat !! "water"%string = Some Single.water /\
   m41 (MatTransform Single.water) = Single.belowOne /\
   (0 <= binary32_value Single.belowOne)%Q /\ (binary32_value Single.belowOne < 1)%Q /\
   (binary32_value (DeltaTime Single.tenSeconds) == 10)%Q /\
   (binary32_value Single.belowOne
      + (1 # 10) * binary32_value (DeltaTime Single.tenSeconds) < 2)%Q /\
   SFadd 24 128 Single.belowOne
         (SFmul 24 128 (f0_1 (FloatOps := Binary32Ops)) (DeltaTime Single.tenSeconds))
     = binary32_of_Z 2 /\
   exists a' w',
     AnimateMaterials (WA := Single.TableWaves) (CA := Single.UnitCamera)
       Single.tenSeconds Single.afloat = Done a' /\
     mMaterials a' !! "water"%string = Some w' /\
     m41 (MatTransform w') = binary32_of_Z 1 /\
     (binary32_value (m41 (MatTransform w')) == 1)%Q).
Proof.
  split; [|split].
  - intros FO WA CA gt a. split.
    + intros H0. unfold AnimateMaterials. by rewrite H0.
    + intros w Hw. exact (AnimateMaterials_result gt a w Hw).
  - intros WA CA gt a w Hw tu tv dt Hu0 Hu1 Hv0 Hv1 Hdt.
    destruct (AnimateMaterials_result gt a w Hw)
      as (a' & w' & Hrun & Hm & Hu & Hv & _).
    exists a', w'. split; [exact Hrun|]. split; [exact Hm|]. cbv zeta.
    rewrite Hu, Hv.
    destruct (scroll_once tu ((1 # 10) * dt) Hu0 Hu1 ltac:(lra)) as (Ha1 & Ha2 & Ha3 & Ha4).
    destruct (scroll_once tv ((2 # 100) * dt) Hv0 Hv1 ltac:(lra)) as (Hb1 & Hb2 & Hb3 & Hb4).
    cbv zeta in Ha1, Ha2, Ha3, Ha4, Hb1, Hb2, Hb3, Hb4.
    split; [exact Ha1|]. split; [exact Ha2|]. split; [exact Hb1|]. split; [exact Hb2|].
    split; [exact Ha3|]. split; [exact Hb3|]. split; [exact Ha4|]. split; [exact Hb4|].
    intros Hlt. split; [apply Ha4 | apply Hb4]; lra.
  - assert (mMaterials Single.afloat !! "water"%string = Some Single.water) as Hw
      by reflexivity.
    split; [exact Hw|]. split; [reflexivity|].
    split; [vm_compute; discriminate|]. split; [vm_compute; reflexivity|].
    split; [vm_compute; reflexivity|]. split; [vm_compute; reflexivity|].
    split; [vm_compute; reflexivity|].
    destruct (AnimateMaterials_result (WA := Single.TableWaves) (CA := Single.UnitCamera)
                Single.tenSeconds Single.afloat Single.water Hw)
      as (a' & w' & Hrun & Hm & Hu & _).
    exists a', w'. split; [exact Hrun|]. split; [rewrite Hm; apply lookup_insert_eq|].
    rewrite Hu. split; vm_compute; reflexivity.
Qed.

End WaterScroll.

(** ** The footprint of the wave upload *)

Section WaveUpload.
Context {FO : FloatOps} {WA : WavesAPI} {CA : CameraAPI}.

(** A copy loop that returned had room for every element it wrote, wrote
    them in order, and left the elements behind them alone. *)
Lemma UpdateWaves_loop_inv (w : Waves) (count : nat) (i : Z) (vb vb' : UploadBuffer.t Vertex) :
  0 <= i -> UpdateWaves_loop w count i vb = Done vb' ->
  (count = 0%nat \/ (Z.to_nat i + count <= length (UploadBuffer.elems vb))%nat) /\
  length (UploadBuffer.elems vb') = length (UploadBuffer.elems vb) /\
  UploadBuffer.copyLog vb' = UploadBuffer.copyLog vb ++ seq (Z.to_nat i) count /\
  forall k, (Z.to_nat i + count <= k)%nat ->
    UploadBuffer.elems vb' !! k = UploadBuffer.elems vb !! k.
Proof.
  revert i vb. induction count as [|count IH]; intros i vb Hi Hrun.
  - injection Hrun as <-. cbn. rewrite app_nil_r. split_and!; auto.
  - cbn [UpdateWaves_loop] in Hrun. apply bind_Done in Hrun as (vb1 & Hcopy & Hrun).
    unfold UploadBuffer.CopyData in Hcopy. case_decide as Hlt; [|discriminate].
    injection Hcopy as <-.
    apply IH in Hrun as (Hroom & Hlen & Hlog & Hkeep); [|lia].
    cbn [UploadBuffer.elems UploadBuffer.copyLog] in *.
    rewrite length_insert in Hroom, Hlen.
    replace (Z.to_nat (i + 1)) with (S (Z.to_nat i)) in * by lia.
    split_and!.
    + right. destruct Hroom as [->|Hroom]; lia.
    + done.
    + rewrite Hlog, <- app_assoc. done.
    + intros k Hk. rewrite Hkeep by lia. apply list_lookup_insert_ne. lia.
Qed.

(** [UpdateWaves], once the simulation step has returned, returns exactly
    when the vertex buffer of the current frame resource has room for
    [VertexCount] vertices.  It then wrote the elements 0, 1, ...,
    [VertexCount - 1] once each in this order (none for a count that is not
    positive), left every later element and the size of the buffer as they
    were, changed no other buffer of the frame resource, and bound the vertex
    buffer of the wave render item to the current slot. *)
Theorem UpdateWaves_writes_exactly_the_grid gt (a : App) slot fr w :
  Waves_Update (DeltaTime gt) (mWaves a) = Done w ->
  mCurrFrameResource a = Some slot -> mFrameResources a !! slot = Some fr ->
  (isDone (UpdateWaves gt a) = true <->
     (Z.to_nat (VertexCount w) <= length (UploadBuffer.elems (WavesVB fr)))%nat) /\
  forall a', UpdateWaves gt a = Done a' ->
    mWaves a' = w /\ mWavesVertexBufferGPU a' = Some slot /\
    exists vb',
      mFrameResources a' = <[slot := set_WavesVB vb' fr]> (mFrameResources a) /\
      length (UploadBuffer.elems vb') = length (UploadBuffer.elems (WavesVB fr)) /\
      UploadBuffer.copyLog vb' =
        UploadBuffer.copyLog (WavesVB fr) ++ seq 0 (Z.to_nat (VertexCount w)) /\
      forall k, (Z.to_nat (VertexCount w) <= k)%nat ->
        UploadBuffer.elems vb' !! k = UploadBuffer.elems (WavesVB fr) !! k.
Proof.
  intros Hw Hs Hfr.
  assert (Hunf : UpdateWaves gt a =
            vb ← UpdateWaves_loop w (Z.to_nat (VertexCount w)) 0 (WavesVB fr);
            mret (emit (EvWavesCopy slot)
                    (set_mWavesVertexBufferGPU (Some slot)
                       (set_mFrameResources (<[slot := set_WavesVB vb fr]> (mFrameResources a))
                          (emit EvWavesStep (set_mWaves w a)))))).
  { unfold UpdateWaves, currFrameResource. rewrite Hw. cbn. rewrite Hs. cbn. by rewrite Hfr. }
  rewrite Hunf. split.
  - split.
    + intros Hd.
      destruct (UpdateWaves_loop w (Z.to_nat (VertexCount w)) 0 (WavesVB fr))
        as [vb'| | |] eqn:Hrun; try discriminate.
      apply UpdateWaves_loop_inv in Hrun as (Hroom & _); [|done].
      destruct Hroom as [->|Hroom]; cbn in *; lia.
    + intros Hroom.
      destruct (UpdateWaves_loop_spec w (Z.to_nat (VertexCount w)) 0 (WavesVB fr))
        as (vb' & -> & _); [done | cbn; lia | done].
  - intros a' H. apply bind_Done in H as (vb' & Hrun & H). injection H as <-. cbn.
    split; [done|]. split; [done|]. exists vb'. split; [done|].
    apply UpdateWaves_loop_inv in Hrun as (_ & Hlen & Hlog & Hkeep); [|done].
    split; [done|]. split; [done|]. intros k Hk. apply Hkeep. cbn. lia.
Qed.

End WaveUpload.

(** ** The triangles of the wave index buffer *)

Section WaveTriangles.
Context {FO : FloatOps} {WA : WavesAPI}.

Lemma store_index_Done pos v (b b' : IndexBuild) :
  store_index pos v b = Done b' ->
  0 <= pos < Z.of_nat (length (indices b)) /\
  indices b' = <[Z.to_nat pos := v mod 2 ^ 16]> (indices b) /\
  ib_k b' = ib_k b.
Proof.
  unfold store_index.
  destruct (Z.leb_spec 0 pos); destruct (Z.ltb_spec pos (Z.of_nat (length (indices b))));
    cbn; try discriminate.
  intros Heq. injection Heq as <-. cbn. split; [lia | done].
Qed.

Lemma BuildWaves_quad_Done (n i j : Z) (b b' : IndexBuild) :
  BuildWaves_quad n i j b = Done b' -> 0 <= ib_k b ->
  ib_k b' = ib_k b + 6 /\ length (indices b') = length (indices b) /\
  (forall c, (c < 6)%nat ->
     indices b' !! (Z.to_nat (ib_k b) + c)%nat =
       (fun v => v mod 2 ^ 16) <$> quadIndices n i j !! c) /\
  (forall p, (p < Z.to_nat (ib_k b))%nat -> indices b' !! p = indices b !! p).
Proof.
  unfold BuildWaves_quad. intros H Hk.
  apply bind_Done in H as (b1 & H1 & H). apply store_index_Done in H1 as (R1 & I1 & K1).
  apply bind_Done in H as (b2 & H2 & H). apply store_index_Done in H2 as (R2 & I2 & K2).
  apply bind_Done in H as (b3 & H3 & H). apply store_index_Done in H3 as (R3 & I3 & K3).
  apply bind_Done in H as (b4 & H4 & H). apply store_index_Done in H4 as (R4 & I4 & K4).
  apply bind_Done in H as (b5 & H5 & H). apply store_index_Done in H5 as (R5 & I5 & K5).
  apply bind_Done in H as (b6 & H6 & H). apply store_index_Done in H6 as (R6 & I6 & K6).
  injection H as <-. cbn [ib_k indices].
  set (K := Z.to_nat (ib_k b)) in *.
  replace (Z.to_nat (ib_k b + 1)) with (K + 1)%nat in * by lia.
  replace (Z.to_nat (ib_k b + 2)) with (K + 2)%nat in * by lia.
  replace (Z.to_nat (ib_k b + 3)) with (K + 3)%nat in * by lia.
  replace (Z.to_nat (ib_k b + 4)) with (K + 4)%nat in * by lia.
  replace (Z.to_nat (ib_k b + 5)) with (K + 5)%nat in * by lia.
  assert (L1 : length (indices b1) = length (indices b)) by (rewrite I1; apply length_insert).
  assert (L2 : length (indices b2) = length (indices b)) by (rewrite I2, length_insert; done).
  assert (L3 : length (indices b3) = length (indices b)) by (rewrite I3, length_insert; done).
  assert (L4 : length (indices b4) = length (indices b)) by (rewrite I4, length_insert; done).
  assert (L5 : length (indices b5) = length (indices b)) by (rewrite I5, length_insert; done).
  assert (L6 : length (indices b6) = length (indices b)) by (rewrite I6, length_insert; done).
  split; [done|]. split; [done|]. split.
  - intros c Hc. rewrite I6, I5, I4, I3, I2, I1.
    assert (Hcases : (c = 0 \/ c = 1 \/ c = 2 \/ c = 3 \/ c = 4 \/ c = 5)%nat) by lia.
    destruct Hcases as [-> | [-> | [-> | [-> | [-> | ->]]]]]; cbn [quadIndices lookup list_lookup fmap option_fmap option_map];
      rewrite ?Nat.add_0_r;
      repeat (rewrite list_lookup_insert_ne by lia);
      (rewrite list_lookup_insert_eq; [done|]); rewrite ?length_insert; lia.
  - intros p Hp. rewrite I6, I5, I4, I3, I2, I1.
    by rewrite !list_lookup_insert_ne by lia.
Qed.

Lemma BuildWaves_row_Done (n i : Z) (count : nat) (j : Z) (b b' : IndexBuild) :
  BuildWaves_row n i count j b = Done b' -> 0 <= ib_k b ->
  ib_k b' = ib_k b + 6 * Z.of_nat count /\ length (indices b') = length (indices b) /\
  (forall d c, (d < count)%nat -> (c < 6)%nat ->
     indices b' !! (Z.to_nat (ib_k b) + 6 * d + c)%nat =
       (fun v => v mod 2 ^ 16) <$> quadIndices n i (j + Z.of_nat d) !! c) /\
  (forall p, (p < Z.to_nat (ib_k b))%nat -> indices b' !! p = indices b !! p).
Proof.
  revert j b. induction count as [|count IH]; intros j b H Hk.
  - injection H as <-. split; [lia|]. split; [done|]. split; [intros; lia | done].
  - cbn [BuildWaves_row] in H. apply bind_Done in H as (b1 & HQ & H).
    apply BuildWaves_quad_Done in HQ as (K1 & L1 & C1 & P1); [|done].
    apply IH in H as (K' & L' & C' & P'); [|lia].
    split; [lia|]. split; [congruence|]. split.
    + intros d c Hd Hc. destruct d as [|d].
      * rewrite P' by lia. rewrite Nat.mul_0_r, Nat.add_0_r, Z.add_0_r. by apply C1.
      * specialize (C' d c ltac:(lia) Hc).
        replace (Z.to_nat (ib_k b) + 6 * S d + c)%nat
          with (Z.to_nat (ib_k b1) + 6 * d + c)%nat by lia.
        rewrite C'. do 3 f_equal. lia.
    + intros p Hp. rewrite P' by lia. by apply P1.
Qed.

Lemma BuildWaves_rows_Done (n : Z) (count : nat) (i : Z) (b b' : IndexBuild) :
  BuildWaves_rows n count i b = Done b' -> 0 <= ib_k b -> 1 <= n ->
  ib_k b' = ib_k b + 6 * Z.of_nat count * (n - 1) /\
  length (indices b') = length (indices b) /\
  (forall r d c, (r < count)%nat -> (d < Z.to_nat (n - 1))%nat -> (c < 6)%nat ->
     indices b' !! (Z.to_nat (ib_k b) + 6 * (r * Z.to_nat (n - 1) + d) + c)%nat =
       (fun v => v mod 2 ^ 16) <$> quadIndices n (i + Z.of_nat r) (Z.of_nat d) !! c) /\
  (forall p, (p < Z.to_nat (ib_k b))%nat -> indices b' !! p = indices b !! p).
Proof.
  intros H Hk Hn. revert i b H Hk. induction count as [|count IH]; intros i b H Hk.
  - injection H as <-. split; [lia|]. split; [done|]. split; [intros; lia | done].
  - cbn [BuildWaves_rows] in H. apply bind_Done in H as (b1 & HR & H).
    apply BuildWaves_row_Done in HR as (K1 & L1 & C1 & P1); [|done].
    rewrite Z2Nat.id in K1 by lia.
    apply IH in H as (K' & L' & C' & P'); [|lia].
    split; [nia|]. split; [congruence|]. split.
    + intros r d c Hr Hd Hc. destruct r as [|r].
      * rewrite P' by nia. rewrite Nat.mul_0_l, Nat.add_0_l, Z.add_0_r.
        rewrite C1 by done. by rewrite Z.add_0_l.
      * specialize (C' r d c ltac:(lia) Hd Hc).
        replace (Z.to_nat (ib_k b) + 6 * (S r * Z.to_nat (n - 1) + d) + c)%nat
          with (Z.to_nat (ib_k b1) + 6 * (r * Z.to_nat (n - 1) + d) + c)%nat by nia.
        rewrite C'. do 3 f_equal. lia.
    + intros p Hp. rewrite P' by nia. by apply P1.
Qed.

(** The index buffer of the wave grid, in closed form.  For a grid of [m]
    rows and [n] columns (vertex count [m * n] below [0xffff]), the six
    indices of the quad in row [i] and column [j] stand at the positions
    [6 (i (n - 1) + j)], ..., [+ 5] of the final vector and are
    [i n + j], [i n + j + 1], [(i + 1) n + j] and [(i + 1) n + j],
    [i n + j + 1], [(i + 1) n + j + 1]: no later write disturbs them and the
    conversion to 16 bits changes none.  Each of the two triangles has three
    distinct vertices, and the two share the diagonal of the quad. *)
Theorem BuildWavesGeometry_triangles (w : Waves) (m n : Z) :
  RowCount w = m -> ColumnCount w = n -> 1 <= m -> 1 <= n ->
  VertexCount w = m * n -> TriangleCount w = 2 * (m - 1) * (n - 1) ->
  VertexCount w < 65535 ->
  exists b,
    BuildWavesGeometry w = Done b /\
    forall i j, 0 <= i < m - 1 -> 0 <= j < n - 1 ->
      (forall c, (c < 6)%nat ->
         indices b !! (Z.to_nat (6 * (i * (n - 1) + j)) + c)%nat = quadIndices n i j !! c) /\
      NoDup (take 3 (quadIndices n i j)) /\ NoDup (drop 3 (quadIndices n i j)) /\
      (forall v, v ∈ [i * n + j + 1; (i + 1) * n + j] ->
         v ∈ take 3 (quadIndices n i j) /\ v ∈ drop 3 (quadIndices n i j)).
Proof.
  intros Hm Hn Hm1 Hn1 Hvc Htc Hlt. unfold BuildWavesGeometry. rewrite Hm, Hn, Htc.
  set (b0 := mkIndexBuild _ 0 []).
  destruct (BuildWaves_rows_spec (m * n) m n (Z.to_nat (m - 1)) 0 b0)
    as (b & Hrun & _); [done | lia | done | lia | lia | by repeat split | |].
  { subst b0. cbn. rewrite length_replicate. nia. }
  exists b. split; [done|]. intros i j Hi Hj.
  apply BuildWaves_rows_Done in Hrun as (_ & _ & Hc & _); [|done|done].
  split; [|split; [|split]].
  - intros c Hlt6.
    specialize (Hc (Z.to_nat i) (Z.to_nat j) c ltac:(lia) ltac:(lia) Hlt6).
    cbn [ib_k b0] in Hc. rewrite Z2Nat.inj_0, Nat.add_0_l in Hc.
    replace (Z.to_nat (6 * (i * (n - 1) + j)))
      with (6 * (Z.to_nat i * Z.to_nat (n - 1) + Z.to_nat j))%nat by nia.
    rewrite Hc, Z.add_0_l, !Z2Nat.id by lia.
    assert (Hsmall : forall v, v ∈ quadIndices n i j -> 0 <= v < 2 ^ 16).
    { intros v Hin. unfold quadIndices in Hin. set_unfold. nia. }
    destruct (quadIndices n i j !! c) as [v|] eqn:Hv; [|done]. cbn.
    rewrite Z.mod_small; [done|]. apply Hsmall. by eapply list_elem_of_lookup_2.
  - cbn. repeat (apply NoDup_cons; split; [set_unfold; nia|]). apply NoDup_nil_2.
  - cbn. repeat (apply NoDup_cons; split; [set_unfold; nia|]). apply NoDup_nil_2.
  - intros v Hv. cbn. set_unfold. lia.
Qed.

End WaveTriangles.

(** ** The further properties, on the sample scene *)

Section FrameLoopOnTheSample.
Import Sample.
#[local] Existing Instance ExactOps.
#[local] Existing Instance TableWaves.
#[local] Existing Instance UnitCamera.

Ltac elem_cases H :=
  repeat (apply elem_of_cons in H as [-> | H]); try (by apply elem_of_nil in H).

Lemma Tick_writes_only_acquired_slot_witness :
  Tick prompt 0 timer (app 0) = Done afterOneFrame /\
  forall s, s <> 1%nat ->
    mFrameResources afterOneFrame !! s = mFrameResources (app 0) !! s.
Proof.
  split; [exact sample_first_frame|].
  destruct (Tick_writes_only_acquired_slot prompt 0%nat timer (app 0) afterOneFrame
              sample_first_frame) as (_ & Hother & _).
  exact Hother.
Defined.

Lemma sample_index_in_ring : 0 <= mCurrFrameResourceIndex (app 0) < gNumFrameResources.
Proof. by vm_compute. Qed.

Lemma Run_acquires_round_robin_witness :
  Run prompt 0 [timer; timer; timer; timer] (app 0) = Done afterFourFrames /\
  0 <= mCurrFrameResourceIndex (app 0) < gNumFrameResources /\
  mCurrFrameResourceIndex afterFourFrames = 1 /\
  exists seg,
    trace afterFourFrames = trace (app 0) ++ seg /\
    acquisitions seg = [1; 2; 0; 1]%nat.
Proof.
  split; [exact sample_four_frames|]. split; [exact sample_index_in_ring|].
  destruct (Run_acquires_round_robin prompt 0%nat [timer; timer; timer; timer] (app 0)
              afterFourFrames sample_four_frames sample_index_in_ring)
    as (Hidx & seg & Htr & Hacq & _).
  split; [exact Hidx|]. exists seg. split; [exact Htr | exact Hacq].
Defined.

Lemma sample_freshRing : freshRing 0 (app 0).
Proof.
  split; [reflexivity|]. split.
  - intros fr Hfr. cbn in Hfr. elem_cases Hfr; reflexivity.
  - split; [reflexivity|]. split; [lia | exact sample_index_in_ring].
Qed.

Lemma sample_no_wrap : 0 + Z.of_nat (length [timer; timer; timer; timer]) < 2 ^ 64.
Proof. by vm_compute. Qed.

Lemma Run_ring_records_latest_fences_witness :
  freshRing 0 (app 0) /\
  Run prompt 0 [timer; timer; timer; timer] (app 0) = Done afterFourFrames /\
  mCurrentFence afterFourFrames = 4 /\
  (exists fr, slotBehind afterFourFrames 0 = Some fr /\ Fence fr = 4) /\
  (exists fr, slotBehind afterFourFrames 2 = Some fr /\ Fence fr = 2).
Proof.
  split; [exact sample_freshRing|]. split; [exact sample_four_frames|].
  destruct (Run_ring_records_latest_fences prompt 0%nat [timer; timer; timer; timer] 0
              (app 0) afterFourFrames sample_freshRing sample_no_wrap sample_four_frames)
    as [Hf Hring].
  split; [exact Hf|]. split.
  - exact (Hring 0 ltac:(unfold gNumFrameResources; lia)).
  - exact (Hring 2 ltac:(unfold gNumFrameResources; lia)).
Defined.

Lemma sample_fifth_acquired :
  Update_acquire prompt 0 timer afterFourFrames = Done Examples.fifthAcquired.
Proof. apply isDone_fromDone. vm_compute. reflexivity. Qed.

Lemma sample_fifth_slot :
  exists fr,
    at_index (mFrameResources afterFourFrames) (nextSlot afterFourFrames) = Done fr /\
    Fence fr = 2.
Proof.
  exists (fromDone (frameResource 0)
            (at_index (mFrameResources afterFourFrames) (nextSlot afterFourFrames))).
  split.
  - apply isDone_fromDone. vm_compute. reflexivity.
  - vm_compute. reflexivity.
Qed.

Lemma sample_fifth_filled :
  Update_fill timer Examples.fifthAcquired =
  Done (fromDone (app 0) (Update_fill timer Examples.fifthAcquired)).
Proof. apply isDone_fromDone. vm_compute. reflexivity. Qed.

Lemma C5_witness :
  (exists fr,
     at_index (mFrameResources afterThreeFrames) (nextSlot afterThreeFrames) = Done fr /\
     0 <= hrSetEventOnCompletion stuck (clock afterThreeFrames) /\
     (Update_acquire stuck 0 timer afterThreeFrames = Hang <->
        Fence fr <> 0 /\ GetCompletedValue stuck (clock afterThreeFrames) < Fence fr)) /\
  exists fr a',
    at_index (mFrameResources afterFourFrames) (nextSlot afterFourFrames) = Done fr /\
    0 <= hrSetEventOnCompletion prompt (clock afterFourFrames) /\
    Fence fr = 2 /\
    Fence fr <= GetCompletedValue prompt (clock Examples.fifthAcquired) /\
    Update prompt 0 timer afterFourFrames = Done a' /\
    (fun fr => length (UploadBuffer.copyLog (WavesVB fr))) <$> mFrameResources afterFourFrames
      = [4; 8; 4]%nat /\
    (fun fr => length (UploadBuffer.copyLog (WavesVB fr))) <$> mFrameResources a'
      = [4; 8; 8]%nat /\
    forall s, s <> Z.to_nat (nextSlot afterFourFrames) ->
      mFrameResources a' !! s = mFrameResources afterFourFrames !! s.
Proof.
  split.
  - destruct sample_next_slot as (fr & Hfr & _).
    assert (Hhr : 0 <= hrSetEventOnCompletion stuck (clock afterThreeFrames))
      by (change (hrSetEventOnCompletion stuck (clock afterThreeFrames)) with 0; lia).
    exists fr. split; [exact Hfr|]. split; [exact Hhr|].
    destruct (C5_acquire_blocks_iff_pending stuck timer afterThreeFrames fr Hfr Hhr)
      as [Hiff _].
    exact Hiff.
  - destruct sample_fifth_slot as (fr & Hfr & Hfence).
    assert (Hhr : 0 <= hrSetEventOnCompletion prompt (clock afterFourFrames))
      by (change (hrSetEventOnCompletion prompt (clock afterFourFrames)) with 0; lia).
    destruct (C5_acquire_blocks_iff_pending prompt timer afterFourFrames fr Hfr Hhr)
      as (_ & _ & _ & H4).
    specialize (H4 0%nat). rewrite sample_fifth_acquired in H4.
    destruct H4 as (_ & _ & _ & Hreached & Hupd & Hsteps & Hframe).
    exists fr, (fromDone (app 0) (Update_fill timer Examples.fifthAcquired)).
    split; [exact Hfr|]. split; [exact Hhr|]. split; [exact Hfence|].
    split; [destruct Hreached as [H0 | Hle]; [rewrite Hfence in H0; discriminate H0 | exact Hle]|].
    split; [rewrite Hupd; exact sample_fifth_filled|].
    split; [vm_compute; reflexivity|]. split; [vm_compute; reflexivity|].
    destruct (Hframe 5%nat (fromDone (app 0) (Update_fill timer Examples.fifthAcquired)))
      as (_ & _ & _ & Hother & _).
    + change (take 5 (fillSteps timer)) with (fillSteps timer).
      rewrite <- Hsteps. exact sample_fifth_filled.
    + exact Hother.
Defined.

Lemma C6_witness :
  Run prompt 0 [timer; timer; timer; timer] (app 0) = Done afterFourFrames /\
  0 <= mCurrentFence (app 0) /\
  mCurrentFence (app 0) + Z.of_nat (length [timer; timer; timer; timer]) < 2 ^ 64 /\
  Fence <$> mFrameResources afterFourFrames = [3; 4; 2] /\
  exists seg,
    trace afterFourFrames = trace (app 0) ++ seg /\
    published seg = [1; 2; 3; 4] /\ strictlyIncreasing (published seg) /\
    forall s fr0, mFrameResources (app 0) !! s = Some fr0 ->
      exists fr', mFrameResources afterFourFrames !! s = Some fr' /\
        Fence fr' = recordedAfter (Fence fr0) s seg.
Proof.
  assert (H0 : 0 <= mCurrentFence (app 0)) by (cbn; lia).
  assert (Hlt : mCurrentFence (app 0) + Z.of_nat (length [timer; timer; timer; timer]) < 2 ^ 64)
    by (cbn; lia).
  split; [exact sample_four_frames|]. split; [exact H0|]. split; [exact Hlt|].
  split; [vm_compute; reflexivity|].
  destruct (C6_fence_targets_increase prompt 0%nat [timer; timer; timer; timer] (app 0)
              afterFourFrames sample_four_frames H0 Hlt sample_fresh_fences)
    as (seg & Htr & Hpub & Hinc & _ & _ & _ & _ & Hrec & _).
  exists seg. split; [exact Htr|]. split; [exact Hpub|]. split; [exact Hinc|].
  intros s fr0 Hs. destruct (Hrec s fr0 Hs) as (fr' & Hfr' & Hfence & _).
  exists fr'. split; [exact Hfr' | exact Hfence].
Defined.

Lemma frames_in_flight_bounded_witness :
  freshRing 0 (app 0) /\
  Run prompt 0 [timer; timer; timer; timer] (app 0) = Done afterFourFrames /\
  Update_acquire prompt 0 timer afterFourFrames = Done Examples.fifthAcquired /\
  mCurrentFence Examples.fifthAcquired
    - Z.max 0 (GetCompletedValue prompt (clock Examples.fifthAcquired))
    <= gNumFrameResources - 1.
Proof.
  split; [exact sample_freshRing|]. split; [exact sample_four_frames|].
  split; [exact sample_fifth_acquired|].
  exact (frames_in_flight_bounded prompt 0%nat [timer; timer; timer; timer] timer 0
           (app 0) afterFourFrames Examples.fifthAcquired
           sample_freshRing sample_no_wrap sample_four_frames sample_fifth_acquired).
Defined.

Lemma clash_slot : mCurrFrameResource Clash.app = Some 0%nat.
Proof. reflexivity. Qed.

Lemma clash_frame : mFrameResources Clash.app !! 0%nat = Some (frameResource 0).
Proof. reflexivity. Qed.

Lemma UpdateObjectCBs_returns_iff_witness :
  mCurrFrameResource Clash.app = Some 0%nat /\
  mFrameResources Clash.app !! 0%nat = Some (frameResource 0) /\
  (7 < length (UploadBuffer.elems (ObjectCB (frameResource 0))) -> False)%nat /\
  isDone (UpdateObjectCBs timer Clash.app) = true.
Proof.
  split; [exact clash_slot|]. split; [exact clash_frame|]. split; [cbn; lia|].
  destruct (UpdateObjectCBs_returns_iff timer Clash.app 0%nat (frameResource 0)
              clash_slot clash_frame) as [[_ Hret] _].
  apply Hret. intros e He Hd. cbn in He. elem_cases He; cbn in *; lia.
Defined.

Lemma clash_flushed :
  UpdateObjectCBs timer Clash.app =
    Done (fromDone Clash.app (UpdateObjectCBs timer Clash.app)).
Proof. apply isDone_fromDone. vm_compute. reflexivity. Qed.

Lemma UpdateObjectCBs_last_writer_wins_witness :
  exists a' fr',
    UpdateObjectCBs timer Clash.app = Done a' /\
    mFrameResources a' !! 0%nat = Some fr' /\
    UploadBuffer.elems (ObjectCB fr') !! 1%nat = Some (objConstantsOf Clash.shifted) /\
    UploadBuffer.elems (ObjectCB fr') !! 0%nat =
      UploadBuffer.elems (ObjectCB (frameResource 0)) !! 0%nat.
Proof.
  destruct (UpdateObjectCBs_last_writer_wins timer Clash.app _ 0%nat (frameResource 0)
              clash_slot clash_frame clash_flushed) as (fr' & Hfr' & Hc).
  eexists _, fr'. split; [exact clash_flushed|]. split; [exact Hfr'|]. split.
  - exact (Hc 1%nat).
  - exact (Hc 0%nat).
Defined.

Lemma UpdateMaterialCBs_returns_iff_witness :
  mCurrFrameResource Clash.app = Some 0%nat /\
  mFrameResources Clash.app !! 0%nat = Some (frameResource 0) /\
  isDone (UpdateMaterialCBs timer Clash.app) = true.
Proof.
  split; [exact clash_slot|]. split; [exact clash_frame|].
  destruct (UpdateMaterialCBs_returns_iff timer Clash.app 0%nat (frameResource 0)
              clash_slot clash_frame) as [[_ Hret] _].
  apply Hret. intros k m Hk Hd.
  change (mMaterials Clash.app) with materials in Hk.
  apply sample_materials_lookup in Hk as [[-> ->] | [-> ->]]; cbn; lia.
Defined.

Lemma sample_water : mMaterials (app 0) !! "water"%string = Some (material 1).
Proof. vm_compute. reflexivity. Qed.

Lemma AnimateMaterials_scrolls_water_witness :
  mMaterials (app 0) !! "water"%string = Some (material 1) /\
  (0 <= DeltaTime timer)%Q /\
  exists a' w',
    AnimateMaterials timer (app 0) = Done a' /\
    mMaterials a' = <["water"%string := w']> (mMaterials (app 0)) /\
    m41 (MatTransform w') = (0 + (1 # 10) * (1 # 60))%Q /\
    (0 <= m41 (MatTransform w'))%Q /\ (m41 (MatTransform w') < 1)%Q.
Proof.
  assert (Hdt : (0 <= DeltaTime timer)%Q) by (vm_compute; discriminate).
  split; [exact sample_water|]. split; [exact Hdt|].
  destruct AnimateMaterials_scrolls_water as (_ & Hexact & _).
  destruct (Hexact TableWaves UnitCamera timer (app 0) (material 1) sample_water
              ltac:(vm_compute; discriminate) ltac:(vm_compute; reflexivity)
              ltac:(vm_compute; discriminate) ltac:(vm_compute; reflexivity) Hdt)
    as (a' & w' & Hrun & Hm & Hstay & _ & _ & _ & Hu0 & _ & _ & _ & Hlt).
  exists a', w'. split; [exact Hrun|]. split; [exact Hm|].
  split; [apply Hstay; vm_compute; reflexivity|]. split; [exact Hu0|].
  destruct (Hlt ltac:(vm_compute; reflexivity)) as [Hu1 _]. exact Hu1.
Defined.

Lemma UpdateWaves_writes_exactly_the_grid_witness :
  Waves_Update (DeltaTime timer) (mWaves Clash.app) = Done waves /\
  mCurrFrameResource Clash.app = Some 0%nat /\
  mFrameResources Clash.app !! 0%nat = Some (frameResource 0) /\
  isDone (UpdateWaves timer Clash.app) = true.
Proof.
  split; [reflexivity|]. split; [exact clash_slot|]. split; [exact clash_frame|].
  destruct (UpdateWaves_writes_exactly_the_grid timer Clash.app 0%nat (frameResource 0) waves
              eq_refl clash_slot clash_frame) as [[_ Hret] _].
  apply Hret. cbn. lia.
Defined.

Lemma BuildWavesGeometry_triangles_witness :
  RowCount waves = 2 /\ ColumnCount waves = 2 /\
  VertexCount waves = 2 * 2 /\ TriangleCount waves = 2 * (2 - 1) * (2 - 1) /\
  exists b,
    BuildWavesGeometry waves = Done b /\
    forall c, (c < 6)%nat ->
      indices b !! (Z.to_nat (6 * (0 * (2 - 1) + 0)) + c)%nat = quadIndices 2 0 0 !! c.
Proof.
  split; [reflexivity|]. split; [reflexivity|]. split; [reflexivity|]. split; [reflexivity|].
  destruct (BuildWavesGeometry_triangles (WA := TableWaves) waves 2 2 eq_refl eq_refl
              ltac:(lia) ltac:(lia) eq_refl eq_refl ltac:(reflexivity))
    as (b & Hrun & Hq).
  exists b. split; [exact Hrun|].
  destruct (Hq 0 0 ltac:(lia) ltac:(lia)) as [Hc _]. exact Hc.
Defined.

End FrameLoopOnTheSample.

(** * The scene as built and as drawn *)

(** ** The draw calls of a frame *)

Section DrawCalls.
Import Scene.

Lemma forEach_app {St D} (step : D -> St -> Outcome St) (l1 l2 : list D) (st : St) :
  forEach step (l1 ++ l2) st = forEach step l1 st ≫= forEach step l2.
Proof.
  revert st. induction l1 as [|d l1 IH]; intros st; cbn; [done|].
  destruct (step d st); cbn; auto.
Qed.

Lemma mapM_cons_option {A B} (f : A -> option B) (x : A) (l : list A) :
  mapM f (x :: l) = y ← f x; k ← mapM f l; mret (y :: k).
Proof. reflexivity. Qed.

Lemma drawCalls_app (c1 c2 : list Command) (b : Bound) :
  drawCalls (c1 ++ c2) b = drawCalls c1 b ++ drawCalls c2 (bindAll c1 b).
Proof.
  revert b. induction c1 as [|c c1 IH]; intros b; [done|].
  destruct c; cbn [app drawCalls bindAll foldl]; rewrite ?IH; try done.
Qed.

Lemma bindAll_app (c1 c2 : list Command) (b : Bound) :
  bindAll (c1 ++ c2) b = bindAll c2 (bindAll c1 b).
Proof. unfold bindAll. apply foldl_app. Qed.

Lemma drawRenderItem_Done gpu slot st p cmds cmds' :
  drawRenderItem gpu slot st p cmds = Done cmds' ->
  is_Some (mSrvDescriptorHeap st) /\
  exists r, drawable st p = Some r /\ cmds' = cmds ++ itemCommands gpu slot r.
Proof.
  unfold drawRenderItem, drawable. intros H.
  apply bind_Done in H as (ri & Hri & H). apply ofOption_Done in Hri. rewrite Hri. cbn.
  apply bind_Done in H as (geo & Hgeo & H). apply ofOption_Done in Hgeo. rewrite Hgeo. cbn.
  apply bind_Done in H as (g & Hg & H). apply ofOption_Done in Hg. rewrite Hg. cbn.
  apply bind_Done in H as (vb & Hvb & H). apply ofOption_Done in Hvb. rewrite Hvb. cbn.
  apply bind_Done in H as (ib & Hib & H). apply ofOption_Done in Hib. rewrite Hib. cbn.
  apply bind_Done in H as (heap & Hheap & H). apply ofOption_Done in Hheap.
  apply bind_Done in H as (mat & Hmat & H). apply ofOption_Done in Hmat. rewrite Hmat. cbn.
  apply bind_Done in H as (m & Hm & H). apply ofOption_Done in Hm. rewrite Hm. cbn.
  injection H as <-. split; [by eexists|]. by exists (ri, vb, ib, m).
Qed.

Lemma drawRenderItem_drawable gpu slot st p cmds r :
  is_Some (mSrvDescriptorHeap st) ->
  drawable st p = Some r ->
  drawRenderItem gpu slot st p cmds = Done (cmds ++ itemCommands gpu slot r).
Proof.
  unfold drawRenderItem, drawable. intros [heap ->] H.
  destruct (mAllRitems st !! p) as [ri|]; [|done]. cbn in H |- *.
  destruct (Geo ri) as [geo|]; [|done]. cbn in H |- *.
  destruct (mGeometries st !! geo ≫= id) as [g|]; [|done]. cbn in H |- *.
  destruct (VertexBufferGPU g) as [vb|]; [|done]. cbn in H |- *.
  destruct (IndexBufferGPU g) as [ib|]; [|done]. cbn in H |- *.
  destruct (Mat ri) as [mat|]; [|done]. cbn in H |- *.
  destruct (mMaterials st !! mat ≫= id) as [m|]; [|done]. cbn in H |- *.
  by injection H as <-.
Qed.

Lemma DrawRenderItems_Done gpu slot st ritems cmds cmds' :
  DrawRenderItems gpu slot st ritems cmds = Done cmds' ->
  exists rs, mapM (drawable st) ritems = Some rs /\
    cmds' = cmds ++ (rs ≫= itemCommands gpu slot).
Proof.
  unfold DrawRenderItems. revert cmds.
  induction ritems as [|p ritems IH]; intros cmds H.
  - injection H as <-. exists []. by rewrite app_nil_r.
  - cbn [forEach] in H. apply bind_Done in H as (c1 & H1 & H).
    apply drawRenderItem_Done in H1 as (_ & r & Hr & ->).
    apply IH in H as (rs & Hrs & ->).
    exists (r :: rs). split.
    + rewrite mapM_cons_option, Hr. cbn. by rewrite Hrs.
    + cbn. by rewrite <- app_assoc.
Qed.

Lemma DrawRenderItems_drawable gpu slot st ritems cmds rs :
  is_Some (mSrvDescriptorHeap st) ->
  mapM (drawable st) ritems = Some rs ->
  DrawRenderItems gpu slot st ritems cmds = Done (cmds ++ (rs ≫= itemCommands gpu slot)).
Proof.
  intros Hheap. unfold DrawRenderItems. revert cmds rs.
  induction ritems as [|p ritems IH]; intros cmds rs H.
  - injection H as <-. cbn. by rewrite app_nil_r.
  - rewrite mapM_cons_option in H.
    destruct (drawable st p) as [r|] eqn:Hr; [|done]. cbn in H.
    destruct (mapM (drawable st) ritems) as [rs'|] eqn:Hrs; [|done]. cbn in H.
    injection H as <-. cbn [forEach].
    rewrite (drawRenderItem_drawable gpu slot st p cmds r Hheap Hr). cbn [mbind Outcome_bind].
    rewrite (IH _ rs' eq_refl). cbn. by rewrite <- app_assoc.
Qed.

Lemma items_drawCalls gpu slot pso rs (b : Bound) :
  fixedPart b = (Some pso, Some (PassCB_address gpu slot), RENDER_TARGET) ->
  drawCalls (rs ≫= itemCommands gpu slot) b =
    (fun r : RenderItemEntry * GpuResource * GpuResource * MaterialEntry =>
       drawCallOf gpu slot pso r.1.1.1 r.1.1.2 r.1.2 r.2) <$> rs /\
  fixedPart (bindAll (rs ≫= itemCommands gpu slot) b) = fixedPart b.
Proof.
  revert b. induction rs as [|[[[ri vb] ib] m] rs IH]; intros b Hb; [done|].
  cbn [mbind list_bind]. rewrite drawCalls_app, bindAll_app.
  set (b1 := bindAll (itemCommands gpu slot (ri, vb, ib, m)) b).
  assert (Hb1 : fixedPart b1 = fixedPart b) by (destruct b; reflexivity).
  destruct (IH b1) as [Hd Hf]; [by rewrite Hb1|].
  rewrite Hd, Hf, Hb1. split; [|done].
  rewrite fmap_cons. f_equal.
  unfold fixedPart in Hb. injection Hb as Hp Hq Hr.
  destruct b. cbn in Hp, Hq, Hr. subst. reflexivity.
Qed.

Lemma expected_of_drawable gpu slot st pso ps rs :
  mapM (drawable st) ps = Some rs ->
  (ps ≫= fun p => match drawable st p with
                  | Some (ri, vb, ib, m) => [drawCallOf gpu slot pso ri vb ib m]
                  | None => []
                  end) =
  (fun r : RenderItemEntry * GpuResource * GpuResource * MaterialEntry =>
     drawCallOf gpu slot pso r.1.1.1 r.1.1.2 r.1.2 r.2) <$> rs.
Proof.
  revert rs. induction ps as [|p ps IH]; intros rs H.
  - by injection H as <-.
  - rewrite mapM_cons_option in H.
    destruct (drawable st p) as [[[[ri vb] ib] m]|] eqn:Hr; [|done]. cbn in H.
    destruct (mapM (drawable st) ps) as [rs'|] eqn:Hrs; [|done]. cbn in H.
    injection H as <-. cbn [mbind list_bind]. rewrite Hr, (IH rs' eq_refl). done.
Qed.

(** With the calls wrapped in [ThrowIfFailed] succeeding, [Draw] records its
    commands exactly when the descriptor heap exists and every render item of
    the four layers exists together with its geometry, the vertex and the
    index buffer of that geometry, and its material (a null pointer is
    dereferenced otherwise; the vertex buffer of the wave geometry is null
    until [UpdateWaves] binds it).  The GPU then executes one draw call per
    registered render item and no other: first the opaque layer, then the
    alpha-tested one, then the tree sprites, the transparent layer last.
    Each call runs with the back buffer in the render-target state, the
    pipeline state of its layer, the vertex and index buffer and the topology
    of its own geometry, the texture of its own material, and the object,
    pass and material constants of the current frame resource at the element
    of its own indices.  The list ends with the back buffer returned to the
    present state. *)
Theorem Draw_commands_draw_calls gpu slot (st : State) :
  (isDone (Draw_commands gpu slot st) = true <->
     is_Some (mSrvDescriptorHeap st) /\ forall l, is_Some (drawableLayer st l)) /\
  forall cmds, Draw_commands gpu slot st = Done cmds ->
    drawCalls cmds unbound = expectedDrawCalls gpu slot st /\
    Z.of_nat (length (drawCalls cmds unbound)) =
      Z.of_nat (length (layer st Opaque)) + Z.of_nat (length (layer st AlphaTested))
      + Z.of_nat (length (layer st AlphaTestedTreeSprites))
      + Z.of_nat (length (layer st Transparent)) /\
    b_backBuffer (bindAll cmds unbound) = PRESENT /\
    last cmds = Some Close.
Proof.
  assert (Hrun : forall r1 r2 r3 r4,
            is_Some (mSrvDescriptorHeap st) ->
            drawableLayer st Opaque = Some r1 -> drawableLayer st AlphaTested = Some r2 ->
            drawableLayer st AlphaTestedTreeSprites = Some r3 ->
            drawableLayer st Transparent = Some r4 ->
            exists prelude,
              Draw_commands gpu slot st =
                Done (((((((((prelude ++ (r1 ≫= itemCommands gpu slot))
                            ++ [SetPipelineState "alphaTested"])
                           ++ (r2 ≫= itemCommands gpu slot))
                          ++ [SetPipelineState "treeSprites"])
                         ++ (r3 ≫= itemCommands gpu slot))
                        ++ [SetPipelineState "transparent"])
                       ++ (r4 ≫= itemCommands gpu slot))
                      ++ [ResourceBarrier RENDER_TARGET PRESENT]) ++ [Close]) /\
              drawCalls prelude unbound = [] /\
              fixedPart (bindAll prelude unbound) =
                (Some "opaque"%string, Some (PassCB_address gpu slot), RENDER_TARGET)).
  { intros r1 r2 r3 r4 Hheap H1 H2 H3 H4. eexists. split; [|split].
    - unfold Draw_commands. destruct Hheap as [heap Hheap]. rewrite Hheap.
      cbn [ofOption mbind Outcome_bind].
      assert (Hh : is_Some (mSrvDescriptorHeap st)) by (by rewrite Hheap).
      rewrite (DrawRenderItems_drawable gpu slot st _ _ r1 Hh H1). cbn [mbind Outcome_bind].
      rewrite (DrawRenderItems_drawable gpu slot st _ _ r2 Hh H2). cbn [mbind Outcome_bind].
      rewrite (DrawRenderItems_drawable gpu slot st _ _ r3 Hh H3). cbn [mbind Outcome_bind].
      rewrite (DrawRenderItems_drawable gpu slot st _ _ r4 Hh H4). cbn [mbind Outcome_bind].
      reflexivity.
    - reflexivity.
    - reflexivity. }
  assert (Hinv : forall cmds, Draw_commands gpu slot st = Done cmds ->
            is_Some (mSrvDescriptorHeap st) /\
            exists r1 r2 r3 r4,
              drawableLayer st Opaque = Some r1 /\ drawableLayer st AlphaTested = Some r2 /\
              drawableLayer st AlphaTestedTreeSprites = Some r3 /\
              drawableLayer st Transparent = Some r4).
  { intros cmds HD. unfold Draw_commands in HD.
    apply bind_Done in HD as (heap & Hheap & HD). apply ofOption_Done in Hheap.
    apply bind_Done in HD as (c1 & H1 & HD). apply DrawRenderItems_Done in H1 as (r1 & H1 & _).
    apply bind_Done in HD as (c2 & H2 & HD). apply DrawRenderItems_Done in H2 as (r2 & H2 & _).
    apply bind_Done in HD as (c3 & H3 & HD). apply DrawRenderItems_Done in H3 as (r3 & H3 & _).
    apply bind_Done in HD as (c4 & H4 & HD). apply DrawRenderItems_Done in H4 as (r4 & H4 & _).
    split; [by eexists|]. by exists r1, r2, r3, r4. }
  split.
  - split.
    + intros Hd.
      destruct (Draw_commands gpu slot st) as [cmds| | |] eqn:HD; try discriminate.
      destruct (Hinv cmds eq_refl) as (Hheap & r1 & r2 & r3 & r4 & H1 & H2 & H3 & H4).
      split; [done|]. intros []; eauto.
    + intros [Hheap Hall].
      destruct (Hall Opaque) as [r1 H1]. destruct (Hall AlphaTested) as [r2 H2].
      destruct (Hall AlphaTestedTreeSprites) as [r3 H3]. destruct (Hall Transparent) as [r4 H4].
      destruct (Hrun r1 r2 r3 r4 Hheap H1 H2 H3 H4) as (prelude & -> & _). done.
  - intros cmds HD.
    destruct (Hinv cmds HD) as (Hheap & r1 & r2 & r3 & r4 & H1 & H2 & H3 & H4).
    destruct (Hrun r1 r2 r3 r4 Hheap H1 H2 H3 H4) as (prelude & Heq & Hp0 & Hpf).
    rewrite Heq in HD. injection HD as <-.
    set (b0 := bindAll prelude unbound) in *.
    destruct (items_drawCalls gpu slot "opaque" r1 b0 Hpf) as [D1 F1].
    set (b1 := bindAll (r1 ≫= itemCommands gpu slot) b0) in *.
    set (b1' := bind (SetPipelineState "alphaTested") b1).
    assert (F1' : fixedPart b1' =
              (Some "alphaTested"%string, Some (PassCB_address gpu slot), RENDER_TARGET)).
    { unfold fixedPart in *. rewrite Hpf in F1. injection F1 as _ Hq Hr.
      subst b1'. cbn. by rewrite Hq, Hr. }
    destruct (items_drawCalls gpu slot "alphaTested" r2 b1' F1') as [D2 F2].
    set (b2 := bindAll (r2 ≫= itemCommands gpu slot) b1') in *.
    set (b2' := bind (SetPipelineState "treeSprites") b2).
    assert (F2' : fixedPart b2' =
              (Some "treeSprites"%string, Some (PassCB_address gpu slot), RENDER_TARGET)).
    { unfold fixedPart in *. rewrite F1' in F2. injection F2 as _ Hq Hr.
      subst b2'. cbn. by rewrite Hq, Hr. }
    destruct (items_drawCalls gpu slot "treeSprites" r3 b2' F2') as [D3 F3].
    set (b3 := bindAll (r3 ≫= itemCommands gpu slot) b2') in *.
    set (b3' := bind (SetPipelineState "transparent") b3).
    assert (F3' : fixedPart b3' =
              (Some "transparent"%string, Some (PassCB_address gpu slot), RENDER_TARGET)).
    { unfold fixedPart in *. rewrite F2' in F3. injection F3 as _ Hq Hr.
      subst b3'. cbn. by rewrite Hq, Hr. }
    destruct (items_drawCalls gpu slot "transparent" r4 b3' F3') as [D4 F4].
    assert (Hcalls : drawCalls
              (((((((((prelude ++ (r1 ≫= itemCommands gpu slot))
                      ++ [SetPipelineState "alphaTested"])
                     ++ (r2 ≫= itemCommands gpu slot))
                    ++ [SetPipelineState "treeSprites"])
                   ++ (r3 ≫= itemCommands gpu slot))
                  ++ [SetPipelineState "transparent"])
                 ++ (r4 ≫= itemCommands gpu slot))
                ++ [ResourceBarrier RENDER_TARGET PRESENT]) ++ [Close]) unbound =
              expectedDrawCalls gpu slot st).
    { rewrite !drawCalls_app, !bindAll_app. fold b0. fold b1.
      change (bindAll [SetPipelineState "alphaTested"] b1) with b1'. fold b2.
      change (bindAll [SetPipelineState "treeSprites"] b2) with b2'. fold b3.
      change (bindAll [SetPipelineState "transparent"] b3) with b3'.
      rewrite Hp0, D1, D2, D3, D4. cbn [drawCalls app]. rewrite !app_nil_r.
      unfold expectedDrawCalls, drawOrder. cbn [mbind list_bind app].
      rewrite (expected_of_drawable gpu slot st _ _ r1 H1),
              (expected_of_drawable gpu slot st _ _ r2 H2),
              (expected_of_drawable gpu slot st _ _ r3 H3),
              (expected_of_drawable gpu slot st _ _ r4 H4).
      by rewrite app_nil_r, !app_assoc. }
    split; [exact Hcalls|]. split; [|split].
    + rewrite Hcalls. unfold expectedDrawCalls, drawOrder. cbn [mbind list_bind app].
      rewrite (expected_of_drawable gpu slot st _ _ r1 H1),
              (expected_of_drawable gpu slot st _ _ r2 H2),
              (expected_of_drawable gpu slot st _ _ r3 H3),
              (expected_of_drawable gpu slot st _ _ r4 H4).
      rewrite app_nil_r, !length_app, !length_fmap.
      apply length_mapM in H1, H2, H3, H4. lia.
    + rewrite !bindAll_app. reflexivity.
    + by rewrite last_snoc.
Qed.

End DrawCalls.

(** ** Textures and their descriptors *)

Section Textures.
Import Scene.

Lemma loadTextures_ok dev files :
  Forall (fun nf : string * string => 0 <= hrCreateDDSTextureFromFile12 dev nf.2) files ->
  loadTextures dev files = Done ((fun nf : string * string => mkTexture nf.1 nf.2) <$> files).
Proof.
  induction 1 as [|[name file] files Hhr _ IH]; [done|].
  cbn [loadTextures]. rewrite ThrowIfFailed_ok by done. cbn [mbind Outcome_bind].
  by rewrite IH.
Qed.

Lemma loadTextures_first_failure dev before name file after :
  Forall (fun nf : string * string => 0 <= hrCreateDDSTextureFromFile12 dev nf.2) before ->
  hrCreateDDSTextureFromFile12 dev file < 0 ->
  loadTextures dev (before ++ (name, file) :: after) =
    Thrown (hrCreateDDSTextureFromFile12 dev file).
Proof.
  induction 1 as [|[n f] before Hhr _ IH]; intros Hneg.
  - cbn [app loadTextures]. unfold ThrowIfFailed.
    by destruct (Z.ltb_spec (hrCreateDDSTextureFromFile12 dev file) 0); [|lia].
  - cbn [app loadTextures]. rewrite ThrowIfFailed_ok by done. cbn [mbind Outcome_bind].
    by rewrite IH.
Qed.

Lemma loadTextures_Done dev files ts :
  loadTextures dev files = Done ts ->
  Forall (fun nf : string * string => 0 <= hrCreateDDSTextureFromFile12 dev nf.2) files.
Proof.
  revert ts. induction files as [|[name file] files IH]; intros ts H; [constructor|].
  cbn [loadTextures] in H. apply bind_Done in H as (u & Hhr & H).
  apply ThrowIfFailed_Done in Hhr. apply bind_Done in H as (ts' & H & _).
  constructor; [done | by eapply IH].
Qed.

Lemma storeTextures_lookup (m : gmap string (option Texture)) name file :
  (name, file) ∈ textureFiles ->
  storeTextures ((fun nf : string * string => mkTexture nf.1 nf.2) <$> textureFiles) m !! name
    = Some (Some (mkTexture name file)).
Proof.
  intros Hin. unfold textureFiles in *. cbn.
  repeat (apply elem_of_cons in Hin as [Heq | Hin];
          [injection Heq as -> ->;
           repeat (first [ rewrite lookup_insert_eq; reflexivity
                         | rewrite lookup_insert_ne by discriminate ]) |]).
  by apply elem_of_nil in Hin.
Qed.

Lemma storeTextures_other (m : gmap string (option Texture)) name :
  name ∉ textureFiles.*1 ->
  storeTextures ((fun nf : string * string => mkTexture nf.1 nf.2) <$> textureFiles) m !! name
    = m !! name.
Proof.
  intros Hnot. unfold textureFiles in *. cbn in *.
  repeat (rewrite lookup_insert_ne; [|intros <-; apply Hnot; set_solver]). done.
Qed.

(** [LoadTextures] loads all eight textures or none.  It returns exactly when
    every file loads; [mTextures] then holds each texture under its name and
    is unchanged elsewhere, and nothing else of the application changed.
    When a file fails to load, the [HRESULT] of the first one that fails, in
    the order of the source, is thrown, and no texture at all was stored,
    because the insertions follow the last load. *)
Theorem LoadTextures_all_or_nothing dev (st : State) :
  (isDone (LoadTextures dev st) = true <->
     Forall (fun nf : string * string => 0 <= hrCreateDDSTextureFromFile12 dev nf.2)
            textureFiles) /\
  (forall st', LoadTextures dev st = Done st' ->
     texturesLoaded st' /\
     (forall name, name ∉ textureFiles.*1 -> mTextures st' !! name = mTextures st !! name) /\
     set_mTextures (mTextures st) st' = st) /\
  (forall before name file after,
     textureFiles = before ++ (name, file) :: after ->
     Forall (fun nf : string * string => 0 <= hrCreateDDSTextureFromFile12 dev nf.2) before ->
     hrCreateDDSTextureFromFile12 dev file < 0 ->
     LoadTextures dev st = Thrown (hrCreateDDSTextureFromFile12 dev file)).
Proof.
  split; [|split].
  - unfold LoadTextures. split.
    + intros Hd. destruct (loadTextures dev textureFiles) as [ts| | |] eqn:Hl; try discriminate.
      by eapply loadTextures_Done.
    + intros Hall. by rewrite (loadTextures_ok dev textureFiles Hall).
  - intros st' H. unfold LoadTextures in H.
    apply bind_Done in H as (ts & Hl & H). injection H as <-.
    pose proof (loadTextures_Done dev _ _ Hl) as Hall.
    rewrite (loadTextures_ok dev textureFiles Hall) in Hl. injection Hl as <-.
    split; [|split].
    + intros name file Hin. cbn [mTextures set_mTextures]. by apply storeTextures_lookup.
    + intros name Hnot. cbn [mTextures set_mTextures]. by apply storeTextures_other.
    + by destruct st.
  - intros before name file after Heq Hall Hneg. unfold LoadTextures.
    by rewrite Heq, (loadTextures_first_failure dev before name file after Hall Hneg).
Qed.

Lemma texturesLoaded_resource (st : State) name file :
  texturesLoaded st -> (name, file) ∈ textureFiles -> textureResource st name = Done name.
Proof. intros Hl Hin. unfold textureResource. by rewrite (Hl name file Hin). Qed.

Lemma fillDescriptorHeap_unfold (st : State) heap :
  texturesLoaded st ->
  fillDescriptorHeap st heap =
    heap ← CreateShaderResourceView "grassTex" TEXTURE2D 0 heap;
    heap ← CreateShaderResourceView "waterTex" TEXTURE2D 1 heap;
    heap ← CreateShaderResourceView "fenceTex" TEXTURE2D 2 heap;
    heap ← CreateShaderResourceView "castleTex" TEXTURE2D 3 heap;
    heap ← CreateShaderResourceView "dirtTex" TEXTURE2D 4 heap;
    heap ← CreateShaderResourceView "windowTex" TEXTURE2D 5 heap;
    heap ← CreateShaderResourceView "castle2Tex" TEXTURE2D 6 heap;
    CreateShaderResourceView "treeArrayTex" TEXTURE2DARRAY 7 heap.
Proof.
  intros Hl. unfold fillDescriptorHeap.
  rewrite (texturesLoaded_resource st "grassTex" _ Hl ltac:(unfold textureFiles; repeat constructor)).
  rewrite (texturesLoaded_resource st "waterTex" _ Hl ltac:(unfold textureFiles; repeat constructor)).
  rewrite (texturesLoaded_resource st "fenceTex" _ Hl ltac:(unfold textureFiles; repeat constructor)).
  rewrite (texturesLoaded_resource st "treeArrayTex" _ Hl ltac:(unfold textureFiles; repeat constructor)).
  rewrite (texturesLoaded_resource st "castleTex" _ Hl ltac:(unfold textureFiles; repeat constructor)).
  rewrite (texturesLoaded_resource st "dirtTex" _ Hl ltac:(unfold textureFiles; repeat constructor)).
  rewrite (texturesLoaded_resource st "windowTex" _ Hl ltac:(unfold textureFiles; repeat constructor)).
  rewrite (texturesLoaded_resource st "castle2Tex" _ Hl ltac:(unfold textureFiles; repeat constructor)).
  reflexivity.
Qed.

Lemma CreateShaderResourceView_Done resource dim h heap heap' :
  CreateShaderResourceView resource dim h heap = Done heap' ->
  (h < length heap)%nat /\ heap' = <[h := Some (mkSRV resource dim)]> heap.
Proof.
  unfold CreateShaderResourceView. case_decide; [|discriminate].
  intros Heq. by injection Heq as <-.
Qed.

(** [BuildDescriptorHeaps] creates eight views, at the offsets 0 to 7 of the
    heap, while the heap it asks for has seven descriptors.  With the
    textures loaded, filling a heap returns exactly when the heap has at least
    eight descriptors, and then leaves the views of the grass, water, fence,
    castle, dirt, window and castle2 textures and of the tree texture array,
    in this order, in its first eight descriptors; on the heap of
    [srvHeapDesc.NumDescriptors = 7] the eighth view, the one of the tree
    texture array, is created outside the heap. *)
Theorem BuildDescriptorHeaps_overflows dev (st : State) :
  texturesLoaded st -> 0 <= hrCreateDescriptorHeap dev ->
  (forall heap, isDone (fillDescriptorHeap st heap) = true <-> (8 <= length heap)%nat) /\
  (forall heap heap', fillDescriptorHeap st heap = Done heap' ->
     take 8 heap' = Some <$> createdViews /\ drop 8 heap' = drop 8 heap) /\
  length createdViews = S srvHeapDesc_NumDescriptors /\
  BuildDescriptorHeaps dev st = Fault.
Proof.
  intros Hl Hhr.
  assert (Hdone : forall heap heap', fillDescriptorHeap st heap = Done heap' ->
            (8 <= length heap)%nat /\
            take 8 heap' = Some <$> createdViews /\ drop 8 heap' = drop 8 heap).
  { intros heap heap' H. rewrite (fillDescriptorHeap_unfold st heap Hl) in H.
    apply bind_Done in H as (h1 & H1 & H). apply CreateShaderResourceView_Done in H1 as [L1 ->].
    apply bind_Done in H as (h2 & H2 & H). apply CreateShaderResourceView_Done in H2 as [L2 ->].
    apply bind_Done in H as (h3 & H3 & H). apply CreateShaderResourceView_Done in H3 as [L3 ->].
    apply bind_Done in H as (h4 & H4 & H). apply CreateShaderResourceView_Done in H4 as [L4 ->].
    apply bind_Done in H as (h5 & H5 & H). apply CreateShaderResourceView_Done in H5 as [L5 ->].
    apply bind_Done in H as (h6 & H6 & H). apply CreateShaderResourceView_Done in H6 as [L6 ->].
    apply bind_Done in H as (h7 & H7 & H). apply CreateShaderResourceView_Done in H7 as [L7 ->].
    apply CreateShaderResourceView_Done in H as [L8 ->].
    rewrite !length_insert in L8. split; [lia|].
    do 8 (destruct heap as [|? heap]; [cbn in L8; lia|]). done. }
  split; [|split; [|split]].
  - intros heap. split.
    + intros Hd. destruct (fillDescriptorHeap st heap) as [heap'| | |] eqn:H; try discriminate.
      by destruct (Hdone heap heap' H).
    + intros Hlen. rewrite (fillDescriptorHeap_unfold st heap Hl).
      do 8 (destruct heap as [|? heap]; [cbn in Hlen; lia|]). done.
  - intros heap heap' H. by destruct (Hdone heap heap' H) as (_ & ? & ?).
  - reflexivity.
  - unfold BuildDescriptorHeaps. rewrite ThrowIfFailed_ok by done. cbn [mbind Outcome_bind].
    rewrite (fillDescriptorHeap_unfold st _ Hl). reflexivity.
Qed.

End Textures.

(** ** Materials, tree sprites, and the render items *)

Section SceneTables.
Import Scene.
#[local] Existing Instance ExactOps.

Ltac lookup_inserted :=
  repeat first [ rewrite lookup_insert_eq | rewrite lookup_insert_ne by discriminate ].

Lemma BuildMaterials_lookup (st0 : State) name :
  name ∈ materialNames ->
  mMaterials (BuildMaterials st0) !! name = mMaterials (BuildMaterials empty) !! name.
Proof.
  intros Hin. unfold materialNames in Hin.
  unfold BuildMaterials, storeMaterial. cbn [mMaterials set_mMaterials].
  repeat (apply elem_of_cons in Hin as [-> | Hin]; [by lookup_inserted|]).
  by apply elem_of_nil in Hin.
Qed.

(** Every material [BuildMaterials] registers carries its own name, a
    constant-buffer index below the number of materials, and a texture index
    equal to it; the texture index is the offset of a view
    [BuildDescriptorHeaps] creates, namely the view of the texture the
    material is named after: grass, water, fence (wirefence), castle (the
    walls), dirt, window, castle2 and, as a texture array, the trees.  The
    index of the tree-sprite material is 7, the number of descriptors of the
    heap, so its view is the one created outside the heap. *)
Theorem BuildMaterials_texture_bindings (st0 : State) :
  (forall name, name ∈ materialNames ->
     exists m, mMaterials (BuildMaterials st0) !! name = Some (Some m) /\
       mat_Name m = name /\
       (MatCBIndex (me_frame m) < length materialNames)%nat /\
       DiffuseSrvHeapIndex m = Z.of_nat (MatCBIndex (me_frame m)) /\
       is_Some (boundTexture (BuildMaterials st0) name)) /\
  (fun name => srv_Resource <$> boundTexture (BuildMaterials st0) name) <$> materialNames =
    Some <$> [ "grassTex"; "waterTex"; "fenceTex"; "castleTex"; "dirtTex"; "windowTex";
               "castle2Tex"; "treeArrayTex" ]%string /\
  (fun name => ViewDimension <$> boundTexture (BuildMaterials st0) name) <$> materialNames =
    Some <$> [ TEXTURE2D; TEXTURE2D; TEXTURE2D; TEXTURE2D; TEXTURE2D; TEXTURE2D; TEXTURE2D;
               TEXTURE2DARRAY ] /\
  exists m, mMaterials (BuildMaterials st0) !! "treeSprites"%string = Some (Some m) /\
    DiffuseSrvHeapIndex m = Z.of_nat srvHeapDesc_NumDescriptors.
Proof.
  assert (Hbound : forall name, name ∈ materialNames ->
            boundTexture (BuildMaterials st0) name = boundTexture (BuildMaterials empty) name).
  { intros name Hin. unfold boundTexture. by rewrite (BuildMaterials_lookup st0 name Hin). }
  split; [|split; [|split]].
  - intros name Hin. rewrite (BuildMaterials_lookup st0 name Hin), (Hbound name Hin).
    unfold materialNames in Hin.
    repeat (apply elem_of_cons in Hin as [-> | Hin];
            [eexists; split; [vm_compute; reflexivity|];
             split; [reflexivity|]; split; [vm_compute; lia|]; split; [reflexivity|];
             vm_compute; by eexists |]).
    by apply elem_of_nil in Hin.
  - erewrite list_fmap_ext; [|intros i name Hi; apply list_elem_of_lookup_2 in Hi;
                              rewrite (Hbound name Hi); reflexivity].
    vm_compute. reflexivity.
  - erewrite list_fmap_ext; [|intros i name Hi; apply list_elem_of_lookup_2 in Hi;
                              rewrite (Hbound name Hi); reflexivity].
    vm_compute. reflexivity.
  - rewrite (BuildMaterials_lookup st0 "treeSprites");
      [|unfold materialNames; repeat constructor].
    eexists. split; [vm_compute; reflexivity | reflexivity].
Qed.

(** [BuildTreeSpritesGeometry] declares sixteen indices for nine vertices.
    The index buffer it registers holds 0, 1, ..., 8 followed by seven times
    0, and the draw argument [IndexCount] is 16: every index names one of the
    nine vertices, every tree is named, and the first tree is named eight
    times, so a draw of the tree sprites visits it seven times more than the
    others.  The byte sizes are those of nine vertices and sixteen indices. *)
Theorem BuildTreeSpritesGeometry_indices dev (st : State) :
  0 <= hrD3DCreateBlob dev ->
  exists st' geo sub,
    BuildTreeSpritesGeometry dev st = Done st' /\
    mGeometries st' !! "treeSpritesGeo"%string = Some (Some geo) /\
    DrawArgs geo !! "points"%string = Some sub /\
    VertexBufferCPU_count geo = treeCount /\ length treeSpriteVertices = 9%nat /\
    IndexBufferCPU geo = [0; 1; 2; 3; 4; 5; 6; 7; 8; 0; 0; 0; 0; 0; 0; 0] /\
    IndexCount sub = 16 /\
    Forall (fun i => 0 <= i < Z.of_nat treeCount) (IndexBufferCPU geo) /\
    (forall v, 0 <= v < Z.of_nat treeCount -> v ∈ IndexBufferCPU geo) /\
    length (filter (fun i => i = 0) (IndexBufferCPU geo)) = 8%nat /\
    VertexBufferByteSize geo = 180 /\ IndexBufferByteSize geo = 32.
Proof.
  intros Hhr. unfold BuildTreeSpritesGeometry. rewrite !(ThrowIfFailed_ok _ Hhr).
  cbn [mbind Outcome_bind mret Outcome_ret].
  eexists _, _, _. split; [reflexivity|].
  split; [cbn [mGeometries storeGeometry set_mGeometries geo_Name]; apply lookup_insert_eq|].
  split; [cbn [DrawArgs]; apply lookup_insert_eq|].
  split; [reflexivity|]. split; [reflexivity|]. split; [reflexivity|]. split; [reflexivity|].
  split; [cbn; repeat constructor; lia|].
  split.
  { intros v Hv. cbn.
    assert (Hc : v = 0 \/ v = 1 \/ v = 2 \/ v = 3 \/ v = 4 \/ v = 5 \/ v = 6 \/ v = 7 \/ v = 8)
      by (unfold treeCount in Hv; lia).
    destruct Hc as [-> | [-> | [-> | [-> | [-> | [-> | [-> | [-> | ->]]]]]]]];
      repeat first [apply list_elem_of_here | apply list_elem_of_further]. }
  split; [reflexivity|]. split; reflexivity.
Qed.

Section OnTheBuiltScene.
Context {WA : WavesAPI} {CA : CameraAPI} {GG : GeometryGenerator}.

Ltac scene_unfold Hhr Hw :=
  unfold built, Initialize_scene, BuildLandGeometry, BuildUnderLandGeometry, BuildBoxGeometry,
    BuildPyramidGeometry, BuildCylinderGeometry, BuildConeGeometry, BuildWedgeGeometry,
    BuildDiamondGeometry, buildGeometry, BuildWavesGeometry_geo, BuildTreeSpritesGeometry;
  rewrite ?Hw; rewrite ?(ThrowIfFailed_ok _ Hhr);
  cbn [mbind Outcome_bind mret Outcome_ret].

Lemma Initialize_scene_built dev (w : Waves) b :
  0 <= hrD3DCreateBlob dev -> BuildWavesGeometry w = Done b ->
  Initialize_scene dev w empty = Done (built dev w).
Proof.
  intros Hhr Hw. apply isDone_fromDone. scene_unfold Hhr Hw. vm_compute. reflexivity.
Qed.

(** The scene [Initialize] assembles is consistent.  When the blobs can be
    created and the wave index buffer is built, the assembly returns with 52
    render items; each of them points at a material and at a geometry that
    exist, and [BuildRenderItems] added no null or default entry to a map (the
    eight materials and the ten geometries are those built before it, each
    geometry with its one submesh), so every draw argument read is the one
    registered.  Every render item is registered in exactly one layer: the
    wave grid alone is transparent, the tree sprites alone are in their
    layer, no item is alpha-tested, the fifty others are opaque; and
    [mWavesRitem] is the item of the wave geometry. *)
Theorem Initialize_scene_is_consistent dev (w : Waves) b :
  0 <= hrD3DCreateBlob dev -> BuildWavesGeometry w = Done b ->
  Initialize_scene dev w empty = Done (built dev w) /\
  length (mAllRitems (built dev w)) = 52%nat /\
  (forall p, (p < 52)%nat -> is_Some (resolve (built dev w) p)) /\
  size (mMaterials (built dev w)) = 8%nat /\
  size (mGeometries (built dev w)) = 10%nat /\
  map_Forall (fun _ g => size ∘ DrawArgs <$> g = Some 1%nat) (mGeometries (built dev w)) /\
  registered (built dev w) ≡ₚ seq 0 52 /\
  layer (built dev w) Transparent = [26%nat] /\
  layer (built dev w) AlphaTestedTreeSprites = [51%nat] /\
  layer (built dev w) AlphaTested = [] /\
  mWavesRitem (built dev w) = Some 26%nat /\
  (Geo <$> mAllRitems (built dev w) !! 26%nat) = Some (Some "waterGeo"%string).
Proof.
  intros Hhr Hw. split; [by eapply Initialize_scene_built|].
  split; [scene_unfold Hhr Hw; vm_compute; reflexivity|].
  split.
  { assert (Hall : Forall (fun p => is_Some (resolve (built dev w) p)) (seq 0 52)).
    { apply (bool_decide_unpack _). scene_unfold Hhr Hw. vm_compute. exact I. }
    intros p Hp. rewrite Forall_forall in Hall. apply Hall, elem_of_seq. lia. }
  split; [scene_unfold Hhr Hw; vm_compute; reflexivity|].
  split; [scene_unfold Hhr Hw; vm_compute; reflexivity|].
  split; [apply (bool_decide_unpack _); scene_unfold Hhr Hw; vm_compute; exact I|].
  split; [apply (bool_decide_unpack _); scene_unfold Hhr Hw; vm_compute; exact I|].
  split; [scene_unfold Hhr Hw; vm_compute; reflexivity|].
  split; [scene_unfold Hhr Hw; vm_compute; reflexivity|].
  split; [scene_unfold Hhr Hw; vm_compute; reflexivity|].
  split; [scene_unfold Hhr Hw; vm_compute; reflexivity|].
  scene_unfold Hhr Hw. vm_compute. reflexivity.
Qed.

End OnTheBuiltScene.

End SceneTables.

(** ** The first frame on the scene as built *)

Section FirstFrame.
#[local] Existing Instance ExactOps.
Context {WA : WavesAPI} {CA : CameraAPI} {GG : Scene.GeometryGenerator}.

Ltac built_unfold Hhr Hw :=
  unfold Scene.frameLoopState, Scene.BuildFrameResources, Scene.built, Scene.Initialize_scene,
    Scene.BuildLandGeometry, Scene.BuildUnderLandGeometry, Scene.BuildBoxGeometry,
    Scene.BuildPyramidGeometry, Scene.BuildCylinderGeometry, Scene.BuildConeGeometry,
    Scene.BuildWedgeGeometry, Scene.BuildDiamondGeometry, Scene.buildGeometry,
    Scene.BuildWavesGeometry_geo, Scene.BuildTreeSpritesGeometry;
  rewrite ?Hw; rewrite ?(ThrowIfFailed_ok _ Hhr);
  cbn [mbind Outcome_bind mret Outcome_ret].

(** The first frame of the scene as built leaves its object buffer.
    [BuildFrameResources] gives every frame resource an object buffer of
    [mAllRitems.size()] = 52 elements, while [BuildRenderItems] numbers the
    render items 0 to 26 and 28 to 52: the indices are pairwise distinct, 27
    is not used, and the last render item, the tree sprites, carries 52.  All
    render items start dirty, so [UpdateObjectCBs] writes past the end of the
    buffer whichever slot is current, and with it the first frame, on any
    device and for any timer.  The material buffer has room for the eight
    materials: [UpdateMaterialCBs] alone returns. *)
Theorem first_frame_writes_past_the_object_buffer dev (w : Waves) b
    fill (cam : Camera) (pass : PassConstants) fence0 :
  0 <= Scene.hrD3DCreateBlob dev -> BuildWavesGeometry w = Done b ->
  let a := Scene.frameLoopState fill w cam pass fence0 (Scene.built dev w) in
  length (mFrameResources a) = Z.to_nat gNumFrameResources /\
  (forall fr, fr ∈ mFrameResources a ->
     length (UploadBuffer.elems (ObjectCB fr)) = 52%nat /\
     length (UploadBuffer.elems (MaterialCB fr)) = 8%nat /\
     length (UploadBuffer.elems (PassCB fr)) = 1%nat /\
     length (UploadBuffer.elems (WavesVB fr)) = Z.to_nat (VertexCount w) /\
     Fence fr = 0) /\
  length (mAllRitems a) = 52%nat /\
  ObjCBIndex <$> mAllRitems a = seq 0 27 ++ seq 28 25 /\
  Forall (fun e => 0 < NumFramesDirty e) (mAllRitems a) /\
  (forall gt slot, (slot < Z.to_nat gNumFrameResources)%nat ->
     UpdateObjectCBs gt (set_mCurrFrameResource (Some slot) a) = Fault) /\
  (forall gt slot, (slot < Z.to_nat gNumFrameResources)%nat ->
     isDone (UpdateMaterialCBs gt (set_mCurrFrameResource (Some slot) a)) = true) /\
  forall fdev fuel gt, Tick fdev fuel gt a = Fault.
Proof.
  intros Hhr Hw a. subst a.
  split; [reflexivity|].
  split.
  { intros fr Hfr. unfold Scene.frameLoopState, Scene.BuildFrameResources in Hfr.
    cbn [mFrameResources] in Hfr.
    apply elem_of_replicate in Hfr as [-> _]. cbn.
    rewrite !length_replicate.
    split; [built_unfold Hhr Hw; vm_compute; reflexivity|].
    split; [built_unfold Hhr Hw; vm_compute; reflexivity|]. done. }
  split; [built_unfold Hhr Hw; vm_compute; reflexivity|].
  split; [built_unfold Hhr Hw; vm_compute; reflexivity|].
  split; [apply (bool_decide_unpack _); built_unfold Hhr Hw; vm_compute; exact I|].
  split.
  { intros gt slot Hslot.
    assert (Hc : (slot = 0 \/ slot = 1 \/ slot = 2)%nat) by (unfold gNumFrameResources in Hslot; lia).
    destruct Hc as [-> | [-> | ->]]; built_unfold Hhr Hw; vm_compute; reflexivity. }
  split.
  { intros gt slot Hslot.
    assert (Hc : (slot = 0 \/ slot = 1 \/ slot = 2)%nat) by (unfold gNumFrameResources in Hslot; lia).
    destruct Hc as [-> | [-> | ->]]; built_unfold Hhr Hw; vm_compute; reflexivity. }
  intros fdev fuel gt. built_unfold Hhr Hw; vm_compute; reflexivity.
Qed.

(** C1 on the scene as built.  The last render item [BuildRenderItems]
    registers, the tree sprites, is marked dirty for [gNumFrameResources]
    frames and carries the constant-buffer index 52, while every frame
    resource of [BuildFrameResources] has an object buffer of
    [mAllRitems.size()] = 52 elements: no frame resource holds a copy of the
    item.  One flush per frame resource, in any order, writes past the end
    of the first buffer it is given, so the flushes never leave every copy
    equal to the edited value. *)
Theorem C1_tree_sprites_never_propagate dev (w : Waves) b
    fill (cam : Camera) (pass : PassConstants) fence0 gt :
  0 <= Scene.hrD3DCreateBlob dev -> BuildWavesGeometry w = Done b ->
  let a := Scene.frameLoopState fill w cam pass fence0 (Scene.built dev w) in
  exists e,
    last (mAllRitems a) = Some e /\
    NumFramesDirty e = gNumFrameResources /\
    ObjCBIndex e = 52%nat /\
    (forall slot, (slot < Z.to_nat gNumFrameResources)%nat ->
       exists buf, objectBufOf a slot = Some buf /\
         length (UploadBuffer.elems buf) = 52%nat /\
         UploadBuffer.elems buf !! ObjCBIndex e = None) /\
    (forall slots, slots ≡ₚ seq 0 (Z.to_nat gNumFrameResources) ->
       overSlots (flushObjectsAt gt) slots a = Fault) /\
    forall slots, slots ≡ₚ seq 0 (Z.to_nat gNumFrameResources) ->
      ~ exists a', overSlots (flushObjectsAt gt) slots a = Done a' /\
                   allCopies (objectBufOf a') (ObjCBIndex e) (objConstantsOf e).
Proof.
  intros Hhr Hw a. subst a.
  assert (Hflush : forall slot, (slot < Z.to_nat gNumFrameResources)%nat ->
            flushObjectsAt gt slot
              (Scene.frameLoopState fill w cam pass fence0 (Scene.built dev w)) = Fault).
  { intros slot Hslot. unfold flushObjectsAt.
    assert (Hc : (slot = 0 \/ slot = 1 \/ slot = 2)%nat) by (unfold gNumFrameResources in Hslot; lia).
    destruct Hc as [-> | [-> | ->]]; built_unfold Hhr Hw; vm_compute; reflexivity. }
  assert (Hall : forall slots, slots ≡ₚ seq 0 (Z.to_nat gNumFrameResources) ->
            overSlots (flushObjectsAt gt) slots
              (Scene.frameLoopState fill w cam pass fence0 (Scene.built dev w)) = Fault).
  { intros slots Hp. destruct slots as [|slot rest].
    - apply Permutation_length in Hp. discriminate.
    - cbn [overSlots]. rewrite Hflush; [reflexivity|].
      apply elem_of_seq with (j := 0%nat). rewrite <- Hp. apply list_elem_of_here. }
  exists (mkRenderItem Identity4x4 Identity4x4 3 52).
  split; [built_unfold Hhr Hw; vm_compute; reflexivity|].
  split; [reflexivity|]. split; [reflexivity|]. split.
  { assert (Hlen : length (Scene.mAllRitems (Scene.built dev w)) = 52%nat)
      by (built_unfold Hhr Hw; vm_compute; reflexivity).
    intros slot Hslot.
    exists (UploadBuffer.create (length (Scene.mAllRitems (Scene.built dev w))) fill.1.1.2).
    assert (Hc : (slot = 0 \/ slot = 1 \/ slot = 2)%nat) by (unfold gNumFrameResources in Hslot; lia).
    split; [|split].
    - destruct Hc as [-> | [-> | ->]]; reflexivity.
    - rewrite Hlen. apply length_replicate.
    - rewrite Hlen. reflexivity. }
  split; [exact Hall|].
  intros slots Hp (a' & Hrun & _). rewrite (Hall slots Hp) in Hrun. discriminate.
Qed.

End FirstFrame.

(** ** The scene theorems on the sample scene *)

Section SceneOnTheSample.
#[local] Existing Instance ExactOps.
#[local] Existing Instance Sample.TableWaves.
#[local] Existing Instance Sample.UnitCamera.
#[local] Existing Instance SceneSample.Triangles.

Lemma sample_waves_built :
  BuildWavesGeometry Sample.waves =
  Done (fromDone (mkIndexBuild [] 0 []) (BuildWavesGeometry Sample.waves)).
Proof. vm_compute. reflexivity. Qed.

Lemma sample_textures_loaded : Scene.texturesLoaded SceneSample.loaded.
Proof.
  intros name file Hin. unfold Scene.textureFiles in Hin.
  repeat (apply elem_of_cons in Hin as [Heq | Hin];
          [injection Heq as -> ->; vm_compute; reflexivity|]).
  by apply elem_of_nil in Hin.
Qed.

Lemma sample_ready :
  Scene.bindWavesVertexBuffer 0 SceneSample.withHeap = Done SceneSample.ready.
Proof. apply isDone_fromDone. vm_compute. reflexivity. Qed.

Lemma sample_ready_drawable l : is_Some (Scene.drawableLayer SceneSample.ready l).
Proof. destruct l; vm_compute; eexists; reflexivity. Qed.

Lemma Draw_commands_draw_calls_witness :
  Scene.Draw_commands SceneSample.gpu 0 SceneSample.scene = Fault /\
  Scene.Draw_commands SceneSample.gpu 0 SceneSample.withHeap = Fault /\
  isDone (Scene.Draw_commands SceneSample.gpu 0 SceneSample.ready) = true /\
  forall cmds, Scene.Draw_commands SceneSample.gpu 0 SceneSample.ready = Done cmds ->
    Z.of_nat (length (Scene.drawCalls cmds Scene.unbound)) = 50 + 0 + 1 + 1 /\
    (Scene.b_vertexBuffer ∘ Scene.dc_bound) <$> last (Scene.drawCalls cmds Scene.unbound)
      = Some (Some (Scene.WavesVBOf 0)) /\
    last cmds = Some Scene.Close.
Proof.
  pose proof (Draw_commands_draw_calls SceneSample.gpu 0 SceneSample.ready) as [Hiff Hcmds].
  split; [vm_compute; reflexivity|]. split; [vm_compute; reflexivity|].
  split; [apply Hiff; split; [vm_compute; eexists; reflexivity | exact sample_ready_drawable]|].
  intros cmds Hrun. destruct (Hcmds cmds Hrun) as (Hcalls & Hlen & _ & Hlast).
  split; [rewrite Hlen; vm_compute; reflexivity|].
  split; [rewrite Hcalls; vm_compute; reflexivity | exact Hlast].
Defined.

Lemma LoadTextures_all_or_nothing_witness :
  isDone (Scene.LoadTextures SceneSample.device Scene.empty) = true /\
  Scene.LoadTextures SceneSample.noWater Scene.empty = Thrown (-2147024894).
Proof.
  split.
  - apply (proj1 (LoadTextures_all_or_nothing SceneSample.device Scene.empty)).
    unfold Scene.textureFiles. repeat constructor; cbn; lia.
  - apply (proj2 (proj2 (LoadTextures_all_or_nothing SceneSample.noWater Scene.empty))
             [("grassTex", "../../A2_Sarras_Asper/A2_Sarras_Asper/Textures/grass.dds")]%string
             "waterTex"%string
             "../../A2_Sarras_Asper/A2_Sarras_Asper/Textures/water1.dds"%string
             (drop 2 Scene.textureFiles)).
    + reflexivity.
    + repeat constructor. vm_compute. discriminate.
    + vm_compute. reflexivity.
Defined.

Lemma BuildDescriptorHeaps_overflows_witness :
  Scene.texturesLoaded SceneSample.loaded /\
  0 <= Scene.hrCreateDescriptorHeap SceneSample.device /\
  Scene.BuildDescriptorHeaps SceneSample.device SceneSample.loaded = Fault.
Proof.
  split; [exact sample_textures_loaded|]. split; [cbn; lia|].
  apply (BuildDescriptorHeaps_overflows SceneSample.device SceneSample.loaded
           sample_textures_loaded ltac:(cbn; lia)).
Defined.

Lemma BuildMaterials_texture_bindings_witness :
  "treeSprites"%string ∈ Scene.materialNames /\
  exists m, Scene.mMaterials (Scene.BuildMaterials Scene.empty) !! "treeSprites"%string
            = Some (Some m) /\
            Scene.DiffuseSrvHeapIndex m = 7.
Proof.
  split; [unfold Scene.materialNames; repeat constructor|].
  destruct (BuildMaterials_texture_bindings Scene.empty) as (_ & _ & _ & m & Hm & Hi).
  exists m. split; [exact Hm | exact Hi].
Defined.

Lemma BuildTreeSpritesGeometry_indices_witness :
  0 <= Scene.hrD3DCreateBlob SceneSample.device /\
  exists st' geo,
    Scene.BuildTreeSpritesGeometry SceneSample.device Scene.empty = Done st' /\
    Scene.mGeometries st' !! "treeSpritesGeo"%string = Some (Some geo) /\
    length (Scene.IndexBufferCPU geo) = 16%nat /\ Scene.VertexBufferCPU_count geo = 9%nat.
Proof.
  split; [cbn; lia|].
  destruct (BuildTreeSpritesGeometry_indices SceneSample.device Scene.empty ltac:(cbn; lia))
    as (st' & geo & sub & Hrun & Hgeo & _ & Hv & _ & Hi & _).
  exists st', geo. split; [exact Hrun|]. split; [exact Hgeo|].
  split; [rewrite Hi; reflexivity | exact Hv].
Defined.

Lemma Initialize_scene_is_consistent_witness :
  0 <= Scene.hrD3DCreateBlob SceneSample.device /\
  isDone (BuildWavesGeometry Sample.waves) = true /\
  Scene.Initialize_scene SceneSample.device Sample.waves Scene.empty
    = Done (Scene.built SceneSample.device Sample.waves) /\
  length (Scene.mAllRitems (Scene.built SceneSample.device Sample.waves)) = 52%nat /\
  Scene.layer (Scene.built SceneSample.device Sample.waves) Scene.Transparent = [26%nat].
Proof.
  split; [cbn; lia|]. split; [vm_compute; reflexivity|].
  destruct (Initialize_scene_is_consistent (WA := Sample.TableWaves) SceneSample.device Sample.waves _
              ltac:(cbn; lia) sample_waves_built)
    as (Hrun & Hlen & _ & _ & _ & _ & _ & Ht & _).
  split; [exact Hrun|]. split; [exact Hlen | exact Ht].
Defined.

Lemma first_frame_writes_past_the_object_buffer_witness :
  0 <= Scene.hrD3DCreateBlob SceneSample.device /\
  isDone (BuildWavesGeometry Sample.waves) = true /\
  Tick Sample.prompt 0 Sample.timer
       (Scene.frameLoopState SceneSample.fill Sample.waves tt tt 0
          (Scene.built SceneSample.device Sample.waves)) = Fault.
Proof.
  split; [cbn; lia|]. split; [vm_compute; reflexivity|].
  apply (first_frame_writes_past_the_object_buffer (WA := Sample.TableWaves) (CA := Sample.UnitCamera) SceneSample.device Sample.waves _
           SceneSample.fill tt tt 0 ltac:(cbn; lia) sample_waves_built).
Defined.

Lemma C1_tree_sprites_never_propagate_witness :
  0 <= Scene.hrD3DCreateBlob SceneSample.device /\
  isDone (BuildWavesGeometry Sample.waves) = true /\
  overSlots (flushObjectsAt Sample.timer) [0; 1; 2]%nat
    (Scene.frameLoopState SceneSample.fill Sample.waves tt tt 0
       (Scene.built SceneSample.device Sample.waves)) = Fault.
Proof.
  split; [cbn; lia|]. split; [vm_compute; reflexivity|].
  destruct (C1_tree_sprites_never_propagate (WA := Sample.TableWaves) (CA := Sample.UnitCamera)
              SceneSample.device Sample.waves _ SceneSample.fill tt tt 0 Sample.timer
              ltac:(cbn; lia) sample_waves_built)
    as (e & _ & _ & _ & _ & Hall & _).
  apply Hall. reflexivity.
Defined.

End SceneOnTheSample.
